(** * Entex Adventure Vision emulator: machine model and verified properties

    A shallow embedding of [adventure_vision.c]: the Intel 8048 interpreter,
    the COP411L behavioural sound engine, the LED/phosphor display pipeline,
    the frame step, soft reset and the savestate loader.

    Conventions.
    - A C integer of width w is a [Z]; every truncation the C code performs
      implicitly (assignment to [uint8_t], wrap of [uint32_t] ...) is written
      out with [u8], [u16], [u32], [u64] or [s32].
    - A C [bool] is a [bool]; [b2z] is the integer promotion and [z2b] the
      conversion of an integer to [bool] (non-zero is true).
    - A C [float] is an IEEE-754 binary32 value, represented by the Standard
      Library's [spec_float] and computed with the operations of [SpecFloat]
      at precision 24 and maximal exponent 128.
    - Arrays are lists read and written by index ([rd], [wr]); every index
      used by the code is masked or guarded in the source, and the model keeps
      those masks and guards. *)

From Stdlib Require Import ZArith Bool List Lia.
From Stdlib Require Import Floats.SpecFloat.
From stdpp Require Import base list.

Open Scope Z_scope.

(* The machine state is a nest of large records updated field by field:
   primitive projections keep projections of updated records cheap to
   convert. *)
Set Primitive Projections.

(** ** Machine integers *)

Definition u8 (x : Z) : Z := x mod 256.
Definition u16 (x : Z) : Z := x mod 65536.
Definition u32 (x : Z) : Z := x mod 4294967296.
Definition u64 (x : Z) : Z := x mod 18446744073709551616.
Definition s32 (x : Z) : Z := (x + 2147483648) mod 4294967296 - 2147483648.

Definition b2z (b : bool) : Z := if b then 1 else 0.
Definition z2b (x : Z) : bool := negb (x =? 0).

(** [1 << n] for a small non-negative [n]. *)
Definition bit (n : Z) : Z := Z.shiftl 1 n.

(** ** Arrays *)

Definition rd (m : list Z) (i : Z) : Z := default 0 (m !! Z.to_nat i).
Definition wr (m : list Z) (i v : Z) : list Z := <[Z.to_nat i := v]> m.

(** [for (int i = 0; i < n; i++) body] over a state [S]. *)
Definition for_range {S : Type} (n : Z) (body : Z -> S -> S) (s : S) : S :=
  fold_left (fun acc i => body (Z.of_nat i) acc) (seq 0 (Z.to_nat n)) s.

(** ** IEEE-754 binary32 ([float]) and binary64 ([double]) *)

Definition prec32 : Z := 24.
Definition emax32 : Z := 128.
Definition prec64 : Z := 53.
Definition emax64 : Z := 1024.

Definition f32_add : spec_float -> spec_float -> spec_float := SFadd prec32 emax32.
Definition f32_sub : spec_float -> spec_float -> spec_float := SFsub prec32 emax32.
Definition f32_mul : spec_float -> spec_float -> spec_float := SFmul prec32 emax32.
Definition f32_div : spec_float -> spec_float -> spec_float := SFdiv prec32 emax32.
Definition f64_mul : spec_float -> spec_float -> spec_float := SFmul prec64 emax64.

(** [(float)n] for an integer [n]. *)
Definition f32_of_Z (n : Z) : spec_float := binary_normalize prec32 emax32 n 0 false.

(** The [float] literal written in decimal as the fraction [n/d] (for example
    [0.45f] is [f32_lit 45 100]): numerator and denominator are exact in
    binary32, and the IEEE division rounds their quotient to nearest. *)
Definition f32_lit (n d : Z) : spec_float := f32_div (f32_of_Z n) (f32_of_Z d).

Definition f32_zero : spec_float := S754_zero false.
Definition f32_one : spec_float := Eval vm_compute in f32_of_Z 1.
Definition f32_half : spec_float := Eval vm_compute in f32_lit 1 2.
Definition f32_eps : spec_float := Eval vm_compute in f32_lit 1 100.

(** [isfinite(x)]. *)
Definition f32_isfinite (x : spec_float) : bool :=
  match x with
  | S754_zero _ | S754_finite _ _ _ => true
  | S754_infinity _ | S754_nan => false
  end.

(** Conversion of a floating value to an integer type: truncation toward
    zero.  (The conversion of a NaN or an infinity is undefined in C; the
    model returns 0 there.) *)
Definition SF_trunc (x : spec_float) : Z :=
  match x with
  | S754_finite s m e =>
      let a := Z.shiftl (Zpos m) e in if s then - a else a
  | _ => 0
  end.

(** [(int)x] for a [float] [x]. *)
Definition f32_to_int (x : spec_float) : Z := s32 (SF_trunc x).

(** The value stored in a [float] object whose four bytes, read as a
    little-endian 32-bit word, are [w]. *)
Definition f32_of_bits (w : Z) : spec_float :=
  let s := Z.testbit w 31 in
  let e := Z.land (Z.shiftr w 23) 0xFF in
  let m := Z.land w 0x7FFFFF in
  if e =? 0 then
    match m with
    | Zpos p => S754_finite s p (-149)
    | _ => S754_zero s
    end
  else if e =? 255 then
    (if m =? 0 then S754_infinity s else S754_nan)
  else
    match m + 0x800000 with
    | Zpos p => S754_finite s p (e - 150)
    | _ => S754_nan
    end.

(** ** Configuration constants *)

Definition CYCLES_PER_FR : Z := 48889.
Definition SW : Z := 150.
Definition SH : Z := 40.
Definition IRAM_SZ : Z := 64.
Definition XRAM_SZ : Z := 1024.
Definition IROM_SZ : Z := 1024.
Definition EROM_SZ : Z := 4096.
Definition AUDIO_RATE : Z := 44100.
Definition MAX_SND_STEPS : Z := 16.
Definition DEF_T1_START : Z := 200.
Definition DEF_T1_END : Z := 400.
Definition DEF_PHOSPHOR : spec_float := Eval vm_compute in f32_lit 45 100.
Definition DISP_OUTPUT_CYCLES : Z := 2550.
Definition SAVE_MAGIC : Z := 0x41563133.
Definition SAVE_VER : Z := 18.

(* Floating-point arithmetic is evaluated by [vm_compute] only. *)
Arguments f32_add : simpl never.
Arguments f32_sub : simpl never.
Arguments f32_mul : simpl never.
Arguments f32_div : simpl never.
Arguments f64_mul : simpl never.
Arguments f32_of_Z : simpl never.
Arguments f32_lit : simpl never.
Arguments f32_to_int : simpl never.
Arguments f32_of_bits : simpl never.
Arguments SF_trunc : simpl never.
Arguments for_range : simpl never.

(** ** Machine state *)

(** Effect step descriptor: frequency, noise flag, duration in ms, relative volume. *)
Record SndStep : Type := mk_SndStep {
  freq : spec_float;
  noise : bool;
  dur_ms : Z;
  volume : spec_float
}.

(** The COP411L behavioural sound engine state ([struct COP411L]). *)
Record COP411L : Type := mk_COP411L {
  ctrl_loop : Z;
  ctrl_vol : Z;
  ctrl_fast : Z;
  proto_state : Z;
  proto_hi : Z;
  active : bool;
  is_noise : bool;
  force_loop : bool;
  force_no_loop : bool;
  command : Z;
  steps : list SndStep;
  step_count : Z;
  cur_step : Z;
  step_samples_left : Z;
  cur_freq : spec_float;
  phase_acc : Z;
  phase_inc : Z;
  slide_freq_start : spec_float;
  slide_freq_end : spec_float;
  slide_progress : spec_float;
  lfsr : Z;
  seg1_vol : spec_float;
  seg2_vol : spec_float;
  cur_vol : spec_float;
  segment : Z;
  seg_samples_total : Z;
  seg_samples_left : Z;
  chain_cmd : Z
}.

Definition set_ctrl_loop (v : Z) (r : COP411L) : COP411L :=
  {| ctrl_loop := v; ctrl_vol := ctrl_vol r; ctrl_fast := ctrl_fast r; proto_state := proto_state r;
     proto_hi := proto_hi r; active := active r; is_noise := is_noise r; force_loop := force_loop r;
     force_no_loop := force_no_loop r; command := command r; steps := steps r; step_count :=
     step_count r; cur_step := cur_step r; step_samples_left := step_samples_left r; cur_freq :=
     cur_freq r; phase_acc := phase_acc r; phase_inc := phase_inc r; slide_freq_start :=
     slide_freq_start r; slide_freq_end := slide_freq_end r; slide_progress := slide_progress r;
     lfsr := lfsr r; seg1_vol := seg1_vol r; seg2_vol := seg2_vol r; cur_vol := cur_vol r; segment
     := segment r; seg_samples_total := seg_samples_total r; seg_samples_left := seg_samples_left r;
     chain_cmd := chain_cmd r |}.
Definition set_ctrl_vol (v : Z) (r : COP411L) : COP411L :=
  {| ctrl_loop := ctrl_loop r; ctrl_vol := v; ctrl_fast := ctrl_fast r; proto_state := proto_state
     r; proto_hi := proto_hi r; active := active r; is_noise := is_noise r; force_loop := force_loop
     r; force_no_loop := force_no_loop r; command := command r; steps := steps r; step_count :=
     step_count r; cur_step := cur_step r; step_samples_left := step_samples_left r; cur_freq :=
     cur_freq r; phase_acc := phase_acc r; phase_inc := phase_inc r; slide_freq_start :=
     slide_freq_start r; slide_freq_end := slide_freq_end r; slide_progress := slide_progress r;
     lfsr := lfsr r; seg1_vol := seg1_vol r; seg2_vol := seg2_vol r; cur_vol := cur_vol r; segment
     := segment r; seg_samples_total := seg_samples_total r; seg_samples_left := seg_samples_left r;
     chain_cmd := chain_cmd r |}.
Definition set_ctrl_fast (v : Z) (r : COP411L) : COP411L :=
  {| ctrl_loop := ctrl_loop r; ctrl_vol := ctrl_vol r; ctrl_fast := v; proto_state := proto_state r;
     proto_hi := proto_hi r; active := active r; is_noise := is_noise r; force_loop := force_loop r;
     force_no_loop := force_no_loop r; command := command r; steps := steps r; step_count :=
     step_count r; cur_step := cur_step r; step_samples_left := step_samples_left r; cur_freq :=
     cur_freq r; phase_acc := phase_acc r; phase_inc := phase_inc r; slide_freq_start :=
     slide_freq_start r; slide_freq_end := slide_freq_end r; slide_progress := slide_progress r;
     lfsr := lfsr r; seg1_vol := seg1_vol r; seg2_vol := seg2_vol r; cur_vol := cur_vol r; segment
     := segment r; seg_samples_total := seg_samples_total r; seg_samples_left := seg_samples_left r;
     chain_cmd := chain_cmd r |}.
Definition set_proto_state (v : Z) (r : COP411L) : COP411L :=
  {| ctrl_loop := ctrl_loop r; ctrl_vol := ctrl_vol r; ctrl_fast := ctrl_fast r; proto_state := v;
     proto_hi := proto_hi r; active := active r; is_noise := is_noise r; force_loop := force_loop r;
     force_no_loop := force_no_loop r; command := command r; steps := steps r; step_count :=
     step_count r; cur_step := cur_step r; step_samples_left := step_samples_left r; cur_freq :=
     cur_freq r; phase_acc := phase_acc r; phase_inc := phase_inc r; slide_freq_start :=
     slide_freq_start r; slide_freq_end := slide_freq_end r; slide_progress := slide_progress r;
     lfsr := lfsr r; seg1_vol := seg1_vol r; seg2_vol := seg2_vol r; cur_vol := cur_vol r; segment
     := segment r; seg_samples_total := seg_samples_total r; seg_samples_left := seg_samples_left r;
     chain_cmd := chain_cmd r |}.
Definition set_proto_hi (v : Z) (r : COP411L) : COP411L :=
  {| ctrl_loop := ctrl_loop r; ctrl_vol := ctrl_vol r; ctrl_fast := ctrl_fast r; proto_state :=
     proto_state r; proto_hi := v; active := active r; is_noise := is_noise r; force_loop :=
     force_loop r; force_no_loop := force_no_loop r; command := command r; steps := steps r;
     step_count := step_count r; cur_step := cur_step r; step_samples_left := step_samples_left r;
     cur_freq := cur_freq r; phase_acc := phase_acc r; phase_inc := phase_inc r; slide_freq_start :=
     slide_freq_start r; slide_freq_end := slide_freq_end r; slide_progress := slide_progress r;
     lfsr := lfsr r; seg1_vol := seg1_vol r; seg2_vol := seg2_vol r; cur_vol := cur_vol r; segment
     := segment r; seg_samples_total := seg_samples_total r; seg_samples_left := seg_samples_left r;
     chain_cmd := chain_cmd r |}.
Definition set_active (v : bool) (r : COP411L) : COP411L :=
  {| ctrl_loop := ctrl_loop r; ctrl_vol := ctrl_vol r; ctrl_fast := ctrl_fast r; proto_state :=
     proto_state r; proto_hi := proto_hi r; active := v; is_noise := is_noise r; force_loop :=
     force_loop r; force_no_loop := force_no_loop r; command := command r; steps := steps r;
     step_count := step_count r; cur_step := cur_step r; step_samples_left := step_samples_left r;
     cur_freq := cur_freq r; phase_acc := phase_acc r; phase_inc := phase_inc r; slide_freq_start :=
     slide_freq_start r; slide_freq_end := slide_freq_end r; slide_progress := slide_progress r;
     lfsr := lfsr r; seg1_vol := seg1_vol r; seg2_vol := seg2_vol r; cur_vol := cur_vol r; segment
     := segment r; seg_samples_total := seg_samples_total r; seg_samples_left := seg_samples_left r;
     chain_cmd := chain_cmd r |}.
Definition set_is_noise (v : bool) (r : COP411L) : COP411L :=
  {| ctrl_loop := ctrl_loop r; ctrl_vol := ctrl_vol r; ctrl_fast := ctrl_fast r; proto_state :=
     proto_state r; proto_hi := proto_hi r; active := active r; is_noise := v; force_loop :=
     force_loop r; force_no_loop := force_no_loop r; command := command r; steps := steps r;
     step_count := step_count r; cur_step := cur_step r; step_samples_left := step_samples_left r;
     cur_freq := cur_freq r; phase_acc := phase_acc r; phase_inc := phase_inc r; slide_freq_start :=
     slide_freq_start r; slide_freq_end := slide_freq_end r; slide_progress := slide_progress r;
     lfsr := lfsr r; seg1_vol := seg1_vol r; seg2_vol := seg2_vol r; cur_vol := cur_vol r; segment
     := segment r; seg_samples_total := seg_samples_total r; seg_samples_left := seg_samples_left r;
     chain_cmd := chain_cmd r |}.
Definition set_force_loop (v : bool) (r : COP411L) : COP411L :=
  {| ctrl_loop := ctrl_loop r; ctrl_vol := ctrl_vol r; ctrl_fast := ctrl_fast r; proto_state :=
     proto_state r; proto_hi := proto_hi r; active := active r; is_noise := is_noise r; force_loop
     := v; force_no_loop := force_no_loop r; command := command r; steps := steps r; step_count :=
     step_count r; cur_step := cur_step r; step_samples_left := step_samples_left r; cur_freq :=
     cur_freq r; phase_acc := phase_acc r; phase_inc := phase_inc r; slide_freq_start :=
     slide_freq_start r; slide_freq_end := slide_freq_end r; slide_progress := slide_progress r;
     lfsr := lfsr r; seg1_vol := seg1_vol r; seg2_vol := seg2_vol r; cur_vol := cur_vol r; segment
     := segment r; seg_samples_total := seg_samples_total r; seg_samples_left := seg_samples_left r;
     chain_cmd := chain_cmd r |}.
Definition set_force_no_loop (v : bool) (r : COP411L) : COP411L :=
  {| ctrl_loop := ctrl_loop r; ctrl_vol := ctrl_vol r; ctrl_fast := ctrl_fast r; proto_state :=
     proto_state r; proto_hi := proto_hi r; active := active r; is_noise := is_noise r; force_loop
     := force_loop r; force_no_loop := v; command := command r; steps := steps r; step_count :=
     step_count r; cur_step := cur_step r; step_samples_left := step_samples_left r; cur_freq :=
     cur_freq r; phase_acc := phase_acc r; phase_inc := phase_inc r; slide_freq_start :=
     slide_freq_start r; slide_freq_end := slide_freq_end r; slide_progress := slide_progress r;
     lfsr := lfsr r; seg1_vol := seg1_vol r; seg2_vol := seg2_vol r; cur_vol := cur_vol r; segment
     := segment r; seg_samples_total := seg_samples_total r; seg_samples_left := seg_samples_left r;
     chain_cmd := chain_cmd r |}.
Definition set_command (v : Z) (r : COP411L) : COP411L :=
  {| ctrl_loop := ctrl_loop r; ctrl_vol := ctrl_vol r; ctrl_fast := ctrl_fast r; proto_state :=
     proto_state r; proto_hi := proto_hi r; active := active r; is_noise := is_noise r; force_loop
     := force_loop r; force_no_loop := force_no_loop r; command := v; steps := steps r; step_count
     := step_count r; cur_step := cur_step r; step_samples_left := step_samples_left r; cur_freq :=
     cur_freq r; phase_acc := phase_acc r; phase_inc := phase_inc r; slide_freq_start :=
     slide_freq_start r; slide_freq_end := slide_freq_end r; slide_progress := slide_progress r;
     lfsr := lfsr r; seg1_vol := seg1_vol r; seg2_vol := seg2_vol r; cur_vol := cur_vol r; segment
     := segment r; seg_samples_total := seg_samples_total r; seg_samples_left := seg_samples_left r;
     chain_cmd := chain_cmd r |}.
Definition set_steps (v : list SndStep) (r : COP411L) : COP411L :=
  {| ctrl_loop := ctrl_loop r; ctrl_vol := ctrl_vol r; ctrl_fast := ctrl_fast r; proto_state :=
     proto_state r; proto_hi := proto_hi r; active := active r; is_noise := is_noise r; force_loop
     := force_loop r; force_no_loop := force_no_loop r; command := command r; steps := v; step_count
     := step_count r; cur_step := cur_step r; step_samples_left := step_samples_left r; cur_freq :=
     cur_freq r; phase_acc := phase_acc r; phase_inc := phase_inc r; slide_freq_start :=
     slide_freq_start r; slide_freq_end := slide_freq_end r; slide_progress := slide_progress r;
     lfsr := lfsr r; seg1_vol := seg1_vol r; seg2_vol := seg2_vol r; cur_vol := cur_vol r; segment
     := segment r; seg_samples_total := seg_samples_total r; seg_samples_left := seg_samples_left r;
     chain_cmd := chain_cmd r |}.
Definition set_step_count (v : Z) (r : COP411L) : COP411L :=
  {| ctrl_loop := ctrl_loop r; ctrl_vol := ctrl_vol r; ctrl_fast := ctrl_fast r; proto_state :=
     proto_state r; proto_hi := proto_hi r; active := active r; is_noise := is_noise r; force_loop
     := force_loop r; force_no_loop := force_no_loop r; command := command r; steps := steps r;
     step_count := v; cur_step := cur_step r; step_samples_left := step_samples_left r; cur_freq :=
     cur_freq r; phase_acc := phase_acc r; phase_inc := phase_inc r; slide_freq_start :=
     slide_freq_start r; slide_freq_end := slide_freq_end r; slide_progress := slide_progress r;
     lfsr := lfsr r; seg1_vol := seg1_vol r; seg2_vol := seg2_vol r; cur_vol := cur_vol r; segment
     := segment r; seg_samples_total := seg_samples_total r; seg_samples_left := seg_samples_left r;
     chain_cmd := chain_cmd r |}.
Definition set_cur_step (v : Z) (r : COP411L) : COP411L :=
  {| ctrl_loop := ctrl_loop r; ctrl_vol := ctrl_vol r; ctrl_fast := ctrl_fast r; proto_state :=
     proto_state r; proto_hi := proto_hi r; active := active r; is_noise := is_noise r; force_loop
     := force_loop r; force_no_loop := force_no_loop r; command := command r; steps := steps r;
     step_count := step_count r; cur_step := v; step_samples_left := step_samples_left r; cur_freq
     := cur_freq r; phase_acc := phase_acc r; phase_inc := phase_inc r; slide_freq_start :=
     slide_freq_start r; slide_freq_end := slide_freq_end r; slide_progress := slide_progress r;
     lfsr := lfsr r; seg1_vol := seg1_vol r; seg2_vol := seg2_vol r; cur_vol := cur_vol r; segment
     := segment r; seg_samples_total := seg_samples_total r; seg_samples_left := seg_samples_left r;
     chain_cmd := chain_cmd r |}.
Definition set_step_samples_left (v : Z) (r : COP411L) : COP411L :=
  {| ctrl_loop := ctrl_loop r; ctrl_vol := ctrl_vol r; ctrl_fast := ctrl_fast r; proto_state :=
     proto_state r; proto_hi := proto_hi r; active := active r; is_noise := is_noise r; force_loop
     := force_loop r; force_no_loop := force_no_loop r; command := command r; steps := steps r;
     step_count := step_count r; cur_step := cur_step r; step_samples_left := v; cur_freq :=
     cur_freq r; phase_acc := phase_acc r; phase_inc := phase_inc r; slide_freq_start :=
     slide_freq_start r; slide_freq_end := slide_freq_end r; slide_progress := slide_progress r;
     lfsr := lfsr r; seg1_vol := seg1_vol r; seg2_vol := seg2_vol r; cur_vol := cur_vol r; segment
     := segment r; seg_samples_total := seg_samples_total r; seg_samples_left := seg_samples_left r;
     chain_cmd := chain_cmd r |}.
Definition set_cur_freq (v : spec_float) (r : COP411L) : COP411L :=
  {| ctrl_loop := ctrl_loop r; ctrl_vol := ctrl_vol r; ctrl_fast := ctrl_fast r; proto_state :=
     proto_state r; proto_hi := proto_hi r; active := active r; is_noise := is_noise r; force_loop
     := force_loop r; force_no_loop := force_no_loop r; command := command r; steps := steps r;
     step_count := step_count r; cur_step := cur_step r; step_samples_left := step_samples_left r;
     cur_freq := v; phase_acc := phase_acc r; phase_inc := phase_inc r; slide_freq_start :=
     slide_freq_start r; slide_freq_end := slide_freq_end r; slide_progress := slide_progress r;
     lfsr := lfsr r; seg1_vol := seg1_vol r; seg2_vol := seg2_vol r; cur_vol := cur_vol r; segment
     := segment r; seg_samples_total := seg_samples_total r; seg_samples_left := seg_samples_left r;
     chain_cmd := chain_cmd r |}.
Definition set_phase_acc (v : Z) (r : COP411L) : COP411L :=
  {| ctrl_loop := ctrl_loop r; ctrl_vol := ctrl_vol r; ctrl_fast := ctrl_fast r; proto_state :=
     proto_state r; proto_hi := proto_hi r; active := active r; is_noise := is_noise r; force_loop
     := force_loop r; force_no_loop := force_no_loop r; command := command r; steps := steps r;
     step_count := step_count r; cur_step := cur_step r; step_samples_left := step_samples_left r;
     cur_freq := cur_freq r; phase_acc := v; phase_inc := phase_inc r; slide_freq_start :=
     slide_freq_start r; slide_freq_end := slide_freq_end r; slide_progress := slide_progress r;
     lfsr := lfsr r; seg1_vol := seg1_vol r; seg2_vol := seg2_vol r; cur_vol := cur_vol r; segment
     := segment r; seg_samples_total := seg_samples_total r; seg_samples_left := seg_samples_left r;
     chain_cmd := chain_cmd r |}.
Definition set_phase_inc (v : Z) (r : COP411L) : COP411L :=
  {| ctrl_loop := ctrl_loop r; ctrl_vol := ctrl_vol r; ctrl_fast := ctrl_fast r; proto_state :=
     proto_state r; proto_hi := proto_hi r; active := active r; is_noise := is_noise r; force_loop
     := force_loop r; force_no_loop := force_no_loop r; command := command r; steps := steps r;
     step_count := step_count r; cur_step := cur_step r; step_samples_left := step_samples_left r;
     cur_freq := cur_freq r; phase_acc := phase_acc r; phase_inc := v; slide_freq_start :=
     slide_freq_start r; slide_freq_end := slide_freq_end r; slide_progress := slide_progress r;
     lfsr := lfsr r; seg1_vol := seg1_vol r; seg2_vol := seg2_vol r; cur_vol := cur_vol r; segment
     := segment r; seg_samples_total := seg_samples_total r; seg_samples_left := seg_samples_left r;
     chain_cmd := chain_cmd r |}.
Definition set_slide_freq_start (v : spec_float) (r : COP411L) : COP411L :=
  {| ctrl_loop := ctrl_loop r; ctrl_vol := ctrl_vol r; ctrl_fast := ctrl_fast r; proto_state :=
     proto_state r; proto_hi := proto_hi r; active := active r; is_noise := is_noise r; force_loop
     := force_loop r; force_no_loop := force_no_loop r; command := command r; steps := steps r;
     step_count := step_count r; cur_step := cur_step r; step_samples_left := step_samples_left r;
     cur_freq := cur_freq r; phase_acc := phase_acc r; phase_inc := phase_inc r; slide_freq_start :=
     v; slide_freq_end := slide_freq_end r; slide_progress := slide_progress r; lfsr := lfsr r;
     seg1_vol := seg1_vol r; seg2_vol := seg2_vol r; cur_vol := cur_vol r; segment := segment r;
     seg_samples_total := seg_samples_total r; seg_samples_left := seg_samples_left r; chain_cmd :=
     chain_cmd r |}.
Definition set_slide_freq_end (v : spec_float) (r : COP411L) : COP411L :=
  {| ctrl_loop := ctrl_loop r; ctrl_vol := ctrl_vol r; ctrl_fast := ctrl_fast r; proto_state :=
     proto_state r; proto_hi := proto_hi r; active := active r; is_noise := is_noise r; force_loop
     := force_loop r; force_no_loop := force_no_loop r; command := command r; steps := steps r;
     step_count := step_count r; cur_step := cur_step r; step_samples_left := step_samples_left r;
     cur_freq := cur_freq r; phase_acc := phase_acc r; phase_inc := phase_inc r; slide_freq_start :=
     slide_freq_start r; slide_freq_end := v; slide_progress := slide_progress r; lfsr := lfsr r;
     seg1_vol := seg1_vol r; seg2_vol := seg2_vol r; cur_vol := cur_vol r; segment := segment r;
     seg_samples_total := seg_samples_total r; seg_samples_left := seg_samples_left r; chain_cmd :=
     chain_cmd r |}.
Definition set_slide_progress (v : spec_float) (r : COP411L) : COP411L :=
  {| ctrl_loop := ctrl_loop r; ctrl_vol := ctrl_vol r; ctrl_fast := ctrl_fast r; proto_state :=
     proto_state r; proto_hi := proto_hi r; active := active r; is_noise := is_noise r; force_loop
     := force_loop r; force_no_loop := force_no_loop r; command := command r; steps := steps r;
     step_count := step_count r; cur_step := cur_step r; step_samples_left := step_samples_left r;
     cur_freq := cur_freq r; phase_acc := phase_acc r; phase_inc := phase_inc r; slide_freq_start :=
     slide_freq_start r; slide_freq_end := slide_freq_end r; slide_progress := v; lfsr := lfsr r;
     seg1_vol := seg1_vol r; seg2_vol := seg2_vol r; cur_vol := cur_vol r; segment := segment r;
     seg_samples_total := seg_samples_total r; seg_samples_left := seg_samples_left r; chain_cmd :=
     chain_cmd r |}.
Definition set_lfsr (v : Z) (r : COP411L) : COP411L :=
  {| ctrl_loop := ctrl_loop r; ctrl_vol := ctrl_vol r; ctrl_fast := ctrl_fast r; proto_state :=
     proto_state r; proto_hi := proto_hi r; active := active r; is_noise := is_noise r; force_loop
     := force_loop r; force_no_loop := force_no_loop r; command := command r; steps := steps r;
     step_count := step_count r; cur_step := cur_step r; step_samples_left := step_samples_left r;
     cur_freq := cur_freq r; phase_acc := phase_acc r; phase_inc := phase_inc r; slide_freq_start :=
     slide_freq_start r; slide_freq_end := slide_freq_end r; slide_progress := slide_progress r;
     lfsr := v; seg1_vol := seg1_vol r; seg2_vol := seg2_vol r; cur_vol := cur_vol r; segment :=
     segment r; seg_samples_total := seg_samples_total r; seg_samples_left := seg_samples_left r;
     chain_cmd := chain_cmd r |}.
Definition set_seg1_vol (v : spec_float) (r : COP411L) : COP411L :=
  {| ctrl_loop := ctrl_loop r; ctrl_vol := ctrl_vol r; ctrl_fast := ctrl_fast r; proto_state :=
     proto_state r; proto_hi := proto_hi r; active := active r; is_noise := is_noise r; force_loop
     := force_loop r; force_no_loop := force_no_loop r; command := command r; steps := steps r;
     step_count := step_count r; cur_step := cur_step r; step_samples_left := step_samples_left r;
     cur_freq := cur_freq r; phase_acc := phase_acc r; phase_inc := phase_inc r; slide_freq_start :=
     slide_freq_start r; slide_freq_end := slide_freq_end r; slide_progress := slide_progress r;
     lfsr := lfsr r; seg1_vol := v; seg2_vol := seg2_vol r; cur_vol := cur_vol r; segment := segment
     r; seg_samples_total := seg_samples_total r; seg_samples_left := seg_samples_left r; chain_cmd
     := chain_cmd r |}.
Definition set_seg2_vol (v : spec_float) (r : COP411L) : COP411L :=
  {| ctrl_loop := ctrl_loop r; ctrl_vol := ctrl_vol r; ctrl_fast := ctrl_fast r; proto_state :=
     proto_state r; proto_hi := proto_hi r; active := active r; is_noise := is_noise r; force_loop
     := force_loop r; force_no_loop := force_no_loop r; command := command r; steps := steps r;
     step_count := step_count r; cur_step := cur_step r; step_samples_left := step_samples_left r;
     cur_freq := cur_freq r; phase_acc := phase_acc r; phase_inc := phase_inc r; slide_freq_start :=
     slide_freq_start r; slide_freq_end := slide_freq_end r; slide_progress := slide_progress r;
     lfsr := lfsr r; seg1_vol := seg1_vol r; seg2_vol := v; cur_vol := cur_vol r; segment := segment
     r; seg_samples_total := seg_samples_total r; seg_samples_left := seg_samples_left r; chain_cmd
     := chain_cmd r |}.
Definition set_cur_vol (v : spec_float) (r : COP411L) : COP411L :=
  {| ctrl_loop := ctrl_loop r; ctrl_vol := ctrl_vol r; ctrl_fast := ctrl_fast r; proto_state :=
     proto_state r; proto_hi := proto_hi r; active := active r; is_noise := is_noise r; force_loop
     := force_loop r; force_no_loop := force_no_loop r; command := command r; steps := steps r;
     step_count := step_count r; cur_step := cur_step r; step_samples_left := step_samples_left r;
     cur_freq := cur_freq r; phase_acc := phase_acc r; phase_inc := phase_inc r; slide_freq_start :=
     slide_freq_start r; slide_freq_end := slide_freq_end r; slide_progress := slide_progress r;
     lfsr := lfsr r; seg1_vol := seg1_vol r; seg2_vol := seg2_vol r; cur_vol := v; segment :=
     segment r; seg_samples_total := seg_samples_total r; seg_samples_left := seg_samples_left r;
     chain_cmd := chain_cmd r |}.
Definition set_segment (v : Z) (r : COP411L) : COP411L :=
  {| ctrl_loop := ctrl_loop r; ctrl_vol := ctrl_vol r; ctrl_fast := ctrl_fast r; proto_state :=
     proto_state r; proto_hi := proto_hi r; active := active r; is_noise := is_noise r; force_loop
     := force_loop r; force_no_loop := force_no_loop r; command := command r; steps := steps r;
     step_count := step_count r; cur_step := cur_step r; step_samples_left := step_samples_left r;
     cur_freq := cur_freq r; phase_acc := phase_acc r; phase_inc := phase_inc r; slide_freq_start :=
     slide_freq_start r; slide_freq_end := slide_freq_end r; slide_progress := slide_progress r;
     lfsr := lfsr r; seg1_vol := seg1_vol r; seg2_vol := seg2_vol r; cur_vol := cur_vol r; segment
     := v; seg_samples_total := seg_samples_total r; seg_samples_left := seg_samples_left r;
     chain_cmd := chain_cmd r |}.
Definition set_seg_samples_total (v : Z) (r : COP411L) : COP411L :=
  {| ctrl_loop := ctrl_loop r; ctrl_vol := ctrl_vol r; ctrl_fast := ctrl_fast r; proto_state :=
     proto_state r; proto_hi := proto_hi r; active := active r; is_noise := is_noise r; force_loop
     := force_loop r; force_no_loop := force_no_loop r; command := command r; steps := steps r;
     step_count := step_count r; cur_step := cur_step r; step_samples_left := step_samples_left r;
     cur_freq := cur_freq r; phase_acc := phase_acc r; phase_inc := phase_inc r; slide_freq_start :=
     slide_freq_start r; slide_freq_end := slide_freq_end r; slide_progress := slide_progress r;
     lfsr := lfsr r; seg1_vol := seg1_vol r; seg2_vol := seg2_vol r; cur_vol := cur_vol r; segment
     := segment r; seg_samples_total := v; seg_samples_left := seg_samples_left r; chain_cmd :=
     chain_cmd r |}.
Definition set_seg_samples_left (v : Z) (r : COP411L) : COP411L :=
  {| ctrl_loop := ctrl_loop r; ctrl_vol := ctrl_vol r; ctrl_fast := ctrl_fast r; proto_state :=
     proto_state r; proto_hi := proto_hi r; active := active r; is_noise := is_noise r; force_loop
     := force_loop r; force_no_loop := force_no_loop r; command := command r; steps := steps r;
     step_count := step_count r; cur_step := cur_step r; step_samples_left := step_samples_left r;
     cur_freq := cur_freq r; phase_acc := phase_acc r; phase_inc := phase_inc r; slide_freq_start :=
     slide_freq_start r; slide_freq_end := slide_freq_end r; slide_progress := slide_progress r;
     lfsr := lfsr r; seg1_vol := seg1_vol r; seg2_vol := seg2_vol r; cur_vol := cur_vol r; segment
     := segment r; seg_samples_total := seg_samples_total r; seg_samples_left := v; chain_cmd :=
     chain_cmd r |}.
Definition set_chain_cmd (v : Z) (r : COP411L) : COP411L :=
  {| ctrl_loop := ctrl_loop r; ctrl_vol := ctrl_vol r; ctrl_fast := ctrl_fast r; proto_state :=
     proto_state r; proto_hi := proto_hi r; active := active r; is_noise := is_noise r; force_loop
     := force_loop r; force_no_loop := force_no_loop r; command := command r; steps := steps r;
     step_count := step_count r; cur_step := cur_step r; step_samples_left := step_samples_left r;
     cur_freq := cur_freq r; phase_acc := phase_acc r; phase_inc := phase_inc r; slide_freq_start :=
     slide_freq_start r; slide_freq_end := slide_freq_end r; slide_progress := slide_progress r;
     lfsr := lfsr r; seg1_vol := seg1_vol r; seg2_vol := seg2_vol r; cur_vol := cur_vol r; segment
     := segment r; seg_samples_total := seg_samples_total r; seg_samples_left := seg_samples_left r;
     chain_cmd := v |}.
(** The Intel 8048 register file and memories ([struct I8048]). *)
Record I8048 : Type := mk_I8048 {
  A : Z;
  PC : Z;
  PSW : Z;
  SP : Z;
  MB : bool;
  C : bool;
  AC : bool;
  F0 : bool;
  F1 : bool;
  BS : bool;
  timer : Z;
  timer_en : bool;
  counter_en : bool;
  timer_ovf : bool;
  tcnti_en : bool;
  t0 : bool;
  t1 : bool;
  P1 : Z;
  P2 : Z;
  BUS : Z;
  irq_en : bool;
  irq_pend : bool;
  in_irq : bool;
  ei_delay : Z;
  iram : list Z;
  irom : list Z;
  erom : list Z;
  xram : list Z;
  cycles : Z;
  tpre : Z
}.

Definition set_A (v : Z) (r : I8048) : I8048 :=
  {| A := v; PC := PC r; PSW := PSW r; SP := SP r; MB := MB r; C := C r; AC := AC r; F0 := F0 r; F1
     := F1 r; BS := BS r; timer := timer r; timer_en := timer_en r; counter_en := counter_en r;
     timer_ovf := timer_ovf r; tcnti_en := tcnti_en r; t0 := t0 r; t1 := t1 r; P1 := P1 r; P2 := P2
     r; BUS := BUS r; irq_en := irq_en r; irq_pend := irq_pend r; in_irq := in_irq r; ei_delay :=
     ei_delay r; iram := iram r; irom := irom r; erom := erom r; xram := xram r; cycles := cycles r;
     tpre := tpre r |}.
Definition set_PC (v : Z) (r : I8048) : I8048 :=
  {| A := A r; PC := v; PSW := PSW r; SP := SP r; MB := MB r; C := C r; AC := AC r; F0 := F0 r; F1
     := F1 r; BS := BS r; timer := timer r; timer_en := timer_en r; counter_en := counter_en r;
     timer_ovf := timer_ovf r; tcnti_en := tcnti_en r; t0 := t0 r; t1 := t1 r; P1 := P1 r; P2 := P2
     r; BUS := BUS r; irq_en := irq_en r; irq_pend := irq_pend r; in_irq := in_irq r; ei_delay :=
     ei_delay r; iram := iram r; irom := irom r; erom := erom r; xram := xram r; cycles := cycles r;
     tpre := tpre r |}.
Definition set_PSW (v : Z) (r : I8048) : I8048 :=
  {| A := A r; PC := PC r; PSW := v; SP := SP r; MB := MB r; C := C r; AC := AC r; F0 := F0 r; F1 :=
     F1 r; BS := BS r; timer := timer r; timer_en := timer_en r; counter_en := counter_en r;
     timer_ovf := timer_ovf r; tcnti_en := tcnti_en r; t0 := t0 r; t1 := t1 r; P1 := P1 r; P2 := P2
     r; BUS := BUS r; irq_en := irq_en r; irq_pend := irq_pend r; in_irq := in_irq r; ei_delay :=
     ei_delay r; iram := iram r; irom := irom r; erom := erom r; xram := xram r; cycles := cycles r;
     tpre := tpre r |}.
Definition set_SP (v : Z) (r : I8048) : I8048 :=
  {| A := A r; PC := PC r; PSW := PSW r; SP := v; MB := MB r; C := C r; AC := AC r; F0 := F0 r; F1
     := F1 r; BS := BS r; timer := timer r; timer_en := timer_en r; counter_en := counter_en r;
     timer_ovf := timer_ovf r; tcnti_en := tcnti_en r; t0 := t0 r; t1 := t1 r; P1 := P1 r; P2 := P2
     r; BUS := BUS r; irq_en := irq_en r; irq_pend := irq_pend r; in_irq := in_irq r; ei_delay :=
     ei_delay r; iram := iram r; irom := irom r; erom := erom r; xram := xram r; cycles := cycles r;
     tpre := tpre r |}.
Definition set_MB (v : bool) (r : I8048) : I8048 :=
  {| A := A r; PC := PC r; PSW := PSW r; SP := SP r; MB := v; C := C r; AC := AC r; F0 := F0 r; F1
     := F1 r; BS := BS r; timer := timer r; timer_en := timer_en r; counter_en := counter_en r;
     timer_ovf := timer_ovf r; tcnti_en := tcnti_en r; t0 := t0 r; t1 := t1 r; P1 := P1 r; P2 := P2
     r; BUS := BUS r; irq_en := irq_en r; irq_pend := irq_pend r; in_irq := in_irq r; ei_delay :=
     ei_delay r; iram := iram r; irom := irom r; erom := erom r; xram := xram r; cycles := cycles r;
     tpre := tpre r |}.
Definition set_C (v : bool) (r : I8048) : I8048 :=
  {| A := A r; PC := PC r; PSW := PSW r; SP := SP r; MB := MB r; C := v; AC := AC r; F0 := F0 r; F1
     := F1 r; BS := BS r; timer := timer r; timer_en := timer_en r; counter_en := counter_en r;
     timer_ovf := timer_ovf r; tcnti_en := tcnti_en r; t0 := t0 r; t1 := t1 r; P1 := P1 r; P2 := P2
     r; BUS := BUS r; irq_en := irq_en r; irq_pend := irq_pend r; in_irq := in_irq r; ei_delay :=
     ei_delay r; iram := iram r; irom := irom r; erom := erom r; xram := xram r; cycles := cycles r;
     tpre := tpre r |}.
Definition set_AC (v : bool) (r : I8048) : I8048 :=
  {| A := A r; PC := PC r; PSW := PSW r; SP := SP r; MB := MB r; C := C r; AC := v; F0 := F0 r; F1
     := F1 r; BS := BS r; timer := timer r; timer_en := timer_en r; counter_en := counter_en r;
     timer_ovf := timer_ovf r; tcnti_en := tcnti_en r; t0 := t0 r; t1 := t1 r; P1 := P1 r; P2 := P2
     r; BUS := BUS r; irq_en := irq_en r; irq_pend := irq_pend r; in_irq := in_irq r; ei_delay :=
     ei_delay r; iram := iram r; irom := irom r; erom := erom r; xram := xram r; cycles := cycles r;
     tpre := tpre r |}.
Definition set_F0 (v : bool) (r : I8048) : I8048 :=
  {| A := A r; PC := PC r; PSW := PSW r; SP := SP r; MB := MB r; C := C r; AC := AC r; F0 := v; F1
     := F1 r; BS := BS r; timer := timer r; timer_en := timer_en r; counter_en := counter_en r;
     timer_ovf := timer_ovf r; tcnti_en := tcnti_en r; t0 := t0 r; t1 := t1 r; P1 := P1 r; P2 := P2
     r; BUS := BUS r; irq_en := irq_en r; irq_pend := irq_pend r; in_irq := in_irq r; ei_delay :=
     ei_delay r; iram := iram r; irom := irom r; erom := erom r; xram := xram r; cycles := cycles r;
     tpre := tpre r |}.
Definition set_F1 (v : bool) (r : I8048) : I8048 :=
  {| A := A r; PC := PC r; PSW := PSW r; SP := SP r; MB := MB r; C := C r; AC := AC r; F0 := F0 r;
     F1 := v; BS := BS r; timer := timer r; timer_en := timer_en r; counter_en := counter_en r;
     timer_ovf := timer_ovf r; tcnti_en := tcnti_en r; t0 := t0 r; t1 := t1 r; P1 := P1 r; P2 := P2
     r; BUS := BUS r; irq_en := irq_en r; irq_pend := irq_pend r; in_irq := in_irq r; ei_delay :=
     ei_delay r; iram := iram r; irom := irom r; erom := erom r; xram := xram r; cycles := cycles r;
     tpre := tpre r |}.
Definition set_BS (v : bool) (r : I8048) : I8048 :=
  {| A := A r; PC := PC r; PSW := PSW r; SP := SP r; MB := MB r; C := C r; AC := AC r; F0 := F0 r;
     F1 := F1 r; BS := v; timer := timer r; timer_en := timer_en r; counter_en := counter_en r;
     timer_ovf := timer_ovf r; tcnti_en := tcnti_en r; t0 := t0 r; t1 := t1 r; P1 := P1 r; P2 := P2
     r; BUS := BUS r; irq_en := irq_en r; irq_pend := irq_pend r; in_irq := in_irq r; ei_delay :=
     ei_delay r; iram := iram r; irom := irom r; erom := erom r; xram := xram r; cycles := cycles r;
     tpre := tpre r |}.
Definition set_timer (v : Z) (r : I8048) : I8048 :=
  {| A := A r; PC := PC r; PSW := PSW r; SP := SP r; MB := MB r; C := C r; AC := AC r; F0 := F0 r;
     F1 := F1 r; BS := BS r; timer := v; timer_en := timer_en r; counter_en := counter_en r;
     timer_ovf := timer_ovf r; tcnti_en := tcnti_en r; t0 := t0 r; t1 := t1 r; P1 := P1 r; P2 := P2
     r; BUS := BUS r; irq_en := irq_en r; irq_pend := irq_pend r; in_irq := in_irq r; ei_delay :=
     ei_delay r; iram := iram r; irom := irom r; erom := erom r; xram := xram r; cycles := cycles r;
     tpre := tpre r |}.
Definition set_timer_en (v : bool) (r : I8048) : I8048 :=
  {| A := A r; PC := PC r; PSW := PSW r; SP := SP r; MB := MB r; C := C r; AC := AC r; F0 := F0 r;
     F1 := F1 r; BS := BS r; timer := timer r; timer_en := v; counter_en := counter_en r; timer_ovf
     := timer_ovf r; tcnti_en := tcnti_en r; t0 := t0 r; t1 := t1 r; P1 := P1 r; P2 := P2 r; BUS :=
     BUS r; irq_en := irq_en r; irq_pend := irq_pend r; in_irq := in_irq r; ei_delay := ei_delay r;
     iram := iram r; irom := irom r; erom := erom r; xram := xram r; cycles := cycles r; tpre :=
     tpre r |}.
Definition set_counter_en (v : bool) (r : I8048) : I8048 :=
  {| A := A r; PC := PC r; PSW := PSW r; SP := SP r; MB := MB r; C := C r; AC := AC r; F0 := F0 r;
     F1 := F1 r; BS := BS r; timer := timer r; timer_en := timer_en r; counter_en := v; timer_ovf :=
     timer_ovf r; tcnti_en := tcnti_en r; t0 := t0 r; t1 := t1 r; P1 := P1 r; P2 := P2 r; BUS := BUS
     r; irq_en := irq_en r; irq_pend := irq_pend r; in_irq := in_irq r; ei_delay := ei_delay r; iram
     := iram r; irom := irom r; erom := erom r; xram := xram r; cycles := cycles r; tpre := tpre r
     |}.
Definition set_timer_ovf (v : bool) (r : I8048) : I8048 :=
  {| A := A r; PC := PC r; PSW := PSW r; SP := SP r; MB := MB r; C := C r; AC := AC r; F0 := F0 r;
     F1 := F1 r; BS := BS r; timer := timer r; timer_en := timer_en r; counter_en := counter_en r;
     timer_ovf := v; tcnti_en := tcnti_en r; t0 := t0 r; t1 := t1 r; P1 := P1 r; P2 := P2 r; BUS :=
     BUS r; irq_en := irq_en r; irq_pend := irq_pend r; in_irq := in_irq r; ei_delay := ei_delay r;
     iram := iram r; irom := irom r; erom := erom r; xram := xram r; cycles := cycles r; tpre :=
     tpre r |}.
Definition set_tcnti_en (v : bool) (r : I8048) : I8048 :=
  {| A := A r; PC := PC r; PSW := PSW r; SP := SP r; MB := MB r; C := C r; AC := AC r; F0 := F0 r;
     F1 := F1 r; BS := BS r; timer := timer r; timer_en := timer_en r; counter_en := counter_en r;
     timer_ovf := timer_ovf r; tcnti_en := v; t0 := t0 r; t1 := t1 r; P1 := P1 r; P2 := P2 r; BUS :=
     BUS r; irq_en := irq_en r; irq_pend := irq_pend r; in_irq := in_irq r; ei_delay := ei_delay r;
     iram := iram r; irom := irom r; erom := erom r; xram := xram r; cycles := cycles r; tpre :=
     tpre r |}.
Definition set_t0 (v : bool) (r : I8048) : I8048 :=
  {| A := A r; PC := PC r; PSW := PSW r; SP := SP r; MB := MB r; C := C r; AC := AC r; F0 := F0 r;
     F1 := F1 r; BS := BS r; timer := timer r; timer_en := timer_en r; counter_en := counter_en r;
     timer_ovf := timer_ovf r; tcnti_en := tcnti_en r; t0 := v; t1 := t1 r; P1 := P1 r; P2 := P2 r;
     BUS := BUS r; irq_en := irq_en r; irq_pend := irq_pend r; in_irq := in_irq r; ei_delay :=
     ei_delay r; iram := iram r; irom := irom r; erom := erom r; xram := xram r; cycles := cycles r;
     tpre := tpre r |}.
Definition set_t1 (v : bool) (r : I8048) : I8048 :=
  {| A := A r; PC := PC r; PSW := PSW r; SP := SP r; MB := MB r; C := C r; AC := AC r; F0 := F0 r;
     F1 := F1 r; BS := BS r; timer := timer r; timer_en := timer_en r; counter_en := counter_en r;
     timer_ovf := timer_ovf r; tcnti_en := tcnti_en r; t0 := t0 r; t1 := v; P1 := P1 r; P2 := P2 r;
     BUS := BUS r; irq_en := irq_en r; irq_pend := irq_pend r; in_irq := in_irq r; ei_delay :=
     ei_delay r; iram := iram r; irom := irom r; erom := erom r; xram := xram r; cycles := cycles r;
     tpre := tpre r |}.
Definition set_P1 (v : Z) (r : I8048) : I8048 :=
  {| A := A r; PC := PC r; PSW := PSW r; SP := SP r; MB := MB r; C := C r; AC := AC r; F0 := F0 r;
     F1 := F1 r; BS := BS r; timer := timer r; timer_en := timer_en r; counter_en := counter_en r;
     timer_ovf := timer_ovf r; tcnti_en := tcnti_en r; t0 := t0 r; t1 := t1 r; P1 := v; P2 := P2 r;
     BUS := BUS r; irq_en := irq_en r; irq_pend := irq_pend r; in_irq := in_irq r; ei_delay :=
     ei_delay r; iram := iram r; irom := irom r; erom := erom r; xram := xram r; cycles := cycles r;
     tpre := tpre r |}.
Definition set_P2 (v : Z) (r : I8048) : I8048 :=
  {| A := A r; PC := PC r; PSW := PSW r; SP := SP r; MB := MB r; C := C r; AC := AC r; F0 := F0 r;
     F1 := F1 r; BS := BS r; timer := timer r; timer_en := timer_en r; counter_en := counter_en r;
     timer_ovf := timer_ovf r; tcnti_en := tcnti_en r; t0 := t0 r; t1 := t1 r; P1 := P1 r; P2 := v;
     BUS := BUS r; irq_en := irq_en r; irq_pend := irq_pend r; in_irq := in_irq r; ei_delay :=
     ei_delay r; iram := iram r; irom := irom r; erom := erom r; xram := xram r; cycles := cycles r;
     tpre := tpre r |}.
Definition set_BUS (v : Z) (r : I8048) : I8048 :=
  {| A := A r; PC := PC r; PSW := PSW r; SP := SP r; MB := MB r; C := C r; AC := AC r; F0 := F0 r;
     F1 := F1 r; BS := BS r; timer := timer r; timer_en := timer_en r; counter_en := counter_en r;
     timer_ovf := timer_ovf r; tcnti_en := tcnti_en r; t0 := t0 r; t1 := t1 r; P1 := P1 r; P2 := P2
     r; BUS := v; irq_en := irq_en r; irq_pend := irq_pend r; in_irq := in_irq r; ei_delay :=
     ei_delay r; iram := iram r; irom := irom r; erom := erom r; xram := xram r; cycles := cycles r;
     tpre := tpre r |}.
Definition set_irq_en (v : bool) (r : I8048) : I8048 :=
  {| A := A r; PC := PC r; PSW := PSW r; SP := SP r; MB := MB r; C := C r; AC := AC r; F0 := F0 r;
     F1 := F1 r; BS := BS r; timer := timer r; timer_en := timer_en r; counter_en := counter_en r;
     timer_ovf := timer_ovf r; tcnti_en := tcnti_en r; t0 := t0 r; t1 := t1 r; P1 := P1 r; P2 := P2
     r; BUS := BUS r; irq_en := v; irq_pend := irq_pend r; in_irq := in_irq r; ei_delay := ei_delay
     r; iram := iram r; irom := irom r; erom := erom r; xram := xram r; cycles := cycles r; tpre :=
     tpre r |}.
Definition set_irq_pend (v : bool) (r : I8048) : I8048 :=
  {| A := A r; PC := PC r; PSW := PSW r; SP := SP r; MB := MB r; C := C r; AC := AC r; F0 := F0 r;
     F1 := F1 r; BS := BS r; timer := timer r; timer_en := timer_en r; counter_en := counter_en r;
     timer_ovf := timer_ovf r; tcnti_en := tcnti_en r; t0 := t0 r; t1 := t1 r; P1 := P1 r; P2 := P2
     r; BUS := BUS r; irq_en := irq_en r; irq_pend := v; in_irq := in_irq r; ei_delay := ei_delay r;
     iram := iram r; irom := irom r; erom := erom r; xram := xram r; cycles := cycles r; tpre :=
     tpre r |}.
Definition set_in_irq (v : bool) (r : I8048) : I8048 :=
  {| A := A r; PC := PC r; PSW := PSW r; SP := SP r; MB := MB r; C := C r; AC := AC r; F0 := F0 r;
     F1 := F1 r; BS := BS r; timer := timer r; timer_en := timer_en r; counter_en := counter_en r;
     timer_ovf := timer_ovf r; tcnti_en := tcnti_en r; t0 := t0 r; t1 := t1 r; P1 := P1 r; P2 := P2
     r; BUS := BUS r; irq_en := irq_en r; irq_pend := irq_pend r; in_irq := v; ei_delay := ei_delay
     r; iram := iram r; irom := irom r; erom := erom r; xram := xram r; cycles := cycles r; tpre :=
     tpre r |}.
Definition set_ei_delay (v : Z) (r : I8048) : I8048 :=
  {| A := A r; PC := PC r; PSW := PSW r; SP := SP r; MB := MB r; C := C r; AC := AC r; F0 := F0 r;
     F1 := F1 r; BS := BS r; timer := timer r; timer_en := timer_en r; counter_en := counter_en r;
     timer_ovf := timer_ovf r; tcnti_en := tcnti_en r; t0 := t0 r; t1 := t1 r; P1 := P1 r; P2 := P2
     r; BUS := BUS r; irq_en := irq_en r; irq_pend := irq_pend r; in_irq := in_irq r; ei_delay := v;
     iram := iram r; irom := irom r; erom := erom r; xram := xram r; cycles := cycles r; tpre :=
     tpre r |}.
Definition set_iram (v : list Z) (r : I8048) : I8048 :=
  {| A := A r; PC := PC r; PSW := PSW r; SP := SP r; MB := MB r; C := C r; AC := AC r; F0 := F0 r;
     F1 := F1 r; BS := BS r; timer := timer r; timer_en := timer_en r; counter_en := counter_en r;
     timer_ovf := timer_ovf r; tcnti_en := tcnti_en r; t0 := t0 r; t1 := t1 r; P1 := P1 r; P2 := P2
     r; BUS := BUS r; irq_en := irq_en r; irq_pend := irq_pend r; in_irq := in_irq r; ei_delay :=
     ei_delay r; iram := v; irom := irom r; erom := erom r; xram := xram r; cycles := cycles r; tpre
     := tpre r |}.
Definition set_irom (v : list Z) (r : I8048) : I8048 :=
  {| A := A r; PC := PC r; PSW := PSW r; SP := SP r; MB := MB r; C := C r; AC := AC r; F0 := F0 r;
     F1 := F1 r; BS := BS r; timer := timer r; timer_en := timer_en r; counter_en := counter_en r;
     timer_ovf := timer_ovf r; tcnti_en := tcnti_en r; t0 := t0 r; t1 := t1 r; P1 := P1 r; P2 := P2
     r; BUS := BUS r; irq_en := irq_en r; irq_pend := irq_pend r; in_irq := in_irq r; ei_delay :=
     ei_delay r; iram := iram r; irom := v; erom := erom r; xram := xram r; cycles := cycles r; tpre
     := tpre r |}.
Definition set_erom (v : list Z) (r : I8048) : I8048 :=
  {| A := A r; PC := PC r; PSW := PSW r; SP := SP r; MB := MB r; C := C r; AC := AC r; F0 := F0 r;
     F1 := F1 r; BS := BS r; timer := timer r; timer_en := timer_en r; counter_en := counter_en r;
     timer_ovf := timer_ovf r; tcnti_en := tcnti_en r; t0 := t0 r; t1 := t1 r; P1 := P1 r; P2 := P2
     r; BUS := BUS r; irq_en := irq_en r; irq_pend := irq_pend r; in_irq := in_irq r; ei_delay :=
     ei_delay r; iram := iram r; irom := irom r; erom := v; xram := xram r; cycles := cycles r; tpre
     := tpre r |}.
Definition set_xram (v : list Z) (r : I8048) : I8048 :=
  {| A := A r; PC := PC r; PSW := PSW r; SP := SP r; MB := MB r; C := C r; AC := AC r; F0 := F0 r;
     F1 := F1 r; BS := BS r; timer := timer r; timer_en := timer_en r; counter_en := counter_en r;
     timer_ovf := timer_ovf r; tcnti_en := tcnti_en r; t0 := t0 r; t1 := t1 r; P1 := P1 r; P2 := P2
     r; BUS := BUS r; irq_en := irq_en r; irq_pend := irq_pend r; in_irq := in_irq r; ei_delay :=
     ei_delay r; iram := iram r; irom := irom r; erom := erom r; xram := v; cycles := cycles r; tpre
     := tpre r |}.
Definition set_cycles (v : Z) (r : I8048) : I8048 :=
  {| A := A r; PC := PC r; PSW := PSW r; SP := SP r; MB := MB r; C := C r; AC := AC r; F0 := F0 r;
     F1 := F1 r; BS := BS r; timer := timer r; timer_en := timer_en r; counter_en := counter_en r;
     timer_ovf := timer_ovf r; tcnti_en := tcnti_en r; t0 := t0 r; t1 := t1 r; P1 := P1 r; P2 := P2
     r; BUS := BUS r; irq_en := irq_en r; irq_pend := irq_pend r; in_irq := in_irq r; ei_delay :=
     ei_delay r; iram := iram r; irom := irom r; erom := erom r; xram := xram r; cycles := v; tpre
     := tpre r |}.
Definition set_tpre (v : Z) (r : I8048) : I8048 :=
  {| A := A r; PC := PC r; PSW := PSW r; SP := SP r; MB := MB r; C := C r; AC := AC r; F0 := F0 r;
     F1 := F1 r; BS := BS r; timer := timer r; timer_en := timer_en r; counter_en := counter_en r;
     timer_ovf := timer_ovf r; tcnti_en := tcnti_en r; t0 := t0 r; t1 := t1 r; P1 := P1 r; P2 := P2
     r; BUS := BUS r; irq_en := irq_en r; irq_pend := irq_pend r; in_irq := in_irq r; ei_delay :=
     ei_delay r; iram := iram r; irom := irom r; erom := erom r; xram := xram r; cycles := cycles r;
     tpre := v |}.
(** Display state ([struct AVDisp]). *)
Record AVDisp : Type := mk_AVDisp {
  phosphor : list spec_float;
  col_data : list (list Z);
  cols_captured : Z;
  led_reg : list Z;
  led_col : Z;
  led_active : bool
}.

Definition set_phosphor (v : list spec_float) (r : AVDisp) : AVDisp :=
  {| phosphor := v; col_data := col_data r; cols_captured := cols_captured r; led_reg := led_reg r;
     led_col := led_col r; led_active := led_active r |}.
Definition set_col_data (v : list (list Z)) (r : AVDisp) : AVDisp :=
  {| phosphor := phosphor r; col_data := v; cols_captured := cols_captured r; led_reg := led_reg r;
     led_col := led_col r; led_active := led_active r |}.
Definition set_cols_captured (v : Z) (r : AVDisp) : AVDisp :=
  {| phosphor := phosphor r; col_data := col_data r; cols_captured := v; led_reg := led_reg r;
     led_col := led_col r; led_active := led_active r |}.
Definition set_led_reg (v : list Z) (r : AVDisp) : AVDisp :=
  {| phosphor := phosphor r; col_data := col_data r; cols_captured := cols_captured r; led_reg := v;
     led_col := led_col r; led_active := led_active r |}.
Definition set_led_col (v : Z) (r : AVDisp) : AVDisp :=
  {| phosphor := phosphor r; col_data := col_data r; cols_captured := cols_captured r; led_reg :=
     led_reg r; led_col := v; led_active := led_active r |}.
Definition set_led_active (v : bool) (r : AVDisp) : AVDisp :=
  {| phosphor := phosphor r; col_data := col_data r; cols_captured := cols_captured r; led_reg :=
     led_reg r; led_col := led_col r; led_active := v |}.
(** The input snapshot ([av->input]). *)
Record AVInput : Type := mk_AVInput {
  inp_u : bool;
  inp_d : bool;
  inp_l : bool;
  inp_r : bool;
  inp_b1 : bool;
  inp_b2 : bool;
  inp_b3 : bool;
  inp_b4 : bool
}.

(** The system ([struct AV]), restricted to the fields the core functions read or write. *)
Record AV : Type := mk_AV {
  cpu : I8048;
  disp : AVDisp;
  snd : COP411L;
  input : AVInput;
  snd_volume : Z;
  dbg_active : bool;
  dbg_stepping : bool;
  dbg_bp : list Z;
  dbg_bp_count : Z;
  running : bool;
  paused : bool;
  frame_count : Z;
  save_name : list Z;
  cfg_phosphor : spec_float;
  midframe_scan : bool;
  t1_pulse_start : Z;
  t1_pulse_end : Z;
  disp_sync_cycle : Z;
  disp_sync_seen : bool;
  prev_p2 : Z
}.

Definition set_cpu (v : I8048) (r : AV) : AV :=
  {| cpu := v; disp := disp r; snd := snd r; input := input r; snd_volume := snd_volume r;
     dbg_active := dbg_active r; dbg_stepping := dbg_stepping r; dbg_bp := dbg_bp r; dbg_bp_count :=
     dbg_bp_count r; running := running r; paused := paused r; frame_count := frame_count r;
     save_name := save_name r; cfg_phosphor := cfg_phosphor r; midframe_scan := midframe_scan r;
     t1_pulse_start := t1_pulse_start r; t1_pulse_end := t1_pulse_end r; disp_sync_cycle :=
     disp_sync_cycle r; disp_sync_seen := disp_sync_seen r; prev_p2 := prev_p2 r |}.
Definition set_disp (v : AVDisp) (r : AV) : AV :=
  {| cpu := cpu r; disp := v; snd := snd r; input := input r; snd_volume := snd_volume r; dbg_active
     := dbg_active r; dbg_stepping := dbg_stepping r; dbg_bp := dbg_bp r; dbg_bp_count :=
     dbg_bp_count r; running := running r; paused := paused r; frame_count := frame_count r;
     save_name := save_name r; cfg_phosphor := cfg_phosphor r; midframe_scan := midframe_scan r;
     t1_pulse_start := t1_pulse_start r; t1_pulse_end := t1_pulse_end r; disp_sync_cycle :=
     disp_sync_cycle r; disp_sync_seen := disp_sync_seen r; prev_p2 := prev_p2 r |}.
Definition set_snd (v : COP411L) (r : AV) : AV :=
  {| cpu := cpu r; disp := disp r; snd := v; input := input r; snd_volume := snd_volume r;
     dbg_active := dbg_active r; dbg_stepping := dbg_stepping r; dbg_bp := dbg_bp r; dbg_bp_count :=
     dbg_bp_count r; running := running r; paused := paused r; frame_count := frame_count r;
     save_name := save_name r; cfg_phosphor := cfg_phosphor r; midframe_scan := midframe_scan r;
     t1_pulse_start := t1_pulse_start r; t1_pulse_end := t1_pulse_end r; disp_sync_cycle :=
     disp_sync_cycle r; disp_sync_seen := disp_sync_seen r; prev_p2 := prev_p2 r |}.
Definition set_input (v : AVInput) (r : AV) : AV :=
  {| cpu := cpu r; disp := disp r; snd := snd r; input := v; snd_volume := snd_volume r; dbg_active
     := dbg_active r; dbg_stepping := dbg_stepping r; dbg_bp := dbg_bp r; dbg_bp_count :=
     dbg_bp_count r; running := running r; paused := paused r; frame_count := frame_count r;
     save_name := save_name r; cfg_phosphor := cfg_phosphor r; midframe_scan := midframe_scan r;
     t1_pulse_start := t1_pulse_start r; t1_pulse_end := t1_pulse_end r; disp_sync_cycle :=
     disp_sync_cycle r; disp_sync_seen := disp_sync_seen r; prev_p2 := prev_p2 r |}.
Definition set_snd_volume (v : Z) (r : AV) : AV :=
  {| cpu := cpu r; disp := disp r; snd := snd r; input := input r; snd_volume := v; dbg_active :=
     dbg_active r; dbg_stepping := dbg_stepping r; dbg_bp := dbg_bp r; dbg_bp_count := dbg_bp_count
     r; running := running r; paused := paused r; frame_count := frame_count r; save_name :=
     save_name r; cfg_phosphor := cfg_phosphor r; midframe_scan := midframe_scan r; t1_pulse_start
     := t1_pulse_start r; t1_pulse_end := t1_pulse_end r; disp_sync_cycle := disp_sync_cycle r;
     disp_sync_seen := disp_sync_seen r; prev_p2 := prev_p2 r |}.
Definition set_dbg_active (v : bool) (r : AV) : AV :=
  {| cpu := cpu r; disp := disp r; snd := snd r; input := input r; snd_volume := snd_volume r;
     dbg_active := v; dbg_stepping := dbg_stepping r; dbg_bp := dbg_bp r; dbg_bp_count :=
     dbg_bp_count r; running := running r; paused := paused r; frame_count := frame_count r;
     save_name := save_name r; cfg_phosphor := cfg_phosphor r; midframe_scan := midframe_scan r;
     t1_pulse_start := t1_pulse_start r; t1_pulse_end := t1_pulse_end r; disp_sync_cycle :=
     disp_sync_cycle r; disp_sync_seen := disp_sync_seen r; prev_p2 := prev_p2 r |}.
Definition set_dbg_stepping (v : bool) (r : AV) : AV :=
  {| cpu := cpu r; disp := disp r; snd := snd r; input := input r; snd_volume := snd_volume r;
     dbg_active := dbg_active r; dbg_stepping := v; dbg_bp := dbg_bp r; dbg_bp_count := dbg_bp_count
     r; running := running r; paused := paused r; frame_count := frame_count r; save_name :=
     save_name r; cfg_phosphor := cfg_phosphor r; midframe_scan := midframe_scan r; t1_pulse_start
     := t1_pulse_start r; t1_pulse_end := t1_pulse_end r; disp_sync_cycle := disp_sync_cycle r;
     disp_sync_seen := disp_sync_seen r; prev_p2 := prev_p2 r |}.
Definition set_dbg_bp (v : list Z) (r : AV) : AV :=
  {| cpu := cpu r; disp := disp r; snd := snd r; input := input r; snd_volume := snd_volume r;
     dbg_active := dbg_active r; dbg_stepping := dbg_stepping r; dbg_bp := v; dbg_bp_count :=
     dbg_bp_count r; running := running r; paused := paused r; frame_count := frame_count r;
     save_name := save_name r; cfg_phosphor := cfg_phosphor r; midframe_scan := midframe_scan r;
     t1_pulse_start := t1_pulse_start r; t1_pulse_end := t1_pulse_end r; disp_sync_cycle :=
     disp_sync_cycle r; disp_sync_seen := disp_sync_seen r; prev_p2 := prev_p2 r |}.
Definition set_dbg_bp_count (v : Z) (r : AV) : AV :=
  {| cpu := cpu r; disp := disp r; snd := snd r; input := input r; snd_volume := snd_volume r;
     dbg_active := dbg_active r; dbg_stepping := dbg_stepping r; dbg_bp := dbg_bp r; dbg_bp_count :=
     v; running := running r; paused := paused r; frame_count := frame_count r; save_name :=
     save_name r; cfg_phosphor := cfg_phosphor r; midframe_scan := midframe_scan r; t1_pulse_start
     := t1_pulse_start r; t1_pulse_end := t1_pulse_end r; disp_sync_cycle := disp_sync_cycle r;
     disp_sync_seen := disp_sync_seen r; prev_p2 := prev_p2 r |}.
Definition set_running (v : bool) (r : AV) : AV :=
  {| cpu := cpu r; disp := disp r; snd := snd r; input := input r; snd_volume := snd_volume r;
     dbg_active := dbg_active r; dbg_stepping := dbg_stepping r; dbg_bp := dbg_bp r; dbg_bp_count :=
     dbg_bp_count r; running := v; paused := paused r; frame_count := frame_count r; save_name :=
     save_name r; cfg_phosphor := cfg_phosphor r; midframe_scan := midframe_scan r; t1_pulse_start
     := t1_pulse_start r; t1_pulse_end := t1_pulse_end r; disp_sync_cycle := disp_sync_cycle r;
     disp_sync_seen := disp_sync_seen r; prev_p2 := prev_p2 r |}.
Definition set_paused (v : bool) (r : AV) : AV :=
  {| cpu := cpu r; disp := disp r; snd := snd r; input := input r; snd_volume := snd_volume r;
     dbg_active := dbg_active r; dbg_stepping := dbg_stepping r; dbg_bp := dbg_bp r; dbg_bp_count :=
     dbg_bp_count r; running := running r; paused := v; frame_count := frame_count r; save_name :=
     save_name r; cfg_phosphor := cfg_phosphor r; midframe_scan := midframe_scan r; t1_pulse_start
     := t1_pulse_start r; t1_pulse_end := t1_pulse_end r; disp_sync_cycle := disp_sync_cycle r;
     disp_sync_seen := disp_sync_seen r; prev_p2 := prev_p2 r |}.
Definition set_frame_count (v : Z) (r : AV) : AV :=
  {| cpu := cpu r; disp := disp r; snd := snd r; input := input r; snd_volume := snd_volume r;
     dbg_active := dbg_active r; dbg_stepping := dbg_stepping r; dbg_bp := dbg_bp r; dbg_bp_count :=
     dbg_bp_count r; running := running r; paused := paused r; frame_count := v; save_name :=
     save_name r; cfg_phosphor := cfg_phosphor r; midframe_scan := midframe_scan r; t1_pulse_start
     := t1_pulse_start r; t1_pulse_end := t1_pulse_end r; disp_sync_cycle := disp_sync_cycle r;
     disp_sync_seen := disp_sync_seen r; prev_p2 := prev_p2 r |}.
Definition set_save_name (v : list Z) (r : AV) : AV :=
  {| cpu := cpu r; disp := disp r; snd := snd r; input := input r; snd_volume := snd_volume r;
     dbg_active := dbg_active r; dbg_stepping := dbg_stepping r; dbg_bp := dbg_bp r; dbg_bp_count :=
     dbg_bp_count r; running := running r; paused := paused r; frame_count := frame_count r;
     save_name := v; cfg_phosphor := cfg_phosphor r; midframe_scan := midframe_scan r;
     t1_pulse_start := t1_pulse_start r; t1_pulse_end := t1_pulse_end r; disp_sync_cycle :=
     disp_sync_cycle r; disp_sync_seen := disp_sync_seen r; prev_p2 := prev_p2 r |}.
Definition set_cfg_phosphor (v : spec_float) (r : AV) : AV :=
  {| cpu := cpu r; disp := disp r; snd := snd r; input := input r; snd_volume := snd_volume r;
     dbg_active := dbg_active r; dbg_stepping := dbg_stepping r; dbg_bp := dbg_bp r; dbg_bp_count :=
     dbg_bp_count r; running := running r; paused := paused r; frame_count := frame_count r;
     save_name := save_name r; cfg_phosphor := v; midframe_scan := midframe_scan r; t1_pulse_start
     := t1_pulse_start r; t1_pulse_end := t1_pulse_end r; disp_sync_cycle := disp_sync_cycle r;
     disp_sync_seen := disp_sync_seen r; prev_p2 := prev_p2 r |}.
Definition set_midframe_scan (v : bool) (r : AV) : AV :=
  {| cpu := cpu r; disp := disp r; snd := snd r; input := input r; snd_volume := snd_volume r;
     dbg_active := dbg_active r; dbg_stepping := dbg_stepping r; dbg_bp := dbg_bp r; dbg_bp_count :=
     dbg_bp_count r; running := running r; paused := paused r; frame_count := frame_count r;
     save_name := save_name r; cfg_phosphor := cfg_phosphor r; midframe_scan := v; t1_pulse_start :=
     t1_pulse_start r; t1_pulse_end := t1_pulse_end r; disp_sync_cycle := disp_sync_cycle r;
     disp_sync_seen := disp_sync_seen r; prev_p2 := prev_p2 r |}.
Definition set_t1_pulse_start (v : Z) (r : AV) : AV :=
  {| cpu := cpu r; disp := disp r; snd := snd r; input := input r; snd_volume := snd_volume r;
     dbg_active := dbg_active r; dbg_stepping := dbg_stepping r; dbg_bp := dbg_bp r; dbg_bp_count :=
     dbg_bp_count r; running := running r; paused := paused r; frame_count := frame_count r;
     save_name := save_name r; cfg_phosphor := cfg_phosphor r; midframe_scan := midframe_scan r;
     t1_pulse_start := v; t1_pulse_end := t1_pulse_end r; disp_sync_cycle := disp_sync_cycle r;
     disp_sync_seen := disp_sync_seen r; prev_p2 := prev_p2 r |}.
Definition set_t1_pulse_end (v : Z) (r : AV) : AV :=
  {| cpu := cpu r; disp := disp r; snd := snd r; input := input r; snd_volume := snd_volume r;
     dbg_active := dbg_active r; dbg_stepping := dbg_stepping r; dbg_bp := dbg_bp r; dbg_bp_count :=
     dbg_bp_count r; running := running r; paused := paused r; frame_count := frame_count r;
     save_name := save_name r; cfg_phosphor := cfg_phosphor r; midframe_scan := midframe_scan r;
     t1_pulse_start := t1_pulse_start r; t1_pulse_end := v; disp_sync_cycle := disp_sync_cycle r;
     disp_sync_seen := disp_sync_seen r; prev_p2 := prev_p2 r |}.
Definition set_disp_sync_cycle (v : Z) (r : AV) : AV :=
  {| cpu := cpu r; disp := disp r; snd := snd r; input := input r; snd_volume := snd_volume r;
     dbg_active := dbg_active r; dbg_stepping := dbg_stepping r; dbg_bp := dbg_bp r; dbg_bp_count :=
     dbg_bp_count r; running := running r; paused := paused r; frame_count := frame_count r;
     save_name := save_name r; cfg_phosphor := cfg_phosphor r; midframe_scan := midframe_scan r;
     t1_pulse_start := t1_pulse_start r; t1_pulse_end := t1_pulse_end r; disp_sync_cycle := v;
     disp_sync_seen := disp_sync_seen r; prev_p2 := prev_p2 r |}.
Definition set_disp_sync_seen (v : bool) (r : AV) : AV :=
  {| cpu := cpu r; disp := disp r; snd := snd r; input := input r; snd_volume := snd_volume r;
     dbg_active := dbg_active r; dbg_stepping := dbg_stepping r; dbg_bp := dbg_bp r; dbg_bp_count :=
     dbg_bp_count r; running := running r; paused := paused r; frame_count := frame_count r;
     save_name := save_name r; cfg_phosphor := cfg_phosphor r; midframe_scan := midframe_scan r;
     t1_pulse_start := t1_pulse_start r; t1_pulse_end := t1_pulse_end r; disp_sync_cycle :=
     disp_sync_cycle r; disp_sync_seen := v; prev_p2 := prev_p2 r |}.
Definition set_prev_p2 (v : Z) (r : AV) : AV :=
  {| cpu := cpu r; disp := disp r; snd := snd r; input := input r; snd_volume := snd_volume r;
     dbg_active := dbg_active r; dbg_stepping := dbg_stepping r; dbg_bp := dbg_bp r; dbg_bp_count :=
     dbg_bp_count r; running := running r; paused := paused r; frame_count := frame_count r;
     save_name := save_name r; cfg_phosphor := cfg_phosphor r; midframe_scan := midframe_scan r;
     t1_pulse_start := t1_pulse_start r; t1_pulse_end := t1_pulse_end r; disp_sync_cycle :=
     disp_sync_cycle r; disp_sync_seen := disp_sync_seen r; prev_p2 := v |}.
(** ** COP411L sound processor *)

(** Hardware-measured frequencies of the sixteen pure tones. *)
Definition cop411_note_freq : list spec_float := Eval vm_compute in
  [ f32_lit 23923 100; f32_lit 25303 100; f32_lit 26853 100; f32_lit 28604 100;
    f32_lit 30248 100; f32_lit 32092 100; f32_lit 33738 100; f32_lit 36049 100;
    f32_lit 38138 100; f32_lit 40485 100; f32_lit 42444 100; f32_lit 45372 100;
    f32_lit 47846 100; f32_lit 50607 100; f32_lit 53705 100; f32_lit 57208 100 ].

Definition zero_step : SndStep :=
  {| freq := f32_zero; noise := false; dur_ms := 0; volume := f32_zero |}.

(** [freq_to_phase_inc]: [(uint32_t)((freq / (float)AUDIO_RATE) * 4294967296.0)];
    the quotient is a [float], the product with the [double] literal a
    [double]. *)
Definition freq_to_phase_inc (f : spec_float) : Z :=
  if SFleb f f32_zero then 0
  else u32 (SF_trunc (f64_mul (f32_div f (f32_of_Z AUDIO_RATE))
                              (binary_normalize prec64 emax64 4294967296 0 false))).

Arguments freq_to_phase_inc : simpl never.

(** [lfsr_clock]: one step of the 15-bit noise register, taps at bits 0 and 1. *)
Definition lfsr_clock (s : COP411L) : COP411L * Z :=
  let b := Z.land (Z.lxor (Z.shiftr (lfsr s) 0) (Z.shiftr (lfsr s) 1)) 1 in
  let s := set_lfsr (u16 (Z.lor (Z.shiftr (lfsr s) 1) (Z.shiftl b 14))) s in
  (s, Z.land (lfsr s) 1).

(** [cop411_init]: everything zero, the noise register seeded, default
    segment volumes. *)
Definition cop411_init : COP411L :=
  {| ctrl_loop := 0; ctrl_vol := 0; ctrl_fast := 0; proto_state := 0; proto_hi := 0;
     active := false; is_noise := false; force_loop := false; force_no_loop := false;
     command := 0; steps := replicate 16 zero_step; step_count := 0; cur_step := 0;
     step_samples_left := 0; cur_freq := f32_zero; phase_acc := 0; phase_inc := 0;
     slide_freq_start := f32_zero; slide_freq_end := f32_zero; slide_progress := f32_zero;
     lfsr := 0x7FFF; seg1_vol := f32_one; seg2_vol := f32_half; cur_vol := f32_zero;
     segment := 0; seg_samples_total := 0; seg_samples_left := 0; chain_cmd := 0 |}.

(** [cop411_update_ctrl_vol]: segment volumes from the control register. *)
Definition cop411_update_ctrl_vol (s : COP411L) : COP411L :=
  match ctrl_vol s with
  | 0 => set_seg2_vol (f32_lit 4 10) (set_seg1_vol (f32_lit 4 10) s)
  | 1 => set_seg2_vol (f32_lit 4 10) (set_seg1_vol f32_one s)
  | _ => set_seg2_vol f32_one (set_seg1_vol f32_one s)
  end.

(** [cop411_speed]: duration multiplier selected by the fast bit. *)
Definition cop411_speed (s : COP411L) : spec_float :=
  if z2b (ctrl_fast s) then f32_half else f32_one.

Definition mk_step (f : spec_float) (n : bool) (d : Z) (v : spec_float) : SndStep :=
  {| freq := f; noise := n; dur_ms := d; volume := v |}.

(** [snd->steps[i] = st]. *)
Definition set_step (i : Z) (st : SndStep) (s : COP411L) : COP411L :=
  set_steps (<[Z.to_nat i := st]> (steps s)) s.

(** [(int)(k * spd)] for an integer [k]. *)
Definition scaled_ms (k : Z) (spd : spec_float) : Z :=
  f32_to_int (f32_mul (f32_of_Z k) spd).

(** [base + (float)i * (span / (float)n)] and [base - (float)i * (span / (float)n)]. *)
Definition slide_up (base span : Z) (n i : Z) : spec_float :=
  f32_add (f32_of_Z base) (f32_mul (f32_of_Z i) (f32_div (f32_of_Z span) (f32_of_Z n))).
Definition slide_down (base span : Z) (n i : Z) : spec_float :=
  f32_sub (f32_of_Z base) (f32_mul (f32_of_Z i) (f32_div (f32_of_Z span) (f32_of_Z n))).

(** [c + (float)i * k] and [c - (float)i * k] for [float] literals [c], [k]. *)
Definition vol_up (c k : spec_float) (i : Z) : spec_float :=
  f32_add c (f32_mul (f32_of_Z i) k).
Definition vol_down (c k : spec_float) (i : Z) : spec_float :=
  f32_sub c (f32_mul (f32_of_Z i) k).

Arguments scaled_ms : simpl never.
Arguments slide_up : simpl never.
Arguments slide_down : simpl never.
Arguments vol_up : simpl never.
Arguments vol_down : simpl never.

(** The tail of [cop411_build_effect]: load the first step. *)
Definition start_first_step (s : COP411L) : COP411L :=
  if 0 <? step_count s then
    let st := default zero_step (steps s !! 0%nat) in
    let s := set_cur_freq (freq st) s in
    let s := set_is_noise (noise st) s in
    let s := set_cur_vol (volume st) s in
    let s := set_phase_inc (freq_to_phase_inc (freq st)) s in
    let s := set_step_samples_left (Z.quot (s32 (dur_ms st * AUDIO_RATE)) 1000) s in
    if step_samples_left s <? 1 then set_step_samples_left 1 s else s
  else s.

(** [cop411_build_effect]: build the step script of a scripted effect. *)
Definition cop411_build_effect (s : COP411L) (cmd data : Z) : COP411L :=
  let s := set_command cmd s in
  let s := set_active true s in
  let s := set_cur_step 0 s in
  let s := set_step_count 0 s in
  let s := set_chain_cmd 0 s in
  let s := set_force_loop false s in
  let s := set_force_no_loop false s in
  let s := set_segment 0 s in
  let s := set_phase_acc 0 s in
  let spd := cop411_speed s in
  let r := match cmd with
  | 0x01 =>
      let s := set_force_loop true s in
      let s := set_step_count 1 s in
      let s := set_step 0 (mk_step (f32_of_Z 800) true (scaled_ms 200 spd) (f32_lit 8 10)) s in
      Some s
  | 0x02 =>
      let n := 8 in
      let s := set_step_count n s in
      let s := for_range n (fun i =>
                 set_step i (mk_step (slide_down 1200 900 n i) false (scaled_ms 25 spd)
                                     (vol_down f32_one (f32_lit 8 100) i))) s in
      Some s
  | 0x03 =>
      let s := set_step_count 5 s in
      let pitches := [f32_of_Z 1000; f32_of_Z 800; f32_of_Z 600; f32_of_Z 400; f32_of_Z 250] in
      let s := for_range 5 (fun i =>
                 set_step i (mk_step (default f32_zero (pitches !! Z.to_nat i)) true
                                     (scaled_ms 60 spd)
                                     (vol_down f32_one (f32_lit 12 100) i))) s in
      let s := if z2b (ctrl_loop s) then set_chain_cmd 0x02 s else s in
      Some s
  | 0x04 =>
      let n := 8 in
      let s := set_step_count n s in
      let s := for_range n (fun i =>
                 set_step i (mk_step (slide_up 300 900 n i) false (scaled_ms 30 spd)
                                     (vol_up (f32_lit 7 10) (f32_lit 4 100) i))) s in
      Some s
  | 0x05 =>
      let n := 10 in
      let s := set_step_count n s in
      let s := for_range n (fun i =>
                 set_step i (mk_step (slide_up 200 600 n i) true (scaled_ms (40 + i * 8) spd)
                                     (vol_up (f32_lit 6 10) (f32_lit 4 100) i))) s in
      let s := set_force_loop (z2b (ctrl_loop s)) s in
      Some s
  | 0x06 =>
      let s := set_force_no_loop true s in
      let n := 12 in
      let s := set_step_count n s in
      let s := for_range n (fun i =>
                 set_step i (mk_step (slide_down 1200 900 n i) true (scaled_ms (30 + i * 10) spd)
                                     (vol_down f32_one (f32_lit 6 100) i))) s in
      Some s
  | 0x07 =>
      let n := 6 in
      let s := set_step_count n s in
      let s := for_range n (fun i =>
                 set_step i (mk_step (slide_down 800 500 n i) false (scaled_ms 30 spd)
                                     (vol_down (f32_lit 9 10) (f32_lit 1 10) i))) s in
      Some s
  | 0x08 =>
      let n := 6 in
      let s := set_step_count n s in
      let s := for_range n (fun i =>
                 set_step i (mk_step (slide_up 400 800 n i) false (scaled_ms 12 spd)
                                     (f32_lit 8 10))) s in
      Some s
  | 0x09 =>
      let n := 8 in
      let s := set_step_count n s in
      let s := for_range n (fun i =>
                 set_step i (mk_step (slide_up 300 600 n i) false (scaled_ms 18 spd)
                                     (f32_lit 85 100))) s in
      Some s
  | 0x0A | 0x0B | 0x0C | 0x0D =>
      let s := set_step_count 1 s in
      let f := f32_add (f32_of_Z 300) (f32_mul (f32_of_Z (cmd - 0x0A)) (f32_of_Z 100)) in
      let s := set_step 0 (mk_step f false (scaled_ms 50 spd) f32_half) s in
      Some s
  | _ => None
  end in
  match r with
  | Some s => start_first_step s
  | None => set_active false s
  end.

(** [cop411_start_tone]: start pure tone [note] (commands [$E] and [$F]). *)
Definition cop411_start_tone (s : COP411L) (note : Z) : COP411L :=
  let s := set_active true s in
  let s := set_is_noise false s in
  let s := set_command 0x0E s in
  let s := set_cur_step 0 s in
  let s := set_step_count 0 s in
  let s := set_chain_cmd 0 s in
  let s := set_force_loop false s in
  let s := set_force_no_loop false s in
  let f := default f32_zero (cop411_note_freq !! Z.to_nat (Z.land note 0x0F)) in
  let s := set_cur_freq f s in
  let s := set_phase_inc (freq_to_phase_inc f) s in
  let s := set_segment 0 s in
  let s := cop411_update_ctrl_vol s in
  let s := set_cur_vol (seg1_vol s) s in
  let seg1_ms := if z2b (ctrl_fast s) then 46 else 117 in
  let s := set_seg_samples_total (Z.quot (seg1_ms * AUDIO_RATE) 1000) s in
  set_seg_samples_left (seg_samples_total s) s.

(** [cop411_command]: dispatch one received command byte. *)
Definition cop411_command (s : COP411L) (cmd_byte : Z) : COP411L :=
  let cmd := Z.land (Z.shiftr cmd_byte 4) 0x0F in
  let data := Z.land cmd_byte 0x0F in
  if cmd =? 0x00 then
    let s := set_ctrl_fast (Z.land data 0x01) s in
    let s := set_ctrl_vol (Z.land (Z.shiftr data 1) 0x03) s in
    let s := set_ctrl_loop (Z.land (Z.shiftr data 3) 0x01) s in
    let s := cop411_update_ctrl_vol s in
    set_active false s
  else if (cmd =? 0x0E) || (cmd =? 0x0F) then cop411_start_tone s data
  else if (0x01 <=? cmd) && (cmd <=? 0x0D) then cop411_build_effect s cmd data
  else s.

(** ** Display pipeline

    The column snapshot buffer [col_data[SW][5]] and the phosphor buffer
    [phosphor[SW * SH]] are fixed-size C arrays.  The three functions that
    index them are modelled in the option monad: [load] and [store] fail
    ([None]) on an index outside the array, which is where the C program
    would read or write out of bounds. *)

Definition load {T : Type} (a : list T) (i : Z) : option T :=
  if 0 <=? i then a !! Z.to_nat i else None.

Definition store {T : Type} (a : list T) (i : Z) (v : T) : option (list T) :=
  if (0 <=? i) && (i <? Z.of_nat (length a)) then Some (<[Z.to_nat i := v]> a) else None.

(** [a[i][j] = v] for a two-dimensional array. *)
Definition store2 {T : Type} (a : list (list T)) (i j : Z) (v : T) : option (list (list T)) :=
  match load a i with
  | Some row =>
      match store row j v with
      | Some row' => store a i row'
      | None => None
      end
  | None => None
  end.

Definition load2 {T : Type} (a : list (list T)) (i j : Z) : option T :=
  match load a i with
  | Some row => load row j
  | None => None
  end.

(** [for (int i = 0; i < n; i++) body] where the body may fail. *)
Definition for_range_opt {S : Type} (n : Z) (body : Z -> S -> option S) (s : S) : option S :=
  fold_left (fun acc i => match acc with Some x => body (Z.of_nat i) x | None => None end)
            (seq 0 (Z.to_nat n)) (Some s).

Arguments for_range_opt : simpl never.

(** [disp_capture_column]: snapshot column [col] from video RAM. *)
Definition disp_capture_column (d : AVDisp) (xram : list Z) (col : Z) : option AVDisp :=
  if SW <=? u32 col then Some d
  else
    let bank := 1 + Z.quot col 50 in
    let offset := 6 + Z.rem col 50 * 5 in
    let base := bank * 256 + offset in
    match
      (if base + 4 <? XRAM_SZ then
         for_range_opt 5 (fun i cd =>
           match load xram (base + i) with
           | Some v => store2 cd col i v
           | None => None
           end) (col_data d)
       else Some (col_data d))
    with
    | Some cd =>
        let d := set_col_data cd d in
        Some (if cols_captured d <=? col then set_cols_captured (col + 1) d else d)
    | None => None
    end.

(** [led_reg_decode]: P2 bits 5-7 to LED register index, -1 when unused. *)
Definition led_reg_decode (p2 : Z) : Z :=
  let sel := Z.land (Z.shiftr p2 5) 7 in
  match sel with
  | 4 => 0
  | 2 => 1
  | 6 => 2
  | 1 => 3
  | 5 => 4
  | _ => -1
  end.

(** [disp_latch_led_column]: commit the LED registers to column [led_col]
    (called on a P2.4 rising edge). *)
Definition disp_latch_led_column (d : AVDisp) : option AVDisp :=
  let col := led_col d in
  match
    (if (0 <=? col) && (col <? SW) then
       match
         for_range_opt 5 (fun i cd =>
           match load (led_reg d) i with
           | Some v => store2 cd col i v
           | None => None
           end) (col_data d)
       with
       | Some cd =>
           let d := set_col_data cd d in
           Some (if cols_captured d <=? col then set_cols_captured (col + 1) d else d)
       | None => None
       end
     else Some d)
  with
  | Some d => Some (set_led_active true (set_led_col (s32 (led_col d + 1)) d))
  | None => None
  end.

(** One pixel of the decay pass: [p *= decay; if (p < 0.01f) p = 0.0f]. *)
Definition decay_px (decay p : spec_float) : spec_float :=
  let q := f32_mul p decay in
  if SFltb q f32_eps then f32_zero else q.

(** The number of columns [disp_update] consumes: [cols_captured] clamped
    to [SW]. *)
Definition disp_update_cols (d : AVDisp) : Z :=
  if SW <? cols_captured d then SW else cols_captured d.

(** The innermost loop body of [disp_update]: bit [b] of byte [bi] of
    column [col]. *)
Definition light_bit (col bi val b : Z) (ph : list spec_float) : option (list spec_float) :=
  let y := (4 - bi) * 8 + (7 - b) in
  if SH <=? u32 y then Some ph
  else if Z.land val (bit b) =? 0 then store ph (col + y * SW) f32_one
  else Some ph.

(** [disp_update]: end-of-frame phosphor update, decay then light. *)
Definition disp_update (d : AVDisp) (decay : spec_float) : option AVDisp :=
  match
    for_range_opt (SW * SH) (fun i ph =>
      match load ph i with
      | Some p => store ph i (decay_px decay p)
      | None => None
      end) (phosphor d)
  with
  | Some ph =>
      let cols := disp_update_cols d in
      match
        for_range_opt cols (fun col ph =>
          for_range_opt 5 (fun bi ph =>
            match load2 (col_data d) col bi with
            | Some val => for_range_opt 8 (fun b ph => light_bit col bi val b ph) ph
            | None => None
            end) ph) ph
      with
      | Some ph => Some (set_cols_captured 0 (set_phosphor ph d))
      | None => None
      end
  | None => None
  end.

(** [disp_px]: pixel intensity, 0 outside the screen. *)
Definition disp_px (d : AVDisp) (x y : Z) : spec_float :=
  if (SW <=? u32 x) || (SH <=? u32 y) then f32_zero
  else default f32_zero (phosphor d !! Z.to_nat (x + y * SW)).

(** ** I/O ports *)

(** The system keeps the display unchanged where a display function would
    access an array out of bounds; [disp_latch_total] and
    [disp_capture_total] show that this never happens on a well-formed
    display. *)
Definition with_disp (r : option AVDisp) (av : AV) : AV :=
  match r with
  | Some d => set_disp d av
  | None => av
  end.

(** [av_led_latch]: latch the byte read from external RAM into the LED
    register selected by P2. *)
Definition av_led_latch (av : AV) (p2 data : Z) : AV :=
  let ri := led_reg_decode p2 in
  if 0 <=? ri then set_disp (set_led_reg (wr (led_reg (disp av)) ri data) (disp av)) av
  else av.

(** The COP411L nibble protocol driven by writes to P2. *)
Definition snd_protocol (s : COP411L) (val : Z) : COP411L :=
  if (proto_state s =? 0) && (val =? 0xC0) then
    set_proto_hi 0 (set_proto_state 1 s)
  else if proto_state s =? 1 then
    set_proto_state 2 (set_proto_hi (Z.land (Z.shiftr val 4) 0x0F) s)
  else if proto_state s =? 2 then
    if val =? 0x00 then
      set_proto_state 0 (cop411_command s (u8 (Z.shiftl (proto_hi s) 4)))
    else
      let lo := Z.land (Z.shiftr val 4) 0x0F in
      let cmd_byte := Z.lor (u8 (Z.shiftl (proto_hi s) 4)) lo in
      set_proto_state 3 (cop411_command s cmd_byte)
  else if proto_state s =? 3 then
    (if val =? 0x00 then set_proto_state 0 s else s)
  else s.

(** [av_port_write]: observer of the CPU's port writes. *)
Definition av_port_write (av : AV) (port val : Z) : AV :=
  match port with
  | 0 => set_cpu (set_BUS val (cpu av)) av
  | 1 => av
  | 2 =>
      let av :=
        if negb (Z.land val 0x10 =? 0) && (Z.land (prev_p2 av) 0x10 =? 0)
        then with_disp (disp_latch_led_column (disp av)) av
        else av in
      let av := set_prev_p2 val av in
      set_snd (snd_protocol (snd av) val) av
  | _ => av
  end.

(** [av_port_read]: port values seen by the CPU; the buttons pull P1 bits low. *)
Definition av_port_read (av : AV) (port : Z) : Z :=
  match port with
  | 0 => 0xFF
  | 1 =>
      let i := input av in
      let ext := 0xFF in
      let ext := if inp_b1 i then Z.land ext (u8 (Z.lnot 0x30)) else ext in
      let ext := if inp_b2 i then Z.land ext (u8 (Z.lnot 0x50)) else ext in
      let ext := if inp_b3 i then Z.land ext (u8 (Z.lnot 0x08)) else ext in
      let ext := if inp_b4 i then Z.land ext (u8 (Z.lnot 0x90)) else ext in
      let ext := if inp_u i then Z.land ext (u8 (Z.lnot 0x20)) else ext in
      let ext := if inp_d i then Z.land ext (u8 (Z.lnot 0x10)) else ext in
      let ext := if inp_r i then Z.land ext (u8 (Z.lnot 0x40)) else ext in
      let ext := if inp_l i then Z.land ext (u8 (Z.lnot 0x80)) else ext in
      Z.land (P1 (cpu av)) ext
  | 2 => P2 (cpu av)
  | _ => 0xFF
  end.

(** ** Display: well-formed states and event sequences *)

(** The shape of the column buffer [col_data[SW][5]]. *)
Definition cols_wf (cd : list (list Z)) : Prop :=
  length cd = Z.to_nat SW /\ Forall (fun row => length row = 5%nat) cd.

(** The array sizes the C types fix: [phosphor[SW * SH]], [col_data[SW][5]],
    [led_reg[5]]. *)
Definition disp_wf (d : AVDisp) : Prop :=
  length (phosphor d) = Z.to_nat (SW * SH) /\
  length (col_data d) = Z.to_nat SW /\
  Forall (fun row => length row = 5%nat) (col_data d) /\
  length (led_reg d) = 5%nat.

(** What reaches the column buffer during a frame: a P2.4 rising edge, a
    capture request for column [col] of a video RAM, the T1 sync that
    rewinds the column counter. *)
Inductive disp_event : Type :=
  | EvStrobe
  | EvCapture (xram : list Z) (col : Z)
  | EvSync.

(** The video RAM is the 1 KiB external RAM and the column an [int]. *)
Definition ev_wf (e : disp_event) : Prop :=
  match e with
  | EvCapture xram col =>
      length xram = Z.to_nat XRAM_SZ /\ - 2147483648 <= col < 2147483648
  | _ => True
  end.

Definition disp_step (d : AVDisp) (e : disp_event) : option AVDisp :=
  match e with
  | EvStrobe => disp_latch_led_column d
  | EvCapture xram col => disp_capture_column d xram col
  | EvSync => Some (set_led_col 0 d)
  end.

Fixpoint disp_run (d : AVDisp) (es : list disp_event) : option AVDisp :=
  match es with
  | [] => Some d
  | e :: es =>
      match disp_step d e with
      | Some d => disp_run d es
      | None => None
      end
  end.

(** Byte [bi] of captured column [col] (0 outside the buffer). *)
Definition col_byte (d : AVDisp) (col bi : Z) : Z :=
  default 0 (load2 (col_data d) col bi).

(** The bit of LED [y] of column [col] is clear (the LED is driven): LED [y]
    is bit [7 - y mod 8] of byte [4 - y / 8]. *)
Definition pixel_clear (d : AVDisp) (col y : Z) : bool :=
  Z.land (col_byte d col (4 - y / 8)) (bit (7 - y mod 8)) =? 0.

(** Pixel [(col, y)] is lit by [disp_update]: the column is among those
    consumed and its bit is clear. *)
Definition led_lit (d : AVDisp) (col y : Z) : bool :=
  (col <? disp_update_cols d) && pixel_clear d col y.

(** Progress of the lighting loops of [disp_update]: pixel [(x, y)] has been
    visited when the loops stand at column [c], byte [bi], bit [b]. *)
Definition visited (c bi b x y : Z) : Prop :=
  x < c \/ (x = c /\ (4 - y / 8 < bi \/ (4 - y / 8 = bi /\ 7 - y mod 8 < b))).

(** The phosphor buffer [ph] while the lighting loops run over the decayed
    buffer [dec]: visited pixels with a clear bit are 1.0, the others still
    hold their decayed value. *)
Definition lighting_inv (d : AVDisp) (dec : list spec_float) (c bi b : Z)
           (ph : list spec_float) : Prop :=
  length ph = length dec /\
  forall x y, 0 <= x < SW -> 0 <= y < SH ->
    (visited c bi b x y /\ pixel_clear d x y = true ->
       ph !! Z.to_nat (x + y * SW) = Some f32_one) /\
    (~ (visited c bi b x y /\ pixel_clear d x y = true) ->
       ph !! Z.to_nat (x + y * SW) = dec !! Z.to_nat (x + y * SW)).

(** The value of a [float] lies in [[0, 1]]: a zero, or a positive finite
    [m * 2^e] with [m * 2^e <= 1]. *)
Definition in_unit (x : spec_float) : Prop :=
  match x with
  | S754_zero _ => True
  | S754_finite false m e => e <= 0 /\ Zpos m <= 2 ^ (- e)
  | _ => False
  end.

(** A mantissa [m] at exponent [e] that denotes a number of [[0, 1]]. *)
Definition unit_me (m e : Z) : Prop := 0 <= m /\ e <= 0 /\ m <= 2 ^ (- e).

(** ** Intel 8048 interpreter *)

(** [R(c, r)]: index in internal RAM of register [r] of the current bank. *)
Definition R (c : I8048) (r : Z) : Z := (if BS c then 24 else 0) + Z.land r 7.
Definition getR (c : I8048) (r : Z) : Z := rd (iram c) (R c r).
Definition setR (c : I8048) (r v : Z) : I8048 := set_iram (wr (iram c) (R c r) v) c.

(** Internal RAM addressed through [@R0]/[@R1]: [c->iram[*R(c,op&1) & (IRAM_SZ-1)]]. *)
Definition ind (c : I8048) (op : Z) : Z := Z.land (getR c (Z.land op 1)) (IRAM_SZ - 1).

(** [bpsw]: rebuild PSW from the flags and the stack pointer. *)
Definition bpsw (c : I8048) : I8048 :=
  set_PSW (Z.lor (Z.lor (Z.lor (Z.lor (Z.shiftl (b2z (C c)) 7) (Z.shiftl (b2z (AC c)) 6))
                               (Z.shiftl (b2z (F0 c)) 5))
                        (Z.shiftl (b2z (BS c)) 4))
                 (Z.land (SP c) 7)) c.

(** [push8]: push PC and the high nibble of PSW. *)
Definition push8 (c : I8048) : I8048 :=
  let a := u8 (8 + SP c * 2) in
  let c := set_iram (wr (iram c) (Z.land a (IRAM_SZ - 1)) (Z.land (PC c) 0xFF)) c in
  let c := set_iram (wr (iram c) (Z.land (a + 1) (IRAM_SZ - 1))
                        (Z.lor (Z.land (Z.shiftr (PC c) 8) 0x0F) (Z.land (PSW c) 0xF0))) c in
  set_SP (Z.land (SP c + 1) 7) c.

(** [pop_pc]: pop PC only. *)
Definition pop_pc (c : I8048) : I8048 :=
  let c := set_SP (Z.land (SP c - 1) 7) c in
  let a := u8 (8 + SP c * 2) in
  set_PC (Z.lor (rd (iram c) (Z.land a (IRAM_SZ - 1)))
                (Z.shiftl (Z.land (rd (iram c) (Z.land (a + 1) (IRAM_SZ - 1))) 0x0F) 8)) c.

(** The flags held in the high nibble of PSW. *)
Definition flags_of_psw (c : I8048) : I8048 :=
  let c := set_C (z2b (Z.land (Z.shiftr (PSW c) 7) 1)) c in
  let c := set_AC (z2b (Z.land (Z.shiftr (PSW c) 6) 1)) c in
  let c := set_F0 (z2b (Z.land (Z.shiftr (PSW c) 5) 1)) c in
  set_BS (z2b (Z.land (Z.shiftr (PSW c) 4) 1)) c.

(** [pop_pc_psw]: pop PC and the high nibble of PSW, restore the flags. *)
Definition pop_pc_psw (c : I8048) : I8048 :=
  let c := set_SP (Z.land (SP c - 1) 7) c in
  let a := u8 (8 + SP c * 2) in
  let hi := rd (iram c) (Z.land (a + 1) (IRAM_SZ - 1)) in
  let c := set_PC (Z.lor (rd (iram c) (Z.land a (IRAM_SZ - 1)))
                         (Z.shiftl (Z.land hi 0x0F) 8)) c in
  let c := set_PSW (Z.lor (Z.land hi 0xF0) (Z.land (PSW c) 0x0F)) c in
  flags_of_psw c.

(** [rom_rd]: program memory; internal ROM below [0x400] while P1 bit 2 is
    low, the cartridge otherwise. *)
Definition rom_rd (c : I8048) (a : Z) : Z :=
  let a := Z.land a 0xFFF in
  if (a <? IROM_SZ) && (Z.land (P1 c) 0x04 =? 0) then rd (irom c) a
  else rd (erom c) (Z.land a (EROM_SZ - 1)).

(** [ft]: fetch the byte at PC and advance the 12-bit PC. *)
Definition ft (c : I8048) : Z * I8048 :=
  let v := rom_rd c (PC c) in
  (v, set_PC (Z.land (PC c + 1) 0xFFF) c).

(** External RAM, banked by P1 bits 0-1. *)
Definition xram_addr (c : I8048) (addr : Z) : Z :=
  Z.land (u16 (Z.lor (Z.shiftl (Z.land (P1 c) 0x03) 8) addr)) (XRAM_SZ - 1).
Definition xram_rd (c : I8048) (addr : Z) : Z := rd (xram c) (xram_addr c addr).
Definition xram_wr (c : I8048) (addr val : Z) : I8048 :=
  set_xram (wr (xram c) (xram_addr c addr) val) c.

(** [ADD]/[ADDC]: [t16 = A + t + cin], auxiliary carry from the low nibbles. *)
Definition add_a (c : I8048) (t cin : Z) : I8048 :=
  let t16 := u16 (A c + t + cin) in
  let c' := set_AC (0xF <? Z.land (A c) 0xF + Z.land t 0xF + cin) c in
  let c' := set_C (0xFF <? t16) c' in
  set_A (u8 t16) c'.

(** [DA A]. *)
Definition daa (c : I8048) : I8048 :=
  let c :=
    if (9 <? Z.land (A c) 0xF) || AC c then
      let t := A c in
      let c := set_A (u8 (A c + 6)) c in
      if A c <? t then set_C true c else c
    else c in
  if (9 <? Z.shiftr (A c) 4) || C c then set_C true (set_A (u8 (A c + 0x60)) c) else c.

(** Destination of [JMP]/[CALL]: [((op & 0xE0) << 3) | t], bit 11 from MB. *)
Definition jmp_target (c : I8048) (op t : Z) : Z :=
  let pc := u16 (Z.lor (Z.shiftl (Z.land op 0xE0) 3) t) in
  if MB c then Z.lor pc 0x800 else pc.

(** In-page branch: [PC = (PC & 0xF00) | t]. *)
Definition page_jump (c : I8048) (t : Z) : I8048 :=
  set_PC (Z.lor (Z.land (PC c) 0xF00) t) c.

(** Conditional jump: fetch the operand, branch in page when [cond] holds. *)
Definition jcond (c : I8048) (cond : I8048 -> bool) : I8048 :=
  let '(t, c) := ft c in
  if cond c then page_jump c t else c.

(** One iteration of the timer prescaler loop:
    [tpre -= 32; if (++timer == 0) { timer_ovf = true; ... }]. *)
Definition timer_tick (c : I8048) : I8048 :=
  let c := set_timer (u8 (timer c + 1)) c in
  if timer c =? 0 then
    let c := set_timer_ovf true c in
    if tcnti_en c && irq_en c && negb (in_irq c) then set_irq_pend true c else c
  else c.

(** [while (c->tpre >= 32) { ... }]; [fuel] bounds the iterations. *)
Fixpoint prescaler_loop (fuel : nat) (c : I8048) : I8048 :=
  if 32 <=? tpre c then
    match fuel with
    | O => c
    | S fuel => prescaler_loop fuel (timer_tick (set_tpre (tpre c - 32) c))
    end
  else c.

(** The part of [i8048_exec] after the opcode switch: cycle count, timer
    prescaler, interrupt dispatch. *)
Definition exec_tail (c : I8048) (cy : Z) : I8048 :=
  let c := set_cycles (u64 (cycles c + cy)) c in
  let c :=
    if timer_en c then
      let c := set_tpre (s32 (tpre c + cy)) c in
      prescaler_loop (Z.to_nat (tpre c / 32)) c
    else c in
  let c := if 0 <? ei_delay c then set_ei_delay (u8 (ei_delay c - 1)) c else c in
  if irq_pend c && irq_en c && negb (in_irq c) && (ei_delay c =? 0) then
    let c := set_irq_pend false c in
    let c := set_in_irq true c in
    let c := set_irq_en false c in
    let c := push8 (bpsw c) in
    set_PC 0x007 c
  else c.

(** The opcode switch of [i8048_exec].  [c] is the CPU after the opcode
    fetch, which is the CPU of the system [av]: a port write goes through
    [av_port_write] on the system holding the updated CPU. *)
Definition exec_op (av : AV) (c : I8048) (op : Z) : AV * Z :=
  let cpu1 (c : I8048) := set_cpu c av in
  match op with
  | 0x00 => (cpu1 c, 1)
  (* MOV *)
  | 0xF8 | 0xF9 | 0xFA | 0xFB | 0xFC | 0xFD | 0xFE | 0xFF =>
      (cpu1 (set_A (getR c (Z.land op 7)) c), 1)
  | 0xA8 | 0xA9 | 0xAA | 0xAB | 0xAC | 0xAD | 0xAE | 0xAF =>
      (cpu1 (setR c (Z.land op 7) (A c)), 1)
  | 0x23 => let '(t, c) := ft c in (cpu1 (set_A t c), 2)
  | 0xB8 | 0xB9 | 0xBA | 0xBB | 0xBC | 0xBD | 0xBE | 0xBF =>
      let '(t, c) := ft c in (cpu1 (setR c (Z.land op 7) t), 2)
  | 0xF0 | 0xF1 => (cpu1 (set_A (rd (iram c) (ind c op)) c), 1)
  | 0xA0 | 0xA1 => (cpu1 (set_iram (wr (iram c) (ind c op) (A c)) c), 1)
  | 0xB0 | 0xB1 =>
      let i := ind c op in
      let '(t, c) := ft c in (cpu1 (set_iram (wr (iram c) i t) c), 2)
  (* XCH / XCHD *)
  | 0x28 | 0x29 | 0x2A | 0x2B | 0x2C | 0x2D | 0x2E | 0x2F =>
      let t := A c in
      let c := set_A (getR c (Z.land op 7)) c in
      (cpu1 (setR c (Z.land op 7) t), 1)
  | 0x20 | 0x21 =>
      let a := ind c op in
      let t := rd (iram c) a in
      let c := set_iram (wr (iram c) a (A c)) c in
      (cpu1 (set_A t c), 1)
  | 0x30 | 0x31 =>
      let a := ind c op in
      let t := Z.land (A c) 0xF in
      let c := set_A (Z.lor (Z.land (A c) 0xF0) (Z.land (rd (iram c) a) 0xF)) c in
      (cpu1 (set_iram (wr (iram c) a (Z.lor (Z.land (rd (iram c) a) 0xF0) t)) c), 1)
  (* ADD *)
  | 0x68 | 0x69 | 0x6A | 0x6B | 0x6C | 0x6D | 0x6E | 0x6F =>
      (cpu1 (add_a c (getR c (Z.land op 7)) 0), 1)
  | 0x03 => let '(t, c) := ft c in (cpu1 (add_a c t 0), 2)
  | 0x60 | 0x61 => (cpu1 (add_a c (rd (iram c) (ind c op)) 0), 1)
  (* ADDC *)
  | 0x78 | 0x79 | 0x7A | 0x7B | 0x7C | 0x7D | 0x7E | 0x7F =>
      (cpu1 (add_a c (getR c (Z.land op 7)) (b2z (C c))), 1)
  | 0x13 => let '(t, c) := ft c in (cpu1 (add_a c t (b2z (C c))), 2)
  | 0x70 | 0x71 => (cpu1 (add_a c (rd (iram c) (ind c op)) (b2z (C c))), 1)
  (* ANL, ORL, XRL *)
  | 0x58 | 0x59 | 0x5A | 0x5B | 0x5C | 0x5D | 0x5E | 0x5F =>
      (cpu1 (set_A (Z.land (A c) (getR c (Z.land op 7))) c), 1)
  | 0x53 => let '(t, c) := ft c in (cpu1 (set_A (Z.land (A c) t) c), 2)
  | 0x50 | 0x51 => (cpu1 (set_A (Z.land (A c) (rd (iram c) (ind c op))) c), 1)
  | 0x48 | 0x49 | 0x4A | 0x4B | 0x4C | 0x4D | 0x4E | 0x4F =>
      (cpu1 (set_A (Z.lor (A c) (getR c (Z.land op 7))) c), 1)
  | 0x43 => let '(t, c) := ft c in (cpu1 (set_A (Z.lor (A c) t) c), 2)
  | 0x40 | 0x41 => (cpu1 (set_A (Z.lor (A c) (rd (iram c) (ind c op))) c), 1)
  | 0xD8 | 0xD9 | 0xDA | 0xDB | 0xDC | 0xDD | 0xDE | 0xDF =>
      (cpu1 (set_A (Z.lxor (A c) (getR c (Z.land op 7))) c), 1)
  | 0xD3 => let '(t, c) := ft c in (cpu1 (set_A (Z.lxor (A c) t) c), 2)
  | 0xD0 | 0xD1 => (cpu1 (set_A (Z.lxor (A c) (rd (iram c) (ind c op))) c), 1)
  (* INC / DEC / CLR / CPL *)
  | 0x17 => (cpu1 (set_A (u8 (A c + 1)) c), 1)
  | 0x18 | 0x19 | 0x1A | 0x1B | 0x1C | 0x1D | 0x1E | 0x1F =>
      (cpu1 (setR c (Z.land op 7) (u8 (getR c (Z.land op 7) + 1))), 1)
  | 0x10 | 0x11 =>
      (cpu1 (set_iram (wr (iram c) (ind c op) (u8 (rd (iram c) (ind c op) + 1))) c), 1)
  | 0x07 => (cpu1 (set_A (u8 (A c - 1)) c), 1)
  | 0xC8 | 0xC9 | 0xCA | 0xCB | 0xCC | 0xCD | 0xCE | 0xCF =>
      (cpu1 (setR c (Z.land op 7) (u8 (getR c (Z.land op 7) - 1))), 1)
  | 0x27 => (cpu1 (set_A 0 c), 1)
  | 0x37 => (cpu1 (set_A (u8 (Z.lnot (A c))) c), 1)
  (* DA / SWAP / rotates *)
  | 0x57 => (cpu1 (daa c), 1)
  | 0x47 =>
      (cpu1 (set_A (u8 (Z.lor (Z.shiftl (Z.land (A c) 0xF) 4)
                               (Z.land (Z.shiftr (A c) 4) 0xF))) c), 1)
  | 0xE7 => (cpu1 (set_A (u8 (Z.lor (Z.shiftl (A c) 1) (Z.shiftr (A c) 7))) c), 1)
  | 0xF7 =>
      let t := b2z (C c) in
      let c := set_C (z2b (Z.land (Z.shiftr (A c) 7) 1)) c in
      (cpu1 (set_A (u8 (Z.lor (Z.shiftl (A c) 1) t)) c), 1)
  | 0x77 => (cpu1 (set_A (u8 (Z.lor (Z.shiftr (A c) 1) (Z.shiftl (A c) 7))) c), 1)
  | 0x67 =>
      let t := b2z (C c) in
      let c := set_C (z2b (Z.land (A c) 1)) c in
      (cpu1 (set_A (u8 (Z.lor (Z.shiftr (A c) 1) (Z.shiftl t 7))) c), 1)
  (* Flags *)
  | 0x97 => (cpu1 (set_C false c), 1)
  | 0xA7 => (cpu1 (set_C (negb (C c)) c), 1)
  | 0x85 => (cpu1 (set_F0 false c), 1)
  | 0x95 => (cpu1 (set_F0 (negb (F0 c)) c), 1)
  | 0xA5 => (cpu1 (set_F1 false c), 1)
  | 0xB5 => (cpu1 (set_F1 (negb (F1 c)) c), 1)
  | 0xC5 => (cpu1 (set_BS false c), 1)
  | 0xD5 => (cpu1 (set_BS true c), 1)
  | 0xE5 => (cpu1 (set_MB false c), 1)
  | 0xF5 => (cpu1 (set_MB true c), 1)
  (* JMP *)
  | 0x04 | 0x24 | 0x44 | 0x64 | 0x84 | 0xA4 | 0xC4 | 0xE4 =>
      let '(t, c) := ft c in (cpu1 (set_PC (jmp_target c op t) c), 2)
  | 0xB3 =>
      (cpu1 (set_PC (Z.lor (Z.land (PC c) 0xF00)
                           (rom_rd c (Z.lor (Z.land (PC c) 0xF00) (A c)))) c), 2)
  (* DJNZ *)
  | 0xE8 | 0xE9 | 0xEA | 0xEB | 0xEC | 0xED | 0xEE | 0xEF =>
      let '(t, c) := ft c in
      let c := setR c (Z.land op 7) (u8 (getR c (Z.land op 7) - 1)) in
      (cpu1 (if z2b (getR c (Z.land op 7)) then page_jump c t else c), 2)
  (* Conditional jumps *)
  | 0xF6 => (cpu1 (jcond c C), 2)
  | 0xE6 => (cpu1 (jcond c (fun c => negb (C c))), 2)
  | 0xC6 => (cpu1 (jcond c (fun c => negb (z2b (A c)))), 2)
  | 0x96 => (cpu1 (jcond c (fun c => z2b (A c))), 2)
  | 0x26 => (cpu1 (jcond c (fun c => negb (t0 c))), 2)
  | 0x36 => (cpu1 (jcond c t0), 2)
  | 0x46 => (cpu1 (jcond c (fun c => negb (t1 c))), 2)
  | 0x56 => (cpu1 (jcond c t1), 2)
  | 0xB6 => (cpu1 (jcond c F0), 2)
  | 0x76 => (cpu1 (jcond c F1), 2)
  | 0x16 =>
      let '(t, c) := ft c in
      (cpu1 (if timer_ovf c then set_timer_ovf false (page_jump c t) else c), 2)
  | 0x86 => let '(t, c) := ft c in (cpu1 c, 2)
  | 0x12 | 0x32 | 0x52 | 0x72 | 0x92 | 0xB2 | 0xD2 | 0xF2 =>
      (cpu1 (jcond c (fun c => z2b (Z.land (A c) (bit (Z.land (Z.shiftr op 5) 7))))), 2)
  (* CALL / RET *)
  | 0x14 | 0x34 | 0x54 | 0x74 | 0x94 | 0xB4 | 0xD4 | 0xF4 =>
      let '(t, c) := ft c in
      let c := push8 (bpsw c) in
      (cpu1 (set_PC (jmp_target c op t) c), 2)
  | 0x83 => (cpu1 (pop_pc c), 2)
  | 0x93 => (cpu1 (set_in_irq false (set_irq_en true (pop_pc_psw c))), 2)
  (* Interrupts and timer *)
  | 0x05 => (cpu1 (set_ei_delay 1 (set_irq_en true c)), 1)
  | 0x15 => (cpu1 (set_irq_en false c), 1)
  | 0x25 => (cpu1 (set_tcnti_en true c), 1)
  | 0x35 => (cpu1 (set_tcnti_en false c), 1)
  | 0x55 => (cpu1 (set_tpre 0 (set_counter_en false (set_timer_en true c))), 1)
  | 0x45 => (cpu1 (set_tpre 0 (set_timer_en false (set_counter_en true c))), 1)
  | 0x65 => (cpu1 (set_tpre 0 (set_counter_en false (set_timer_en false c))), 1)
  | 0x42 => (cpu1 (set_A (timer c) c), 1)
  | 0x62 => (cpu1 (set_tpre 0 (set_timer (A c) c)), 1)
  (* PSW *)
  | 0xC7 => let c := bpsw c in (cpu1 (set_A (PSW c) c), 1)
  | 0xD7 =>
      let c := flags_of_psw (set_PSW (A c) c) in
      (cpu1 (set_SP (Z.land (PSW c) 7) c), 1)
  (* I/O ports *)
  | 0x08 => (cpu1 (set_A (av_port_read (cpu1 c) 0) c), 2)
  | 0x02 => let c := set_BUS (A c) c in (av_port_write (cpu1 c) 0 (A c), 2)
  | 0x88 =>
      let '(t, c) := ft c in
      let c := set_BUS (Z.lor (BUS c) t) c in (av_port_write (cpu1 c) 0 (BUS c), 2)
  | 0x98 =>
      let '(t, c) := ft c in
      let c := set_BUS (Z.land (BUS c) t) c in (av_port_write (cpu1 c) 0 (BUS c), 2)
  | 0x09 => (cpu1 (set_A (av_port_read (cpu1 c) 1) c), 2)
  | 0x0A => (cpu1 (set_A (av_port_read (cpu1 c) 2) c), 2)
  | 0x39 => let c := set_P1 (A c) c in (av_port_write (cpu1 c) 1 (A c), 2)
  | 0x3A => let c := set_P2 (A c) c in (av_port_write (cpu1 c) 2 (A c), 2)
  | 0x99 =>
      let '(t, c) := ft c in
      let c := set_P1 (Z.land (P1 c) t) c in (av_port_write (cpu1 c) 1 (P1 c), 2)
  | 0x9A =>
      let '(t, c) := ft c in
      let c := set_P2 (Z.land (P2 c) t) c in (av_port_write (cpu1 c) 2 (P2 c), 2)
  | 0x89 =>
      let '(t, c) := ft c in
      let c := set_P1 (Z.lor (P1 c) t) c in (av_port_write (cpu1 c) 1 (P1 c), 2)
  | 0x8A =>
      let '(t, c) := ft c in
      let c := set_P2 (Z.lor (P2 c) t) c in (av_port_write (cpu1 c) 2 (P2 c), 2)
  (* MOVX A,@Rr: external RAM read, latched into the selected LED register *)
  | 0x80 | 0x81 =>
      let xval := xram_rd c (getR c (Z.land op 1)) in
      let c := set_A xval c in
      (av_led_latch (cpu1 c) (P2 c) xval, 2)
  (* MOVX @Rr,A *)
  | 0x90 | 0x91 => (cpu1 (xram_wr c (getR c (Z.land op 1)) (A c)), 2)
  (* MOVP *)
  | 0xA3 => (cpu1 (set_A (rom_rd c (Z.lor (Z.land (PC c) 0xF00) (A c))) c), 2)
  | 0xE3 => (cpu1 (set_A (rom_rd c (Z.lor 0x300 (A c))) c), 2)
  (* MOVD: the 8243 expander is not connected *)
  | 0x0C | 0x0D | 0x0E | 0x0F => (cpu1 (set_A 0x0F c), 2)
  | 0x3C | 0x3D | 0x3E | 0x3F => (cpu1 c, 2)
  | 0x8C | 0x8D | 0x8E | 0x8F => (cpu1 c, 2)
  | 0x9C | 0x9D | 0x9E | 0x9F => (cpu1 c, 2)
  (* ENT0 CLK *)
  | 0x75 => (cpu1 c, 1)
  (* unknown opcode: logged, no effect *)
  | _ => (cpu1 c, 1)
  end.

(** [i8048_exec]: execute one instruction of the CPU of [av]; returns the
    new system and the number of machine cycles. *)
Definition i8048_exec (av : AV) : AV * Z :=
  let '(op, c) := ft (cpu av) in
  let '(av, cy) := exec_op av c op in
  (set_cpu (exec_tail (cpu av) cy) av, cy).

(** ** System: power-up, soft reset, frame step *)

(** [memset(&cpu, 0, sizeof(I8048))]. *)
Definition cpu_zero : I8048 :=
  {| A := 0; PC := 0; PSW := 0; SP := 0; MB := false; C := false; AC := false; F0 := false;
     F1 := false; BS := false; timer := 0; timer_en := false; counter_en := false;
     timer_ovf := false; tcnti_en := false; t0 := false; t1 := false; P1 := 0; P2 := 0;
     BUS := 0; irq_en := false; irq_pend := false; in_irq := false; ei_delay := 0;
     iram := replicate (Z.to_nat IRAM_SZ) 0; irom := replicate (Z.to_nat IROM_SZ) 0; erom := replicate (Z.to_nat EROM_SZ) 0;
     xram := replicate 1024 0; cycles := 0; tpre := 0 |}.

Definition input_zero : AVInput :=
  {| inp_u := false; inp_d := false; inp_l := false; inp_r := false;
     inp_b1 := false; inp_b2 := false; inp_b3 := false; inp_b4 := false |}.

(** [memset(a + off, v, n)] on a byte array. *)
Definition memset (a : list Z) (off : Z) (v : Z) (n : Z) : list Z :=
  for_range n (fun i a => wr a (off + i) v) a.

(** The hardware reset values of the CPU: P1, P2, T0 and external RAM
    banks 1-3 (shared by [av_init] and [av_reset]). *)
Definition cpu_power_on (c : I8048) : I8048 :=
  let c := set_P1 0xFB c in
  let c := set_P2 0xFF c in
  let c := set_t0 true c in
  set_xram (memset (xram c) 0x100 0xFF 0x300) c.

(** ["advision.sav"] in a zeroed [char[128]]. *)
Definition default_save_name : list Z :=
  [97; 100; 118; 105; 115; 105; 111; 110; 46; 115; 97; 118] ++ replicate 116 0.

(** [av_init]: power-up state. *)
Definition av_init : AV :=
  {| cpu := cpu_power_on cpu_zero;
     disp := {| phosphor := replicate (Z.to_nat (SW * SH)) f32_zero;
                col_data := replicate 150 (replicate 5 0);
                cols_captured := 0;
                led_reg := replicate 5 0xFF;
                led_col := 0;
                led_active := false |};
     snd := cop411_init;
     input := input_zero;
     snd_volume := 7;
     dbg_active := false; dbg_stepping := false; dbg_bp := replicate 16 0; dbg_bp_count := 0;
     running := true; paused := false; frame_count := 0;
     save_name := default_save_name;
     cfg_phosphor := DEF_PHOSPHOR;
     midframe_scan := true;
     t1_pulse_start := DEF_T1_START; t1_pulse_end := DEF_T1_END;
     disp_sync_cycle := 0; disp_sync_seen := false;
     prev_p2 := 0 |}.

(** [av_reset]: soft reset.  The ROM images, the display registers, the
    volume, the save name and the COP411L control register are saved and
    restored around the clearing. *)
Definition av_reset (av : AV) : AV :=
  let irom_bak := irom (cpu av) in
  let erom_bak := erom (cpu av) in
  let disp_bak := disp av in
  let vol := snd_volume av in
  let sname := save_name av in
  let ctrl_loop_bak := ctrl_loop (snd av) in
  let ctrl_vol_bak := ctrl_vol (snd av) in
  let ctrl_fast_bak := ctrl_fast (snd av) in
  let av := set_cpu cpu_zero av in
  let av := set_input input_zero av in
  let av := set_cpu (cpu_power_on (cpu av)) av in
  let av := set_cpu (set_irom irom_bak (cpu av)) av in
  let av := set_cpu (set_erom erom_bak (cpu av)) av in
  let av := set_disp disp_bak av in
  let av := set_disp (set_phosphor (replicate (length (phosphor (disp av))) f32_zero)
                                   (disp av)) av in
  let av := set_snd_volume vol av in
  let av := set_snd cop411_init av in
  let av := set_snd (set_ctrl_loop ctrl_loop_bak (snd av)) av in
  let av := set_snd (set_ctrl_vol ctrl_vol_bak (snd av)) av in
  let av := set_snd (set_ctrl_fast ctrl_fast_bak (snd av)) av in
  let av := set_snd (cop411_update_ctrl_vol (snd av)) av in
  let av := set_frame_count 0 av in
  let av := set_paused false av in
  set_save_name sname av.

(** The debugger check at the head of the frame loop: a breakpoint at PC
    sets [stepping]. *)
Definition dbg_check (av : AV) : AV :=
  if dbg_active av then
    if existsb (fun i => rd (dbg_bp av) (Z.of_nat i) =? PC (cpu av))
               (seq 0 (Z.to_nat (dbg_bp_count av)))
    then set_dbg_stepping true av else av
  else av.

(** The body of the frame loop once the debugger lets it run: one
    instruction, then the T1 sensor, display sync, mid-frame capture and the
    T1 event counter. *)
Definition frame_iter (av : AV) (elapsed : Z) : AV * Z :=
  let prev_t1 := t1 (cpu av) in
  let '(av, cy) := i8048_exec av in
  let elapsed := elapsed + cy in
  let new_t1 := negb ((t1_pulse_start av <=? elapsed) && (elapsed <? t1_pulse_end av)) in
  let av :=
    if negb prev_t1 && new_t1 && negb (disp_sync_seen av) then
      let av := set_disp_sync_cycle elapsed av in
      let av := set_disp_sync_seen true av in
      set_disp (set_led_col 0 (disp av)) av
    else av in
  let av :=
    if midframe_scan av && negb (led_active (disp av)) && disp_sync_seen av then
      let disp_elapsed := elapsed - disp_sync_cycle av in
      if (0 <=? disp_elapsed) && (disp_elapsed <=? DISP_OUTPUT_CYCLES) then
        let col := Z.quot (disp_elapsed * SW) DISP_OUTPUT_CYCLES in
        if (0 <=? col) && (col <? SW)
        then with_disp (disp_capture_column (disp av) (xram (cpu av)) col) av
        else av
      else av
    else av in
  let av :=
    if counter_en (cpu av) && prev_t1 && negb new_t1
    then set_cpu (timer_tick (cpu av)) av else av in
  (set_cpu (set_t1 new_t1 (cpu av)) av, elapsed).

(** Outcome of the frame loop: the cycle budget is used up, or the debugger
    stopped it, or the model ran out of fuel. *)
Inductive frame_result : Type :=
  | FrameDone (av : AV) (elapsed : Z)
  | FrameStopped (av : AV) (elapsed : Z)
  | FrameFuel.

(** [while (elapsed < total) { ... }]. *)
Fixpoint frame_loop (fuel : nat) (av : AV) (elapsed : Z) : frame_result :=
  if elapsed <? CYCLES_PER_FR then
    match fuel with
    | O => FrameFuel
    | S fuel =>
        let av := dbg_check av in
        if dbg_active av && dbg_stepping av then FrameStopped av elapsed
        else let '(av, elapsed) := frame_iter av elapsed in frame_loop fuel av elapsed
    end
  else FrameDone av elapsed.

(** The head of [av_run_frame]: clear the sync state and the LED registers. *)
Definition frame_begin (av : AV) : AV :=
  let av := set_disp_sync_seen false av in
  let av := set_disp_sync_cycle 0 av in
  let d := disp av in
  let d := set_led_reg (memset (led_reg d) 0 0xFF 5) d in
  let d := set_led_col 0 d in
  let d := set_led_active false d in
  set_disp d av.

(** The tail of [av_run_frame]: the video-RAM fallback capture, the
    phosphor update and the frame counter. *)
Definition frame_end (av : AV) : AV :=
  let av :=
    if negb (led_active (disp av)) && negb (midframe_scan av) then
      for_range SW (fun col av =>
        with_disp (disp_capture_column (disp av) (xram (cpu av)) col) av) av
    else av in
  let av := with_disp (disp_update (disp av) (cfg_phosphor av)) av in
  set_frame_count (s32 (frame_count av + 1)) av.

(** [av_run_frame]: one frame of CPU execution with T1 mirror timing.  Every
    instruction takes at least one cycle, so [CYCLES_PER_FR] iterations are
    enough fuel ([frame_loop_done]).  The rewind snapshot pushed at the end
    of the frame copies the state and does not change it; it is left out. *)
Definition av_run_frame (av : AV) : AV :=
  match frame_loop (Z.to_nat CYCLES_PER_FR) (frame_begin av) 0 with
  | FrameDone av _ => frame_end av
  | FrameStopped av _ => av
  | FrameFuel => av
  end.

(** [n] successive writes to port P2. *)
Definition p2_writes (av : AV) (vals : list Z) : AV :=
  fold_left (fun a v => av_port_write a 2 v) vals av.

(** ** Savestate loader

    The savestate file is a byte sequence ([None]: the file cannot be
    opened).  Fields are little-endian and fixed-width.  The loader reads
    field after field into the live CPU and sound state with
    [ok = ok && fread(...) == 1], so a short file leaves the state partly
    overwritten until the backup taken before the first read is restored. *)

(** Little-endian bytes of an unsigned integer, and back. *)
Fixpoint le_bytes (n : nat) (v : Z) : list Z :=
  match n with
  | O => []
  | S n => v mod 256 :: le_bytes n (v / 256)
  end.

Fixpoint le_int (b : list Z) : Z :=
  match b with
  | [] => 0
  | x :: b => x + 256 * le_int b
  end.

(** The 32-bit word stored for a [float]. *)
Definition f32_to_bits (x : spec_float) : Z :=
  match x with
  | S754_zero s => Z.shiftl (b2z s) 31
  | S754_infinity s => Z.lor (Z.shiftl (b2z s) 31) 0x7F800000
  | S754_nan => 0x7FC00000
  | S754_finite s m e =>
      if Zpos m <? 0x800000 then Z.lor (Z.shiftl (b2z s) 31) (Zpos m)
      else Z.lor (Z.shiftl (b2z s) 31)
                 (Z.lor (Z.shiftl (e + 150) 23) (Zpos m - 0x800000))
  end.

Arguments f32_to_bits : simpl never.

(** Reader state: the [ok] flag of [load_state] and the unread bytes. *)
Record reader : Type := mk_reader { rd_ok : bool; rd_in : list Z }.

(** [ok = ok && fread(buf, n, 1, f) == 1] for a buffer holding [buf]: nothing
    is read once [ok] is false; a short read fails and leaves in the buffer
    the bytes that were available. *)
Definition fread (n : nat) (buf : list Z) (r : reader) : list Z * reader :=
  if rd_ok r then
    if (n <=? length (rd_in r))%nat
    then (take n (rd_in r), {| rd_ok := true; rd_in := drop n (rd_in r) |})
    else (rd_in r ++ drop (length (rd_in r)) buf, {| rd_ok := false; rd_in := [] |})
  else (buf, r).

(** Read an unsigned integer field of [n] bytes whose old value is [old]. *)
Definition fread_u (n : nat) (old : Z) (r : reader) : Z * reader :=
  let '(b, r) := fread n (le_bytes n old) r in (le_int b, r).

(** Read an [int32_t] field. *)
Definition fread_i32 (old : Z) (r : reader) : Z * reader :=
  let '(v, r) := fread_u 4 (u32 old) r in (s32 v, r).

(** Read a [float] field. *)
Definition fread_f32 (old : spec_float) (r : reader) : spec_float * reader :=
  let '(v, r) := fread_u 4 (f32_to_bits old) r in (f32_of_bits v, r).

(** The 16 bytes of a [SndStep]: [freq], [noise] and three padding bytes,
    [dur_ms], [volume]. *)
Definition step_bytes (s : SndStep) : list Z :=
  le_bytes 4 (f32_to_bits (freq s)) ++ [b2z (noise s); 0; 0; 0] ++
  le_bytes 4 (u32 (dur_ms s)) ++ le_bytes 4 (f32_to_bits (volume s)).

Definition step_of_bytes (b : list Z) : SndStep :=
  {| freq := f32_of_bits (le_int (take 4 b));
     noise := z2b (rd b 4);
     dur_ms := s32 (le_int (take 4 (drop 8 b)));
     volume := f32_of_bits (le_int (take 4 (drop 12 b))) |}.

(** The bytes of the step array, and the array stored in 256 bytes. *)
Definition steps_bytes (l : list SndStep) : list Z := concat (map step_bytes l).

Fixpoint steps_of_bytes (n : nat) (b : list Z) : list SndStep :=
  match n with
  | O => []
  | S n => step_of_bytes (take 16 b) :: steps_of_bytes n (drop 16 b)
  end.

(** The CPU fields of the file, read in place; the two flag bytes are
    locals decoded after the [ok] check. *)
Definition read_cpu (c : I8048) (r : reader) : I8048 * Z * Z * reader :=
  let '(v, r) := fread_u 1 (A c) r in let c := set_A v c in
  let '(v, r) := fread_u 2 (PC c) r in let c := set_PC v c in
  let '(v, r) := fread_u 1 (PSW c) r in let c := set_PSW v c in
  let '(v, r) := fread_u 1 (SP c) r in let c := set_SP v c in
  let '(flags, r) := fread_u 1 0 r in
  let '(flags2, r) := fread_u 1 0 r in
  let '(v, r) := fread_u 1 (timer c) r in let c := set_timer v c in
  let '(v, r) := fread_u 1 (P1 c) r in let c := set_P1 v c in
  let '(v, r) := fread_u 1 (P2 c) r in let c := set_P2 v c in
  let '(v, r) := fread_u 1 (BUS c) r in let c := set_BUS v c in
  let '(b, r) := fread 64 (iram c) r in let c := set_iram b c in
  let '(b, r) := fread 1024 (xram c) r in let c := set_xram b c in
  let '(v, r) := fread_u 4 0 r in let c := set_tpre (s32 v) c in
  let '(v, r) := fread_u 8 (cycles c) r in let c := set_cycles v c in
  (c, flags, flags2, r).

(** The COP411L fields of the file, read in place. *)
Definition read_snd (s : COP411L) (r : reader) : COP411L * reader :=
  let '(v, r) := fread_u 1 (ctrl_loop s) r in let s := set_ctrl_loop v s in
  let '(v, r) := fread_u 1 (ctrl_vol s) r in let s := set_ctrl_vol v s in
  let '(v, r) := fread_u 1 (ctrl_fast s) r in let s := set_ctrl_fast v s in
  let '(v, r) := fread_u 1 (proto_state s) r in let s := set_proto_state v s in
  let '(v, r) := fread_u 1 (proto_hi s) r in let s := set_proto_hi v s in
  let '(v, r) := fread_u 2 (lfsr s) r in let s := set_lfsr v s in
  let '(b, r) := fread_u 1 0 r in let s := set_active (z2b b) s in
  let '(b, r) := fread_u 1 b r in let s := set_is_noise (z2b b) s in
  let '(v, r) := fread_u 1 (command s) r in let s := set_command v s in
  let '(x, r) := fread_f32 (cur_freq s) r in let s := set_cur_freq x s in
  let '(x, r) := fread_f32 (cur_vol s) r in let s := set_cur_vol x s in
  let '(v, r) := fread_u 4 (phase_acc s) r in let s := set_phase_acc v s in
  let '(v, r) := fread_u 4 (phase_inc s) r in let s := set_phase_inc v s in
  let '(i, r) := fread_i32 0 r in let s := set_cur_step i s in
  let '(i, r) := fread_i32 i r in let s := set_step_count i s in
  let '(i, r) := fread_i32 i r in let s := set_step_samples_left i s in
  let '(i, r) := fread_i32 i r in let s := set_segment i s in
  let '(i, r) := fread_i32 i r in let s := set_seg_samples_left i s in
  let '(i, r) := fread_i32 i r in let s := set_seg_samples_total i s in
  let '(x, r) := fread_f32 (seg1_vol s) r in let s := set_seg1_vol x s in
  let '(x, r) := fread_f32 (seg2_vol s) r in let s := set_seg2_vol x s in
  let '(b, r) := fread 256 (steps_bytes (steps s)) r in
  let s := set_steps (steps_of_bytes 16 b) s in
  (s, r).

(** After a complete read: decode the flag bytes, mask PC and SP, pin T0,
    keep the ROM images of the backup. *)
Definition load_fixup_cpu (c cpu_bak : I8048) (flags flags2 : Z) : I8048 :=
  let c := set_MB (z2b (Z.land flags 1)) c in
  let c := set_C (z2b (Z.land (Z.shiftr flags 1) 1)) c in
  let c := set_AC (z2b (Z.land (Z.shiftr flags 2) 1)) c in
  let c := set_F0 (z2b (Z.land (Z.shiftr flags 3) 1)) c in
  let c := set_F1 (z2b (Z.land (Z.shiftr flags 4) 1)) c in
  let c := set_BS (z2b (Z.land (Z.shiftr flags 5) 1)) c in
  let c := set_timer_en (z2b (Z.land (Z.shiftr flags 6) 1)) c in
  let c := set_counter_en (z2b (Z.land (Z.shiftr flags 7) 1)) c in
  let c := set_timer_ovf (z2b (Z.land flags2 1)) c in
  let c := set_tcnti_en (z2b (Z.land (Z.shiftr flags2 1) 1)) c in
  let c := set_irq_en (z2b (Z.land (Z.shiftr flags2 2) 1)) c in
  let c := set_irq_pend (z2b (Z.land (Z.shiftr flags2 3) 1)) c in
  let c := set_in_irq (z2b (Z.land (Z.shiftr flags2 4) 1)) c in
  let c := set_PC (Z.land (PC c) 0xFFF) c in
  let c := set_SP (Z.land (SP c) 7) c in
  let c := set_t0 true c in
  let c := set_irom (irom cpu_bak) c in
  set_erom (erom cpu_bak) c.

(** Sanitising of one loaded step. *)
Definition sanitize_step (st : SndStep) : SndStep :=
  let f := if negb (f32_isfinite (freq st)) || SFltb (freq st) f32_zero
           then f32_zero else freq st in
  let v := if negb (f32_isfinite (volume st)) then f32_zero else volume st in
  let v := if SFltb v f32_zero then f32_zero else v in
  let v := if SFltb (f32_of_Z 2) v then f32_one else v in
  let d := if dur_ms st <? 0 then 1 else dur_ms st in
  {| freq := f; noise := noise st; dur_ms := d; volume := v |}.

(** Sanitising of the loaded sound fields, in the order of the source:
    the noise register and the control and protocol fields, ... *)
Definition sanitize_ctrl (s : COP411L) : COP411L :=
  let s := if lfsr s =? 0 then set_lfsr 0x7FFF s else s in
  let s := set_ctrl_loop (Z.land (ctrl_loop s) 1) s in
  let s := set_ctrl_vol (Z.land (ctrl_vol s) 3) s in
  let s := set_ctrl_fast (Z.land (ctrl_fast s) 1) s in
  let s := if 3 <? proto_state s then set_proto_state 0 s else s in
  set_proto_hi (Z.land (proto_hi s) 0x0F) s.

(** ... the sequencer cursor and the sample counters, ... *)
Definition sanitize_cursor (s : COP411L) : COP411L :=
  let s := if (step_count s <? 0) || (MAX_SND_STEPS <? step_count s)
           then set_step_count 0 s else s in
  let s := if (cur_step s <? 0) || (step_count s <=? cur_step s)
           then set_cur_step 0 s else s in
  let s := if (segment s <? 0) || (1 <? segment s) then set_segment 0 s else s in
  let s := if step_samples_left s <? 0 then set_step_samples_left 0 s else s in
  let s := if seg_samples_left s <? 0 then set_seg_samples_left 0 s else s in
  if seg_samples_total s <? 0 then set_seg_samples_total 0 s else s.

(** ... the frequency and the volumes (NaN and infinities rejected), ... *)
Definition sanitize_levels (s : COP411L) : COP411L :=
  let s := if negb (f32_isfinite (cur_freq s)) || SFltb (cur_freq s) f32_zero
           then set_cur_freq f32_zero s else s in
  let s := if negb (f32_isfinite (cur_vol s)) || SFltb (cur_vol s) f32_zero
           then set_cur_vol f32_zero s else s in
  let s := if SFltb (f32_of_Z 2) (cur_vol s) then set_cur_vol f32_one s else s in
  let s := if negb (f32_isfinite (seg1_vol s)) then set_seg1_vol f32_one s else s in
  if negb (f32_isfinite (seg2_vol s)) then set_seg2_vol f32_half s else s.

(** ... and the first [step_count] steps of the script. *)
Definition sanitize_steps (s : COP411L) : COP411L :=
  for_range (step_count s) (fun si s =>
    set_step si (sanitize_step (default zero_step (steps s !! Z.to_nat si))) s) s.

Definition sanitize_snd (s : COP411L) : COP411L :=
  cop411_update_ctrl_vol (sanitize_steps (sanitize_levels (sanitize_cursor (sanitize_ctrl s)))).

(** [load_state]: returns the new system and the success flag. *)
Definition load_state (av : AV) (file : option (list Z)) : AV * bool :=
  match file with
  | None => (av, false)
  | Some f =>
      let r := {| rd_ok := true; rd_in := f |} in
      let '(magic, r) := fread_u 4 0 r in
      if negb (rd_ok r) || negb (magic =? SAVE_MAGIC) then (av, false)
      else
        let '(ver, r) := fread_u 4 0 r in
        if negb (rd_ok r) || negb (ver =? SAVE_VER) then (av, false)
        else
          let cpu_bak := cpu av in
          let snd_bak := snd av in
          let '(c, flags, flags2, r) := read_cpu (cpu av) r in
          let av := set_cpu c av in
          let '(s, r) := read_snd (snd av) r in
          let av := set_snd s av in
          if negb (rd_ok r) then
            let av := set_cpu cpu_bak av in
            let av := set_snd snd_bak av in
            (av, false)
          else
            let av := set_cpu (load_fixup_cpu (cpu av) cpu_bak flags flags2) av in
            let av := set_snd (sanitize_snd (snd av)) av in
            (av, true)
  end.

(** The size of a complete savestate: 8 header bytes, 1111 bytes of CPU
    state, 314 bytes of sound state. *)
Definition SAVE_SIZE : nat := 1433.

(** ** Concrete machine states used as test inputs *)

(** Power-up state whose firmware starts with [EI; NOP], entered with a
    timer interrupt pending, interrupts enabled and none in service. *)
Definition ei_pending : AV :=
  let c := cpu av_init in
  let c := set_irom (wr (wr (irom c) 0 0x05) 1 0x00) c in
  let c := set_irq_pend true (set_irq_en true c) in
  set_cpu c av_init.

(** Power-up state whose firmware is filled with [0x04]: [JMP 0x004] at
    every address, a loop of 2-cycle instructions. *)
Definition jmp_loop : AV :=
  set_cpu (set_irom (replicate (Z.to_nat IROM_SZ) 0x04) (cpu av_init)) av_init.

(** A complete savestate: magic, version, every field zero. *)
Definition zero_blob : list Z :=
  le_bytes 4 SAVE_MAGIC ++ le_bytes 4 SAVE_VER ++ replicate 1425 0.

(** A frame with more strobes than columns: 160 P2.4 rising edges, then
    capture requests for columns 149, 150 and -1 of the power-up video RAM. *)
Definition strobe_storm : list disp_event :=
  replicate 160 EvStrobe ++
  [EvCapture (xram (cpu av_init)) 149; EvCapture (xram (cpu av_init)) 150;
   EvCapture (xram (cpu av_init)) (-1)].

(** A display with every pixel at half intensity and two captured columns
    whose bytes are all zero (every LED of columns 0 and 1 driven). *)
Definition lit_display : AVDisp :=
  set_cols_captured 2 (set_phosphor (replicate (Z.to_nat (SW * SH)) f32_half) (disp av_init)).

(** ** Auxiliary predicates *)

(** Fields of the CPU that the timer prescaler never writes. *)
Definition timer_frame (c c' : I8048) : Prop :=
  A c' = A c /\ PC c' = PC c /\ PSW c' = PSW c /\ SP c' = SP c /\
  P1 c' = P1 c /\ P2 c' = P2 c /\
  iram c' = iram c /\ xram c' = xram c /\ irom c' = irom c /\ erom c' = erom c /\
  irq_en c' = irq_en c /\ in_irq c' = in_irq c /\ ei_delay c' = ei_delay c /\
  cycles c' = cycles c /\ C c' = C c /\ AC c' = AC c /\ F0 c' = F0 c /\ BS c' = BS c /\
  (irq_pend c = true -> irq_pend c' = true).

(** The sequencer cursor of a sanitised sound state. *)
Definition cursor_ok (s : COP411L) : Prop :=
  0 <= step_count s <= MAX_SND_STEPS /\
  0 <= cur_step s /\
  (cur_step s < step_count s \/ (step_count s = 0 /\ cur_step s = 0)).

(** The number of machine cycles [av_run_frame] has counted in [elapsed]
    when its loop ends normally; [None] when the debugger stops the frame. *)
Definition frame_cycles (av : AV) : option Z :=
  match frame_loop (Z.to_nat CYCLES_PER_FR) (frame_begin av) 0 with
  | FrameDone _ elapsed => Some elapsed
  | _ => None
  end.

(** What the opcode switch guarantees whatever the opcode: 1 or 2 cycles
    returned, the debugger switch and the cycle counter left alone. *)
Definition op_ok (av : AV) (c : I8048) (r : AV * Z) : Prop :=
  (r.2 = 1 \/ r.2 = 2) /\ dbg_active r.1 = dbg_active av /\ cycles (cpu r.1) = cycles c.

(** What one instruction, and one iteration of the frame loop, guarantee:
    [n] cycles with [n] 1 or 2, added to the CPU's cycle counter; the
    debugger switch left alone. *)
Definition step_ok (av : AV) (n : Z) (av' : AV) : Prop :=
  (n = 1 \/ n = 2) /\ dbg_active av' = dbg_active av /\
  cycles (cpu av') = u64 (cycles (cpu av) + n).

(** Power-up state with the debugger active and single-stepping. *)
Definition dbg_halted : AV := set_dbg_stepping true (set_dbg_active true av_init).

(** ** Packed BCD *)

(** The packed BCD byte of a number below 100: tens in the high nibble,
    units in the low nibble. *)
Definition bcd (n : Z) : Z := (n / 10) * 16 + n mod 10.

(** Decimal addition of two packed BCD bytes with [ADD]/[ADDC] and [DA A],
    checked against the decimal sum. *)
Definition bcd_add_ok (x y cin : Z) : bool :=
  let c := daa (add_a (set_A (bcd x) cpu_zero) (bcd y) cin) in
  (A c =? bcd ((x + y + cin) mod 100)) && Bool.eqb (C c) (100 <=? x + y + cin).

(** ** Machine shape *)

(** What no CPU operation changes: the two ROM images and the sizes of
    internal and external RAM. *)
Definition cpu_keeps (c c' : I8048) : Prop :=
  irom c' = irom c /\ erom c' = erom c /\
  length (iram c') = length (iram c) /\ length (xram c') = length (xram c).

(** A display whose arrays have their C sizes and whose captured-column
    count is at most [SW]. *)
Definition disp_ok (d : AVDisp) : Prop := disp_wf d /\ cols_captured d <= SW.

(** A system whose RAM arrays and display arrays have their C sizes. *)
Definition sys_wf (av : AV) : Prop :=
  length (iram (cpu av)) = Z.to_nat IRAM_SZ /\
  length (xram (cpu av)) = Z.to_nat XRAM_SZ /\
  disp_ok (disp av).

(** What the CPU cannot reach: the frame counter, the buttons and the
    configuration of the emulator. *)
Definition env_same (av av' : AV) : Prop :=
  frame_count av' = frame_count av /\ input av' = input av /\
  snd_volume av' = snd_volume av /\ cfg_phosphor av' = cfg_phosphor av /\
  midframe_scan av' = midframe_scan av /\
  t1_pulse_start av' = t1_pulse_start av /\ t1_pulse_end av' = t1_pulse_end av /\
  running av' = running av /\ paused av' = paused av /\ save_name av' = save_name av.

(** What the opcode switch guarantees for the machine's shape. *)
Definition op_keeps (av : AV) (c : I8048) (r : AV * Z) : Prop :=
  cpu_keeps c (cpu r.1) /\ env_same av r.1 /\ (disp_ok (disp av) -> disp_ok (disp r.1)).

(** What holds of the system all along a frame started from [av0]: the
    arrays keep their sizes, the ROM images and the environment are those
    of [av0]. *)
Definition frame_inv (av0 av : AV) : Prop :=
  sys_wf av /\ irom (cpu av) = irom (cpu av0) /\ erom (cpu av) = erom (cpu av0) /\
  env_same av0 av.

(** ** Sound engine: script cursor *)

(** The step script fits its array; the cursor is inside the script
    while an effect plays, and at most just past its end otherwise. *)
Definition script_ok (s : COP411L) : Prop :=
  length (steps s) = Z.to_nat MAX_SND_STEPS /\
  0 <= cur_step s /\ cur_step s <= step_count s /\ step_count s <= MAX_SND_STEPS /\
  (active s = true -> 0 < step_count s -> cur_step s < step_count s).

(** What a sound command leaves alone in [s0], and what it leaves behind:
    a script of [n] steps with the cursor at its start. *)
Definition effect_inv (s0 : COP411L) (n : Z) (s : COP411L) : Prop :=
  proto_state s = proto_state s0 /\ proto_hi s = proto_hi s0 /\ lfsr s = lfsr s0 /\
  ctrl_loop s = ctrl_loop s0 /\ ctrl_vol s = ctrl_vol s0 /\ ctrl_fast s = ctrl_fast s0 /\
  length (steps s) = length (steps s0) /\ cur_step s = 0 /\ step_count s = n.

(** ** Sound engine: sample generation *)

Definition f32_neg_one : spec_float := Eval vm_compute in f32_of_Z (-1).

(** The "load new step" block of [cop411_sample], with its defensive
    bounds check on the cursor. *)
Definition sample_load_step (s : COP411L) : COP411L :=
  if (cur_step s <? 0) || (MAX_SND_STEPS <=? cur_step s) then set_active false s
  else
    let st := default zero_step (steps s !! Z.to_nat (cur_step s)) in
    let s := set_cur_freq (freq st) s in
    let s := set_is_noise (noise st) s in
    let s := set_cur_vol (volume st) s in
    let s := set_phase_inc (freq_to_phase_inc (freq st)) s in
    let s := set_step_samples_left (Z.quot (s32 (dur_ms st * AUDIO_RATE)) 1000) s in
    if step_samples_left s <? 1 then set_step_samples_left 1 s else s.

(** [cop411_sample]: one audio sample; returns the new engine state and
    the sample.  The decrements and increments of the [int] counters wrap
    as 32-bit integers. *)
Definition cop411_sample (s : COP411L) : COP411L * spec_float :=
  if negb (active s) then (s, f32_zero)
  else
    let '(s, out) :=
      if is_noise s then
        let s := set_phase_acc (u32 (phase_acc s + phase_inc s)) s in
        let s := if phase_acc s <? phase_inc s then (lfsr_clock s).1 else s in
        (s, if z2b (Z.land (lfsr s) 1) then f32_one else f32_neg_one)
      else
        let s := set_phase_acc (u32 (phase_acc s + phase_inc s)) s in
        (s, if z2b (Z.land (phase_acc s) 0x80000000) then f32_one else f32_neg_one) in
    let out := f32_mul out (cur_vol s) in
    let s :=
      if 0 <? step_count s then
        let s := set_step_samples_left (s32 (step_samples_left s - 1)) s in
        if step_samples_left s <=? 0 then
          let s := set_cur_step (s32 (cur_step s + 1)) s in
          if step_count s <=? cur_step s then
            if z2b (chain_cmd s) then cop411_build_effect s (chain_cmd s) 0
            else
              let should_loop :=
                if force_no_loop s then false
                else if force_loop s then true
                else z2b (ctrl_loop s) in
              if should_loop then
                sample_load_step
                  (if command s =? 0x05 then set_cur_step (s32 (step_count s - 1)) s
                   else set_cur_step 0 s)
              else set_active false s
          else sample_load_step s
        else s
      else
        let s := set_seg_samples_left (s32 (seg_samples_left s - 1)) s in
        if seg_samples_left s <=? 0 then
          if segment s =? 0 then
            let s := set_segment 1 s in
            let s := set_cur_vol (seg2_vol s) s in
            let seg2_ms := if z2b (ctrl_fast s) then 104 else 240 in
            set_seg_samples_left (Z.quot (seg2_ms * AUDIO_RATE) 1000) s
          else if z2b (ctrl_loop s) then
            let s := set_segment 0 s in
            let s := set_cur_vol (seg1_vol s) s in
            set_seg_samples_left (seg_samples_total s) s
          else set_active false s
        else s in
    (s, out).

(** [n] successive samples, as the audio callback draws them. *)
Definition cop411_samples (n : nat) (s : COP411L) : COP411L :=
  Nat.iter n (fun x => (cop411_sample x).1) s.

(** The lengths in samples of the two segments of a pure tone. *)
Definition seg1_samples (s : COP411L) : Z :=
  Z.quot ((if z2b (ctrl_fast s) then 46 else 117) * AUDIO_RATE) 1000.
Definition seg2_samples (s : COP411L) : Z :=
  Z.quot ((if z2b (ctrl_fast s) then 104 else 240) * AUDIO_RATE) 1000.

(** A pure tone started from [s0], [k] samples later. *)
Definition tone_inv (s0 : COP411L) (k : Z) (s : COP411L) : Prop :=
  step_count s = 0 /\ ctrl_loop s = ctrl_loop s0 /\ ctrl_fast s = ctrl_fast s0 /\
  seg1_vol s = seg1_vol s0 /\ seg2_vol s = seg2_vol s0 /\
  seg_samples_total s = seg1_samples s0 /\
  ((k < seg1_samples s0 /\ active s = true /\ segment s = 0 /\
    seg_samples_left s = seg1_samples s0 - k /\ cur_vol s = seg1_vol s0) \/
   (seg1_samples s0 <= k < seg1_samples s0 + seg2_samples s0 /\ active s = true /\
    segment s = 1 /\ seg_samples_left s = seg1_samples s0 + seg2_samples s0 - k /\
    cur_vol s = seg2_vol s0) \/
   (seg1_samples s0 + seg2_samples s0 <= k /\ active s = false)).

(** ** Rewind ring buffer

    The rewind fields of the system ([rewind_buf], [rewind_head],
    [rewind_count]) are kept in a record of their own, passed along with the
    system.  [rewind_buf] is a heap pointer: [None] is the null pointer the
    code tests for, [Some buf] the array of [REWIND_FRAMES] snapshots. *)

Definition REWIND_FRAMES : Z := 120.

Record RewindSnap : Type := mk_RewindSnap {
  rs_A : Z; rs_PSW : Z; rs_SP : Z; rs_P1 : Z; rs_P2 : Z; rs_BUS : Z; rs_timer : Z;
  rs_PC : Z; rs_flags : Z; rs_flags2 : Z; rs_tpre : Z;
  rs_iram : list Z; rs_xram : list Z; rs_phosphor : list spec_float;
  rs_snd_ctrl_loop : Z; rs_snd_ctrl_vol : Z; rs_snd_ctrl_fast : Z;
  rs_snd_proto_state : Z; rs_snd_proto_hi : Z; rs_snd_lfsr : Z
}.

Record Rewind : Type := mk_Rewind {
  rewind_buf : option (list RewindSnap);
  rewind_head : Z;
  rewind_count : Z
}.

(** The two flag bytes of a snapshot (and of a savestate). *)
Definition pack_flags (c : I8048) : Z :=
  u8 (Z.lor (Z.lor (Z.lor (Z.lor (Z.lor (Z.lor (Z.lor
        (b2z (MB c)) (Z.shiftl (b2z (C c)) 1)) (Z.shiftl (b2z (AC c)) 2))
        (Z.shiftl (b2z (F0 c)) 3)) (Z.shiftl (b2z (F1 c)) 4)) (Z.shiftl (b2z (BS c)) 5))
        (Z.shiftl (b2z (timer_en c)) 6)) (Z.shiftl (b2z (counter_en c)) 7)).

Definition pack_flags2 (c : I8048) : Z :=
  u8 (Z.lor (Z.lor (Z.lor (Z.lor
        (b2z (timer_ovf c)) (Z.shiftl (b2z (tcnti_en c)) 1)) (Z.shiftl (b2z (irq_en c)) 2))
        (Z.shiftl (b2z (irq_pend c)) 3)) (Z.shiftl (b2z (in_irq c)) 4)).

(** The snapshot [rewind_push] takes of the system. *)
Definition snap_of (av : AV) : RewindSnap :=
  let c := cpu av in
  {| rs_A := A c; rs_PSW := PSW c; rs_SP := SP c; rs_P1 := P1 c; rs_P2 := P2 c;
     rs_BUS := BUS c; rs_timer := timer c; rs_PC := PC c;
     rs_flags := pack_flags c; rs_flags2 := pack_flags2 c; rs_tpre := tpre c;
     rs_iram := iram c; rs_xram := xram c; rs_phosphor := phosphor (disp av);
     rs_snd_ctrl_loop := ctrl_loop (snd av); rs_snd_ctrl_vol := ctrl_vol (snd av);
     rs_snd_ctrl_fast := ctrl_fast (snd av); rs_snd_proto_state := proto_state (snd av);
     rs_snd_proto_hi := proto_hi (snd av); rs_snd_lfsr := lfsr (snd av) |}.

(** [rewind_push]: store a snapshot at the head, advance the head around
    the ring, count up to the capacity.  Nothing happens on a null buffer;
    [None] is the write outside the array. *)
Definition rewind_push (av : AV) (rw : Rewind) : option Rewind :=
  match rewind_buf rw with
  | None => Some rw
  | Some buf =>
      match store buf (rewind_head rw) (snap_of av) with
      | Some buf =>
          Some {| rewind_buf := Some buf;
                  rewind_head := Z.rem (s32 (rewind_head rw + 1)) REWIND_FRAMES;
                  rewind_count := if rewind_count rw <? REWIND_FRAMES
                                  then s32 (rewind_count rw + 1) else rewind_count rw |}
      | None => None
      end
  end.

(** The restore half of [rewind_pop]. *)
Definition restore_snap (s : RewindSnap) (av : AV) : AV :=
  let c := cpu av in
  let c := set_A (rs_A s) c in
  let c := set_PC (rs_PC s) c in
  let c := set_PSW (rs_PSW s) c in
  let c := set_SP (rs_SP s) c in
  let c := set_P1 (rs_P1 s) c in
  let c := set_P2 (rs_P2 s) c in
  let c := set_BUS (rs_BUS s) c in
  let c := set_timer (rs_timer s) c in
  let c := set_tpre (rs_tpre s) c in
  let c := set_MB (z2b (Z.land (rs_flags s) 1)) c in
  let c := set_C (z2b (Z.land (Z.shiftr (rs_flags s) 1) 1)) c in
  let c := set_AC (z2b (Z.land (Z.shiftr (rs_flags s) 2) 1)) c in
  let c := set_F0 (z2b (Z.land (Z.shiftr (rs_flags s) 3) 1)) c in
  let c := set_F1 (z2b (Z.land (Z.shiftr (rs_flags s) 4) 1)) c in
  let c := set_BS (z2b (Z.land (Z.shiftr (rs_flags s) 5) 1)) c in
  let c := set_timer_en (z2b (Z.land (Z.shiftr (rs_flags s) 6) 1)) c in
  let c := set_counter_en (z2b (Z.land (Z.shiftr (rs_flags s) 7) 1)) c in
  let c := set_timer_ovf (z2b (Z.land (rs_flags2 s) 1)) c in
  let c := set_tcnti_en (z2b (Z.land (Z.shiftr (rs_flags2 s) 1) 1)) c in
  let av := set_prev_p2 (P2 c) av in
  let c := set_ei_delay 0 c in
  let c := set_irq_en (z2b (Z.land (Z.shiftr (rs_flags2 s) 2) 1)) c in
  let c := set_irq_pend (z2b (Z.land (Z.shiftr (rs_flags2 s) 3) 1)) c in
  let c := set_in_irq (z2b (Z.land (Z.shiftr (rs_flags2 s) 4) 1)) c in
  let c := set_iram (rs_iram s) c in
  let c := set_xram (rs_xram s) c in
  let av := set_cpu c av in
  let av := set_disp (set_phosphor (rs_phosphor s) (disp av)) av in
  let sn := snd av in
  let sn := set_ctrl_loop (rs_snd_ctrl_loop s) sn in
  let sn := set_ctrl_vol (rs_snd_ctrl_vol s) sn in
  let sn := set_ctrl_fast (rs_snd_ctrl_fast s) sn in
  let sn := set_proto_state (rs_snd_proto_state s) sn in
  let sn := set_proto_hi (rs_snd_proto_hi s) sn in
  let sn := set_lfsr (rs_snd_lfsr s) sn in
  let sn := set_active false sn in
  set_snd sn av.

(** [rewind_pop]: step the head back around the ring and restore the
    snapshot found there; fails on a null or empty buffer.  [None] is the
    read outside the array. *)
Definition rewind_pop (av : AV) (rw : Rewind) : option (AV * Rewind * bool) :=
  match rewind_buf rw with
  | None => Some (av, rw, false)
  | Some buf =>
      if rewind_count rw <=? 0 then Some (av, rw, false)
      else
        let head := Z.rem (s32 (s32 (rewind_head rw - 1) + REWIND_FRAMES)) REWIND_FRAMES in
        let rw := {| rewind_buf := Some buf; rewind_head := head;
                     rewind_count := s32 (rewind_count rw - 1) |} in
        match load buf head with
        | Some s => Some (restore_snap s av, rw, true)
        | None => None
        end
  end.

(** The ring the code maintains: an allocated array of [REWIND_FRAMES]
    snapshots, the head inside it, the count at most the capacity. *)
Definition rewind_ok (rw : Rewind) : Prop :=
  (exists buf, rewind_buf rw = Some buf /\ length buf = Z.to_nat REWIND_FRAMES) /\
  0 <= rewind_head rw < REWIND_FRAMES /\ 0 <= rewind_count rw <= REWIND_FRAMES.

(** A freshly allocated ring, as [av_init] leaves it. *)
Definition rewind_empty : Rewind :=
  {| rewind_buf := Some (replicate (Z.to_nat REWIND_FRAMES) (snap_of av_init));
     rewind_head := 0; rewind_count := 0 |}.

(** The rewind key (F8 in [main]):
    [for (ri = 0; ri < 4; ri++) if (rewind_pop(&av)) rw++;], with the number
    of rounds as a parameter; [rw] counts the pops that succeeded. *)
Fixpoint rewind_pops (n : nat) (av : AV) (rw : Rewind) (cnt : Z) : option (AV * Rewind * Z) :=
  match n with
  | O => Some (av, rw, cnt)
  | S n =>
      match rewind_pop av rw with
      | Some (av, rw, ok) => rewind_pops n av rw (if ok then s32 (cnt + 1) else cnt)
      | None => None
      end
  end.

Definition rewind_key (av : AV) (rw : Rewind) : option (AV * Rewind * Z) :=
  rewind_pops 4 av rw 0.

(** ** ROM image loader *)

(** [load_file]: copy a ROM image into the buffer [dest] of capacity
    [max_sz].  The file is its byte sequence ([None]: it cannot be opened);
    [ftell] gives its length, and [fread] is asked for [(size_t)file_sz]
    bytes and delivers as many as the file has.  [None] is a write past the
    end of [dest]. *)
Definition load_file (dest : list Z) (max_sz : Z) (file : option (list Z))
  : option (list Z * bool) :=
  match file with
  | None => Some (dest, false)
  | Some f =>
      let file_sz := Z.of_nat (length f) in
      if file_sz =? 0 then Some (dest, false)
      else
        let file_sz := if max_sz <? file_sz then max_sz else file_sz in
        let n := Z.min (u64 file_sz) (Z.of_nat (length f)) in
        if n <=? Z.of_nat (length dest) then
          Some (take (Z.to_nat n) f ++ drop (Z.to_nat n) dest, n =? file_sz)
        else None
  end.

(** ** Savestate writer *)

(** The CPU block of a savestate, field after field as [save_state] writes
    it: the two flag bytes are those of a rewind snapshot, the RAM arrays
    are written whole, [tpre] as a 32-bit word. *)
Definition save_cpu (c : I8048) : list Z :=
  le_bytes 1 (A c) ++ le_bytes 2 (PC c) ++ le_bytes 1 (PSW c) ++ le_bytes 1 (SP c) ++
  le_bytes 1 (pack_flags c) ++ le_bytes 1 (pack_flags2 c) ++
  le_bytes 1 (timer c) ++ le_bytes 1 (P1 c) ++ le_bytes 1 (P2 c) ++ le_bytes 1 (BUS c) ++
  take (Z.to_nat IRAM_SZ) (iram c) ++ take (Z.to_nat XRAM_SZ) (xram c) ++
  le_bytes 4 (u32 (tpre c)) ++ le_bytes 8 (cycles c).

(** The COP411L block: the two booleans as one byte each, the six [int]
    fields as [int32_t], the whole step array. *)
Definition save_snd (s : COP411L) : list Z :=
  le_bytes 1 (ctrl_loop s) ++ le_bytes 1 (ctrl_vol s) ++ le_bytes 1 (ctrl_fast s) ++
  le_bytes 1 (proto_state s) ++ le_bytes 1 (proto_hi s) ++ le_bytes 2 (lfsr s) ++
  le_bytes 1 (b2z (active s)) ++ le_bytes 1 (b2z (is_noise s)) ++
  le_bytes 1 (command s) ++
  le_bytes 4 (f32_to_bits (cur_freq s)) ++ le_bytes 4 (f32_to_bits (cur_vol s)) ++
  le_bytes 4 (phase_acc s) ++ le_bytes 4 (phase_inc s) ++
  le_bytes 4 (u32 (cur_step s)) ++ le_bytes 4 (u32 (step_count s)) ++
  le_bytes 4 (u32 (step_samples_left s)) ++ le_bytes 4 (u32 (segment s)) ++
  le_bytes 4 (u32 (seg_samples_left s)) ++ le_bytes 4 (u32 (seg_samples_total s)) ++
  le_bytes 4 (f32_to_bits (seg1_vol s)) ++ le_bytes 4 (f32_to_bits (seg2_vol s)) ++
  steps_bytes (take (Z.to_nat MAX_SND_STEPS) (steps s)).

(** [save_state]: the file it leaves when the file can be opened and every
    [fwrite] succeeds (it returns [false] otherwise). *)
Definition save_state (av : AV) : list Z :=
  le_bytes 4 SAVE_MAGIC ++ le_bytes 4 SAVE_VER ++ save_cpu (cpu av) ++ save_snd (snd av).

(** Values of the C types of the saved fields: a [float] is a binary32
    value, an [int] a 32-bit integer. *)
Definition f32_valid (x : spec_float) : Prop := valid_binary 24 128 x = true.

Definition int_typed (v : Z) : Prop := -2147483648 <= v < 2147483648.

Definition step_typed (st : SndStep) : Prop :=
  f32_valid (freq st) /\ int_typed (dur_ms st) /\ f32_valid (volume st).

Definition cpu_typed (c : I8048) : Prop :=
  0 <= A c < 256 /\ 0 <= PC c < 65536 /\ 0 <= PSW c < 256 /\ 0 <= SP c < 256 /\
  0 <= timer c < 256 /\ 0 <= P1 c < 256 /\ 0 <= P2 c < 256 /\ 0 <= BUS c < 256 /\
  length (iram c) = Z.to_nat IRAM_SZ /\ length (xram c) = Z.to_nat XRAM_SZ /\
  int_typed (tpre c) /\ 0 <= cycles c < 18446744073709551616.

Definition snd_typed (s : COP411L) : Prop :=
  (0 <= ctrl_loop s < 256 /\ 0 <= ctrl_vol s < 256 /\ 0 <= ctrl_fast s < 256 /\
   0 <= proto_state s < 256 /\ 0 <= proto_hi s < 256 /\ 0 <= lfsr s < 65536 /\
   0 <= command s < 256) /\
  (f32_valid (cur_freq s) /\ f32_valid (cur_vol s) /\
   f32_valid (seg1_vol s) /\ f32_valid (seg2_vol s)) /\
  (0 <= phase_acc s < 4294967296 /\ 0 <= phase_inc s < 4294967296) /\
  (int_typed (cur_step s) /\ int_typed (step_count s) /\ int_typed (step_samples_left s) /\
   int_typed (segment s) /\ int_typed (seg_samples_left s) /\
   int_typed (seg_samples_total s)) /\
  length (steps s) = Z.to_nat MAX_SND_STEPS /\ Forall step_typed (steps s).

(** What a savestate does not hold stays with the running machine: the
    CPU [saved] as [load_state] leaves it in a machine whose CPU was [cur],
    and likewise the sound engine, before it is sanitised. *)
Definition cpu_loaded (saved cur : I8048) : I8048 :=
  set_erom (erom cur) (set_irom (irom cur) (set_t0 true
    (set_SP (Z.land (SP saved) 7) (set_PC (Z.land (PC saved) 0xFFF)
      (set_ei_delay (ei_delay cur) (set_t1 (t1 cur) saved)))))).

Definition snd_loaded (saved cur : COP411L) : COP411L :=
  set_chain_cmd (chain_cmd cur) (set_slide_progress (slide_progress cur)
    (set_slide_freq_end (slide_freq_end cur) (set_slide_freq_start (slide_freq_start cur)
      (set_force_no_loop (force_no_loop cur) (set_force_loop (force_loop cur) saved))))).

(** ** Values of the C types in the CPU *)

(** A [uint8_t]. *)
Definition byte (x : Z) : Prop := 0 <= x < 256.

(** The CPU fields hold values of their C types, with the PC inside the
    4 KiB program space and the stack pointer inside its 8 levels. *)
Definition cpu_bytes (c : I8048) : Prop :=
  (byte (A c) /\ byte (PSW c) /\ byte (timer c) /\
   byte (P1 c) /\ byte (P2 c) /\ byte (BUS c)) /\
  (0 <= PC c < 4096 /\ 0 <= SP c < 8) /\
  (Forall byte (iram c) /\ Forall byte (xram c)) /\
  (Forall byte (irom c) /\ Forall byte (erom c)) /\
  (int_typed (tpre c) /\ 0 <= cycles c < 18446744073709551616 /\ byte (ei_delay c)).

(** ** Case-insensitive search *)

(** [tolower] of the C locale on an [unsigned char]. *)
Definition tolower (c : Z) : Z := if (65 <=? c) && (c <=? 90) then c + 32 else c.

(** The inner loop of [strcasestr] and the test [!*n] that follows it: the
    needle is used up before the haystack ends or a character differs.  A
    C string is the list of its characters before the terminator. *)
Fixpoint strcasestr_at (h n : list Z) {struct n} : bool :=
  match n with
  | [] => true
  | y :: n' =>
      match h with
      | [] => false
      | x :: h' => if tolower x =? tolower y then strcasestr_at h' n' else false
      end
  end.

(** The outer loop, [pos] characters into the haystack. *)
Fixpoint strcasestr_from (h n : list Z) (pos : nat) : option nat :=
  match h with
  | [] => None
  | _ :: h' =>
      if strcasestr_at h n then Some pos else strcasestr_from h' n (S pos)
  end.

(** [strcasestr]: the offset of the returned pointer in the haystack;
    [None] is [NULL]. *)
Definition strcasestr (haystack needle : list Z) : option nat :=
  match needle with
  | [] => Some 0%nat
  | _ => strcasestr_from haystack needle 0
  end.

(** The needle occurs in the haystack at offset [k], letter case apart. *)
Definition occurs_at (h n : list Z) (k : nat) : Prop :=
  (k + length n <= length h)%nat /\
  map tolower (take (length n) (drop k h)) = map tolower n.

(** ** Savestate file name *)

(** One character of the game name in the loop of [make_save_name]: letters
    are lowered, letters and digits kept, a space becomes one underscore,
    unless it would start the name or follow another underscore; every
    other character is dropped.  [buf] holds the [j] characters stored so
    far. *)
Definition save_name_char (buf : list Z) (c : Z) : list Z :=
  let j := Z.of_nat (length buf) in
  let c := if (65 <=? c) && (c <=? 90) then c + 32 else c in
  if ((97 <=? c) && (c <=? 122)) || ((48 <=? c) && (c <=? 57)) then buf ++ [c]
  else if (c =? 32) && (0 <? j) && negb (rd buf (j - 1) =? 95) then buf ++ [95]
  else buf.

(** [for (i = 0; game_name[i] && j < 60; i++)]. *)
Fixpoint save_name_loop (game_name buf : list Z) : list Z :=
  match game_name with
  | [] => buf
  | c :: rest =>
      if Z.of_nat (length buf) <? 60 then save_name_loop rest (save_name_char buf c)
      else buf
  end.

(** [make_save_name]: what [snprintf] leaves in [out], a buffer of [sz]
    characters: ["advision_%s.sav"], cut to [sz - 1] characters. *)
Definition make_save_name (sz : Z) (game_name : list Z) : list Z :=
  let buf := save_name_loop game_name [] in
  take (Z.to_nat (sz - 1))
       ([97; 100; 118; 105; 115; 105; 111; 110; 95] ++
        (if 0 <? Z.of_nat (length buf) then buf else [103; 97; 109; 101]) ++
        [46; 115; 97; 118]).

(** A character of a cleaned name: a lower-case letter, a digit or an
    underscore. *)
Definition name_char (c : Z) : Prop :=
  97 <= c <= 122 \/ 48 <= c <= 57 \/ c = 95.

(** ** Debugger, LED select table, reachable states *)

(** The breakpoint scan at the head of the frame loop:
    [for (i = 0; i < bp_count; i++) if (bp[i] == PC)]. *)
Definition bp_hit (av : AV) : bool :=
  existsb (fun i => rd (dbg_bp av) (Z.of_nat i) =? PC (cpu av))
          (seq 0 (Z.to_nat (dbg_bp_count av))).

(** What the frame loop never writes: the debugger's switches and
    breakpoints, the phosphor buffer, the frame counter and the decay
    constant. *)
Definition loop_keeps (av av' : AV) : Prop :=
  dbg_active av' = dbg_active av /\ dbg_stepping av' = dbg_stepping av /\
  dbg_bp av' = dbg_bp av /\ dbg_bp_count av' = dbg_bp_count av /\
  phosphor (disp av') = phosphor (disp av) /\ frame_count av' = frame_count av /\
  cfg_phosphor av' = cfg_phosphor av.

(** The register-select table of the specification: the three-bit code
    P2[7:5] and the LED register it selects; [None] for the codes that
    select no register. *)
Definition spec_led_select (p2 : Z) : option Z :=
  let code := (p2 / 32) mod 8 in
  if code =? 4 then Some 0
  else if code =? 2 then Some 1
  else if code =? 6 then Some 2
  else if code =? 1 then Some 3
  else if code =? 5 then Some 4
  else None.

(** The test [config_load] applies to a [phosphor=] value:
    [isfinite(fv) && fv >= 0.0f && fv <= 1.0f]. *)
Definition phosphor_cfg_ok (fv : spec_float) : bool :=
  f32_isfinite fv && SFleb f32_zero fv && SFleb fv f32_one.

(** The states of the machine the emulator can be in: the power-up state
    and what the core functions make of a reachable state.  A rewind restores
    the snapshot [rewind_push] took of an earlier state; [config_load] stores
    a decay constant that passes its test.  Whatever else the front end does
    (buttons, ROM images, debugger switches, volume, timing settings, the
    steps inside a frame, the reset for a new game in [main]) keeps the
    array sizes and the decay constant, and either keeps the phosphor buffer
    or clears it. *)
Inductive reachable : AV -> Prop :=
  | reach_init : reachable av_init
  | reach_exec (av : AV) : reachable av -> reachable (i8048_exec av).1
  | reach_frame (av : AV) : reachable av -> reachable (av_run_frame av)
  | reach_reset (av : AV) : reachable av -> reachable (av_reset av)
  | reach_load (av : AV) (file : option (list Z)) :
      reachable av -> reachable (load_state av file).1
  | reach_rewind (av av0 : AV) :
      reachable av -> reachable av0 -> reachable (restore_snap (snap_of av0) av)
  | reach_config (av : AV) (fv : spec_float) :
      reachable av -> f32_valid fv -> phosphor_cfg_ok fv = true ->
      reachable (set_cfg_phosphor fv av)
  | reach_other (av av' : AV) :
      reachable av -> sys_wf av' ->
      phosphor (disp av') = phosphor (disp av) \/
      phosphor (disp av') = replicate (Z.to_nat (SW * SH)) f32_zero ->
      cfg_phosphor av' = cfg_phosphor av ->
      reachable av'.

(** Power-up state with the debugger active and a breakpoint at address 0,
    where the program counter stands. *)
Definition dbg_at_bp : AV := set_dbg_bp_count 1 (set_dbg_active true av_init).

(** What holds of the phosphor state of every reachable machine: the arrays
    have their sizes, every phosphor value is in [[0, 1]] and so is the
    decay constant. *)
Definition phosphor_ok (av : AV) : Prop :=
  sys_wf av /\ Forall in_unit (phosphor (disp av)) /\ in_unit (cfg_phosphor av).

(** * Verified properties *)

(** Boolean comparisons of the model, as propositions for [lia]. *)
Ltac zb :=
  repeat match goal with
  | H : (_ <? _) = true |- _ => apply Z.ltb_lt in H
  | H : (_ <? _) = false |- _ => apply Z.ltb_ge in H
  | H : (_ <=? _) = true |- _ => apply Z.leb_le in H
  | H : (_ <=? _) = false |- _ => apply Z.leb_gt in H
  | H : (_ =? _) = true |- _ => apply Z.eqb_eq in H
  | H : (_ =? _) = false |- _ => apply Z.eqb_neq in H
  | H : (_ && _) = true |- _ => apply andb_prop in H; destruct H
  end.

Ltac zlia := zb; try lia; exfalso; lia.

(** ** Sound protocol (C1) *)

Section SoundProtocol.

Lemma snd_with_disp (r : option AVDisp) (av : AV) : snd (with_disp r av) = snd av.
Proof. destruct r; reflexivity. Qed.

(** A write to P2 drives the sound engine through [snd_protocol]. *)
Lemma snd_port2 (av : AV) (v : Z) :
  snd (av_port_write av 2 v) = snd_protocol (snd av) v.
Proof.
  unfold av_port_write.
  destruct (_ && _); cbn [snd set_snd set_prev_p2]; rewrite ?snd_with_disp; reflexivity.
Qed.

Lemma update_ctrl_vol_frame (s : COP411L) :
  active (cop411_update_ctrl_vol s) = active s /\
  is_noise (cop411_update_ctrl_vol s) = is_noise s /\
  cur_freq (cop411_update_ctrl_vol s) = cur_freq s /\
  ctrl_loop (cop411_update_ctrl_vol s) = ctrl_loop s /\
  ctrl_vol (cop411_update_ctrl_vol s) = ctrl_vol s /\
  ctrl_fast (cop411_update_ctrl_vol s) = ctrl_fast s /\
  step_count (cop411_update_ctrl_vol s) = step_count s /\
  cur_step (cop411_update_ctrl_vol s) = cur_step s.
Proof.
  unfold cop411_update_ctrl_vol.
  destruct (ctrl_vol s) as [|[p|p|]|] eqn:E; repeat split; try reflexivity; exact E.
Qed.

(** What [cop411_start_tone] leaves in the fields the claims read. *)
Lemma start_tone_fields (s : COP411L) (note : Z) :
  let s' := cop411_start_tone s note in
  active s' = true /\ is_noise s' = false /\
  cur_freq s' = default f32_zero (cop411_note_freq !! Z.to_nat (Z.land note 0x0F)).
Proof.
  unfold cop411_start_tone. cbv zeta.
  cbn [active is_noise cur_freq set_seg_samples_left set_seg_samples_total set_cur_vol].
  destruct (update_ctrl_vol_frame
    (set_segment 0
      (set_phase_inc
        (freq_to_phase_inc
          (default f32_zero (cop411_note_freq !! Z.to_nat (Z.land note 15))))
        (set_cur_freq (default f32_zero (cop411_note_freq !! Z.to_nat (Z.land note 15)))
          (set_force_no_loop false (set_force_loop false (set_chain_cmd 0
            (set_step_count 0 (set_cur_step 0 (set_command 14
              (set_is_noise false (set_active true s)))))))))))) as (Ha & Hn & Hf & _).
  rewrite Ha, Hn, Hf. repeat split.
Qed.

(** From idle, [0xC0] then a byte with high nibble [hi] arms the protocol
    in state 2 with [hi] captured. *)
Lemma protocol_arm (s : COP411L) (b : Z) :
  proto_state s = 0 ->
  let s2 := snd_protocol (snd_protocol s 0xC0) b in
  proto_state s2 = 2 /\ proto_hi s2 = Z.land (Z.shiftr b 4) 0x0F.
Proof.
  intros H. unfold snd_protocol at 2. rewrite H. cbn [Z.eqb andb Pos.eqb].
  unfold snd_protocol. cbn. split; reflexivity.
Qed.

End SoundProtocol.

Lemma cop411_command_tone (s : COP411L) (b : Z) :
  Z.land (Z.shiftr b 4) 0x0F = 0x0E ->
  cop411_command s b = cop411_start_tone s (Z.land b 0x0F).
Proof. intros H. unfold cop411_command. rewrite H. reflexivity. Qed.

(** The protocol in state 2: a zero byte dispatches [hi << 4] and returns to
    idle, any other byte dispatches [(hi << 4) | lo] and moves to state 3. *)
Lemma protocol_dispatch (s : COP411L) (b : Z) :
  proto_state s = 2 ->
  snd_protocol s b =
    if b =? 0 then set_proto_state 0 (cop411_command s (u8 (Z.shiftl (proto_hi s) 4)))
    else set_proto_state 3
           (cop411_command s (Z.lor (u8 (Z.shiftl (proto_hi s) 4)) (Z.land (Z.shiftr b 4) 0x0F))).
Proof. intros H. unfold snd_protocol. rewrite H. reflexivity. Qed.

(** C1 (as stated) fails at power-up: after the P2 writes 0xC0, 0xE5, 0x00
    the current frequency is not inside (319, 322) Hz. *)
Lemma p2_tone_to_zero_fails :
  proto_state (snd av_init) = 0 /\
  let s := snd (p2_writes av_init [0xC0; 0xE5; 0x00]) in
  ~ (active s = true /\ is_noise s = false /\
     SFltb (f32_of_Z 319) (cur_freq s) = true /\ SFltb (cur_freq s) (f32_of_Z 322) = true).
Proof.
  split; [reflexivity|]. vm_compute. intros (_ & _ & H & _). discriminate H.
Qed.

(** C1 (amended): from an idle protocol state the P2 writes 0xC0, 0xE5, 0x00
    dispatch command byte 0xE0 (the terminating 0x00 selects "high nibble
    alone, data = 0"): the engine is active, non-noise, back to idle and
    plays tone 0 at 239.23 Hz.  Tone 5, at 320.92 Hz inside (319, 322) Hz, is
    what the writes 0xC0, 0xE5, 0x5E start (low nibble 5 in the upper half of
    the third byte), the protocol then waiting for the closing 0x00. *)
Theorem p2_tone_sequence (av : AV) :
  proto_state (snd av) = 0 ->
  (let s := snd (p2_writes av [0xC0; 0xE5; 0x00]) in
   active s = true /\ is_noise s = false /\ proto_state s = 0 /\
   cur_freq s = f32_lit 23923 100 /\
   SFltb (f32_of_Z 239) (cur_freq s) = true /\ SFltb (cur_freq s) (f32_of_Z 240) = true) /\
  (let s := snd (p2_writes av [0xC0; 0xE5; 0x5E]) in
   active s = true /\ is_noise s = false /\ proto_state s = 3 /\
   cur_freq s = f32_lit 32092 100 /\
   SFltb (f32_of_Z 319) (cur_freq s) = true /\ SFltb (cur_freq s) (f32_of_Z 322) = true).
Proof.
  intros Hidle. unfold p2_writes. cbn [fold_left]. rewrite !snd_port2.
  destruct (protocol_arm (snd av) 0xE5 Hidle) as [H2 Hhi]. cbv zeta in H2, Hhi.
  set (s2 := snd_protocol (snd_protocol (snd av) 0xC0) 0xE5) in *.
  rewrite !(protocol_dispatch s2 _ H2), Hhi.
  change (0 =? 0) with true. change (0x5E =? 0) with false. cbv iota.
  rewrite !cop411_command_tone by reflexivity.
  split.
  - destruct (start_tone_fields s2 (Z.land (u8 (Z.shiftl (Z.land (Z.shiftr 0xE5 4) 0x0F) 4)) 0x0F))
      as (Ha & Hn & Hf).
    cbn [active is_noise cur_freq proto_state set_proto_state].
    rewrite Ha, Hn, Hf. repeat split; vm_compute; reflexivity.
  - destruct (start_tone_fields s2
        (Z.land (Z.lor (u8 (Z.shiftl (Z.land (Z.shiftr 0xE5 4) 0x0F) 4))
                       (Z.land (Z.shiftr 0x5E 4) 0x0F)) 0x0F)) as (Ha & Hn & Hf).
    cbn [active is_noise cur_freq proto_state set_proto_state].
    rewrite Ha, Hn, Hf. repeat split; vm_compute; reflexivity.
Qed.

(** The power-up system is idle, and the sequence ending in 0x00 plays tone 0. *)
Lemma p2_tone_sequence_witness :
  proto_state (snd av_init) = 0 /\
  cur_freq (snd (p2_writes av_init [0xC0; 0xE5; 0x00])) = f32_lit 23923 100.
Proof.
  split; [reflexivity|].
  exact (proj1 (proj2 (proj2 (proj2 (proj1 (p2_tone_sequence av_init eq_refl)))))).
Defined.

(** ** LED register select (C3) *)

(** C3 (as stated) fails: P2 = 0xA0 does not decode to register 0. *)
Lemma led_decode_A0_not_reg0 :
  ~ (led_reg_decode 0xA0 = 0 /\ led_reg_decode 0xE0 = -1).
Proof. intros [H _]. vm_compute in H. discriminate H. Qed.

(** C3 (amended): P2 = 0xA0 (select bits 101) decodes to LED register 4,
    register 0 is selected by P2 = 0x80 (select bits 100), and P2 = 0xE0
    decodes to no register: the latch then leaves the system unchanged. *)
Theorem led_reg_decode_cases :
  led_reg_decode 0xA0 = 4 /\ led_reg_decode 0x80 = 0 /\ led_reg_decode 0xE0 = -1 /\
  (forall (av : AV) (data : Z),
     led_reg (disp (av_led_latch av 0xA0 data)) = wr (led_reg (disp av)) 4 data) /\
  (forall (av : AV) (data : Z),
     led_reg (disp (av_led_latch av 0x80 data)) = wr (led_reg (disp av)) 0 data) /\
  (forall (av : AV) (data : Z), av_led_latch av 0xE0 data = av).
Proof. repeat split. Qed.

(** ** Soft reset (C6) *)

(** C6: soft reset keeps the three COP411L control fields, clears the
    accumulator, PC, the 64 bytes of internal RAM and bank 0 of external
    RAM, refills banks 1-3 with 0xFF and keeps both ROM images. *)
Theorem av_reset_effect (av : AV) :
  let av' := av_reset av in
  ctrl_loop (snd av') = ctrl_loop (snd av) /\
  ctrl_vol (snd av') = ctrl_vol (snd av) /\
  ctrl_fast (snd av') = ctrl_fast (snd av) /\
  A (cpu av') = 0 /\ PC (cpu av') = 0 /\
  iram (cpu av') = replicate 64 0 /\
  take 256 (xram (cpu av')) = replicate 256 0 /\
  drop 256 (xram (cpu av')) = replicate 768 0xFF /\
  length (xram (cpu av')) = 1024%nat /\
  irom (cpu av') = irom (cpu av) /\
  erom (cpu av') = erom (cpu av).
Proof.
  unfold av_reset. cbv zeta.
  cbn [snd cpu set_save_name set_paused set_frame_count set_snd set_snd_volume set_disp
       set_cpu set_input].
  destruct (update_ctrl_vol_frame
    (set_ctrl_fast (ctrl_fast (snd av))
      (set_ctrl_vol (ctrl_vol (snd av)) (set_ctrl_loop (ctrl_loop (snd av)) cop411_init))))
    as (_ & _ & _ & Hl & Hv & Hf & _).
  rewrite Hl, Hv, Hf.
  repeat apply conj; vm_compute; reflexivity.
Qed.

(** ** Interpreter: frame lemmas *)

Lemma timer_frame_refl (c : I8048) : timer_frame c c.
Proof. unfold timer_frame. repeat apply conj; auto. Qed.

Lemma timer_frame_trans (c1 c2 c3 : I8048) :
  timer_frame c1 c2 -> timer_frame c2 c3 -> timer_frame c1 c3.
Proof.
  unfold timer_frame. intros H1 H2.
  repeat match goal with H : _ /\ _ |- _ => destruct H as [? H] end.
  repeat apply conj; try congruence. auto.
Qed.

Lemma timer_tick_frame (c : I8048) : timer_frame c (timer_tick c).
Proof.
  unfold timer_tick, timer_frame. cbv zeta.
  cbn [timer set_timer]. destruct (_ =? 0).
  - cbn [tcnti_en irq_en in_irq set_timer_ovf set_timer].
    destruct (_ && _); cbn; repeat apply conj; auto.
  - cbn; repeat apply conj; auto.
Qed.

Lemma prescaler_loop_frame (fuel : nat) (c : I8048) :
  timer_frame c (prescaler_loop fuel c).
Proof.
  revert c. induction fuel as [|fuel IH]; intros c; cbn [prescaler_loop].
  - destruct (32 <=? tpre c); apply timer_frame_refl.
  - destruct (32 <=? tpre c); [|apply timer_frame_refl].
    eapply timer_frame_trans; [|apply IH].
    eapply timer_frame_trans; [|apply timer_tick_frame].
    unfold timer_frame; cbn; repeat apply conj; auto.
Qed.

(** The timer part of [exec_tail]. *)
Lemma exec_tail_timer_frame (c : I8048) (cy : Z) :
  timer_frame c
    (if timer_en c then
       prescaler_loop (Z.to_nat (tpre (set_tpre (s32 (tpre c + cy)) c) / 32))
                      (set_tpre (s32 (tpre c + cy)) c)
     else c).
Proof.
  destruct (timer_en c); [|apply timer_frame_refl].
  eapply timer_frame_trans; [|apply prescaler_loop_frame].
  unfold timer_frame; cbn; repeat apply conj; auto.
Qed.

(** ** EI and interrupt dispatch (C2) *)

(** C2: there is no delay after EI.  When the opcode at PC is EI, a timer
    interrupt is pending and none is in service, the very call of
    [i8048_exec] that executes EI ends in the interrupt handler: PC is the
    vector 0x007, the in-service latch is set and interrupts are disabled
    again, before any instruction after EI has run.  (EI sets [ei_delay] to
    1 and the tail of the same call decrements it before the test.) *)
Theorem ei_dispatch_same_instruction (av : AV) :
  rom_rd (cpu av) (PC (cpu av)) = 0x05 ->
  irq_pend (cpu av) = true ->
  in_irq (cpu av) = false ->
  let av' := fst (i8048_exec av) in
  PC (cpu av') = 0x007 /\ in_irq (cpu av') = true /\ irq_en (cpu av') = false /\
  ei_delay (cpu av') = 0.
Proof.
  intros Hop Hpend Hsvc. unfold i8048_exec, ft. rewrite Hop.
  cbv beta iota delta [exec_op]. cbv zeta.
  cbn [fst cpu set_cpu]. unfold exec_tail. cbv zeta.
  set (c1 := set_cycles _ _).
  pose proof (exec_tail_timer_frame c1 1) as Hfr.
  cbn [timer_en tpre set_tpre] in Hfr |- *.
  set (c2 := if timer_en c1 then _ else c1) in *.
  unfold timer_frame in Hfr.
  destruct Hfr as (_ & _ & _ & _ & _ & _ & _ & _ & _ & _ & Hen & Hin & Hdl & _ & _ & _ & _ & _ & Hp).
  assert (Hdl1 : ei_delay c2 = 1) by (rewrite Hdl; reflexivity).
  assert (Hen1 : irq_en c2 = true) by (rewrite Hen; reflexivity).
  assert (Hin1 : in_irq c2 = false) by (rewrite Hin; exact Hsvc).
  assert (Hp1 : irq_pend c2 = true) by (apply Hp; exact Hpend).
  rewrite Hdl1. change (0 <? 1) with true. cbv iota.
  cbn [irq_pend irq_en in_irq ei_delay set_ei_delay].
  rewrite Hp1, Hen1, Hin1. cbn. repeat apply conj; reflexivity.
Qed.

(** On [ei_pending] the handler is entered with return address 0x001, the
    address of the instruction that follows EI, on the stack. *)
Lemma ei_dispatch_witness :
  rom_rd (cpu ei_pending) (PC (cpu ei_pending)) = 0x05 /\
  irq_en (cpu ei_pending) = true /\
  PC (cpu (fst (i8048_exec ei_pending))) = 0x007 /\
  rd (iram (cpu (fst (i8048_exec ei_pending)))) 8 = 0x01.
Proof.
  split; [reflexivity|]. split; [reflexivity|]. split.
  - exact (proj1 (ei_dispatch_same_instruction ei_pending eq_refl eq_refl eq_refl)).
  - vm_compute. reflexivity.
Defined.

(** What [exec_tail] leaves alone: the accumulator, the ports, external RAM
    and the ROM images; the cycle counter advances by [cy]. *)
Lemma exec_tail_frame (c : I8048) (cy : Z) :
  let c' := exec_tail c cy in
  A c' = A c /\ xram c' = xram c /\ P1 c' = P1 c /\ P2 c' = P2 c /\
  irom c' = irom c /\ erom c' = erom c /\ cycles c' = u64 (cycles c + cy).
Proof.
  unfold exec_tail. cbv zeta.
  set (c1 := set_cycles _ _).
  pose proof (exec_tail_timer_frame c1 cy) as Hfr.
  cbn [timer_en tpre set_tpre] in Hfr |- *.
  set (c2 := if timer_en c1 then _ else c1) in *.
  destruct Hfr as (HA & _ & _ & _ & H1 & H2 & _ & Hx & Hi & He & _ & _ & _ & Hc & _).
  set (c3 := if 0 <? ei_delay c2 then _ else c2).
  assert (H3 : A c3 = A c /\ xram c3 = xram c /\ P1 c3 = P1 c /\ P2 c3 = P2 c /\
               irom c3 = irom c /\ erom c3 = erom c /\ cycles c3 = u64 (cycles c + cy)).
  { subst c3. destruct (0 <? ei_delay c2); cbn; rewrite HA, Hx, H1, H2, Hi, He, Hc;
      repeat apply conj; reflexivity. }
  destruct (_ && _); [|exact H3].
  cbn. exact H3.
Qed.

Lemma lor_small (a b n : Z) :
  0 <= n -> 0 <= a < 2 ^ n -> 0 <= b < 2 ^ n -> 0 <= Z.lor a b < 2 ^ n.
Proof.
  intros Hn Ha Hb.
  assert (H0 : 0 <= Z.lor a b) by (apply Z.lor_nonneg; lia).
  split; [exact H0|].
  destruct (Z.eq_dec (Z.lor a b) 0) as [E|E]; [rewrite E; lia|].
  assert (Hn1 : 0 < n).
  { destruct (Z.eq_dec n 0) as [->|]; [|lia].
    change (2 ^ 0) with 1 in *. assert (a = 0) by lia. assert (b = 0) by lia.
    subst. contradiction E. reflexivity. }
  apply Z.log2_lt_pow2; [lia|].
  rewrite Z.log2_lor by lia.
  apply Z.max_lub_lt.
  - destruct (Z.eq_dec a 0) as [->|]; [simpl; lia|]. apply Z.log2_lt_pow2; lia.
  - destruct (Z.eq_dec b 0) as [->|]; [simpl; lia|]. apply Z.log2_lt_pow2; lia.
Qed.

(** With a byte in the register, the masks of [xram_addr] are the identity:
    the address is [((P1 & 3) << 8) | r]. *)
Lemma xram_addr_eq (c : I8048) (r : Z) :
  0 <= r < 256 ->
  xram_addr c r = Z.lor (Z.shiftl (Z.land (P1 c) 0x03) 8) r /\
  0 <= xram_addr c r < 1024.
Proof.
  intros Hr. unfold xram_addr, u16, XRAM_SZ.
  assert (Hk : 0 <= Z.land (P1 c) 3 < 4).
  { change 3 with (Z.ones 2). rewrite Z.land_ones by lia. apply Z.mod_pos_bound. lia. }
  assert (Hs : 0 <= Z.shiftl (Z.land (P1 c) 3) 8 < 2 ^ 10).
  { rewrite Z.shiftl_mul_pow2 by lia. change (2 ^ 8) with 256. change (2 ^ 10) with 1024. lia. }
  pose proof (lor_small (Z.shiftl (Z.land (P1 c) 3) 8) r 10 ltac:(lia) Hs ltac:(change (2 ^ 10) with 1024; lia))
    as Hl.
  change (2 ^ 10) with 1024 in Hl.
  rewrite Z.mod_small by lia.
  change (1024 - 1) with (Z.ones 10). rewrite Z.land_ones by lia.
  change (2 ^ 10) with 1024. rewrite Z.mod_small by lia. split; [reflexivity | lia].
Qed.

(** ** MOVX and the LED latch (C7) *)

(** [i8048_exec] on the two [MOVX A,@Rr] opcodes. *)
Lemma exec_movx_read (av : AV) (op : Z) :
  rom_rd (cpu av) (PC (cpu av)) = op -> op = 0x80 \/ op = 0x81 ->
  i8048_exec av =
    (let c := set_PC (Z.land (PC (cpu av) + 1) 0xFFF) (cpu av) in
     let xval := rd (xram (cpu av)) (xram_addr (cpu av) (getR (cpu av) (Z.land op 1))) in
     let av1 := av_led_latch (set_cpu (set_A xval c) av) (P2 (cpu av)) xval in
     (set_cpu (exec_tail (cpu av1) 2) av1, 2)).
Proof.
  intros Hf Hop. unfold i8048_exec, ft. rewrite Hf.
  destruct Hop as [-> | ->]; reflexivity.
Qed.

(** [i8048_exec] on the two [MOVX @Rr,A] opcodes. *)
Lemma exec_movx_write (av : AV) (op : Z) :
  rom_rd (cpu av) (PC (cpu av)) = op -> op = 0x90 \/ op = 0x91 ->
  i8048_exec av =
    (let c := set_PC (Z.land (PC (cpu av) + 1) 0xFFF) (cpu av) in
     let c := set_xram (wr (xram (cpu av)) (xram_addr (cpu av) (getR (cpu av) (Z.land op 1)))
                           (A (cpu av))) c in
     (set_cpu (exec_tail c 2) av, 2)).
Proof.
  intros Hf Hop. unfold i8048_exec, ft. rewrite Hf.
  destruct Hop as [-> | ->]; reflexivity.
Qed.

(** The decode of the code is the register-select table of the
    specification, for every value of P2. *)
Lemma led_reg_decode_table (p2 : Z) :
  led_reg_decode p2 = match spec_led_select p2 with Some i => i | None => -1 end /\
  (0 <=? led_reg_decode p2) = match spec_led_select p2 with Some _ => true | None => false end.
Proof.
  unfold led_reg_decode, spec_led_select. cbv zeta.
  change 7 with (Z.ones 3). rewrite Z.land_ones, Z.shiftr_div_pow2 by lia.
  change (2 ^ 5) with 32. change (2 ^ 3) with 8.
  pose proof (Z.mod_pos_bound (p2 / 32) 8 ltac:(lia)) as Hb.
  set (v := (p2 / 32) mod 8) in *. clearbody v.
  assert (Hv : v = 0 \/ v = 1 \/ v = 2 \/ v = 3 \/ v = 4 \/ v = 5 \/ v = 6 \/ v = 7) by lia.
  destruct Hv as [-> | [-> | [-> | [-> | [-> | [-> | [-> | ->]]]]]]]; split; reflexivity.
Qed.

(** C7: MOVX A,@Rr reads external RAM at [((P1 & 3) << 8) | Rr] into A and
    latches the byte into the LED register that the register-select table
    of the specification gives for P2[7:5] (100: register 0, 010: 1,
    110: 2, 001: 3, 101: 4), and into none for the other codes; the other
    LED registers and external RAM are left alone.  MOVX @Rr,A writes A at
    the same address and leaves the display and A alone.  P1 = 0x03 with
    Rr = 0x55 addresses offset 0x355. *)
Theorem movx_semantics (av : AV) :
  let c := cpu av in
  let op := rom_rd c (PC c) in
  let r := getR c (Z.land op 1) in
  let addr := Z.lor (Z.shiftl (Z.land (P1 c) 0x03) 8) r in
  let av' := fst (i8048_exec av) in
  0 <= r < 256 ->
  ((op = 0x80 \/ op = 0x81) ->
     A (cpu av') = rd (xram c) addr /\
     xram (cpu av') = xram c /\
     disp av' =
       match spec_led_select (P2 c) with
       | Some i => set_led_reg (wr (led_reg (disp av)) i (rd (xram c) addr)) (disp av)
       | None => disp av
       end /\
     (length (led_reg (disp av)) = 5%nat ->
      forall j, 0 <= j < 5 ->
        rd (led_reg (disp av')) j =
          match spec_led_select (P2 c) with
          | Some i => if j =? i then rd (xram c) addr else rd (led_reg (disp av)) j
          | None => rd (led_reg (disp av)) j
          end)) /\
  ((op = 0x90 \/ op = 0x91) ->
     xram (cpu av') = wr (xram c) addr (A c) /\
     disp av' = disp av /\
     A (cpu av') = A c) /\
  (P1 c = 0x03 -> r = 0x55 -> addr = 0x355 /\ 0 <= addr < XRAM_SZ) /\
  (forall p2 i, spec_led_select p2 = Some i -> 0 <= i < 5).
Proof.
  cbv zeta. intros Hr.
  destruct (xram_addr_eq (cpu av) _ Hr) as [Haddr _].
  split; [|split; [|split]].
  - intros Hop. rewrite (exec_movx_read av _ eq_refl Hop). cbv zeta. cbn [fst].
    rewrite Haddr. unfold av_led_latch. cbn [disp cpu set_cpu].
    destruct (led_reg_decode_table (P2 (cpu av))) as [Hdec Hpos].
    rewrite Hpos, Hdec.
    assert (Hrange : forall i, spec_led_select (P2 (cpu av)) = Some i -> 0 <= i < 5).
    { unfold spec_led_select. cbv zeta. intros i.
      repeat match goal with |- context [if ?b then _ else _] => destruct b end;
        intros [= <-]; lia. }
    destruct (spec_led_select (P2 (cpu av))) as [i|] eqn:Esel;
      cbn [fst cpu disp set_cpu set_disp];
      match goal with |- context [exec_tail ?c ?cy] =>
        destruct (exec_tail_frame c cy) as (HA & Hx & _) end;
      rewrite HA, Hx; cbn [A xram set_A set_PC];
      (split; [reflexivity|]); (split; [reflexivity|]); (split; [reflexivity|]).
    + intros Hlen j Hj. cbn [led_reg set_led_reg].
      specialize (Hrange i eq_refl).
      destruct (j =? i) eqn:Eji.
      * apply Z.eqb_eq in Eji. subst j. unfold rd, wr.
        rewrite list_lookup_insert_eq by lia. reflexivity.
      * apply Z.eqb_neq in Eji. unfold rd, wr.
        rewrite list_lookup_insert_ne by lia. reflexivity.
    + intros _ j _. reflexivity.
  - intros Hop. rewrite (exec_movx_write av _ eq_refl Hop). cbv zeta. cbn [fst].
    rewrite Haddr. cbn [cpu disp set_cpu].
    match goal with |- context [exec_tail ?c ?cy] =>
      destruct (exec_tail_frame c cy) as (HA & Hx & _) end.
    rewrite HA, Hx. repeat apply conj; reflexivity.
  - intros HP1 Hr55. rewrite HP1, Hr55.
    split; [reflexivity | unfold XRAM_SZ; change (Z.lor (Z.shiftl (Z.land 3 3) 8) 85) with 853; lia].
  - intros p2 i. unfold spec_led_select. cbv zeta.
    repeat match goal with |- context [if ?b then _ else _] => destruct b end;
      intros [= <-]; lia.
Qed.

(** P1 = 0x03, R0 = 0x55 and P2 = 0x40 (code 010): the byte 0x5A at offset
    0x355 goes to A and to LED register 1, and LED register 0 keeps its
    0xFF. *)
Lemma movx_semantics_witness :
  let av := set_cpu (set_P2 0x40 (set_P1 0x03
                      (set_xram (wr (xram (cpu av_init)) 0x355 0x5A)
                        (set_iram (wr (iram (cpu av_init)) 0 0x55)
                          (set_irom (wr (irom (cpu av_init)) 0 0x80) (cpu av_init))))))
                    av_init in
  0 <= getR (cpu av) 0 < 256 /\
  Z.lor (Z.shiftl (Z.land (P1 (cpu av)) 0x03) 8) (getR (cpu av) 0) = 0x355 /\
  A (cpu (fst (i8048_exec av))) = 0x5A /\
  rd (led_reg (disp (fst (i8048_exec av)))) 1 = 0x5A /\
  rd (led_reg (disp (fst (i8048_exec av)))) 0 = 0xFF.
Proof.
  cbv zeta. split; [change (getR _ 0) with 85; lia|]. split; [reflexivity|].
  match goal with |- A (cpu (fst (i8048_exec ?av))) = _ /\ _ =>
    pose proof (movx_semantics av) as H end.
  cbv zeta in H.
  destruct H as (H & _); [change (getR _ _) with 85; lia|].
  destruct H as (HA & _ & _ & Hled); [left; reflexivity|].
  split; [rewrite HA; reflexivity|].
  split; [rewrite (Hled eq_refl 1 ltac:(lia)) | rewrite (Hled eq_refl 0 ltac:(lia))];
    reflexivity.
Defined.

(** ** Savestate loader: reader lemmas *)

Lemma fread_ok (n : nat) (buf : list Z) (r r' : reader) (b : list Z) :
  fread n buf r = (b, r') -> rd_ok r' = true ->
  rd_ok r = true /\ length (rd_in r) = (n + length (rd_in r'))%nat.
Proof.
  unfold fread. destruct (rd_ok r) eqn:Hok.
  - destruct (n <=? length (rd_in r))%nat eqn:Hn; intros [= <- <-]; cbn; [|discriminate].
    intros _. split; [reflexivity|]. rewrite length_drop. apply Nat.leb_le in Hn. lia.
  - intros [= <- <-]. congruence.
Qed.

Lemma fread_u_ok (n : nat) (old : Z) (r r' : reader) (v : Z) :
  fread_u n old r = (v, r') -> rd_ok r' = true ->
  rd_ok r = true /\ length (rd_in r) = (n + length (rd_in r'))%nat.
Proof.
  unfold fread_u. destruct (fread n (le_bytes n old) r) as [b r1] eqn:E.
  intros [= <- <-]. eapply fread_ok; eassumption.
Qed.

Lemma fread_i32_ok (old : Z) (r r' : reader) (v : Z) :
  fread_i32 old r = (v, r') -> rd_ok r' = true ->
  rd_ok r = true /\ length (rd_in r) = (4 + length (rd_in r'))%nat.
Proof.
  unfold fread_i32. destruct (fread_u 4 (u32 old) r) as [b r1] eqn:E.
  intros [= <- <-]. eapply fread_u_ok; eassumption.
Qed.

Lemma fread_f32_ok (old : spec_float) (r r' : reader) (v : spec_float) :
  fread_f32 old r = (v, r') -> rd_ok r' = true ->
  rd_ok r = true /\ length (rd_in r) = (4 + length (rd_in r'))%nat.
Proof.
  unfold fread_f32. destruct (fread_u 4 (f32_to_bits old) r) as [b r1] eqn:E.
  intros [= <- <-]. eapply fread_u_ok; eassumption.
Qed.

(** Name the result of every read of the goal. *)
Ltac name_reads :=
  repeat match goal with
  | |- context [fread_u ?n ?o ?r] => destruct (fread_u n o r) as [? ?] eqn:?
  | |- context [fread_i32 ?o ?r] => destruct (fread_i32 o r) as [? ?] eqn:?
  | |- context [fread_f32 ?o ?r] => destruct (fread_f32 o r) as [? ?] eqn:?
  | |- context [fread ?n ?o ?r] => destruct (fread n o r) as [? ?] eqn:?
  end.

(** Walk the chain of reads backwards from a reader that is still [ok]. *)
Ltac back_reads :=
  repeat match goal with
  | E : fread_u ?n ?o ?r = (_, ?r'), H : rd_ok ?r' = true |- _ =>
      destruct (fread_u_ok _ _ _ _ _ E H) as [? ?]; clear E
  | E : fread_i32 ?o ?r = (_, ?r'), H : rd_ok ?r' = true |- _ =>
      destruct (fread_i32_ok _ _ _ _ E H) as [? ?]; clear E
  | E : fread_f32 ?o ?r = (_, ?r'), H : rd_ok ?r' = true |- _ =>
      destruct (fread_f32_ok _ _ _ _ E H) as [? ?]; clear E
  | E : fread ?n ?o ?r = (_, ?r'), H : rd_ok ?r' = true |- _ =>
      destruct (fread_ok _ _ _ _ _ E H) as [? ?]; clear E
  end.

Lemma read_cpu_ok (c c' : I8048) (r r' : reader) (fl fl2 : Z) :
  read_cpu c r = (c', fl, fl2, r') -> rd_ok r' = true ->
  rd_ok r = true /\ length (rd_in r) = (1111 + length (rd_in r'))%nat.
Proof.
  unfold read_cpu. name_reads. intros [= <- <- <- <-] Hok.
  back_reads. split; [assumption | lia].
Qed.

Lemma read_snd_ok (s s' : COP411L) (r r' : reader) :
  read_snd s r = (s', r') -> rd_ok r' = true ->
  rd_ok r = true /\ length (rd_in r) = (314 + length (rd_in r'))%nat.
Proof.
  unfold read_snd. name_reads. intros [= <- <-] Hok.
  back_reads. split; [assumption | lia].
Qed.

(** A successful read returns the bytes at the head of the input. *)
Lemma fread_u_val (n : nat) (old : Z) (r r' : reader) (v : Z) :
  fread_u n old r = (v, r') -> rd_ok r' = true ->
  v = le_int (take n (rd_in r)) /\ rd_in r' = drop n (rd_in r).
Proof.
  unfold fread_u, fread. destruct (rd_ok r) eqn:Hok.
  - destruct (n <=? length (rd_in r))%nat; intros [= <- <-]; cbn; [auto | discriminate].
  - intros [= <- <-]. congruence.
Qed.

(** ** Savestate loader: cursor sanitising (C5) *)

(** An invariant of a [for_range] loop. *)
Lemma for_range_inv {S : Type} (P : S -> Prop) (n : Z) (body : Z -> S -> S) (s : S) :
  P s -> (forall i x, P x -> P (body i x)) -> P (for_range n body s).
Proof.
  intros H0 Hstep. unfold for_range.
  generalize (seq 0 (Z.to_nat n)). intros l. revert s H0.
  induction l as [|i l IH]; intros s H0; cbn [fold_left]; auto.
Qed.

Lemma sanitize_cursor_ok (s : COP411L) : cursor_ok (sanitize_cursor s).
Proof.
  unfold sanitize_cursor, cursor_ok, MAX_SND_STEPS. cbv zeta.
  repeat match goal with
  | |- context [if ?b then _ else _] =>
      lazymatch b with
      | context [if _ then _ else _] => fail
      | _ => destruct b eqn:?
      end;
      cbn [step_count cur_step segment step_samples_left seg_samples_left seg_samples_total
           set_step_count set_cur_step set_segment set_step_samples_left set_seg_samples_left
           set_seg_samples_total] in *
  end; lia.
Qed.

Lemma cursor_ok_eq (s s' : COP411L) :
  step_count s' = step_count s -> cur_step s' = cur_step s -> cursor_ok s -> cursor_ok s'.
Proof. unfold cursor_ok. intros -> ->. auto. Qed.

Lemma sanitize_levels_cursor (s : COP411L) :
  step_count (sanitize_levels s) = step_count s /\ cur_step (sanitize_levels s) = cur_step s.
Proof.
  unfold sanitize_levels. cbv zeta.
  repeat match goal with
  | |- context [if ?b then _ else _] =>
      lazymatch b with
      | context [if _ then _ else _] => fail
      | _ => destruct b
      end;
      cbn [step_count cur_step cur_freq cur_vol seg1_vol seg2_vol
           set_cur_freq set_cur_vol set_seg1_vol set_seg2_vol]
  end; split; reflexivity.
Qed.

Lemma sanitize_steps_cursor (s : COP411L) :
  step_count (sanitize_steps s) = step_count s /\ cur_step (sanitize_steps s) = cur_step s.
Proof.
  unfold sanitize_steps.
  apply (for_range_inv (fun x => step_count x = step_count s /\ cur_step x = cur_step s)).
  - split; reflexivity.
  - intros i x H. exact H.
Qed.

Lemma sanitize_snd_cursor_ok (s : COP411L) : cursor_ok (sanitize_snd s).
Proof.
  unfold sanitize_snd.
  destruct (update_ctrl_vol_frame
              (sanitize_steps (sanitize_levels (sanitize_cursor (sanitize_ctrl s)))))
    as (_ & _ & _ & _ & _ & _ & Hc & Hs).
  destruct (sanitize_steps_cursor (sanitize_levels (sanitize_cursor (sanitize_ctrl s))))
    as [Hc1 Hs1].
  destruct (sanitize_levels_cursor (sanitize_cursor (sanitize_ctrl s))) as [Hc2 Hs2].
  apply (cursor_ok_eq (sanitize_cursor (sanitize_ctrl s))).
  - rewrite Hc, Hc1, Hc2. reflexivity.
  - rewrite Hs, Hs1, Hs2. reflexivity.
  - apply sanitize_cursor_ok.
Qed.

(** What a successful load leaves in the sound engine. *)
Lemma load_state_success (av av' : AV) (f : list Z) :
  load_state av (Some f) = (av', true) ->
  exists s, snd av' = sanitize_snd s.
Proof.
  unfold load_state.
  destruct (fread_u 4 0 _) as [magic r1].
  destruct (negb (rd_ok r1) || negb (magic =? SAVE_MAGIC)); [discriminate|].
  destruct (fread_u 4 0 r1) as [ver r2].
  destruct (negb (rd_ok r2) || negb (ver =? SAVE_VER)); [discriminate|].
  destruct (read_cpu (cpu av) r2) as [[[c fl] fl2] r3].
  cbv zeta. cbn [snd set_cpu].
  destruct (read_snd (snd av) r3) as [s r4].
  destruct (negb (rd_ok r4)); [discriminate|].
  intros [= <-]. cbn [snd set_snd]. eexists. reflexivity.
Qed.

(** C5 (as stated) fails: the all-zero savestate is accepted and leaves
    [step_count = 0], where no [cur_step] lies in [[0, step_count)]. *)
Lemma load_state_zero_cursor :
  let r := load_state av_init (Some zero_blob) in
  r.2 = true /\ ~ (0 <= cur_step (snd r.1) < step_count (snd r.1)).
Proof. vm_compute. split; [reflexivity|]. intros [_ H]. discriminate H. Qed.

(** C5 (amended): after an accepted load [step_count] is in [[0, 16]] and
    [cur_step] is in [[0, step_count)] when [step_count] is positive, and is
    0 when [step_count] is 0. *)
Theorem load_state_cursor (av av' : AV) (f : list Z) :
  load_state av (Some f) = (av', true) ->
  0 <= step_count (snd av') <= 16 /\
  0 <= cur_step (snd av') /\
  (cur_step (snd av') < step_count (snd av') \/
   (step_count (snd av') = 0 /\ cur_step (snd av') = 0)).
Proof.
  intros H. destruct (load_state_success _ _ _ H) as [s ->].
  apply sanitize_snd_cursor_ok.
Qed.

(** The all-zero savestate is accepted at power-up. *)
Lemma load_state_cursor_witness :
  let av' := (load_state av_init (Some zero_blob)).1 in
  load_state av_init (Some zero_blob) = (av', true) /\
  0 <= step_count (snd av') <= 16 /\
  0 <= cur_step (snd av') /\
  (cur_step (snd av') < step_count (snd av') \/
   (step_count (snd av') = 0 /\ cur_step (snd av') = 0)).
Proof.
  assert (H : load_state av_init (Some zero_blob) =
              ((load_state av_init (Some zero_blob)).1, true)) by (vm_compute; reflexivity).
  cbv zeta. split; [exact H|]. exact (load_state_cursor _ _ _ H).
Defined.

(** ** Savestate loader: atomicity of a failed load (C8) *)

(** A load either succeeds or returns the system it was given. *)
Lemma load_state_cases (av : AV) (file : option (list Z)) :
  load_state av file = (av, false) \/ (load_state av file).2 = true.
Proof.
  unfold load_state. destruct file as [f|]; [|left; reflexivity].
  destruct (fread_u 4 0 _) as [magic r1].
  destruct (negb (rd_ok r1) || negb (magic =? SAVE_MAGIC)); [left; reflexivity|].
  destruct (fread_u 4 0 r1) as [ver r2].
  destruct (negb (rd_ok r2) || negb (ver =? SAVE_VER)); [left; reflexivity|].
  destruct (read_cpu (cpu av) r2) as [[[c fl] fl2] r3].
  cbv zeta. cbn [snd set_cpu].
  destruct (read_snd (snd av) r3) as [s r4].
  destruct (negb (rd_ok r4)); [left; reflexivity | right; reflexivity].
Qed.

(** A load that succeeds has read a valid header and [SAVE_SIZE] bytes. *)
Lemma load_state_needs (av : AV) (f : list Z) :
  (load_state av (Some f)).2 = true ->
  le_int (take 4 f) = SAVE_MAGIC /\ le_int (take 4 (drop 4 f)) = SAVE_VER /\
  (SAVE_SIZE <= length f)%nat.
Proof.
  unfold load_state.
  destruct (fread_u 4 0 _) as [magic r1] eqn:E1.
  destruct (rd_ok r1) eqn:Hok1; [|intros H; discriminate H].
  destruct (magic =? SAVE_MAGIC) eqn:Hm; [|intros H; discriminate H].
  cbn [negb orb].
  destruct (fread_u 4 0 r1) as [ver r2] eqn:E2.
  destruct (rd_ok r2) eqn:Hok2; [|intros H; discriminate H].
  destruct (ver =? SAVE_VER) eqn:Hv; [|intros H; discriminate H].
  cbn [negb orb].
  destruct (read_cpu (cpu av) r2) as [[[c fl] fl2] r3] eqn:E3.
  cbv zeta. cbn [snd set_cpu].
  destruct (read_snd (snd av) r3) as [s r4] eqn:E4.
  destruct (rd_ok r4) eqn:Hok4; [|intros H; discriminate H].
  intros _.
  destruct (read_snd_ok _ _ _ _ E4 Hok4) as [Hok3 L4].
  destruct (read_cpu_ok _ _ _ _ _ _ E3 Hok3) as [_ L3].
  destruct (fread_u_val _ _ _ _ _ E2 Hok2) as [Vv D2].
  destruct (fread_u_ok _ _ _ _ _ E2 Hok2) as [_ L2].
  destruct (fread_u_val _ _ _ _ _ E1 Hok1) as [Vm D1].
  destruct (fread_u_ok _ _ _ _ _ E1 Hok1) as [_ L1].
  cbn [rd_in] in *.
  apply Z.eqb_eq in Hm, Hv. rewrite Vm in Hm. rewrite Vv, D1 in Hv.
  repeat apply conj; [exact Hm | exact Hv | unfold SAVE_SIZE; lia].
Qed.

(** C8: a failed load returns the system it was given, CPU, sound engine
    and ROM images included; and the load fails when the file cannot be
    opened, the magic or the version is wrong, or the file is shorter than a
    complete savestate. *)
Theorem load_state_atomic (av : AV) (file : option (list Z)) :
  ((load_state av file).2 = false -> (load_state av file).1 = av) /\
  (file = None -> (load_state av file).2 = false) /\
  (forall f : list Z, file = Some f ->
     le_int (take 4 f) <> SAVE_MAGIC \/ le_int (take 4 (drop 4 f)) <> SAVE_VER \/
     (length f < SAVE_SIZE)%nat ->
     (load_state av file).2 = false).
Proof.
  repeat apply conj.
  - intros Hf. destruct (load_state_cases av file) as [-> | Ht]; [reflexivity|].
    rewrite Ht in Hf. discriminate Hf.
  - intros ->. reflexivity.
  - intros f -> Hbad.
    destruct ((load_state av (Some f)).2) eqn:E; [|reflexivity].
    destruct (load_state_needs av f E) as (Hm & Hv & Hl).
    destruct Hbad as [H | [H | H]]; [contradiction | contradiction | lia].
Qed.

(** A savestate cut one byte short is refused and leaves the machine as it was. *)
Lemma load_state_atomic_witness :
  (length (take 1432 zero_blob) < SAVE_SIZE)%nat /\
  load_state jmp_loop (Some (take 1432 zero_blob)) = (jmp_loop, false).
Proof.
  split; [vm_compute; lia|].
  pose proof (load_state_atomic jmp_loop (Some (take 1432 zero_blob))) as (H1 & _ & H3).
  specialize (H3 _ eq_refl).
  assert (E : (load_state jmp_loop (Some (take 1432 zero_blob))).2 = false).
  { apply H3. right. right. vm_compute. lia. }
  specialize (H1 E).
  destruct (load_state jmp_loop (Some (take 1432 zero_blob))) as [a b].
  cbn in H1, E. subst. reflexivity.
Defined.

(** ** Display: loops in the bounds-checking monad *)

Lemma fold_opt_inv {S : Type} (P : Z -> S -> Prop) (body : Z -> S -> option S)
      (k a : nat) (s : S) :
  P (Z.of_nat a) s ->
  (forall i x, Z.of_nat a <= i < Z.of_nat (a + k) -> P i x ->
               exists x', body i x = Some x' /\ P (i + 1) x') ->
  exists s',
    fold_left (fun acc i => match acc with Some x => body (Z.of_nat i) x | None => None end)
              (seq a k) (Some s) = Some s' /\ P (Z.of_nat (a + k)) s'.
Proof.
  revert a s. induction k as [|k IH]; intros a s H0 Hstep.
  - exists s. rewrite Nat.add_0_r. split; [reflexivity | exact H0].
  - cbn [seq fold_left].
    destruct (Hstep (Z.of_nat a) s ltac:(lia) H0) as (x' & -> & Hx').
    destruct (IH (Datatypes.S a) x') as (s' & Hs' & HP).
    + replace (Z.of_nat (Datatypes.S a)) with (Z.of_nat a + 1) by lia. exact Hx'.
    + intros i x Hi. apply Hstep. lia.
    + exists s'. split; [exact Hs'|].
      replace (a + Datatypes.S k)%nat with (Datatypes.S a + k)%nat by lia. exact HP.
Qed.

(** The invariant rule of a bounds-checked [for] loop: the loop runs to
    completion when every iteration does. *)
Lemma for_range_opt_inv {S : Type} (P : Z -> S -> Prop) (n : Z)
      (body : Z -> S -> option S) (s : S) :
  P 0 s ->
  (forall i x, 0 <= i < n -> P i x -> exists x', body i x = Some x' /\ P (i + 1) x') ->
  exists s', for_range_opt n body s = Some s' /\ P (Z.max 0 n) s'.
Proof.
  intros H0 Hstep. unfold for_range_opt.
  destruct (fold_opt_inv P body (Z.to_nat n) 0 s H0) as (s' & Hs' & HP).
  - intros i x Hi. apply Hstep. lia.
  - exists s'. split; [exact Hs'|].
    replace (Z.max 0 n) with (Z.of_nat (0 + Z.to_nat n)) by lia. exact HP.
Qed.

Lemma load_Some {T : Type} (a : list T) (i : Z) :
  0 <= i < Z.of_nat (length a) -> exists v, load a i = Some v /\ a !! Z.to_nat i = Some v.
Proof.
  intros Hi. unfold load. destruct (0 <=? i) eqn:E; [|lia].
  destruct (lookup_lt_is_Some_2 a (Z.to_nat i) ltac:(lia)) as [v Hv].
  exists v. split; exact Hv.
Qed.

Lemma store_Some {T : Type} (a : list T) (i : Z) (v : T) :
  0 <= i < Z.of_nat (length a) -> store a i v = Some (<[Z.to_nat i := v]> a).
Proof.
  intros Hi. unfold store.
  destruct (0 <=? i) eqn:E1; [|lia]. destruct (i <? Z.of_nat (length a)) eqn:E2; [|lia].
  reflexivity.
Qed.

(** A store into byte [i] of column [col] succeeds inside the buffer and
    keeps its shape. *)
Lemma store2_wf (cd : list (list Z)) (col i v : Z) :
  cols_wf cd -> 0 <= col < SW -> 0 <= i < 5 ->
  exists cd', store2 cd col i v = Some cd' /\ cols_wf cd'.
Proof.
  intros [Hlen Hrows] Hcol Hi. unfold store2.
  destruct (load_Some cd col) as (row & -> & Hrow); [lia|].
  assert (Hr : length row = 5%nat).
  { rewrite Forall_forall in Hrows. apply Hrows. eapply list_elem_of_lookup_2. exact Hrow. }
  rewrite store_Some by lia. rewrite store_Some by lia.
  eexists. split; [reflexivity|]. split.
  - rewrite length_insert. exact Hlen.
  - apply Forall_insert; [exact Hrows|]. rewrite length_insert. exact Hr.
Qed.

(** Copying five bytes of [src], taken at offsets [off i], into column [col]. *)
Lemma copy_column_wf (src : list Z) (off : Z -> Z) (cd : list (list Z)) (col : Z) :
  cols_wf cd -> 0 <= col < SW ->
  (forall i, 0 <= i < 5 -> 0 <= off i < Z.of_nat (length src)) ->
  exists cd',
    for_range_opt 5 (fun i cd =>
      match load src (off i) with
      | Some v => store2 cd col i v
      | None => None
      end) cd = Some cd' /\ cols_wf cd'.
Proof.
  intros Hwf Hcol Hsrc.
  destruct (for_range_opt_inv (fun _ x => cols_wf x) 5
              (fun i cd => match load src (off i) with
                           | Some v => store2 cd col i v
                           | None => None
                           end) cd Hwf) as (cd' & H & Hwf').
  - intros i x Hi Hx.
    destruct (load_Some src (off i)) as (v & -> & _); [auto|].
    apply store2_wf; assumption.
  - exists cd'. split; assumption.
Qed.

(** ** Column buffer safety (C10) *)

Lemma disp_latch_total (d : AVDisp) :
  disp_wf d -> cols_captured d <= SW ->
  exists d', disp_latch_led_column d = Some d' /\ disp_wf d' /\ cols_captured d' <= SW /\
             (led_col d < 0 \/ SW <= led_col d ->
              col_data d' = col_data d /\ cols_captured d' = cols_captured d).
Proof.
  intros (Hph & Hlen & Hrows & Hreg) Hcc. unfold disp_latch_led_column. cbv zeta.
  destruct ((0 <=? led_col d) && (led_col d <? SW)) eqn:Hg.
  - apply andb_prop in Hg. destruct Hg as [Hg1 Hg2].
    apply Z.leb_le in Hg1. apply Z.ltb_lt in Hg2.
    destruct (copy_column_wf (led_reg d) (fun i => i) (col_data d) (led_col d))
      as (cd' & Hcd & Hl' & Hr'); [split; assumption | lia | rewrite Hreg; lia |].
    cbv beta in Hcd. rewrite Hcd. cbn [cols_captured set_col_data].
    eexists. split; [reflexivity|].
    destruct (cols_captured d <=? led_col d) eqn:Hc;
      cbn; (split; [repeat apply conj; assumption|]); split; lia.
  - eexists. split; [reflexivity|]. cbn.
    split; [repeat apply conj; assumption|]. split; [exact Hcc|]. auto.
Qed.

Lemma disp_capture_total (d : AVDisp) (xram : list Z) (col : Z) :
  disp_wf d -> cols_captured d <= SW ->
  length xram = Z.to_nat XRAM_SZ -> - 2147483648 <= col < 2147483648 ->
  exists d', disp_capture_column d xram col = Some d' /\ disp_wf d' /\ cols_captured d' <= SW.
Proof.
  intros (Hph & Hlen & Hrows & Hreg) Hcc Hx Hcol. unfold disp_capture_column. cbv zeta.
  destruct (SW <=? u32 col) eqn:Hg.
  - exists d. split; [reflexivity|]. split; [repeat apply conj; assumption | exact Hcc].
  - apply Z.leb_gt in Hg. unfold u32, SW in *.
    assert (Hc : 0 <= col < 150) by (Z.div_mod_to_equations; lia).
    assert (Hq : 0 <= Z.quot col 50 <= 2 /\ 0 <= Z.rem col 50 < 50).
    { rewrite Z.quot_div_nonneg, Z.rem_mod_nonneg by lia. Z.div_mod_to_equations. lia. }
    destruct ((1 + Z.quot col 50) * 256 + (6 + Z.rem col 50 * 5) + 4 <? XRAM_SZ) eqn:Hb.
    + apply Z.ltb_lt in Hb.
      destruct (copy_column_wf xram
                  (fun i => (1 + Z.quot col 50) * 256 + (6 + Z.rem col 50 * 5) + i)
                  (col_data d) col) as (cd' & Hcd & Hl' & Hr');
        [split; assumption | unfold SW; lia | rewrite Hx; unfold XRAM_SZ in *; lia |].
      cbv beta in Hcd. rewrite Hcd. cbn [cols_captured set_col_data].
      eexists. split; [reflexivity|].
      destruct (cols_captured d <=? col) eqn:Hcap;
        cbn; (split; [repeat apply conj; assumption|]); lia.
    + eexists. split; [reflexivity|]. cbn [cols_captured set_col_data].
      destruct (cols_captured d <=? col) eqn:Hcap;
        cbn; (split; [repeat apply conj; assumption|]); lia.
Qed.

Lemma disp_run_total (es : list disp_event) (d : AVDisp) :
  disp_wf d -> cols_captured d <= SW -> Forall ev_wf es ->
  exists d', disp_run d es = Some d' /\ disp_wf d' /\ cols_captured d' <= SW.
Proof.
  revert d. induction es as [|e es IH]; intros d Hwf Hcc Hes.
  - exists d. auto.
  - apply Forall_cons in Hes. destruct Hes as [He Hes]. cbn [disp_run].
    assert (Hstep : exists d1, disp_step d e = Some d1 /\ disp_wf d1 /\ cols_captured d1 <= SW).
    { destruct e as [|xram col|]; cbn [disp_step].
      - destruct (disp_latch_total d Hwf Hcc) as (d1 & H1 & H2 & H3 & _). eauto.
      - destruct He as [Hx Hc]. apply disp_capture_total; assumption.
      - eexists. split; [reflexivity|]. split; [exact Hwf | exact Hcc]. }
    destruct Hstep as (d1 & -> & Hwf1 & Hcc1). apply IH; assumption.
Qed.

(** ** End-of-frame update: the decay pass *)

Lemma decay_pass (decay : spec_float) (ph0 : list spec_float) :
  length ph0 = Z.to_nat (SW * SH) ->
  for_range_opt (SW * SH) (fun i ph =>
      match load ph i with
      | Some p => store ph i (decay_px decay p)
      | None => None
      end) ph0 = Some (map (decay_px decay) ph0).
Proof.
  intros Hlen. change (SW * SH) with 6000 in *.
  destruct (for_range_opt_inv
    (fun i ph => length ph = length ph0 /\
       forall j : nat, ph !! j = if Z.of_nat j <? i then decay_px decay <$> ph0 !! j
                                 else ph0 !! j)
    6000
    (fun i ph => match load ph i with
                 | Some p => store ph i (decay_px decay p)
                 | None => None
                 end) ph0) as (ph' & Hrun & Hl' & Hph').
  - split; [reflexivity|]. intros j. destruct (Z.of_nat j <? 0) eqn:E; [zlia | reflexivity].
  - intros i ph Hi [Hl Hph].
    assert (Hin : 0 <= i < Z.of_nat (length ph)) by (rewrite Hl, Hlen; zlia).
    destruct (load_Some ph i Hin) as (p & -> & Hp).
    rewrite (store_Some ph i _ Hin).
    eexists. split; [reflexivity|]. split; [rewrite length_insert; exact Hl|].
    intros j. destruct (Nat.eq_dec j (Z.to_nat i)) as [-> | Hne].
    + rewrite list_lookup_insert_eq by zlia.
      destruct (Z.of_nat (Z.to_nat i) <? i + 1) eqn:E; [|zlia].
      specialize (Hph (Z.to_nat i)). rewrite Hp in Hph.
      destruct (Z.of_nat (Z.to_nat i) <? i) eqn:E2; [zlia|].
      rewrite <- Hph. reflexivity.
    + rewrite list_lookup_insert_ne by congruence. rewrite Hph.
      destruct (Z.of_nat j <? i) eqn:E1; destruct (Z.of_nat j <? i + 1) eqn:E2;
        try reflexivity; zlia.
  - rewrite Hrun. f_equal. apply list_eq. intros j. rewrite Hph', list_lookup_fmap.
    destruct (Z.of_nat j <? Z.max 0 6000) eqn:E; [reflexivity|].
    rewrite (lookup_ge_None_2 ph0 j); [reflexivity|]. rewrite Hlen. zlia.
Qed.

(** ** End-of-frame update: the lighting pass *)

Section Lighting.

Variable d : AVDisp.
Variable dec : list spec_float.
Hypothesis Hcols : cols_wf (col_data d).
Hypothesis Hdec : length dec = Z.to_nat (SW * SH).

Lemma col_byte_load (c bi : Z) :
  0 <= c < SW -> 0 <= bi < 5 -> load2 (col_data d) c bi = Some (col_byte d c bi).
Proof.
  intros Hc Hbi. unfold col_byte, load2. destruct Hcols as [Hlen Hrows].
  destruct (load_Some (col_data d) c) as (row & -> & Hrow); [zlia|].
  assert (Hr : length row = 5%nat).
  { rewrite Forall_forall in Hrows. apply Hrows. eapply list_elem_of_lookup_2. exact Hrow. }
  destruct (load_Some row bi) as (v & -> & _); [zlia|]. reflexivity.
Qed.

(** One bit of one byte of one column. *)
Lemma light_bit_step (c bi b : Z) (ph : list spec_float) :
  0 <= c < SW -> 0 <= bi < 5 -> 0 <= b < 8 ->
  lighting_inv d dec c bi b ph ->
  exists ph', light_bit c bi (col_byte d c bi) b ph = Some ph' /\
              lighting_inv d dec c bi (b + 1) ph'.
Proof.
  intros Hc Hbi Hb [Hlen Hinv]. unfold light_bit. cbv zeta.
  set (y0 := (4 - bi) * 8 + (7 - b)).
  assert (Hy0 : 0 <= y0 < 40) by (subst y0; zlia).
  assert (Hu : u32 y0 = y0) by (unfold u32; apply Z.mod_small; zlia).
  rewrite Hu. unfold SH, SW in *. destruct (40 <=? y0) eqn:E; [zlia|]. clear E.
  assert (Hbyte : 4 - y0 / 8 = bi /\ 7 - y0 mod 8 = b)
    by (subst y0; Z.div_mod_to_equations; zlia).
  assert (Hclear : pixel_clear d c y0 = (Z.land (col_byte d c bi) (bit b) =? 0)).
  { unfold pixel_clear. destruct Hbyte as [-> ->]. reflexivity. }
  assert (Hvis : forall x y, 0 <= x < 150 -> 0 <= y < 40 ->
            (visited c bi (b + 1) x y <-> visited c bi b x y \/ (x = c /\ y = y0))).
  { intros x y Hx Hy. unfold visited. subst y0. Z.div_mod_to_equations. zlia. }
  assert (Hnot : ~ visited c bi b c y0).
  { unfold visited. zlia. }
  destruct (Z.land (col_byte d c bi) (bit b) =? 0) eqn:Hbit.
  - rewrite store_Some by (rewrite Hlen, Hdec; unfold SW, SH; zlia).
    eexists. split; [reflexivity|]. split; [rewrite length_insert; exact Hlen|].
    intros x y Hx Hy. destruct (Hinv x y Hx Hy) as [H1 H2]. unfold SW, SH in Hx, Hy |- *.
    destruct (Z.eq_dec (x + y * 150) (c + y0 * 150)) as [Heq | Hne].
    + assert (x = c /\ y = y0) as [-> ->] by zlia.
      rewrite list_lookup_insert_eq by (rewrite Hlen, Hdec; unfold SW, SH; zlia).
      split; [reflexivity|]. intros Hn. exfalso. apply Hn. split; [|rewrite Hclear; reflexivity].
      apply Hvis; auto.
    + rewrite list_lookup_insert_ne by zlia.
      split.
      * intros [Hv Hcl]. apply H1. split; [|exact Hcl].
        apply Hvis in Hv; auto. destruct Hv as [Hv | [-> ->]]; [exact Hv | zlia].
      * intros Hn. apply H2. intros [Hv Hcl]. apply Hn. split; [|exact Hcl].
        apply Hvis; auto.
  - exists ph. split; [reflexivity|]. split; [exact Hlen|].
    intros x y Hx Hy. destruct (Hinv x y Hx Hy) as [H1 H2]. unfold SW, SH in Hx, Hy |- *. split.
    + intros [Hv Hcl]. apply H1. split; [|exact Hcl].
      apply Hvis in Hv; auto. destruct Hv as [Hv | [-> ->]]; [exact Hv|].
      rewrite Hclear in Hcl. discriminate Hcl.
    + intros Hn. apply H2. intros [Hv Hcl]. apply Hn. split; [|exact Hcl].
      apply Hvis; auto.
Qed.

Lemma lighting_inv_ext (c bi b c' bi' b' : Z) (ph : list spec_float) :
  (forall x y, 0 <= x < SW -> 0 <= y < SH -> visited c bi b x y <-> visited c' bi' b' x y) ->
  lighting_inv d dec c bi b ph -> lighting_inv d dec c' bi' b' ph.
Proof.
  intros Hv [Hlen Hinv]. split; [exact Hlen|].
  intros x y Hx Hy. destruct (Hinv x y Hx Hy) as [H1 H2]. split.
  - intros [Ha Hb]. apply H1. split; [apply Hv; auto | exact Hb].
  - intros Hn. apply H2. intros [Ha Hb]. apply Hn. split; [apply Hv; auto | exact Hb].
Qed.

(** One byte: the eight bits. *)
Lemma light_byte_step (c bi : Z) (ph : list spec_float) :
  0 <= c < SW -> 0 <= bi < 5 ->
  lighting_inv d dec c bi 0 ph ->
  exists ph',
    match load2 (col_data d) c bi with
    | Some val => for_range_opt 8 (fun b ph => light_bit c bi val b ph) ph
    | None => None
    end = Some ph' /\ lighting_inv d dec c (bi + 1) 0 ph'.
Proof.
  intros Hc Hbi Hinv. rewrite col_byte_load by assumption.
  destruct (for_range_opt_inv (fun b x => lighting_inv d dec c bi b x) 8
              (fun b ph => light_bit c bi (col_byte d c bi) b ph) ph Hinv)
    as (ph' & Hrun & Hinv').
  - intros b x Hb Hx. apply light_bit_step; assumption.
  - exists ph'. split; [exact Hrun|].
    revert Hinv'. apply lighting_inv_ext. intros x y Hx Hy.
    change (Z.max 0 8) with 8. unfold visited, SW, SH in *. Z.div_mod_to_equations. zlia.
Qed.

(** One column: the five bytes. *)
Lemma light_column_step (c : Z) (ph : list spec_float) :
  0 <= c < SW ->
  lighting_inv d dec c 0 0 ph ->
  exists ph',
    for_range_opt 5 (fun bi ph =>
      match load2 (col_data d) c bi with
      | Some val => for_range_opt 8 (fun b ph => light_bit c bi val b ph) ph
      | None => None
      end) ph = Some ph' /\ lighting_inv d dec (c + 1) 0 0 ph'.
Proof.
  intros Hc Hinv.
  destruct (for_range_opt_inv (fun bi x => lighting_inv d dec c bi 0 x) 5
              (fun bi ph =>
                 match load2 (col_data d) c bi with
                 | Some val => for_range_opt 8 (fun b ph => light_bit c bi val b ph) ph
                 | None => None
                 end) ph Hinv) as (ph' & Hrun & Hinv').
  - intros bi x Hbi Hx. apply light_byte_step; assumption.
  - exists ph'. split; [exact Hrun|].
    revert Hinv'. apply lighting_inv_ext. intros x y Hx Hy.
    change (Z.max 0 5) with 5. unfold visited, SW, SH in *. Z.div_mod_to_equations. zlia.
Qed.

(** The whole pass over [cols <= SW] columns. *)
Lemma light_pass (cols : Z) :
  cols <= SW ->
  exists ph',
    for_range_opt cols (fun col ph =>
      for_range_opt 5 (fun bi ph =>
        match load2 (col_data d) col bi with
        | Some val => for_range_opt 8 (fun b ph => light_bit col bi val b ph) ph
        | None => None
        end) ph) dec = Some ph' /\
    length ph' = length dec /\
    forall x y, 0 <= x < SW -> 0 <= y < SH ->
      ph' !! Z.to_nat (x + y * SW) =
        if (x <? cols) && pixel_clear d x y then Some f32_one
        else dec !! Z.to_nat (x + y * SW).
Proof.
  intros Hle.
  destruct (for_range_opt_inv (fun c x => lighting_inv d dec c 0 0 x) cols
              (fun col ph =>
                 for_range_opt 5 (fun bi ph =>
                   match load2 (col_data d) col bi with
                   | Some val => for_range_opt 8 (fun b ph => light_bit col bi val b ph) ph
                   | None => None
                   end) ph) dec) as (ph' & Hrun & Hlen & Hinv').
  - split; [reflexivity|]. intros x y Hx Hy. split.
    + intros [Hv _]. unfold visited, SH in *. Z.div_mod_to_equations. zlia.
    + reflexivity.
  - intros c x Hc Hx. apply light_column_step; [zlia | exact Hx].
  - exists ph'. split; [exact Hrun|]. split; [exact Hlen|].
    intros x y Hx Hy. destruct (Hinv' x y Hx Hy) as [H1 H2].
    assert (Hv : visited (Z.max 0 cols) 0 0 x y <-> x < cols).
    { unfold visited, SH in *. Z.div_mod_to_equations. zlia. }
    destruct (x <? cols) eqn:E1; destruct (pixel_clear d x y) eqn:E2; cbn [andb].
    + apply H1. split; [apply Hv; zlia | reflexivity].
    + apply H2. intros [_ Hcl]. discriminate Hcl.
    + apply H2. intros [Ha _]. apply Hv in Ha. zlia.
    + apply H2. intros [_ Hcl]. discriminate Hcl.
Qed.

End Lighting.

(** [disp_update] on a well-formed display: it runs to completion, keeps the
    array sizes, resets the captured-column count, and leaves in every pixel
    1.0 when lit and the decayed previous value otherwise. *)
Lemma disp_update_spec (d : AVDisp) (decay : spec_float) :
  disp_wf d ->
  exists d', disp_update d decay = Some d' /\ disp_wf d' /\ cols_captured d' = 0 /\
    col_data d' = col_data d /\
    forall x y, 0 <= x < SW -> 0 <= y < SH ->
      exists p, phosphor d !! Z.to_nat (x + y * SW) = Some p /\
        phosphor d' !! Z.to_nat (x + y * SW) =
          Some (if led_lit d x y then f32_one else decay_px decay p).
Proof.
  intros (Hph & Hlen & Hrows & Hreg). unfold disp_update.
  rewrite (decay_pass decay (phosphor d) Hph). cbv zeta.
  destruct (light_pass d (map (decay_px decay) (phosphor d)) (conj Hlen Hrows)
              ltac:(rewrite length_map; exact Hph) (disp_update_cols d))
    as (ph' & -> & Hl' & Hpx).
  { unfold disp_update_cols. destruct (SW <? cols_captured d) eqn:E; zlia. }
  eexists. split; [reflexivity|]. unfold disp_wf.
  cbn [phosphor col_data cols_captured led_reg set_cols_captured set_phosphor].
  split; [repeat apply conj; try assumption; rewrite Hl', length_map; exact Hph|].
  split; [reflexivity|]. split; [reflexivity|].
  intros x y Hx Hy.
  destruct (lookup_lt_is_Some_2 (phosphor d) (Z.to_nat (x + y * SW))) as [p Hp].
  { rewrite Hph. unfold SW, SH in *. zlia. }
  exists p. split; [exact Hp|]. rewrite (Hpx x y Hx Hy). unfold led_lit.
  destruct ((x <? disp_update_cols d) && pixel_clear d x y); [reflexivity|].
  rewrite list_lookup_fmap, Hp. reflexivity.
Qed.

(** C10: from a well-formed display, any sequence of strobes, capture
    requests and syncs runs without an access outside the column buffer
    ([disp_run] is [Some]), keeps the buffer's shape and the captured count
    at most 150; the end-of-frame update consumes at most 150 columns, stays
    in bounds and resets the count to 0; a strobe with the column counter
    outside 0..149 leaves the buffer and the count unchanged. *)
Theorem column_buffer_safe (d : AVDisp) (es : list disp_event) (decay : spec_float) :
  disp_wf d -> cols_captured d <= SW -> Forall ev_wf es ->
  exists d1 d2,
    disp_run d es = Some d1 /\ disp_wf d1 /\ cols_captured d1 <= SW /\
    disp_update_cols d1 <= SW /\
    disp_update d1 decay = Some d2 /\ disp_wf d2 /\ cols_captured d2 = 0 /\
    (led_col d1 < 0 \/ SW <= led_col d1 ->
     exists d3, disp_latch_led_column d1 = Some d3 /\
                col_data d3 = col_data d1 /\ cols_captured d3 = cols_captured d1).
Proof.
  intros Hwf Hcc Hes.
  destruct (disp_run_total es d Hwf Hcc Hes) as (d1 & Hrun & Hwf1 & Hcc1).
  destruct (disp_update_spec d1 decay Hwf1) as (d2 & Hup & Hwf2 & Hz & _).
  exists d1, d2.
  split; [exact Hrun|]. split; [exact Hwf1|]. split; [exact Hcc1|].
  split.
  { unfold disp_update_cols. destruct (SW <? cols_captured d1) eqn:E;
      [apply Z.le_refl | exact Hcc1]. }
  split; [exact Hup|]. split; [exact Hwf2|]. split; [exact Hz|].
  intros Hout. destruct (disp_latch_total d1 Hwf1 Hcc1) as (d3 & H3 & _ & _ & Hsame).
  exists d3. split; [exact H3|]. apply Hsame. exact Hout.
Qed.

Lemma av_init_disp_wf : disp_wf (disp av_init).
Proof. unfold disp_wf. repeat apply conj; try reflexivity. cbn. repeat constructor. Qed.

(** 160 strobes and three capture requests from the power-up display. *)
Lemma column_buffer_safe_witness :
  disp_wf (disp av_init) /\ cols_captured (disp av_init) <= SW /\ Forall ev_wf strobe_storm /\
  exists d1 d2,
    disp_run (disp av_init) strobe_storm = Some d1 /\ disp_wf d1 /\ cols_captured d1 <= SW /\
    disp_update_cols d1 <= SW /\
    disp_update d1 DEF_PHOSPHOR = Some d2 /\ disp_wf d2 /\ cols_captured d2 = 0 /\
    (led_col d1 < 0 \/ SW <= led_col d1 ->
     exists d3, disp_latch_led_column d1 = Some d3 /\
                col_data d3 = col_data d1 /\ cols_captured d3 = cols_captured d1).
Proof.
  assert (H1 : disp_wf (disp av_init)) by exact av_init_disp_wf.
  assert (H2 : cols_captured (disp av_init) <= SW) by (vm_compute; discriminate).
  assert (H3 : Forall ev_wf strobe_storm).
  { unfold strobe_storm. apply Forall_app. split.
    - apply Forall_replicate. exact I.
    - repeat (apply Forall_cons; split); try solve [constructor];
        (split; [vm_compute; reflexivity | lia]). }
  split; [exact H1|]. split; [exact H2|]. split; [exact H3|].
  exact (column_buffer_safe (disp av_init) strobe_storm DEF_PHOSPHOR H1 H2 H3).
Defined.

Example strobe_storm_result :
  match disp_run (disp av_init) strobe_storm with
  | Some d1 => led_col d1 = 160 /\ cols_captured d1 = 150 /\ length (col_data d1) = 150%nat
  | None => False
  end.
Proof. vm_compute. repeat split. Qed.

(** ** Binary32 rounding of a product in [[0, 1]] *)

Lemma iter_pos_nat {T : Type} (f : T -> T) (p : positive) (x : T) :
  SpecFloat.iter_pos f p x = Nat.iter (Pos.to_nat p) f x.
Proof.
  revert x. induction p as [p IH | p IH |]; intros x; cbn [SpecFloat.iter_pos].
  - rewrite !IH, Pos2Nat.inj_xI.
    replace (Datatypes.S (2 * Pos.to_nat p)) with (Pos.to_nat p + Datatypes.S (Pos.to_nat p))%nat
      by lia.
    rewrite Nat.iter_add. f_equal. rewrite Nat.iter_succ_r. reflexivity.
  - rewrite !IH, Pos2Nat.inj_xO.
    replace (2 * Pos.to_nat p)%nat with (Pos.to_nat p + Pos.to_nat p)%nat by lia.
    rewrite Nat.iter_add. reflexivity.
  - reflexivity.
Qed.

(** One right shift: halve the mantissa, remember the bit shifted out. *)
Lemma shr_1_spec (mrs : shr_record) :
  0 <= shr_m mrs ->
  shr_m (shr_1 mrs) = shr_m mrs / 2 /\
  shr_r (shr_1 mrs) = Z.odd (shr_m mrs) /\
  shr_s (shr_1 mrs) = shr_r mrs || shr_s mrs.
Proof.
  destruct mrs as [m r s]. cbn [shr_m shr_r shr_s]. intros Hm.
  destruct m as [|[p|p|]|]; cbn [shr_1 shr_m shr_r shr_s]; try lia.
  - repeat apply conj; reflexivity.
  - repeat apply conj; try reflexivity. rewrite Pos2Z.inj_xI. Z.div_mod_to_equations. lia.
  - repeat apply conj; try reflexivity. rewrite Pos2Z.inj_xO. Z.div_mod_to_equations. lia.
  - repeat apply conj; reflexivity.
Qed.

(** [k] right shifts: the mantissa is divided by [2^k], and nothing is
    lost when [2^k] divides it. *)
Lemma shr_iter_spec (k : nat) (m : Z) :
  0 <= m ->
  let mrs := Nat.iter k shr_1 (Build_shr_record m false false) in
  shr_m mrs = m / 2 ^ Z.of_nat k /\
  (m mod 2 ^ Z.of_nat k = 0 -> shr_r mrs = false /\ shr_s mrs = false).
Proof.
  intros Hm. induction k as [|k IH]; cbv zeta in *.
  - cbn [Nat.iter shr_m shr_r shr_s]. change (2 ^ Z.of_nat 0) with 1.
    rewrite Z.div_1_r. auto.
  - rewrite Nat.iter_succ. destruct IH as [IHm IHe].
    set (mrs := Nat.iter k shr_1 _) in *.
    assert (Hpos : 0 < 2 ^ Z.of_nat k) by (apply Z.pow_pos_nonneg; lia).
    assert (H0 : 0 <= shr_m mrs) by (rewrite IHm; apply Z.div_pos; lia).
    destruct (shr_1_spec mrs H0) as (H1 & H2 & H3).
    assert (Hk : 2 ^ Z.of_nat (Datatypes.S k) = 2 ^ Z.of_nat k * 2).
    { rewrite Nat2Z.inj_succ, Z.pow_succ_r by lia. lia. }
    split.
    + rewrite H1, IHm, Hk. rewrite Z.div_div by lia. reflexivity.
    + intros Hdiv. rewrite H2, H3. rewrite Hk in Hdiv.
      assert (Hd : m mod 2 ^ Z.of_nat k = 0 /\ (m / 2 ^ Z.of_nat k) mod 2 = 0).
      { rewrite Z.rem_mul_r in Hdiv by lia.
        pose proof (Z.mod_pos_bound m (2 ^ Z.of_nat k) Hpos).
        pose proof (Z.mod_pos_bound (m / 2 ^ Z.of_nat k) 2 ltac:(lia)). nia. }
      destruct Hd as [Hd1 Hd2]. destruct (IHe Hd1) as [-> ->].
      split; [|reflexivity]. rewrite IHm.
      rewrite <- Z.negb_even. apply negb_false_iff, Z.even_spec.
      exists (m / 2 ^ Z.of_nat k / 2). Z.div_mod_to_equations. lia.
Qed.

(** A binary mantissa has at least [2^(digits - 1)]. *)
Lemma digits2_pos_le (p : positive) : 2 ^ (Zpos (digits2_pos p) - 1) <= Zpos p.
Proof.
  induction p as [p IH | p IH |]; cbn [digits2_pos].
  - rewrite Pos2Z.inj_succ. replace (Z.succ (Zpos (digits2_pos p)) - 1)
      with (Z.succ (Zpos (digits2_pos p) - 1)) by lia.
    rewrite Z.pow_succ_r by lia. lia.
  - rewrite Pos2Z.inj_succ. replace (Z.succ (Zpos (digits2_pos p)) - 1)
      with (Z.succ (Zpos (digits2_pos p) - 1)) by lia.
    rewrite Z.pow_succ_r by lia. lia.
  - reflexivity.
Qed.

Lemma Zdigits2_unit (m e : Z) : unit_me m e -> Zdigits2 m + e <= 1.
Proof.
  intros (Hm & He & Hb). destruct m as [|p|p]; cbn [Zdigits2]; try lia.
  pose proof (digits2_pos_le p) as Hd.
  destruct (Z.le_gt_cases (Zpos (digits2_pos p) + e) 1) as [|Hgt]; [assumption|].
  exfalso.
  assert (2 ^ (- e) < 2 ^ (Zpos (digits2_pos p) - 1)).
  { apply Z.pow_lt_mono_r; lia. }
  lia.
Qed.

(** The truncating shift of [binary_round_aux] keeps a number of [[0, 1]]
    there, and a mantissa that reaches [2^(-e)] was shifted exactly. *)
Lemma shr_fexp_unit (m e : Z) :
  unit_me m e ->
  let r := shr_fexp prec32 emax32 m e loc_Exact in
  unit_me (shr_m r.1) r.2 /\
  (shr_m r.1 = 2 ^ (- r.2) -> loc_of_shr_record r.1 = loc_Exact).
Proof.
  intros Hu. pose proof (Zdigits2_unit m e Hu) as Hd. destruct Hu as (Hm & He & Hb).
  cbv zeta. unfold shr_fexp, shr_record_of_loc.
  set (n := fexp prec32 emax32 (Zdigits2 m + e) - e).
  assert (Hn : n + e <= 0).
  { subst n. unfold fexp, emin, prec32, emax32. lia. }
  unfold shr. destruct n as [|p|p] eqn:En.
  - cbn [fst Datatypes.snd shr_m]. split; [repeat apply conj; assumption|].
    intros _. reflexivity.
  - rewrite iter_pos_nat. cbn [fst Datatypes.snd].
    destruct (shr_iter_spec (Pos.to_nat p) m Hm) as [Hs He'].
    rewrite positive_nat_Z in Hs, He'.
    assert (Hpos : 0 < 2 ^ Zpos p) by (apply Z.pow_pos_nonneg; lia).
    assert (Hpow : 2 ^ (- e) = 2 ^ (- (e + Zpos p)) * 2 ^ Zpos p).
    { rewrite <- Z.pow_add_r by lia. f_equal. lia. }
    split.
    + repeat apply conj.
      * rewrite Hs. apply Z.div_pos; lia.
      * lia.
      * rewrite Hs. apply Z.div_le_upper_bound; [lia|]. lia.
    + intros Heq. rewrite Hs in Heq.
      assert (Hex : m mod 2 ^ Zpos p = 0).
      { assert (m = 2 ^ (- e)).
        { pose proof (Z.mul_div_le m (2 ^ Zpos p) Hpos). nia. }
        subst m. rewrite Hpow. apply Z.mod_mul. lia. }
      destruct (He' Hex) as [Hr Hst].
      destruct (Nat.iter (Pos.to_nat p) shr_1 _) as [m1 r1 s1].
      cbn [shr_r shr_s] in Hr, Hst. subst r1 s1. reflexivity.
  - cbn [fst Datatypes.snd shr_m]. split; [repeat apply conj; assumption|].
    intros _. reflexivity.
Qed.

(** Rounding to nearest moves the mantissa up by at most one, and not at
    all when nothing was shifted out. *)
Lemma round_nearest_even_cases (m : Z) (l : location) :
  (round_nearest_even m l = m \/ round_nearest_even m l = m + 1) /\
  (l = loc_Exact -> round_nearest_even m l = m).
Proof.
  unfold round_nearest_even.
  destruct l as [|[| |]]; try destruct (IntDef.Z.even m);
    (split; [auto | first [discriminate | reflexivity]]).
Qed.

(** The product of two numbers of [[0, 1]], rounded to binary32, is in
    [[0, 1]]. *)
Lemma binary_round_unit (m e : Z) :
  unit_me m e -> in_unit (binary_round_aux prec32 emax32 false m e loc_Exact).
Proof.
  intros Hu. unfold binary_round_aux.
  destruct (shr_fexp_unit m e Hu) as [Hu1 Hx1].
  destruct (shr_fexp prec32 emax32 m e loc_Exact) as [mrs1 e1].
  cbn [fst Datatypes.snd] in Hu1, Hx1.
  set (m2 := round_nearest_even (shr_m mrs1) (loc_of_shr_record mrs1)).
  assert (Hu2 : unit_me m2 e1).
  { destruct Hu1 as (H0 & He & Hb).
    destruct (round_nearest_even_cases (shr_m mrs1) (loc_of_shr_record mrs1)) as [Hc Hexact].
    fold m2 in Hc, Hexact.
    destruct (Z.eq_dec (shr_m mrs1) (2 ^ (- e1))) as [Heq|Hne].
    - rewrite (Hexact (Hx1 Heq)). repeat apply conj; assumption.
    - repeat apply conj; lia. }
  destruct (shr_fexp_unit m2 e1 Hu2) as [Hu3 _].
  destruct (shr_fexp prec32 emax32 m2 e1 loc_Exact) as [mrs3 e3].
  cbn [fst Datatypes.snd] in Hu3. destruct Hu3 as (H0 & He & Hb).
  destruct (shr_m mrs3) as [|p|p]; [exact I| |lia].
  replace (e3 <=? emax32 - prec32) with true
    by (symmetry; apply Z.leb_le; unfold emax32, prec32; lia).
  split; assumption.
Qed.

Lemma in_unit_me (m : positive) (e : Z) :
  in_unit (S754_finite false m e) <-> unit_me (Zpos m) e.
Proof. unfold unit_me. cbn [in_unit]. split; intros; repeat split; try lia; tauto. Qed.

Lemma f32_mul_unit (p q : spec_float) : in_unit p -> in_unit q -> in_unit (f32_mul p q).
Proof.
  unfold f32_mul, SFmul.
  destruct p as [sp|sp| |sp mp ep], q as [sq|sq| |sq mq eq]; cbn [in_unit]; try tauto.
  destruct sp, sq; try tauto. intros [Hep Hp] [Heq Hq]. cbn [xorb].
  apply binary_round_unit. repeat apply conj; try lia.
  rewrite Pos2Z.inj_mul. replace (- (ep + eq)) with (- ep + - eq) by lia.
  rewrite Z.pow_add_r by lia. apply Z.mul_le_mono_nonneg; lia.
Qed.

Lemma decay_px_unit (decay p : spec_float) :
  in_unit decay -> in_unit p -> in_unit (decay_px decay p).
Proof.
  intros Hd Hp. unfold decay_px. cbv zeta.
  destruct (SFltb _ _); [exact I|]. apply f32_mul_unit; assumption.
Qed.

Lemma f32_one_unit : in_unit f32_one.
Proof. vm_compute. split; discriminate. Qed.

(** ** End-of-frame update: phosphor values (C9) *)

Lemma disp_px_lookup (d : AVDisp) (x y : Z) (v : spec_float) :
  0 <= x < SW -> 0 <= y < SH ->
  phosphor d !! Z.to_nat (x + y * SW) = Some v -> disp_px d x y = v.
Proof.
  intros Hx Hy Hv. unfold disp_px, u32. unfold SW, SH in *.
  rewrite !Z.mod_small by lia.
  replace (150 <=? x) with false by (symmetry; apply Z.leb_gt; lia).
  replace (40 <=? y) with false by (symmetry; apply Z.leb_gt; lia).
  cbn [orb]. rewrite Hv. reflexivity.
Qed.

Lemma lit_display_wf : disp_wf lit_display.
Proof. unfold disp_wf. repeat apply conj; try (vm_compute; reflexivity). cbn. repeat constructor. Qed.

(** On [lit_display] the update lights columns 0 and 1 and decays the other
    pixels from 0.5 to 0.5 * 0.45, which is above the floor. *)
Example lit_display_update :
  exists d',
    disp_update lit_display DEF_PHOSPHOR = Some d' /\
    disp_px d' 0 0 = f32_one /\ disp_px d' 1 39 = f32_one /\
    disp_px d' 2 0 = f32_mul f32_half DEF_PHOSPHOR /\
    disp_px d' 149 39 = f32_mul f32_half DEF_PHOSPHOR /\
    SFltb (f32_mul f32_half DEF_PHOSPHOR) f32_eps = false.
Proof.
  destruct (disp_update_spec lit_display DEF_PHOSPHOR lit_display_wf)
    as (d' & Hup & _ & _ & _ & Hpx).
  assert (Hval : forall x y, 0 <= x < SW -> 0 <= y < SH ->
            disp_px d' x y =
              if led_lit lit_display x y then f32_one
              else decay_px DEF_PHOSPHOR (disp_px lit_display x y)).
  { intros x y Hx Hy. destruct (Hpx x y Hx Hy) as (p & Hp & Hp').
    rewrite (disp_px_lookup lit_display x y p Hx Hy Hp).
    exact (disp_px_lookup d' x y _ Hx Hy Hp'). }
  exists d'. split; [exact Hup|].
  rewrite (Hval 0 0), (Hval 1 39), (Hval 2 0), (Hval 149 39) by (unfold SW, SH; lia).
  repeat apply conj; vm_compute; reflexivity.
Qed.

(** A pixel under the floor is cleared: 0.02 * 0.45 = 0.009 < 0.01. *)
Example decay_px_floor : decay_px DEF_PHOSPHOR (f32_lit 2 100) = f32_zero.
Proof. vm_compute. reflexivity. Qed.

(** ** Frame step: cycle budget (C4) *)

Lemma av_port_write_keeps (av : AV) (port val : Z) :
  dbg_active (av_port_write av port val) = dbg_active av /\
  cycles (cpu (av_port_write av port val)) = cycles (cpu av).
Proof.
  unfold av_port_write.
  destruct port as [|[[|[]|]|[|[]|]|]|]; try (split; reflexivity).
  destruct (negb _ && _); [|split; reflexivity].
  destruct (disp_latch_led_column (disp av)); split; reflexivity.
Qed.

Lemma av_led_latch_keeps (av : AV) (p2 data : Z) :
  dbg_active (av_led_latch av p2 data) = dbg_active av /\
  cycles (cpu (av_led_latch av p2 data)) = cycles (cpu av).
Proof. unfold av_led_latch. destruct (0 <=? _); split; reflexivity. Qed.

Lemma daa_cycles (c : I8048) : cycles (daa c) = cycles c.
Proof.
  unfold daa. cbv zeta.
  repeat match goal with |- context [if ?b then _ else _] => destruct b end; reflexivity.
Qed.

Lemma jcond_cycles (c : I8048) (cond : I8048 -> bool) : cycles (jcond c cond) = cycles c.
Proof. unfold jcond, ft. destruct (cond _); reflexivity. Qed.

(** The opcode switch returns 1 or 2 cycles and leaves the debugger switch
    and the cycle counter alone, whatever the opcode: by cases on the eight
    low bits of the opcode. *)
Ltac op_leaf :=
  unfold op_ok; cbv beta iota zeta delta [exec_op ft fst Datatypes.snd];
  split; [first [left; reflexivity | right; reflexivity]|];
  first
    [ split; reflexivity
    | rewrite (proj1 (av_port_write_keeps _ _ _)), (proj2 (av_port_write_keeps _ _ _));
      split; reflexivity
    | rewrite (proj1 (av_led_latch_keeps _ _ _)), (proj2 (av_led_latch_keeps _ _ _));
      split; reflexivity
    | split; [reflexivity|]; cbn [cpu set_cpu];
      first [apply daa_cycles | apply jcond_cycles
            | match goal with |- context [if ?b then _ else _] => destruct b end; reflexivity ] ].

Lemma exec_op_ok (av : AV) (c : I8048) (op : Z) : op_ok av c (exec_op av c op).
Proof.
  destruct op as [|p|p]; [op_leaf| |op_leaf].
  do 8 (try (destruct p as [p|p|])); op_leaf.
Qed.

Lemma i8048_exec_ok (av : AV) :
  step_ok av (i8048_exec av).2 (i8048_exec av).1.
Proof.
  unfold i8048_exec, ft.
  pose proof (exec_op_ok av (set_PC (Z.land (PC (cpu av) + 1) 0xFFF) (cpu av))
                         (rom_rd (cpu av) (PC (cpu av)))) as Hop.
  destruct (exec_op av _ _) as [av1 cy]. destruct Hop as (Hcy & Hd & Hc).
  cbn [fst Datatypes.snd] in *. 
  destruct (exec_tail_frame (cpu av1) cy) as (_ & _ & _ & _ & _ & _ & Ht).
  split; [exact Hcy|]. split; [exact Hd|].
  cbn [cpu set_cpu]. rewrite Ht, Hc. reflexivity.
Qed.

Lemma with_disp_keeps (r : option AVDisp) (av : AV) :
  dbg_active (with_disp r av) = dbg_active av /\ cpu (with_disp r av) = cpu av.
Proof. destruct r; split; reflexivity. Qed.

Lemma timer_tick_cycles (c : I8048) : cycles (timer_tick c) = cycles c.
Proof. pose proof (timer_tick_frame c) as Hf. unfold timer_frame in Hf. tauto. Qed.

Ltac pull_let H v :=
  match type of H with
  | ?l = (let x := ?e in @?b x) => pose (v := e); change (l = b v) in H; cbv beta in H
  end.

(** One iteration of the frame loop adds the instruction's cycles to
    [elapsed]. *)
Lemma frame_iter_ok (av : AV) (elapsed : Z) :
  let r := frame_iter av elapsed in
  step_ok av (r.2 - elapsed) r.1.
Proof.
  cbv zeta. remember (frame_iter av elapsed) as r eqn:Er.
  cbv beta delta [frame_iter] in Er.
  pull_let Er prev_t1.
  pose proof (i8048_exec_ok av) as Hex.
  destruct (i8048_exec av) as [av1 cy]. cbn [fst Datatypes.snd] in Hex.
  destruct Hex as (Hcy & Hd & Hc). cbv beta iota in Er.
  pull_let Er el. pull_let Er new_t1.
  pull_let Er av2.
  assert (H2 : dbg_active av2 = dbg_active av1 /\ cpu av2 = cpu av1).
  { clear Er. subst av2. destruct (_ && _ && _); split; reflexivity. }
  clearbody av2.
  pull_let Er av3.
  assert (H3 : dbg_active av3 = dbg_active av2 /\ cpu av3 = cpu av2).
  { clear Er. subst av3. cbv zeta.
    repeat match goal with |- context [if ?b then _ else _] => destruct b end;
      first [apply with_disp_keeps | split; reflexivity]. }
  clearbody av3.
  pull_let Er av4.
  assert (H4 : dbg_active av4 = dbg_active av3 /\ cycles (cpu av4) = cycles (cpu av3)).
  { clear Er. subst av4. destruct (_ && _ && _); [|split; reflexivity].
    split; [reflexivity|]. cbn [cpu set_cpu]. apply timer_tick_cycles. }
  clearbody av4.
  subst r. cbn [fst Datatypes.snd]. subst el.
  replace (elapsed + cy - elapsed) with cy by lia.
  destruct H2 as [H2 H2'], H3 as [H3 H3'], H4 as [H4 H4'].
  split; [exact Hcy|]. split.
  - cbn [dbg_active set_cpu]. congruence.
  - cbn [cpu set_cpu cycles set_t1]. rewrite H4', H3', H2'. exact Hc.
Qed.

Lemma u64_add_idem (a x y : Z) : u64 (u64 (a + x) + y) = u64 (a + (x + y)).
Proof. unfold u64. rewrite Zplus_mod_idemp_l. f_equal. lia. Qed.

(** Without the debugger the frame loop ends normally, within its fuel,
    one instruction after [elapsed] reaches the budget. *)
Lemma frame_loop_done (fuel : nat) (av : AV) (e : Z) :
  dbg_active av = false -> e <= CYCLES_PER_FR + 1 -> CYCLES_PER_FR - e <= Z.of_nat fuel ->
  exists av1 e1,
    frame_loop fuel av e = FrameDone av1 e1 /\
    CYCLES_PER_FR <= e1 <= CYCLES_PER_FR + 1 /\
    ((e1 = e /\ av1 = av) \/
     (e < e1 /\ cycles (cpu av1) = u64 (cycles (cpu av) + (e1 - e)))).
Proof.
  revert av e. induction fuel as [|fuel IH]; intros av e Hdbg Hle Hfuel.
  - cbn [frame_loop]. replace (e <? CYCLES_PER_FR) with false by (symmetry; apply Z.ltb_ge; lia).
    exists av, e. split; [reflexivity|]. split; [lia|]. left. split; reflexivity.
  - cbn [frame_loop]. destruct (e <? CYCLES_PER_FR) eqn:Elt.
    + assert (Hchk : dbg_check av = av) by (unfold dbg_check; rewrite Hdbg; reflexivity).
      rewrite Hchk, Hdbg. cbn [andb].
      pose proof (frame_iter_ok av e) as Hit. cbv zeta in Hit.
      destruct (frame_iter av e) as [av' e']. cbn [fst Datatypes.snd] in Hit.
      destruct Hit as (Hcy & Hd & Hc).
      apply Z.ltb_lt in Elt.
      destruct (IH av' e') as (av1 & e1 & Hrun & Hb & Hcyc).
      * rewrite Hd. exact Hdbg.
      * lia.
      * lia.
      * exists av1, e1. split; [exact Hrun|]. split; [exact Hb|]. right.
        destruct Hcyc as [[-> ->] | [Hlt Hcyc]].
        -- split; [lia | exact Hc].
        -- split; [lia|]. rewrite Hcyc, Hc, u64_add_idem. f_equal. lia.
    + apply Z.ltb_ge in Elt.
      exists av, e. split; [reflexivity|]. split; [lia|]. left. split; reflexivity.
Qed.


(** With the debugger single-stepping the frame returns before the first
    instruction and without the display update. *)
Lemma dbg_halted_frame :
  frame_cycles dbg_halted = None /\ av_run_frame dbg_halted = frame_begin dbg_halted.
Proof. split; reflexivity. Qed.

(** ** Frame step: the debugger and what the loop leaves alone *)

Lemma loop_keeps_refl (av : AV) : loop_keeps av av.
Proof. repeat split. Qed.

Lemma loop_keeps_trans (a b c : AV) : loop_keeps a b -> loop_keeps b c -> loop_keeps a c.
Proof.
  intros (A1 & A2 & A3 & A4 & A5 & A6 & A7) (B1 & B2 & B3 & B4 & B5 & B6 & B7).
  unfold loop_keeps. rewrite B1, B2, B3, B4, B5, B6, B7. repeat split; assumption.
Qed.

Lemma capture_phosphor (d d' : AVDisp) (xram : list Z) (col : Z) :
  disp_capture_column d xram col = Some d' -> phosphor d' = phosphor d.
Proof.
  unfold disp_capture_column. destruct (SW <=? u32 col); [intros [= <-]; reflexivity|].
  cbv zeta. destruct (if _ <? XRAM_SZ then _ else _) as [cd|]; [|discriminate].
  intros [= <-]. destruct (_ <=? col); reflexivity.
Qed.

Lemma latch_phosphor (d d' : AVDisp) :
  disp_latch_led_column d = Some d' -> phosphor d' = phosphor d.
Proof.
  unfold disp_latch_led_column. cbv zeta.
  destruct (if (0 <=? led_col d) && (led_col d <? SW) then _ else _) as [d1|] eqn:E;
    [|discriminate].
  intros [= <-]. cbn [phosphor set_led_active set_led_col].
  destruct ((0 <=? led_col d) && (led_col d <? SW)); [|injection E as <-; reflexivity].
  destruct (for_range_opt 5 _ _) as [cd|]; [|discriminate E].
  injection E as <-. destruct (_ <=? _); reflexivity.
Qed.

Lemma with_disp_loop_keeps (r : option AVDisp) (av : AV) :
  (forall d', r = Some d' -> phosphor d' = phosphor (disp av)) ->
  loop_keeps av (with_disp r av).
Proof.
  intros H. destruct r as [d'|]; [|apply loop_keeps_refl].
  unfold loop_keeps. cbn [with_disp disp set_disp dbg_active dbg_stepping dbg_bp dbg_bp_count
                          frame_count cfg_phosphor].
  rewrite (H d' eq_refl). repeat split.
Qed.

Lemma av_port_write_loop_keeps (av : AV) (port val : Z) :
  loop_keeps av (av_port_write av port val).
Proof.
  unfold av_port_write.
  destruct port as [|[[p|p|]|[p|p|]|]|]; try (repeat split; reflexivity).
  cbv zeta. destruct (_ && _); [|repeat split; reflexivity].
  apply (loop_keeps_trans av (with_disp (disp_latch_led_column (disp av)) av));
    [|repeat split; reflexivity].
  apply with_disp_loop_keeps. intros d' Hd. exact (latch_phosphor _ _ Hd).
Qed.

Lemma av_led_latch_loop_keeps (av : AV) (p2 data : Z) :
  loop_keeps av (av_led_latch av p2 data).
Proof. unfold av_led_latch. destruct (0 <=? _); repeat split; reflexivity. Qed.

Ltac loop_leaf :=
  cbv beta iota zeta delta [exec_op ft fst Datatypes.snd];
  first
    [ solve [repeat split; reflexivity]
    | eapply loop_keeps_trans; [|apply av_port_write_loop_keeps]; repeat split; reflexivity
    | eapply loop_keeps_trans; [|apply av_led_latch_loop_keeps]; repeat split; reflexivity ].

(** Whatever the opcode, an instruction leaves the debugger, the phosphor
    buffer, the frame counter and the decay constant alone. *)
Lemma exec_op_loop_keeps (av : AV) (c : I8048) (op : Z) :
  loop_keeps av (exec_op av c op).1.
Proof.
  destruct op as [|p|p]; [loop_leaf| |loop_leaf].
  do 8 (try (destruct p as [p|p|])); loop_leaf.
Qed.

Lemma i8048_exec_loop_keeps (av : AV) : loop_keeps av (i8048_exec av).1.
Proof.
  unfold i8048_exec. destruct (ft (cpu av)) as [op c].
  pose proof (exec_op_loop_keeps av c op) as H.
  destruct (exec_op av c op) as [av1 cy]. cbn [fst] in *.
  eapply loop_keeps_trans; [exact H|]. repeat split.
Qed.

Lemma frame_iter_elapsed (av : AV) (e : Z) :
  (frame_iter av e).2 = e + (i8048_exec av).2.
Proof. unfold frame_iter. destruct (i8048_exec av) as [av1 cy]. reflexivity. Qed.

Ltac each_branch :=
  repeat match goal with
         | |- context [if ?b then _ else _] =>
             lazymatch b with
             | context [if _ then _ else _] => fail
             | _ => destruct b
             end
         end.

Lemma frame_iter_loop_keeps (av : AV) (e : Z) : loop_keeps av (frame_iter av e).1.
Proof.
  unfold frame_iter.
  pose proof (i8048_exec_loop_keeps av) as Hx.
  destruct (i8048_exec av) as [av1 cy]. cbn [fst] in Hx. cbv zeta.
  eapply loop_keeps_trans; [exact Hx|]. clear Hx.
  each_branch; cbn [fst];
    try match goal with
        | |- context [with_disp ?r _] =>
            let E := fresh "E" in
            destruct r eqn:E; [apply capture_phosphor in E|]; cbn [with_disp]
        end;
    unfold loop_keeps;
    cbn [dbg_active dbg_stepping dbg_bp dbg_bp_count disp frame_count cfg_phosphor
         set_cpu set_disp set_disp_sync_seen set_disp_sync_cycle phosphor set_led_col] in *;
    repeat split; first [reflexivity | assumption].
Qed.

Lemma dbg_check_cases (av : AV) :
  (dbg_check av = av /\ (dbg_active av = false \/ bp_hit av = false)) \/
  (dbg_check av = set_dbg_stepping true av /\ dbg_active av = true /\ bp_hit av = true).
Proof.
  unfold dbg_check, bp_hit. destruct (dbg_active av); [|left; split; [reflexivity | left; reflexivity]].
  destruct (existsb _ _); [right | left]; repeat split; right; reflexivity.
Qed.

(** The frame loop from any loop head: within its fuel it either runs to
    the end of the budget or is stopped by the debugger before an
    instruction. *)
Lemma frame_loop_run (fuel : nat) (av : AV) (e : Z) :
  e <= CYCLES_PER_FR + 1 -> CYCLES_PER_FR - e <= Z.of_nat fuel ->
  match frame_loop fuel av e with
  | FrameDone av1 e1 =>
      CYCLES_PER_FR <= e1 <= CYCLES_PER_FR + 1 /\ loop_keeps av av1 /\
      ((e1 = e /\ av1 = av) \/
       (cycles (cpu av1) = u64 (cycles (cpu av) + (e1 - e)) /\
        exists avp e0,
          e <= e0 < CYCLES_PER_FR /\ frame_iter avp e0 = (av1, e1) /\
          e1 = e0 + (i8048_exec avp).2 /\
          ((i8048_exec avp).2 = 1 \/ (i8048_exec avp).2 = 2) /\
          ((e0 = e /\ avp = av) \/
           cycles (cpu avp) = u64 (cycles (cpu av) + (e0 - e)))))
  | FrameStopped av1 e1 =>
      e <= e1 < CYCLES_PER_FR /\
      dbg_active av = true /\ dbg_active av1 = true /\ dbg_stepping av1 = true /\
      (dbg_stepping av = true \/ bp_hit av1 = true) /\
      phosphor (disp av1) = phosphor (disp av) /\ frame_count av1 = frame_count av /\
      ((e1 = e /\ cpu av1 = cpu av) \/
       (e < e1 /\ cycles (cpu av1) = u64 (cycles (cpu av) + (e1 - e))))
  | FrameFuel => False
  end.
Proof.
  revert av e. induction fuel as [|fuel IH]; intros av e Hle Hfuel; cbn [frame_loop].
  - replace (e <? CYCLES_PER_FR) with false by (symmetry; apply Z.ltb_ge; lia).
    split; [lia|]. split; [apply loop_keeps_refl|]. left. split; reflexivity.
  - destruct (e <? CYCLES_PER_FR) eqn:Elt.
    2: { apply Z.ltb_ge in Elt. split; [lia|]. split; [apply loop_keeps_refl|].
         left. split; reflexivity. }
    apply Z.ltb_lt in Elt.
    destruct (dbg_check_cases av) as [[Hchk Hno] | (Hchk & Hact & Hbp)].
    + rewrite Hchk.
      destruct (dbg_active av && dbg_stepping av) eqn:Estop.
      * apply andb_prop in Estop. destruct Estop as [Ha Hs].
        split; [lia|]. repeat split; try assumption. { left. exact Hs. }
        left. split; reflexivity.
      * pose proof (frame_iter_ok av e) as Hit. cbv zeta in Hit.
        pose proof (frame_iter_loop_keeps av e) as Hk.
        pose proof (frame_iter_elapsed av e) as Hel.
        destruct (frame_iter av e) as [av' e'] eqn:Eit. cbn [fst Datatypes.snd] in *.
        destruct Hit as (Hcy & Hd & Hc).
        specialize (IH av' e' ltac:(lia) ltac:(lia)).
        destruct (frame_loop fuel av' e') as [av1 e1|av1 e1|]; [| |exact IH].
        -- destruct IH as (Hb & Hk1 & Hlast).
           split; [exact Hb|]. split; [eapply loop_keeps_trans; eassumption|].
           right. destruct Hlast as [[-> ->] | (Hcyc & avp & e0 & He0 & Hfi & He1 & Hcy1 & Hp)].
           ++ split; [exact Hc|]. exists av, e. split; [lia|]. split; [exact Eit|].
              split; [exact Hel|]. split; [destruct Hcy; [left | right]; lia|].
              left. split; reflexivity.
           ++ split; [rewrite Hcyc, Hc, u64_add_idem; f_equal; lia|].
              exists avp, e0. split; [lia|]. split; [exact Hfi|]. split; [exact He1|].
              split; [exact Hcy1|]. right.
              destruct Hp as [[-> ->] | Hp].
              ** rewrite Hc; try (f_equal; lia).
              ** rewrite Hp, Hc, u64_add_idem. f_equal. lia.
        -- destruct IH as (Hb & Ha & Ha1 & Hs1 & Hwhy & Hph & Hfc & Hcyc).
           destruct Hk as (K1 & K2 & K3 & K4 & K5 & K6 & K7).
           split; [lia|]. split; [rewrite <- K1; exact Ha|].
           split; [exact Ha1|]. split; [exact Hs1|].
           split; [destruct Hwhy as [Hw|Hw]; [left; rewrite <- K2; exact Hw | right; exact Hw]|].
           split; [rewrite Hph; exact K5|]. split; [rewrite Hfc; exact K6|].
           right. split; [lia|].
           destruct Hcyc as [[-> Hcpu] | [Hlt Hcyc]].
           ++ rewrite Hcpu, Hc; try (f_equal; lia).
           ++ rewrite Hcyc, Hc, u64_add_idem. f_equal. lia.
    + rewrite Hchk. cbn [dbg_active dbg_stepping set_dbg_stepping]. rewrite Hact. cbn [andb].
      assert (Hbp' : bp_hit (set_dbg_stepping true av) = true) by exact Hbp.
      repeat match goal with
             | |- _ /\ _ => split
             end;
        first [ lia | reflexivity | exact Hact | right; exact Hbp'
              | left; split; reflexivity ].
Qed.



(** ** Interpreter: memory accessors *)

Lemma land_mask_bounds (x n : Z) : 0 <= n -> 0 <= Z.land x (Z.ones n) < 2 ^ n.
Proof. intros Hn. rewrite Z.land_ones by exact Hn. apply Z.mod_pos_bound, Z.pow_pos_nonneg; lia. Qed.

Lemma rd_wr_same (m : list Z) (i v : Z) :
  0 <= i < Z.of_nat (length m) -> rd (wr m i v) i = v.
Proof.
  intros Hi. unfold rd, wr. rewrite list_lookup_insert_eq by lia. reflexivity.
Qed.

Lemma rd_wr_other (m : list Z) (i j v : Z) :
  0 <= i -> 0 <= j -> i <> j -> rd (wr m i v) j = rd m j.
Proof.
  intros Hi Hj Hne. unfold rd, wr. rewrite list_lookup_insert_ne by lia. reflexivity.
Qed.

Lemma length_wr (m : list Z) (i v : Z) : length (wr m i v) = length m.
Proof. unfold wr. apply length_insert. Qed.

Lemma R_bounds (c : I8048) (r : Z) : 0 <= R c r < 32.
Proof.
  unfold R. pose proof (land_mask_bounds r 3 ltac:(lia)) as H.
  change (Z.ones 3) with 7 in H. change (2 ^ 3) with 8 in H. destruct (BS c); lia.
Qed.

(** X1: Register file: a register reads back what was written to it, the other
    registers of the bank and every register of the other bank keep their
    values. *)
Theorem register_file (c : I8048) (r r' v : Z) :
  length (iram c) = Z.to_nat IRAM_SZ ->
  0 <= R c r < IRAM_SZ /\
  getR (setR c r v) r = v /\
  (Z.land r' 7 <> Z.land r 7 -> getR (setR c r v) r' = getR c r') /\
  getR (set_BS (negb (BS c)) (setR c r v)) r' = getR (set_BS (negb (BS c)) c) r'.
Proof.
  intros Hlen. pose proof (R_bounds c r) as Hr. pose proof (R_bounds c r') as Hr'.
  unfold IRAM_SZ in *. split; [lia|].
  unfold getR, setR. cbn [iram set_iram set_BS].
  assert (HR : forall b x, R (set_BS b (set_iram x c)) r' = R (set_BS b c) r') by reflexivity.
  split; [|split].
  - change (R (set_iram _ c) r) with (R c r). apply rd_wr_same. lia.
  - intros Hne. change (R (set_iram _ c) r') with (R c r').
    apply rd_wr_other; try lia. unfold R. lia.
  - rewrite HR.
    pose proof (R_bounds (set_BS (negb (BS c)) c) r') as Hb.
    apply rd_wr_other; try lia.
    unfold R. cbn [BS set_BS].
    pose proof (land_mask_bounds r 3 ltac:(lia)) as H1.
    pose proof (land_mask_bounds r' 3 ltac:(lia)) as H2.
    change (Z.ones 3) with 7 in *. change (2 ^ 3) with 8 in *.
    destruct (BS c); cbn [negb]; lia.
Qed.

Lemma register_file_witness :
  length (iram (cpu av_init)) = Z.to_nat IRAM_SZ /\
  getR (setR (cpu av_init) 3 0x5A) 3 = 0x5A.
Proof.
  assert (H : length (iram (cpu av_init)) = Z.to_nat IRAM_SZ) by (vm_compute; reflexivity).
  split; [exact H|].
  exact (proj1 (proj2 (register_file (cpu av_init) 3 0 0x5A H))).
Defined.

Lemma xram_addr_bounds (c : I8048) (a : Z) : 0 <= xram_addr c a < XRAM_SZ.
Proof.
  unfold xram_addr, XRAM_SZ. change (1024 - 1) with (Z.ones 10).
  change 1024 with (2 ^ 10). apply land_mask_bounds. lia.
Qed.

(** X2: External RAM: every access is inside the 1 KiB array; a byte reads back
    what was written to it, and a write changes no other byte. *)
Theorem xram_write_read (c : I8048) (a b v : Z) :
  length (xram c) = Z.to_nat XRAM_SZ ->
  0 <= xram_addr c a < XRAM_SZ /\
  xram_rd (xram_wr c a v) a = v /\
  (xram_addr c b <> xram_addr c a -> xram_rd (xram_wr c a v) b = xram_rd c b) /\
  length (xram (xram_wr c a v)) = Z.to_nat XRAM_SZ.
Proof.
  intros Hlen. pose proof (xram_addr_bounds c a) as Ha.
  pose proof (xram_addr_bounds c b) as Hb.
  split; [exact Ha|]. unfold xram_rd, xram_wr. cbn [xram set_xram].
  change (xram_addr (set_xram _ c)) with (xram_addr c).
  split; [|split].
  - apply rd_wr_same. unfold XRAM_SZ in *. lia.
  - intros Hne. apply rd_wr_other; lia.
  - rewrite length_wr. exact Hlen.
Qed.

Lemma xram_write_read_witness :
  length (xram (cpu av_init)) = Z.to_nat XRAM_SZ /\
  xram_rd (xram_wr (cpu av_init) 0x55 0x12) 0x55 = 0x12.
Proof.
  assert (H : length (xram (cpu av_init)) = Z.to_nat XRAM_SZ) by (vm_compute; reflexivity).
  split; [exact H|].
  exact (proj1 (proj2 (xram_write_read (cpu av_init) 0x55 0 0x12 H))).
Defined.

(** ** Interpreter: the stack *)

Lemma lor_shift_add (lo hi n : Z) :
  0 <= n -> 0 <= lo < 2 ^ n -> Z.lor lo (Z.shiftl hi n) = lo + hi * 2 ^ n.
Proof.
  intros Hn Hlo. rewrite <- Z.shiftl_mul_pow2 by exact Hn.
  rewrite <- Z.lxor_lor, Z.add_nocarry_lxor; try reflexivity.
  all: apply Z.bits_inj'; intros m Hm; rewrite Z.land_spec, Z.bits_0;
    destruct (Z.lt_ge_cases m n) as [Hlt|Hge];
    [ rewrite Z.shiftl_spec_low by exact Hlt; apply andb_false_r
    | rewrite <- (Z.mod_small lo (2 ^ n)) by exact Hlo;
      rewrite Z.mod_pow2_bits_high by lia; reflexivity ].
Qed.

Lemma z2b_bit (w k : Z) : 0 <= k -> z2b (Z.land (Z.shiftr w k) 1) = Z.testbit w k.
Proof.
  intros Hk. unfold z2b. rewrite Z.testbit_odd.
  change 1 with (Z.ones 1). rewrite Z.land_ones by lia. change (2 ^ 1) with 2.
  rewrite Zodd_mod. destruct (Z.shiftr w k mod 2 =? 0) eqn:E.
  - apply Z.eqb_eq in E. rewrite E. reflexivity.
  - apply Z.eqb_neq in E.
    pose proof (Z.mod_pos_bound (Z.shiftr w k) 2 ltac:(lia)) as Hb.
    replace (Z.shiftr w k mod 2) with 1 by lia. reflexivity.
Qed.

(** Evaluate the [Z.testbit] of closed numbers in the goal. *)
Ltac eval_bits :=
  repeat match goal with
  | |- context [Z.testbit ?a ?n] =>
      let v := eval vm_compute in (Z.testbit a n) in
      match v with
      | true => change (Z.testbit a n) with true
      | false => change (Z.testbit a n) with false
      end
  end.

Ltac bits :=
  repeat first [rewrite Z.lor_spec | rewrite Z.land_spec | rewrite Z.shiftl_spec by lia];
  eval_bits.

(** The two bytes of a stack slot: PC in the low byte and the low nibble of
    the high byte, the flags of PSW in its high nibble. *)
Lemma slot_pc (pc psw : Z) :
  0 <= pc < 4096 ->
  Z.lor (Z.land pc 0xFF)
        (Z.shiftl (Z.land (Z.lor (Z.land (Z.shiftr pc 8) 0x0F) (Z.land psw 0xF0)) 0x0F) 8) = pc.
Proof.
  intros Hpc.
  rewrite Z.land_lor_distr_l, <- (Z.land_assoc psw).
  change (Z.land 240 15) with 0. rewrite Z.land_0_r, Z.lor_0_r.
  rewrite <- Z.land_assoc. change (Z.land 15 15) with 15.
  change 255 with (Z.ones 8). change 15 with (Z.ones 4).
  rewrite !Z.land_ones by lia. rewrite Z.shiftr_div_pow2 by lia.
  rewrite lor_shift_add by (try lia; apply Z.mod_pos_bound; lia).
  change (2 ^ 8) with 256. change (2 ^ 4) with 16.
  Z.div_mod_to_equations. lia.
Qed.

Lemma slot_flag (pc psw sp low k : Z) (b7 b6 b5 b4 : bool) :
  k = 7 \/ k = 6 \/ k = 5 \/ k = 4 ->
  psw = Z.lor (Z.lor (Z.lor (Z.lor (Z.shiftl (b2z b7) 7) (Z.shiftl (b2z b6) 6))
                            (Z.shiftl (b2z b5) 5)) (Z.shiftl (b2z b4) 4)) (Z.land sp 7) ->
  Z.testbit (Z.lor (Z.land (Z.lor (Z.land (Z.shiftr pc 8) 0x0F) (Z.land psw 0xF0)) 0xF0)
                   (Z.land low 0x0F)) k =
  Z.testbit (Z.lor (Z.lor (Z.lor (Z.shiftl (b2z b7) 7) (Z.shiftl (b2z b6) 6))
                          (Z.shiftl (b2z b5) 5)) (Z.shiftl (b2z b4) 4)) k.
Proof.
  intros Hk ->.
  destruct Hk as [-> | [-> | [-> | ->]]]; destruct b7, b6, b5, b4; bits;
    rewrite ?andb_false_r, ?andb_true_r, ?orb_false_r, ?orb_true_r, ?orb_false_l; reflexivity.
Qed.

Lemma stack_slot (sp : Z) :
  0 <= sp < 8 ->
  let a := u8 (8 + sp * 2) in
  Z.land a (IRAM_SZ - 1) = 8 + sp * 2 /\ Z.land (a + 1) (IRAM_SZ - 1) = 9 + sp * 2 /\
  Z.land (Z.land (sp + 1) 7 - 1) 7 = sp.
Proof.
  intros Hsp. cbv zeta. unfold u8, IRAM_SZ. rewrite Z.mod_small by lia.
  change (64 - 1) with (Z.ones 6). change 7 with (Z.ones 3).
  rewrite !Z.land_ones by lia. change (2 ^ 6) with 64. change (2 ^ 3) with 8.
  repeat apply conj; Z.div_mod_to_equations; lia.
Qed.

(** What [push8] writes: the two bytes of the slot of the current stack
    pointer, which lie in internal RAM 8..23, and nothing else. *)
Lemma push8_iram (c : I8048) :
  length (iram c) = Z.to_nat IRAM_SZ -> 0 <= SP c < 8 ->
  let c1 := push8 c in
  SP c1 = Z.land (SP c + 1) 7 /\
  rd (iram c1) (8 + SP c * 2) = Z.land (PC c) 0xFF /\
  rd (iram c1) (9 + SP c * 2) =
    Z.lor (Z.land (Z.shiftr (PC c) 8) 0x0F) (Z.land (PSW c) 0xF0) /\
  (forall i, 0 <= i -> i <> 8 + SP c * 2 -> i <> 9 + SP c * 2 ->
     rd (iram c1) i = rd (iram c) i) /\
  length (iram c1) = Z.to_nat IRAM_SZ.
Proof.
  intros Hlen Hsp. destruct (stack_slot (SP c) Hsp) as (Ha & Ha1 & _).
  cbv zeta in Ha, Ha1. unfold push8. cbv zeta.
  cbn [iram set_iram SP set_SP PC PSW]. rewrite Ha, Ha1.
  unfold IRAM_SZ in Hlen.
  split; [reflexivity|]. split.
  { rewrite rd_wr_other by lia. apply rd_wr_same. lia. }
  split.
  { apply rd_wr_same. rewrite length_wr. lia. }
  split.
  { intros i Hi H1 H2. rewrite !rd_wr_other by lia. reflexivity. }
  rewrite !length_wr. exact Hlen.
Qed.

(** X3: CALL and RET, interrupt entry and RETR: whatever runs in between, as
    long as it leaves the stack slot and the stack pointer as the push left
    them, the pop restores the 12-bit PC and the stack pointer, and RETR
    also the four flags saved in PSW.  The push writes only inside internal
    RAM 8..23: the register banks and the RAM above are untouched. *)
Theorem stack_round_trip (c c' : I8048) :
  length (iram c) = Z.to_nat IRAM_SZ -> 0 <= SP c < 8 -> 0 <= PC c < 4096 ->
  iram c' = iram (push8 (bpsw c)) -> SP c' = SP (push8 (bpsw c)) ->
  (PC (pop_pc c') = PC c /\ SP (pop_pc c') = SP c) /\
  (PC (pop_pc_psw c') = PC c /\ SP (pop_pc_psw c') = SP c /\
   C (pop_pc_psw c') = C c /\ AC (pop_pc_psw c') = AC c /\
   F0 (pop_pc_psw c') = F0 c /\ BS (pop_pc_psw c') = BS c) /\
  (forall i, 0 <= i < 8 \/ 24 <= i ->
     rd (iram (push8 (bpsw c))) i = rd (iram c) i).
Proof.
  intros Hlen Hsp Hpc Hi Hs.
  destruct (push8_iram (bpsw c) Hlen Hsp) as (Hsp1 & Hlo & Hhi & Hoth & _).
  cbv zeta in Hsp1, Hlo, Hhi, Hoth.
  change (SP (bpsw c)) with (SP c) in *. change (PC (bpsw c)) with (PC c) in *.
  change (iram (bpsw c)) with (iram c) in *.
  destruct (stack_slot (SP c) Hsp) as (Ha & Ha1 & Hback). cbv zeta in Ha, Ha1.
  assert (Hsp' : Z.land (SP c' - 1) 7 = SP c) by (rewrite Hs, Hsp1; exact Hback).
  split; [|split].
  - unfold pop_pc. cbv zeta. cbn [SP set_SP iram PC set_PC].
    rewrite Hsp', Ha, Ha1, Hi, Hlo, Hhi.
    split; [apply slot_pc; exact Hpc | reflexivity].
  - unfold pop_pc_psw, flags_of_psw. cbv zeta.
    cbn [SP set_SP iram PC set_PC PSW set_PSW C AC F0 BS set_C set_AC set_F0 set_BS].
    rewrite Hsp', Ha, Ha1, Hi, Hlo, Hhi.
    split; [apply slot_pc; exact Hpc|]. split; [reflexivity|].
    rewrite !z2b_bit by lia.
    rewrite !(slot_flag (PC c) (PSW (bpsw c)) (SP c) _ _ (C c) (AC c) (F0 c) (BS c));
      try reflexivity; try tauto.
    destruct (C c), (AC c), (F0 c), (BS c); repeat apply conj; reflexivity.
  - intros i Hr. apply Hoth; lia.
Qed.

Lemma stack_round_trip_witness :
  let c := set_C true (set_SP 7 (set_PC 0x3A5 (cpu av_init))) in
  length (iram c) = Z.to_nat IRAM_SZ /\ 0 <= SP c < 8 /\ 0 <= PC c < 4096 /\
  PC (pop_pc_psw (set_C false (set_PC 7 (push8 (bpsw c))))) = 0x3A5 /\
  C (pop_pc_psw (set_C false (set_PC 7 (push8 (bpsw c))))) = true.
Proof.
  cbv zeta.
  set (c := set_C true (set_SP 7 (set_PC 0x3A5 (cpu av_init)))).
  assert (H1 : length (iram c) = Z.to_nat IRAM_SZ) by (vm_compute; reflexivity).
  assert (H2 : 0 <= SP c < 8) by (change (SP c) with 7; lia).
  assert (H3 : 0 <= PC c < 4096) by (change (PC c) with 0x3A5; lia).
  pose proof (stack_round_trip c (set_C false (set_PC 7 (push8 (bpsw c))))
                H1 H2 H3 eq_refl eq_refl) as (_ & (Hpc & _ & Hc & _) & _).
  split; [exact H1|]. split; [exact H2|]. split; [exact H3|].
  split; [exact Hpc | exact Hc].
Defined.

(** ** Interpreter: arithmetic *)

(** A property checked for every number below [n] holds for each of them. *)
Lemma forall_below (n : nat) (P : Z -> bool) :
  forallb (fun i => P (Z.of_nat i)) (seq 0 n) = true ->
  forall a, 0 <= a < Z.of_nat n -> P a = true.
Proof.
  intros H a Ha. rewrite forallb_forall in H.
  specialize (H (Z.to_nat a)). rewrite Z2Nat.id in H by lia.
  apply H, in_seq. lia.
Qed.

(** X4: ADD and ADDC: the 9-bit sum of the accumulator, the operand and the
    carry-in is the new accumulator with the carry flag as bit 8; the
    auxiliary carry is the carry out of the low nibbles. *)
Theorem add_a_sum (c : I8048) (t cin : Z) :
  0 <= A c < 256 -> 0 <= t < 256 -> 0 <= cin <= 1 ->
  let c' := add_a c t cin in
  A c' + 256 * b2z (C c') = A c + t + cin /\
  0 <= A c' < 256 /\
  AC c' = (16 <=? A c mod 16 + t mod 16 + cin).
Proof.
  intros Ha Ht Hc. cbv zeta. unfold add_a, u16, u8. cbv zeta.
  cbn [A C AC set_A set_C set_AC].
  rewrite (Z.mod_small (A c + t + cin) 65536) by lia.
  change 15 with (Z.ones 4). rewrite !Z.land_ones by lia. change (2 ^ 4) with 16.
  split; [|split].
  - destruct (255 <? A c + t + cin) eqn:E; cbn [b2z]; zb;
      Z.div_mod_to_equations; lia.
  - apply Z.mod_pos_bound. lia.
  - destruct (Z.ones 4 <? _) eqn:E1, (16 <=? _) eqn:E2; try reflexivity;
      change (Z.ones 4) with 15 in E1; zb; lia.
Qed.

Lemma add_a_sum_witness :
  let c := set_A 0xF8 (cpu av_init) in
  0 <= A c < 256 /\ A (add_a c 0x0A 1) = 0x03 /\ C (add_a c 0x0A 1) = true.
Proof.
  cbv zeta. set (c := set_A 0xF8 (cpu av_init)).
  assert (Ha : 0 <= A c < 256) by (change (A c) with 0xF8; lia).
  destruct (add_a_sum c 0x0A 1 Ha ltac:(lia) ltac:(lia)) as (Hs & Hb & _).
  cbv zeta in Hs, Hb. change (A c) with 0xF8 in Hs.
  split; [exact Ha|].
  destruct (C (add_a c 10 1)); cbn [b2z] in Hs; split; try reflexivity; lia.
Defined.

(** [daa] reads the accumulator and the two carries only. *)
Lemma daa_pure (c1 c2 : I8048) :
  A c1 = A c2 -> AC c1 = AC c2 -> C c1 = C c2 ->
  A (daa c1) = A (daa c2) /\ C (daa c1) = C (daa c2).
Proof.
  intros HA HAC HC. unfold daa. cbv zeta. rewrite HA, HAC.
  repeat (match goal with
          | |- context [if ?b then _ else _] =>
              lazymatch b with
              | context [if _ then _ else _] => fail
              | _ => destruct b
              end
          end; cbn [A C AC set_A set_C set_AC]; rewrite ?HA, ?HC);
    split; reflexivity.
Qed.

Lemma daa_add_pure (c : I8048) (t cin : Z) :
  A (daa (add_a c t cin)) = A (daa (add_a (set_A (A c) cpu_zero) t cin)) /\
  C (daa (add_a c t cin)) = C (daa (add_a (set_A (A c) cpu_zero) t cin)).
Proof. apply daa_pure; reflexivity. Qed.

Lemma bcd_add_all :
  forallb (fun x => forallb (fun y =>
      bcd_add_ok (Z.of_nat x) (Z.of_nat y) 0 && bcd_add_ok (Z.of_nat x) (Z.of_nat y) 1)
    (seq 0 100)) (seq 0 100) = true.
Proof. vm_compute. reflexivity. Qed.

(** X5: Decimal addition: ADD or ADDC of two packed BCD bytes followed by DA A
    leaves the packed BCD sum modulo 100 in the accumulator and the decimal
    carry in the carry flag. *)
Theorem daa_bcd_sum (c : I8048) (x y cin : Z) :
  0 <= x < 100 -> 0 <= y < 100 -> cin = 0 \/ cin = 1 -> A c = bcd x ->
  let c' := daa (add_a c (bcd y) cin) in
  A c' = bcd ((x + y + cin) mod 100) /\ C c' = (100 <=? x + y + cin).
Proof.
  intros Hx Hy Hc HA. cbv zeta.
  destruct (daa_add_pure c (bcd y) cin) as [-> ->]. rewrite HA.
  pose proof (forall_below 100
    (fun x => forallb (fun j => bcd_add_ok x (Z.of_nat j) 0 && bcd_add_ok x (Z.of_nat j) 1)
                      (seq 0 100)) bcd_add_all x Hx) as H1. cbv beta in H1.
  pose proof (forall_below 100 (fun y => bcd_add_ok x y 0 && bcd_add_ok x y 1) H1 y Hy) as H2.
  cbv beta in H2.
  apply andb_prop in H2. destruct H2 as [H0 H1'].
  assert (H : bcd_add_ok x y cin = true) by (destruct Hc as [-> | ->]; assumption).
  unfold bcd_add_ok in H. cbv zeta in H. apply andb_prop in H. destruct H as [Ha Hb].
  apply Z.eqb_eq in Ha. apply Bool.eqb_prop in Hb. split; assumption.
Qed.

Lemma daa_bcd_sum_witness :
  let c := set_A (bcd 58) (cpu av_init) in
  0 <= 58 < 100 /\ A c = bcd 58 /\
  A (daa (add_a c (bcd 67) 0)) = 0x25 /\ C (daa (add_a c (bcd 67) 0)) = true.
Proof.
  cbv zeta.
  pose proof (daa_bcd_sum (set_A (bcd 58) (cpu av_init)) 58 67 0
                ltac:(lia) ltac:(lia) ltac:(left; reflexivity) eq_refl) as [Ha Hc].
  split; [lia|]. split; [reflexivity|]. split; [exact Ha | exact Hc].
Defined.

(** ** Interpreter: the timer prescaler *)

Lemma timer_tick_timer (c : I8048) :
  0 <= timer c < 256 ->
  tpre (timer_tick c) = tpre c /\
  timer (timer_tick c) = u8 (timer c + 1) /\
  timer_ovf (timer_tick c) = timer_ovf c || (256 <=? timer c + 1) /\
  timer_en (timer_tick c) = timer_en c.
Proof.
  intros Ht. unfold timer_tick. cbv zeta. cbn [timer set_timer].
  destruct (u8 (timer c + 1) =? 0) eqn:E.
  - assert (Hw : timer c + 1 = 256).
    { apply Z.eqb_eq in E. unfold u8 in E. Z.div_mod_to_equations. lia. }
    replace (256 <=? timer c + 1) with true by (symmetry; apply Z.leb_le; lia).
    rewrite orb_true_r.
    destruct (_ && _ && _); repeat apply conj; reflexivity.
  - assert (Hw : timer c + 1 < 256).
    { apply Z.eqb_neq in E. unfold u8 in E. Z.div_mod_to_equations. lia. }
    replace (256 <=? timer c + 1) with false by (symmetry; apply Z.leb_gt; lia).
    rewrite orb_false_r. repeat apply conj; reflexivity.
Qed.

Lemma prescaler_loop_spec (fuel : nat) (c : I8048) :
  0 <= tpre c -> tpre c / 32 <= Z.of_nat fuel -> 0 <= timer c < 256 ->
  let c' := prescaler_loop fuel c in
  tpre c' = tpre c mod 32 /\
  timer c' = u8 (timer c + tpre c / 32) /\
  timer_ovf c' = timer_ovf c || (256 <=? timer c + tpre c / 32) /\
  timer_en c' = timer_en c.
Proof.
  revert c. induction fuel as [|fuel IH]; intros c Hp Hf Ht; cbv zeta.
  - assert (Hlt : tpre c < 32) by (Z.div_mod_to_equations; lia).
    cbn [prescaler_loop]. replace (32 <=? tpre c) with false by (symmetry; apply Z.leb_gt; lia).
    rewrite Z.mod_small, Z.div_small by lia. rewrite Z.add_0_r.
    unfold u8. rewrite Z.mod_small by lia.
    replace (256 <=? timer c) with false by (symmetry; apply Z.leb_gt; lia).
    rewrite orb_false_r. repeat apply conj; reflexivity.
  - cbn [prescaler_loop]. destruct (32 <=? tpre c) eqn:E.
    + apply Z.leb_le in E.
      set (c0 := set_tpre (tpre c - 32) c).
      destruct (timer_tick_timer c0 Ht) as (Hp1 & Ht1 & Ho1 & He1).
      change (tpre c0) with (tpre c - 32) in Hp1. change (timer c0) with (timer c) in Ht1, Ho1.
      change (timer_ovf c0) with (timer_ovf c) in Ho1.
      change (timer_en c0) with (timer_en c) in He1.
      assert (Hq : (tpre c - 32) / 32 = tpre c / 32 - 1) by (Z.div_mod_to_equations; lia).
      assert (Hb : 0 <= timer (timer_tick c0) < 256).
      { rewrite Ht1. apply Z.mod_pos_bound. lia. }
      destruct (IH (timer_tick c0)) as (H1 & H2 & H3 & H4); try (rewrite Hp1); try lia;
        try exact Hb.
      cbv zeta in H1, H2, H3, H4. rewrite H1, H2, H3, H4, Hp1, Ht1, Ho1, He1, Hq.
      split; [Z.div_mod_to_equations; lia|]. split; [|split; [|reflexivity]].
      * unfold u8. rewrite Zplus_mod_idemp_l. f_equal. lia.
      * rewrite <- orb_assoc. f_equal.
        assert (Hk : 1 <= tpre c / 32) by (Z.div_mod_to_equations; lia).
        unfold u8.
        destruct (Z.eq_dec (timer c + 1) 256) as [Hw | Hw].
        -- rewrite Hw. change (256 <=? 256) with true. cbn [orb].
           symmetry. apply Z.leb_le. lia.
        -- rewrite Z.mod_small by lia.
           replace (256 <=? timer c + 1) with false by (symmetry; apply Z.leb_gt; lia).
           cbn [orb]. f_equal. lia.
    + apply Z.leb_gt in E.
      rewrite Z.mod_small, Z.div_small by lia. rewrite Z.add_0_r.
      unfold u8. rewrite Z.mod_small by lia.
      replace (256 <=? timer c) with false by (symmetry; apply Z.leb_gt; lia).
      rewrite orb_false_r. repeat apply conj; reflexivity.
Qed.



(** ** Machine shape: ROM images and array sizes *)

Lemma cpu_keeps_refl (c : I8048) : cpu_keeps c c.
Proof. repeat split. Qed.

Lemma cpu_keeps_trans (c1 c2 c3 : I8048) :
  cpu_keeps c1 c2 -> cpu_keeps c2 c3 -> cpu_keeps c1 c3.
Proof.
  intros (H1 & H2 & H3 & H4) (G1 & G2 & G3 & G4).
  repeat split; congruence.
Qed.

Lemma env_same_refl (av : AV) : env_same av av.
Proof. repeat split. Qed.

Lemma env_same_trans (a b c : AV) : env_same a b -> env_same b c -> env_same a c.
Proof.
  unfold env_same. intros H1 H2.
  repeat match goal with H : _ /\ _ |- _ => destruct H end.
  repeat split; congruence.
Qed.

Lemma av_port_write_shape (av : AV) (port val : Z) :
  cpu_keeps (cpu av) (cpu (av_port_write av port val)) /\
  env_same av (av_port_write av port val) /\
  (disp_ok (disp av) -> disp_ok (disp (av_port_write av port val))).
Proof.
  unfold av_port_write.
  assert (Hid : forall a : AV, cpu_keeps (cpu av) (cpu a) -> env_same av a -> disp a = disp av ->
            cpu_keeps (cpu av) (cpu a) /\ env_same av a /\
            (disp_ok (disp av) -> disp_ok (disp a))).
  { intros a Hk He ->. split; [exact Hk | split; [exact He | auto]]. }
  destruct port as [|[[|[]|]|[|[]|]|]|];
    try (apply Hid; [repeat split | repeat split | reflexivity]).
  destruct (negb _ && _); [|apply Hid; [repeat split | repeat split | reflexivity]].
  split; [|split].
  - destruct (disp_latch_led_column (disp av)); repeat split.
  - destruct (disp_latch_led_column (disp av)); repeat split.
  - intros [Hwf Hcc].
    destruct (disp_latch_total (disp av) Hwf Hcc) as (d' & -> & Hwf' & Hcc' & _).
    split; assumption.
Qed.

Lemma av_led_latch_shape (av : AV) (p2 data : Z) :
  cpu (av_led_latch av p2 data) = cpu av /\
  env_same av (av_led_latch av p2 data) /\
  (disp_ok (disp av) -> disp_ok (disp (av_led_latch av p2 data))).
Proof.
  unfold av_led_latch. destruct (0 <=? _); [|split; [|split]; auto using env_same_refl].
  split; [reflexivity|]. split; [repeat split|]. intros [(H1 & H2 & H3 & H4) Hcc].
  split; [|exact Hcc]. repeat split; try assumption.
  cbn [disp set_disp led_reg set_led_reg]. rewrite length_wr. exact H4.
Qed.

(** Goals on the size of an array after a chain of writes. *)
Ltac len := repeat first [reflexivity | (etransitivity; [apply length_wr|])].

Ltac keeps_leaf :=
  unfold cpu_keeps;
  cbv beta iota zeta delta [ft jcond setR add_a daa push8 pop_pc pop_pc_psw flags_of_psw bpsw
                            page_jump xram_wr fst Datatypes.snd];
  repeat match goal with
         | |- context [if ?b then _ else _] =>
             lazymatch b with
             | context [if _ then _ else _] => fail
             | _ => destruct b
             end
         end;
  repeat apply conj; first [reflexivity | solve [len]].

Ltac op_shape_leaf :=
  unfold op_keeps; cbv beta iota zeta delta [exec_op ft];
  first
    [ split; [|split; [repeat split | intros Hd; exact Hd]]; cbn [fst cpu set_cpu]; keeps_leaf
    | match goal with
      | |- context [av_port_write ?a ?p ?v] =>
          destruct (av_port_write_shape a p v) as (Hk & He & Hd);
          cbv beta iota zeta delta [fst Datatypes.snd] in Hk, He, Hd |- *;
          split; [eapply cpu_keeps_trans; [|exact Hk]; cbn [cpu set_cpu]; keeps_leaf
                 | split; [eapply env_same_trans; [|exact He]; repeat split | exact Hd]]
      end
    | match goal with
      | |- context [av_led_latch ?a ?p ?v] =>
          destruct (av_led_latch_shape a p v) as (Hk & He & Hd);
          cbv beta iota zeta delta [fst Datatypes.snd] in Hk, He, Hd |- *;
          split; [rewrite Hk; cbn [cpu set_cpu]; keeps_leaf
                 | split; [eapply env_same_trans; [|exact He]; repeat split | exact Hd]]
      end ].

(** Whatever the opcode, the switch leaves the ROM images, the RAM sizes
    and the display's shape as they are. *)
Lemma exec_op_shape (av : AV) (c : I8048) (op : Z) : op_keeps av c (exec_op av c op).
Proof.
  destruct op as [|p|p]; [op_shape_leaf| |op_shape_leaf].
  do 8 (try (destruct p as [p|p|])); op_shape_leaf.
Qed.

Lemma exec_tail_keeps (c : I8048) (cy : Z) : cpu_keeps c (exec_tail c cy).
Proof.
  unfold exec_tail. cbv zeta.
  set (c1 := set_cycles _ c).
  pose proof (exec_tail_timer_frame c1 cy) as Hfr.
  cbn [timer_en tpre set_tpre] in Hfr |- *.
  set (c2 := if timer_en c1 then _ else c1) in *.
  assert (H12 : cpu_keeps c c2).
  { unfold timer_frame in Hfr.
    destruct Hfr as (_ & _ & _ & _ & _ & _ & Hi & Hx & Hr & He & _).
    unfold cpu_keeps. rewrite Hi, Hx, Hr, He. repeat split. }
  clearbody c2. eapply cpu_keeps_trans; [exact H12|].
  destruct (0 <? ei_delay c2);
    match goal with |- context [if ?b then _ else _] => destruct b end;
    keeps_leaf.
Qed.

(** The shape of the machine across one instruction. *)
Lemma i8048_exec_inv (av : AV) :
  sys_wf av ->
  sys_wf (i8048_exec av).1 /\
  irom (cpu (i8048_exec av).1) = irom (cpu av) /\
  erom (cpu (i8048_exec av).1) = erom (cpu av) /\
  env_same av (i8048_exec av).1.
Proof.
  intros (Hi & Hx & Hd). unfold i8048_exec, ft.
  pose proof (exec_op_shape av (set_PC (Z.land (PC (cpu av) + 1) 0xFFF) (cpu av))
                            (rom_rd (cpu av) (PC (cpu av)))) as Hop.
  destruct (exec_op av _ _) as [av1 cy]. destruct Hop as (Hk & He & Hdk).
  cbn [fst Datatypes.snd] in *.
  pose proof (exec_tail_keeps (cpu av1) cy) as Ht.
  pose proof (cpu_keeps_trans _ _ _ Hk Ht) as (H1 & H2 & H3 & H4).
  cbn [irom erom iram xram set_PC] in H1, H2, H3, H4.
  unfold sys_wf. cbn [cpu disp set_cpu].
  rewrite H3, H4.
  split; [split; [exact Hi | split; [exact Hx | apply Hdk; exact Hd]]|].
  split; [exact H1|]. split; [exact H2|].
  eapply env_same_trans; [exact He|]. repeat split.
Qed.

Lemma av_init_wf : sys_wf av_init.
Proof.
  split; [vm_compute; reflexivity|]. split; [vm_compute; reflexivity|].
  split; [exact av_init_disp_wf | vm_compute; discriminate].
Qed.

(** X7: No instruction writes to ROM, resizes a RAM array or the display's
    arrays, or reaches the buttons and the configuration. *)
Theorem i8048_exec_shape (av : AV) :
  sys_wf av ->
  sys_wf (i8048_exec av).1 /\
  irom (cpu (i8048_exec av).1) = irom (cpu av) /\
  erom (cpu (i8048_exec av).1) = erom (cpu av) /\
  env_same av (i8048_exec av).1.
Proof.
  intros Hwf. destruct (i8048_exec_inv av Hwf) as (Hw & Hi & He & Hs).
  split; [exact Hw|]. split; [exact Hi|]. split; [exact He | exact Hs].
Qed.

Lemma i8048_exec_shape_witness :
  sys_wf av_init /\ irom (cpu (i8048_exec av_init).1) = irom (cpu av_init).
Proof.
  split; [exact av_init_wf|].
  exact (proj1 (proj2 (i8048_exec_shape av_init av_init_wf))).
Defined.

(** ** Machine shape along a frame *)

Lemma frame_inv_step (av0 av av' : AV) :
  frame_inv av0 av -> sys_wf av' ->
  irom (cpu av') = irom (cpu av) -> erom (cpu av') = erom (cpu av) -> env_same av av' ->
  frame_inv av0 av'.
Proof.
  intros (_ & Hr & He & Henv) Hwf Hr' He' Henv'.
  split; [exact Hwf|]. split; [congruence|]. split; [congruence|].
  eapply env_same_trans; eassumption.
Qed.

Lemma frame_iter_shape (av0 av : AV) (elapsed : Z) :
  frame_inv av0 av -> frame_inv av0 (frame_iter av elapsed).1.
Proof.
  intros Hinv. remember (frame_iter av elapsed) as r eqn:Er.
  cbv beta delta [frame_iter] in Er.
  pull_let Er prev_t1.
  pose proof (i8048_exec_inv av (proj1 Hinv)) as Hex.
  destruct (i8048_exec av) as [av1 cy]. cbn [fst Datatypes.snd] in Hex.
  destruct Hex as (Hwf1 & Hr1 & He1 & Henv1).
  pose proof (frame_inv_step av0 av av1 Hinv Hwf1 Hr1 He1 Henv1) as H1.
  clear Hwf1 Hr1 He1 Henv1 Hinv.
  cbv beta iota in Er.
  pull_let Er el. pull_let Er new_t1.
  pull_let Er av2.
  assert (H2 : frame_inv av0 av2).
  { clear Er. subst av2. destruct (_ && _ && _); [|exact H1].
    cbv zeta. destruct H1 as ((Hi & Hx & (Hw & Hc)) & Hr & He & Henv).
    split; [|split; [exact Hr | split; [exact He | exact Henv]]].
    split; [exact Hi | split; [exact Hx | split; [exact Hw | exact Hc]]]. }
  clearbody av2. clear H1.
  pull_let Er av3.
  assert (H3 : frame_inv av0 av3).
  { clear Er. subst av3. destruct (_ && _ && _); [|exact H2]. cbv zeta.
    destruct ((0 <=? _) && (_ <=? DISP_OUTPUT_CYCLES)); [|exact H2].
    match goal with |- context [if ?b then _ else _] => destruct b eqn:Ecol end; [|exact H2].
    apply andb_prop in Ecol. destruct Ecol as [E1 E2].
    apply Z.leb_le in E1. apply Z.ltb_lt in E2.
    assert (HSW : SW = 150) by reflexivity.
    destruct H2 as ((Hi & Hx & (Hw & Hc)) & Hr & He & Henv).
    match goal with |- context [disp_capture_column ?d ?x ?col] =>
      destruct (disp_capture_total d x col Hw Hc Hx ltac:(lia)) as (d' & -> & Hw' & Hc')
    end.
    split; [|split; [exact Hr | split; [exact He | exact Henv]]].
    split; [exact Hi | split; [exact Hx | split; [exact Hw' | exact Hc']]]. }
  clearbody av3. clear H2.
  pull_let Er av4.
  assert (H4 : frame_inv av0 av4).
  { clear Er. subst av4. destruct (_ && _ && _); [|exact H3].
    destruct H3 as ((Hi & Hx & Hd) & Hr & He & Henv).
    pose proof (timer_tick_frame (cpu av3)) as Hf. unfold timer_frame in Hf.
    destruct Hf as (_ & _ & _ & _ & _ & _ & Hi' & Hx' & Hr' & He' & _).
    split; [|split; [|split]].
    - split; [|split; [|exact Hd]]; cbn [cpu set_cpu]; congruence.
    - cbn [cpu set_cpu]. congruence.
    - cbn [cpu set_cpu]. congruence.
    - exact Henv. }
  clearbody av4. clear H3.
  subst r. cbn [fst]. destruct H4 as ((Hi & Hx & Hd) & Hr & He & Henv).
  split; [|split; [exact Hr | split; [exact He | exact Henv]]].
  split; [exact Hi | split; [exact Hx | exact Hd]].
Qed.

Lemma dbg_check_shape (av0 av : AV) : frame_inv av0 av -> frame_inv av0 (dbg_check av).
Proof.
  intros H. unfold dbg_check. destruct (dbg_active av); [|exact H].
  destruct (existsb _ _); exact H.
Qed.

(** Whatever way the frame loop ends, it ends in a system of the same shape. *)
Lemma frame_loop_shape (fuel : nat) (av0 av : AV) (e : Z) :
  frame_inv av0 av ->
  match frame_loop fuel av e with
  | FrameDone av1 _ | FrameStopped av1 _ => frame_inv av0 av1
  | FrameFuel => True
  end.
Proof.
  revert av e. induction fuel as [|fuel IH]; intros av e Hinv; cbn [frame_loop].
  - destruct (e <? CYCLES_PER_FR); [exact I | exact Hinv].
  - destruct (e <? CYCLES_PER_FR); [|exact Hinv].
    pose proof (dbg_check_shape av0 av Hinv) as Hc.
    destruct (dbg_active (dbg_check av) && dbg_stepping (dbg_check av)); [exact Hc|].
    pose proof (frame_iter_shape av0 (dbg_check av) e Hc) as Hit.
    destruct (frame_iter (dbg_check av) e) as [av' e']. apply IH. exact Hit.
Qed.

Lemma length_memset (a : list Z) (off v n : Z) : length (memset a off v n) = length a.
Proof.
  unfold memset. apply (for_range_inv (fun x => length x = length a)); [reflexivity|].
  intros i x Hx. rewrite length_wr. exact Hx.
Qed.

Lemma frame_begin_shape (av : AV) : sys_wf av -> frame_inv av (frame_begin av).
Proof.
  intros (Hi & Hx & ((Hp & Hl & Hrows & Hreg) & Hc)).
  split; [|split; [reflexivity | split; [reflexivity | repeat split]]].
  split; [exact Hi | split; [exact Hx|]].
  split; [|exact Hc]. unfold frame_begin. cbv zeta.
  split; [exact Hp | split; [exact Hl | split; [exact Hrows|]]].
  cbn [disp set_disp led_reg set_led_reg set_led_col set_led_active
       set_disp_sync_cycle set_disp_sync_seen].
  rewrite length_memset. exact Hreg.
Qed.

Lemma for_range_bounded {S : Type} (P : S -> Prop) (n : Z) (body : Z -> S -> S) (s : S) :
  P s -> (forall i x, 0 <= i < n -> P x -> P (body i x)) -> P (for_range n body s).
Proof.
  intros H0 Hstep. unfold for_range.
  assert (Hin : forall k, In k (seq 0 (Z.to_nat n)) -> 0 <= Z.of_nat k < n).
  { intros k Hk. apply in_seq in Hk. lia. }
  revert Hin. generalize (seq 0 (Z.to_nat n)). intros l. revert s H0.
  induction l as [|k l IH]; intros s H0 Hin; cbn [fold_left]; [exact H0|].
  apply IH.
  - apply Hstep; [apply Hin; left; reflexivity | exact H0].
  - intros j Hj. apply Hin. right. exact Hj.
Qed.

Lemma frame_end_shape (av0 av : AV) :
  frame_inv av0 av ->
  frame_inv av0 (set_frame_count (frame_count av) (frame_end av)) /\
  cols_captured (disp (frame_end av)) = 0 /\
  frame_count (frame_end av) = s32 (frame_count av + 1).
Proof.
  intros Hinv. unfold frame_end. cbv zeta.
  set (av1 := if negb (led_active (disp av)) && negb (midframe_scan av) then _ else av).
  assert (H1 : frame_inv av0 av1 /\ frame_count av1 = frame_count av).
  { subst av1. destruct (_ && _); [|split; [exact Hinv | reflexivity]].
    apply (for_range_bounded (fun a => frame_inv av0 a /\ frame_count a = frame_count av));
      [split; [exact Hinv | reflexivity]|].
    intros i a Hir [((Hi & Hx & (Hw & Hc)) & Hr & He & Henv) Hfc].
    unfold SW in Hir.
    destruct (disp_capture_total (disp a) (xram (cpu a)) i Hw Hc Hx ltac:(lia))
      as (d' & -> & Hw' & Hc').
    split; [|exact Hfc].
    split; [|split; [exact Hr | split; [exact He | exact Henv]]].
    split; [exact Hi | split; [exact Hx | split; [exact Hw' | exact Hc']]]. }
  clearbody av1. destruct H1 as [((Hi & Hx & (Hw & Hc)) & Hr & He & Henv) Hfc].
  destruct (disp_update_spec (disp av1) (cfg_phosphor av1) Hw) as (d' & -> & Hw' & Hz & _).
  cbn [with_disp disp set_disp frame_count set_frame_count cpu].
  split; [|split; [exact Hz | rewrite Hfc; reflexivity]].
  split; [|split; [exact Hr | split; [exact He|]]].
  - split; [exact Hi | split; [exact Hx | split; [exact Hw' | change (cols_captured d' <= SW); rewrite Hz; unfold SW; lia]]].
  - destruct Henv as (E1 & E2 & E3 & E4 & E5 & E6 & E7 & E8 & E9 & E10).
    repeat split; try assumption.
    change (frame_count av = frame_count av0). congruence.
Qed.

(** X8: A frame keeps the machine's shape: the RAM and display arrays keep
    their sizes (so the display accesses of the frame are all in bounds),
    both ROM images and the environment are untouched.  When the frame runs
    to its end, the captured-column count is 0 again and the frame counter
    has advanced by one; the debugger can only stop the frame early. *)
Theorem av_run_frame_shape (av : AV) :
  sys_wf av ->
  sys_wf (av_run_frame av) /\
  irom (cpu (av_run_frame av)) = irom (cpu av) /\
  erom (cpu (av_run_frame av)) = erom (cpu av) /\
  input (av_run_frame av) = input av /\
  cfg_phosphor (av_run_frame av) = cfg_phosphor av /\
  (dbg_active av = false ->
     cols_captured (disp (av_run_frame av)) = 0 /\
     frame_count (av_run_frame av) = s32 (frame_count av + 1)).
Proof.
  intros Hwf. pose proof (frame_begin_shape av Hwf) as Hb.
  pose proof (frame_loop_shape (Z.to_nat CYCLES_PER_FR) av (frame_begin av) 0 Hb) as Hl.
  assert (Hmain : frame_inv av (set_frame_count (frame_count av) (av_run_frame av)) /\
                  (dbg_active av = false ->
                     cols_captured (disp (av_run_frame av)) = 0 /\
                     frame_count (av_run_frame av) = s32 (frame_count av + 1))).
  { unfold av_run_frame.
    destruct (frame_loop (Z.to_nat CYCLES_PER_FR) (frame_begin av) 0) as [av1 e|av1 e|] eqn:El.
    - destruct (frame_end_shape av av1 Hl) as (H1 & H2 & H3).
      assert (Hfc : frame_count av1 = frame_count av) by (destruct Hl as (_ & _ & _ & H & _); exact H).
      rewrite Hfc in H1, H3. split; [exact H1|]. intros _. split; assumption.
    - split.
      + destruct Hl as (Hw & Hr & He & Henv). split; [exact Hw|].
        split; [exact Hr | split; [exact He|]].
        destruct Henv as (E1 & E2 & E3 & E4 & E5 & E6 & E7 & E8 & E9 & E10).
        repeat split; assumption.
      + intros Hdbg.
        destruct (frame_loop_done (Z.to_nat CYCLES_PER_FR) (frame_begin av) 0 Hdbg)
          as (a & x & Hrun & _); [unfold CYCLES_PER_FR; lia | unfold CYCLES_PER_FR; lia|].
        rewrite Hrun in El. discriminate El.
    - split.
      + split; [exact Hwf|]. repeat split.
      + intros Hdbg.
        destruct (frame_loop_done (Z.to_nat CYCLES_PER_FR) (frame_begin av) 0 Hdbg)
          as (a & x & Hrun & _); [unfold CYCLES_PER_FR; lia | unfold CYCLES_PER_FR; lia|].
        rewrite Hrun in El. discriminate El. }
  destruct Hmain as [((Hi & Hx & Hd) & Hr & He & Henv) Hdone].
  destruct Henv as (E1 & E2 & E3 & E4 & E5 & E6 & E7 & E8 & E9 & E10).
  split; [split; [exact Hi | split; [exact Hx | exact Hd]]|].
  split; [exact Hr|]. split; [exact He|]. split; [exact E2|]. split; [exact E4 | exact Hdone].
Qed.

Lemma av_run_frame_shape_witness :
  sys_wf av_init /\ dbg_active av_init = false /\
  sys_wf (av_run_frame av_init) /\ frame_count (av_run_frame av_init) = 1.
Proof.
  pose proof (av_run_frame_shape av_init av_init_wf) as (H1 & _ & _ & _ & _ & H2).
  destruct (H2 eq_refl) as [_ H3].
  split; [exact av_init_wf|]. split; [reflexivity|]. split; [exact H1 | exact H3].
Defined.

(** ** Sound engine: noise register *)

(** X9: The noise register never sticks: a non-zero 15-bit value is followed by
    a non-zero 15-bit value, the output bit is the low bit of the new value;
    zero is the only stuck state. *)
Theorem lfsr_clock_live (s : COP411L) :
  0 < lfsr s < 32768 ->
  0 < lfsr (lfsr_clock s).1 < 32768 /\
  (lfsr_clock s).2 = Z.land (lfsr (lfsr_clock s).1) 1 /\
  lfsr (lfsr_clock (set_lfsr 0 s)).1 = 0.
Proof.
  intros Hl. unfold lfsr_clock. cbv zeta. cbn [fst Datatypes.snd lfsr set_lfsr].
  split; [|split; reflexivity].
  rewrite Z.shiftr_0_r.
  set (b := Z.land (Z.lxor (lfsr s) (Z.shiftr (lfsr s) 1)) 1).
  assert (Hb : 0 <= b < 2).
  { subst b. change 1 with (Z.ones 1). rewrite Z.land_ones by lia. apply Z.mod_pos_bound. lia. }
  assert (Hx : 0 <= Z.shiftr (lfsr s) 1 < 2 ^ 14).
  { rewrite Z.shiftr_div_pow2 by lia. change (2 ^ 1) with 2. change (2 ^ 14) with 16384.
    Z.div_mod_to_equations. lia. }
  rewrite lor_shift_add by (try lia; exact Hx).
  change (2 ^ 14) with 16384 in *. unfold u16.
  destruct (Z.eq_dec (Z.shiftr (lfsr s) 1) 0) as [E|E].
  - assert (Hone : lfsr s = 1).
    { rewrite Z.shiftr_div_pow2 in E by lia. change (2 ^ 1) with 2 in E.
      Z.div_mod_to_equations. lia. }
    subst b. rewrite Hone. vm_compute. split; reflexivity.
  - rewrite Z.mod_small by lia. lia.
Qed.

Lemma lfsr_clock_live_witness :
  0 < lfsr cop411_init < 32768 /\ 0 < lfsr (lfsr_clock cop411_init).1 < 32768.
Proof.
  assert (H : 0 < lfsr cop411_init < 32768) by (change (lfsr cop411_init) with 0x7FFF; lia).
  split; [exact H|]. exact (proj1 (lfsr_clock_live cop411_init H)).
Defined.

(** ** Sound engine: commands *)

Lemma set_step_inv (s0 : COP411L) (n i : Z) (st : SndStep) (s : COP411L) :
  effect_inv s0 n s -> effect_inv s0 n (set_step i st s).
Proof.
  unfold effect_inv, set_step. cbn [proto_state proto_hi lfsr ctrl_loop ctrl_vol ctrl_fast
                                    steps cur_step step_count set_steps].
  rewrite length_insert. tauto.
Qed.

Lemma start_first_step_inv (s0 : COP411L) (n : Z) (s : COP411L) :
  effect_inv s0 n s -> effect_inv s0 n (start_first_step s).
Proof.
  intros H. unfold start_first_step. destruct (0 <? step_count s); [|exact H].
  cbv zeta. match goal with |- context [if ?b then _ else _] => destruct b end; exact H.
Qed.

Ltac effect_leaf :=
  cbv beta iota zeta delta [cop411_build_effect];
  first
    [ apply start_first_step_inv;
      repeat first
        [ apply (for_range_inv (effect_inv _ _)); [|intros; apply set_step_inv; assumption]
        | apply set_step_inv
        | match goal with |- context [if ?b then _ else _] => destruct b end ];
      repeat split
    | repeat split ].

(** [cop411_build_effect] leaves a script of at most 12 steps. *)
Lemma build_effect_inv (s : COP411L) (cmd data : Z) :
  exists n, 0 <= n <= 12 /\ effect_inv s n (cop411_build_effect s cmd data).
Proof.
  destruct cmd as [|p|p]; [exists 0; split; [lia | effect_leaf]| |exists 0; split; [lia | effect_leaf]].
  do 4 (try (destruct p as [p|p|]));
    first [ exists 1; split; [lia | solve [effect_leaf]]
          | exists 5; split; [lia | solve [effect_leaf]]
          | exists 6; split; [lia | solve [effect_leaf]]
          | exists 8; split; [lia | solve [effect_leaf]]
          | exists 10; split; [lia | solve [effect_leaf]]
          | exists 12; split; [lia | solve [effect_leaf]]
          | exists 0; split; [lia | solve [effect_leaf]] ].
Qed.

Lemma update_ctrl_vol_inv (s0 : COP411L) (n : Z) (s : COP411L) :
  effect_inv s0 n s -> effect_inv s0 n (cop411_update_ctrl_vol s).
Proof.
  intros H. unfold cop411_update_ctrl_vol.
  destruct (ctrl_vol s) as [|[p|p|]|] eqn:E; unfold effect_inv in *;
    cbn [proto_state proto_hi lfsr ctrl_loop ctrl_vol ctrl_fast steps cur_step step_count
         set_seg1_vol set_seg2_vol]; exact H.
Qed.

Lemma start_tone_inv (s : COP411L) (note : Z) : effect_inv s 0 (cop411_start_tone s note).
Proof.
  unfold cop411_start_tone. cbv zeta.
  match goal with |- effect_inv _ _ (set_seg_samples_left _ (set_seg_samples_total _
                       (set_cur_vol _ (cop411_update_ctrl_vol ?x)))) =>
    pose proof (update_ctrl_vol_inv s 0 x) as H
  end.
  unfold effect_inv in *.
  cbn [proto_state proto_hi lfsr ctrl_loop ctrl_vol ctrl_fast steps cur_step step_count
       set_seg_samples_left set_seg_samples_total set_cur_vol].
  apply H. repeat split.
Qed.

(** [cop411_update_ctrl_vol] writes the two segment volumes only. *)
Lemma update_ctrl_vol_only (s : COP411L) :
  cop411_update_ctrl_vol s =
  set_seg2_vol (seg2_vol (cop411_update_ctrl_vol s))
               (set_seg1_vol (seg1_vol (cop411_update_ctrl_vol s)) s).
Proof. unfold cop411_update_ctrl_vol. destruct (ctrl_vol s) as [|[p|p|]|]; reflexivity. Qed.

Lemma command_inv (s : COP411L) (b : Z) :
  Z.land (Z.shiftr b 4) 0x0F <> 0 ->
  exists n, 0 <= n <= 12 /\ effect_inv s n (cop411_command s b).
Proof.
  intros Hne. unfold cop411_command. cbv zeta.
  pose proof (land_mask_bounds (Z.shiftr b 4) 4 ltac:(lia)) as Hb.
  change (Z.ones 4) with 15 in Hb. change (2 ^ 4) with 16 in Hb.
  set (cmd := Z.land (Z.shiftr b 4) 15) in *.
  replace (cmd =? 0) with false by (symmetry; apply Z.eqb_neq; exact Hne).
  destruct ((cmd =? 14) || (cmd =? 15)) eqn:E.
  - exists 0. split; [lia | apply start_tone_inv].
  - replace ((1 <=? cmd) && (cmd <=? 13)) with true.
    + apply build_effect_inv.
    + symmetry. apply orb_false_elim in E. destruct E as [E1 E2].
      apply Z.eqb_neq in E1, E2. apply andb_true_intro.
      split; [apply Z.leb_le | apply Z.leb_le]; lia.
Qed.

(** X10: A command byte never touches the protocol state or the noise register
    and never resizes the script array; a playback command (high nibble 1
    to F) keeps the control register and leaves a script of at most 12 steps
    with the cursor at its start; the control command (high nibble 0) keeps
    script and cursor, loads the control register from the low nibble and
    silences the engine. *)
Theorem cop411_command_script (s : COP411L) (b : Z) :
  let s' := cop411_command s b in
  let cmd := Z.land (Z.shiftr b 4) 0x0F in
  proto_state s' = proto_state s /\ proto_hi s' = proto_hi s /\ lfsr s' = lfsr s /\
  length (steps s') = length (steps s) /\
  (cmd <> 0 ->
     cur_step s' = 0 /\ 0 <= step_count s' <= 12 /\
     ctrl_loop s' = ctrl_loop s /\ ctrl_vol s' = ctrl_vol s /\ ctrl_fast s' = ctrl_fast s) /\
  (cmd = 0 ->
     cur_step s' = cur_step s /\ step_count s' = step_count s /\ active s' = false /\
     ctrl_fast s' = Z.land (Z.land b 0x0F) 1 /\
     ctrl_vol s' = Z.land (Z.shiftr (Z.land b 0x0F) 1) 3 /\
     ctrl_loop s' = Z.land (Z.shiftr (Z.land b 0x0F) 3) 1) /\
  (script_ok s -> script_ok s').
Proof.
  cbv zeta.
  destruct (Z.eq_dec (Z.land (Z.shiftr b 4) 15) 0) as [E0|E0].
  - assert (Hc : cop411_command s b =
                 set_active false (cop411_update_ctrl_vol
                   (set_ctrl_loop (Z.land (Z.shiftr (Z.land b 15) 3) 1)
                     (set_ctrl_vol (Z.land (Z.shiftr (Z.land b 15) 1) 3)
                       (set_ctrl_fast (Z.land (Z.land b 15) 1) s))))).
    { unfold cop411_command. cbv zeta. rewrite E0. reflexivity. }
    rewrite Hc, update_ctrl_vol_only.
    split; [reflexivity|]. split; [reflexivity|]. split; [reflexivity|].
    split; [reflexivity|]. split; [intros H; contradiction|].
    split; [intros _; repeat apply conj; reflexivity|].
    intros (H1 & H2 & H3 & H4 & _).
    split; [exact H1|]. split; [exact H2|]. split; [exact H3|]. split; [exact H4|].
    intros Ha. discriminate Ha.
  - destruct (command_inv s b E0) as (n & Hn & H1 & H2 & H3 & H4 & H5 & H6 & H7 & H8 & H9).
    split; [exact H1|]. split; [exact H2|]. split; [exact H3|]. split; [exact H7|].
    split; [intros _; rewrite H8, H9; repeat apply conj; try assumption; lia|].
    split; [intros H; contradiction|].
    intros (Hlen & _). unfold script_ok, MAX_SND_STEPS in *. rewrite H7, H8, H9.
    repeat apply conj; try assumption; try lia.
Qed.

(** A sound-effect command at power-up. *)
Lemma cop411_command_script_witness :
  Z.land (Z.shiftr 0x10 4) 0x0F <> 0 /\ cur_step (cop411_command cop411_init 0x10) = 0.
Proof.
  assert (H : Z.land (Z.shiftr 0x10 4) 0x0F <> 0) by (vm_compute; discriminate).
  split; [exact H|].
  destruct (cop411_command_script cop411_init 0x10) as (_ & _ & _ & _ & Hc & _).
  exact (proj1 (Hc H)).
Defined.

(** ** Sound engine: the P2 protocol *)

(** X11: The four-write protocol: from idle, the writes 0xC0, [b1], [b2], 0x00
    with [b2] non-zero deliver exactly one command, the byte made of the
    high nibbles of [b1] and [b2], and leave the protocol idle.  Outside the
    sequence nothing is delivered: an idle protocol ignores every byte but
    0xC0, and after a command every byte but 0x00. *)
Theorem snd_protocol_sequence (s : COP411L) (b1 b2 v : Z) :
  proto_state s = 0 ->
  let s2 := snd_protocol (snd_protocol s 0xC0) b1 in
  let cmd := Z.lor (u8 (Z.shiftl (Z.land (Z.shiftr b1 4) 0x0F) 4))
                   (Z.land (Z.shiftr b2 4) 0x0F) in
  (b2 <> 0 ->
     snd_protocol s2 b2 = set_proto_state 3 (cop411_command s2 cmd) /\
     snd_protocol (snd_protocol s2 b2) 0 = set_proto_state 0 (cop411_command s2 cmd) /\
     (v <> 0 -> snd_protocol (snd_protocol s2 b2) v = snd_protocol s2 b2)) /\
  (v <> 0xC0 -> snd_protocol s v = s).
Proof.
  intros Hidle. cbv zeta.
  destruct (protocol_arm s b1 Hidle) as [H2 Hhi]. cbv zeta in H2, Hhi.
  set (s2 := snd_protocol (snd_protocol s 0xC0) b1) in *.
  split.
  - intros Hb2. rewrite (protocol_dispatch s2 b2 H2), Hhi.
    replace (b2 =? 0) with false by (symmetry; apply Z.eqb_neq; exact Hb2).
    set (s3 := cop411_command s2 _).
    split; [reflexivity|].
    unfold snd_protocol. cbn [proto_state set_proto_state].
    change (3 =? 0) with false. change (3 =? 1) with false. change (3 =? 2) with false.
    change (3 =? 3) with true. cbn [andb].
    split; [reflexivity|].
    intros Hv. replace (v =? 0) with false by (symmetry; apply Z.eqb_neq; exact Hv).
    reflexivity.
  - intros Hv. unfold snd_protocol. rewrite Hidle.
    replace (v =? 192) with false by (symmetry; apply Z.eqb_neq; exact Hv).
    reflexivity.
Qed.

Lemma snd_protocol_sequence_witness :
  proto_state cop411_init = 0 /\
  proto_state (snd_protocol (snd_protocol (snd_protocol (snd_protocol cop411_init 0xC0) 0x2F)
                                          0x10) 0) = 0.
Proof.
  split; [reflexivity|].
  destruct (snd_protocol_sequence cop411_init 0x2F 0x10 1 eq_refl) as [H _].
  cbv zeta in H. destruct (H ltac:(lia)) as (_ & -> & _). reflexivity.
Defined.

(** ** Sound engine: length of a pure tone *)

Ltac snd_proj :=
  cbn [active is_noise step_count ctrl_loop ctrl_fast seg1_vol seg2_vol seg_samples_total
       seg_samples_left segment cur_vol phase_acc lfsr
       set_phase_acc set_lfsr set_seg_samples_left set_segment set_cur_vol set_active
       fst Datatypes.snd].

Lemma seg_samples_values (s : COP411L) :
  (seg1_samples s = 2028 /\ seg2_samples s = 4586) \/
  (seg1_samples s = 5159 /\ seg2_samples s = 10584).
Proof.
  unfold seg1_samples, seg2_samples. destruct (z2b (ctrl_fast s)); [left | right];
    split; vm_compute; reflexivity.
Qed.

Lemma start_tone_state (s : COP411L) (note : Z) :
  let s0 := cop411_start_tone s note in
  step_count s0 = 0 /\ ctrl_loop s0 = ctrl_loop s /\ ctrl_fast s0 = ctrl_fast s /\
  active s0 = true /\ segment s0 = 0 /\
  seg_samples_total s0 = seg1_samples s /\ seg_samples_left s0 = seg1_samples s /\
  cur_vol s0 = seg1_vol s0.
Proof.
  cbv zeta. unfold cop411_start_tone. cbv zeta.
  match goal with |- context [cop411_update_ctrl_vol ?x] =>
    set (U := cop411_update_ctrl_vol x); pose proof (update_ctrl_vol_only x) as HU
  end.
  fold U in HU.
  assert (HF : ctrl_fast U = ctrl_fast s) by (rewrite HU; reflexivity).
  cbn [step_count ctrl_loop ctrl_fast active segment seg_samples_total seg_samples_left cur_vol
       seg1_vol set_seg_samples_left set_seg_samples_total set_cur_vol].
  unfold seg1_samples. rewrite HF.
  repeat apply conj; try reflexivity; rewrite HU; reflexivity.
Qed.

Lemma tone_start (s : COP411L) (note : Z) :
  let s0 := cop411_start_tone s note in
  tone_inv s0 0 s0 /\ ctrl_loop s0 = ctrl_loop s /\ ctrl_fast s0 = ctrl_fast s.
Proof.
  cbv zeta.
  destruct (start_tone_state s note) as (H1 & H2 & H3 & H4 & H5 & H6 & H7 & H8).
  cbv zeta in *. set (s0 := cop411_start_tone s note) in *.
  assert (Hn : seg1_samples s0 = seg1_samples s) by (unfold seg1_samples; rewrite H3; reflexivity).
  split; [|split; assumption].
  unfold tone_inv. rewrite Hn.
  split; [exact H1|]. split; [reflexivity|]. split; [reflexivity|].
  split; [reflexivity|]. split; [reflexivity|]. split; [exact H6|].
  left. split; [destruct (seg_samples_values s) as [[-> _]|[-> _]]; lia|].
  split; [exact H4|]. split; [exact H5|]. split; [rewrite H7; lia | exact H8].
Qed.

(** One sample of a pure tone that does not loop. *)
Lemma tone_step (s0 s : COP411L) (k : Z) :
  ctrl_loop s0 = 0 -> 0 <= k -> tone_inv s0 k s -> tone_inv s0 (k + 1) (cop411_sample s).1.
Proof.
  intros Hloop Hk (Hsc & Hl & Hf & Hv1 & Hv2 & Htot & Hcase).
  pose proof (seg_samples_values s0) as Hval.
  assert (Hn2 : seg2_samples s = seg2_samples s0) by (unfold seg2_samples; rewrite Hf; reflexivity).
  unfold cop411_sample.
  destruct Hcase as [(Hk1 & Ha & Hseg & Hleft & Hcv) | [(Hk2 & Ha & Hseg & Hleft & Hcv) | (Hk3 & Ha)]].
  3: { rewrite Ha. cbn [negb fst]. unfold tone_inv.
       repeat (split; [assumption|]). right. right. split; [lia | exact Ha]. }
  all: rewrite Ha; cbn [negb];
    assert (Hw : exists w : COP411L,
      (if is_noise s
       then
        let s1 := set_phase_acc (u32 (phase_acc s + phase_inc s)) s in
        let s2 := if phase_acc s1 <? phase_inc s1 then (lfsr_clock s1).1 else s1 in
        (s2, if z2b (Z.land (lfsr s2) 1) then f32_one else f32_neg_one)
       else
        let s1 := set_phase_acc (u32 (phase_acc s + phase_inc s)) s in
        (s1, if z2b (Z.land (phase_acc s1) 2147483648) then f32_one else f32_neg_one)).1 = w /\
      step_count w = step_count s /\ ctrl_loop w = ctrl_loop s /\ ctrl_fast w = ctrl_fast s /\
      seg1_vol w = seg1_vol s /\ seg2_vol w = seg2_vol s /\
      seg_samples_total w = seg_samples_total s /\ active w = active s /\
      segment w = segment s /\ seg_samples_left w = seg_samples_left s /\ cur_vol w = cur_vol s)
    by (eexists; split; [reflexivity|]; cbv zeta; destruct (is_noise s);
        [match goal with |- context [if ?b then _ else _] => destruct b end|];
        repeat split).
  all: destruct Hw as (w & Hw & W1 & W2 & W3 & W4 & W5 & W6 & W7 & W8 & W9 & W10).
  all: match goal with |- context [let '(a, b) := ?p in _] => destruct p as [w' out] end.
  all: cbn [fst] in Hw; subst w'.
  all: cbv zeta; cbn [fst].
  all: rewrite W1, Hsc; change (0 <? 0) with false; cbv iota.
  all: cbn [seg_samples_left set_seg_samples_left segment set_segment ctrl_loop ctrl_fast].
  all: rewrite W9, Hleft, W8, Hseg, W2, Hl, Hloop.
  - assert (Hs : s32 (seg1_samples s0 - k - 1) = seg1_samples s0 - k - 1).
    { unfold s32. rewrite Z.mod_small; destruct Hval as [[? ?]|[? ?]]; lia. }
    rewrite Hs. change (0 =? 0) with true. cbv iota.
    destruct (seg1_samples s0 - k - 1 <=? 0) eqn:E; zb.
    + unfold tone_inv. cbn [step_count ctrl_loop ctrl_fast seg1_vol seg2_vol seg_samples_total
        active segment seg_samples_left cur_vol set_seg_samples_left set_cur_vol set_segment].
      rewrite W1, W2, W3, W4, W5, W6, W7.
      repeat (split; [congruence|]). right. left.
      split; [destruct Hval as [[? ?]|[? ?]]; lia|]. split; [congruence|].
      split; [reflexivity|]. split; [|congruence].
      change (seg2_samples s = seg1_samples s0 + seg2_samples s0 - (k + 1)).
      rewrite Hn2. lia.
    + unfold tone_inv. cbn [step_count ctrl_loop ctrl_fast seg1_vol seg2_vol seg_samples_total
        active segment seg_samples_left cur_vol set_seg_samples_left].
      rewrite W1, W2, W3, W4, W5, W6, W7, W8, W10.
      repeat (split; [congruence|]). left.
      split; [lia|]. split; [congruence|]. split; [congruence|]. split; [lia | congruence].
  - assert (Hs : s32 (seg1_samples s0 + seg2_samples s0 - k - 1) =
                 seg1_samples s0 + seg2_samples s0 - k - 1).
    { unfold s32. rewrite Z.mod_small; destruct Hval as [[? ?]|[? ?]]; lia. }
    rewrite Hs. change (1 =? 0) with false. change (z2b 0) with false. cbv iota.
    destruct (seg1_samples s0 + seg2_samples s0 - k - 1 <=? 0) eqn:E; zb.
    + unfold tone_inv. cbn [step_count ctrl_loop ctrl_fast seg1_vol seg2_vol seg_samples_total
        active segment seg_samples_left cur_vol set_seg_samples_left set_active].
      rewrite W1, W2, W3, W4, W5, W6.
      repeat (split; [congruence|]). right. right. split; [lia | reflexivity].
    + unfold tone_inv. cbn [step_count ctrl_loop ctrl_fast seg1_vol seg2_vol seg_samples_total
        active segment seg_samples_left cur_vol set_seg_samples_left].
      rewrite W1, W2, W3, W4, W5, W6, W7, W8, W10.
      repeat (split; [congruence|]). right. left.
      split; [lia|]. split; [congruence|]. split; [congruence|]. split; [lia | congruence].
Qed.

Lemma tone_run (s0 : COP411L) (k : nat) :
  ctrl_loop s0 = 0 -> tone_inv s0 0 s0 -> tone_inv s0 (Z.of_nat k) (cop411_samples k s0).
Proof.
  intros Hloop H0. induction k as [|k IH]; [exact H0|].
  rewrite Nat2Z.inj_succ. unfold Z.succ.
  change (cop411_samples (S k) s0) with (cop411_sample (cop411_samples k s0)).1.
  apply tone_step; [exact Hloop | lia | exact IH].
Qed.

(** X12: A pure tone played once lasts exactly its two segments: 117 ms then
    240 ms (5159 + 10584 samples), or 46 ms then 104 ms (2028 + 4586
    samples) in fast mode.  The engine is active at the first segment volume
    during the first, at the second segment volume during the second, and
    inactive, hence silent, from then on. *)
Theorem tone_duration (s : COP411L) (note : Z) (k : nat) :
  ctrl_loop s = 0 ->
  let s0 := cop411_start_tone s note in
  let n1 := if z2b (ctrl_fast s) then 2028 else 5159 in
  let n2 := if z2b (ctrl_fast s) then 4586 else 10584 in
  let sk := cop411_samples k s0 in
  (Z.of_nat k < n1 -> active sk = true /\ cur_vol sk = seg1_vol s0) /\
  (n1 <= Z.of_nat k < n1 + n2 -> active sk = true /\ cur_vol sk = seg2_vol s0) /\
  (n1 + n2 <= Z.of_nat k -> active sk = false /\ cop411_sample sk = (sk, f32_zero)).
Proof.
  intros Hloop. cbv zeta.
  destruct (tone_start s note) as (H0 & Hl & Hf). cbv zeta in H0, Hl, Hf.
  set (s0 := cop411_start_tone s note) in *.
  assert (Hloop0 : ctrl_loop s0 = 0) by congruence.
  pose proof (tone_run s0 k Hloop0 H0) as (_ & _ & _ & _ & _ & _ & Hcase).
  assert (Hn1 : seg1_samples s0 = if z2b (ctrl_fast s) then 2028 else 5159).
  { unfold seg1_samples. rewrite Hf. destruct (z2b (ctrl_fast s)); vm_compute; reflexivity. }
  assert (Hn2 : seg2_samples s0 = if z2b (ctrl_fast s) then 4586 else 10584).
  { unfold seg2_samples. rewrite Hf. destruct (z2b (ctrl_fast s)); vm_compute; reflexivity. }
  rewrite Hn1, Hn2 in Hcase.
  set (n1 := if z2b (ctrl_fast s) then 2028 else 5159) in *.
  set (n2 := if z2b (ctrl_fast s) then 4586 else 10584) in *.
  assert (Hpos : 0 < n1 /\ 0 < n2) by (subst n1 n2; destruct (z2b (ctrl_fast s)); lia).
  split; [|split]; intros Hk;
    destruct Hcase as [(Hk1 & Ha & _ & _ & Hcv) | [(Hk2 & Ha & _ & _ & Hcv) | (Hk3 & Ha)]];
    try lia.
  - split; assumption.
  - split; assumption.
  - split; [exact Ha|]. unfold cop411_sample. rewrite Ha. reflexivity.
Qed.

Lemma tone_duration_witness :
  ctrl_loop cop411_init = 0 /\
  active (cop411_samples (Z.to_nat 15742) (cop411_start_tone cop411_init 5)) = true /\
  active (cop411_samples (Z.to_nat 15743) (cop411_start_tone cop411_init 5)) = false.
Proof.
  split; [reflexivity|]. split.
  - destruct (tone_duration cop411_init 5 (Z.to_nat 15742) eq_refl) as (_ & H & _).
    cbv zeta in H. apply H. rewrite Z2Nat.id by lia. change (z2b (ctrl_fast cop411_init)) with false.
    cbv iota. lia.
  - destruct (tone_duration cop411_init 5 (Z.to_nat 15743) eq_refl) as (_ & _ & H).
    cbv zeta in H. apply H. rewrite Z2Nat.id by lia. change (z2b (ctrl_fast cop411_init)) with false.
    cbv iota. lia.
Defined.

(** ** Sound engine: the sequencer cursor *)

Lemma load_step_script (s : COP411L) :
  steps (sample_load_step s) = steps s /\ cur_step (sample_load_step s) = cur_step s /\
  step_count (sample_load_step s) = step_count s.
Proof.
  unfold sample_load_step. destruct (_ || _); [repeat split|].
  cbv zeta. match goal with |- context [if ?b then _ else _] => destruct b end; repeat split.
Qed.

(** One sample keeps the script and its cursor well-formed. *)
Lemma sample_script_ok (s : COP411L) :
  script_ok s -> script_ok (cop411_sample s).1.
Proof.
  intros (Hlen & H0 & Hle & Hmax & Hact). unfold cop411_sample.
  destruct (active s) eqn:Ea; cbn [negb]; [|cbn [fst]; repeat split; try assumption; congruence].
  assert (Hw : exists w : COP411L,
    (if is_noise s
     then
      let s1 := set_phase_acc (u32 (phase_acc s + phase_inc s)) s in
      let s2 := if phase_acc s1 <? phase_inc s1 then (lfsr_clock s1).1 else s1 in
      (s2, if z2b (Z.land (lfsr s2) 1) then f32_one else f32_neg_one)
     else
      let s1 := set_phase_acc (u32 (phase_acc s + phase_inc s)) s in
      (s1, if z2b (Z.land (phase_acc s1) 2147483648) then f32_one else f32_neg_one)).1 = w /\
    steps w = steps s /\ cur_step w = cur_step s /\ step_count w = step_count s /\
    active w = true)
  by (eexists; split; [reflexivity|]; cbv zeta; destruct (is_noise s);
      [match goal with |- context [if ?b then _ else _] => destruct b end|];
      repeat split; exact Ea).
  destruct Hw as (w & Hw & W1 & W2 & W3 & W4).
  match goal with |- context [let '(a, b) := ?p in _] => destruct p as [w' out] end.
  cbn [fst] in Hw. subst w'. cbv zeta. cbn [fst].
  unfold MAX_SND_STEPS in *.
  destruct (0 <? step_count w) eqn:Ec.
  - apply Z.ltb_lt in Ec. rewrite W3 in Ec. specialize (Hact eq_refl Ec).
    cbn [step_samples_left set_step_samples_left].
    destruct (s32 (step_samples_left w - 1) <=? 0).
    + cbn [cur_step step_count set_cur_step set_step_samples_left chain_cmd force_no_loop
           force_loop ctrl_loop command].
      rewrite W2, W3.
      assert (Hs : s32 (cur_step s + 1) = cur_step s + 1).
      { unfold s32. rewrite Z.mod_small by lia. lia. }
      rewrite Hs.
      destruct (step_count s <=? cur_step s + 1) eqn:Eend; zb.
      * destruct (z2b (chain_cmd w)).
        { match goal with |- script_ok (cop411_build_effect ?x ?c ?d) =>
            destruct (build_effect_inv x c d) as (n & Hn & _ & _ & _ & _ & _ & _ & G7 & G8 & G9)
          end.
          unfold script_ok, MAX_SND_STEPS. rewrite G7, G8, G9.
          cbn [steps set_cur_step set_step_samples_left]. rewrite W1.
          repeat apply conj; try assumption; try lia. }
        assert (Hs2 : s32 (step_count s - 1) = step_count s - 1).
        { unfold s32. rewrite Z.mod_small by lia. lia. }
        rewrite Hs2.
        match goal with |- context [if ?b then sample_load_step _ else _] => destruct b end.
        { match goal with |- script_ok (sample_load_step ?x) =>
            destruct (load_step_script x) as (L1 & L2 & L3)
          end.
          unfold script_ok, MAX_SND_STEPS. rewrite L1, L2, L3.
          destruct (command w =? 5);
            cbn [steps cur_step step_count set_cur_step set_step_samples_left];
            rewrite W1, W3; repeat apply conj; try assumption; try lia. }
        unfold script_ok, MAX_SND_STEPS.
        cbn [steps cur_step step_count active set_active set_cur_step set_step_samples_left].
        rewrite W1, W3. repeat apply conj; try assumption; try lia.
      * match goal with |- script_ok (sample_load_step ?x) =>
          destruct (load_step_script x) as (L1 & L2 & L3)
        end.
        unfold script_ok, MAX_SND_STEPS. rewrite L1, L2, L3.
        cbn [steps cur_step step_count set_cur_step set_step_samples_left].
        rewrite W1, W3. repeat apply conj; try assumption; try lia.
    + unfold script_ok, MAX_SND_STEPS. cbn [steps cur_step step_count active set_step_samples_left].
      rewrite W1, W2, W3. repeat apply conj; try assumption; try lia.
  - apply Z.ltb_ge in Ec. rewrite W3 in Ec.
    assert (Hkeep : forall x : COP411L,
              steps x = steps s -> cur_step x = cur_step s -> step_count x = step_count s ->
              script_ok x).
    { intros x X1 X2 X3. unfold script_ok, MAX_SND_STEPS. rewrite X1, X2, X3.
      repeat apply conj; try assumption; try lia. }
    cbn [seg_samples_left set_seg_samples_left].
    destruct (_ <=? 0); [|apply Hkeep; assumption].
    cbn [segment set_seg_samples_left].
    destruct (segment w =? 0); [apply Hkeep; assumption|].
    cbn [ctrl_loop set_seg_samples_left].
    destruct (z2b (ctrl_loop w)); apply Hkeep; assumption.
Qed.

Lemma cop411_init_script : script_ok cop411_init.
Proof.
  unfold script_ok, MAX_SND_STEPS. repeat apply conj; try (vm_compute; reflexivity);
    try (vm_compute; discriminate).
Qed.

(** A pure tone plays with an empty script: the engine is active with the
    cursor and the step count both 0. *)
Lemma start_tone_script (s : COP411L) (note : Z) :
  script_ok s ->
  let t := cop411_start_tone s note in
  script_ok t /\ active t = true /\ cur_step t = 0 /\ step_count t = 0.
Proof.
  intros (Hlen & _). cbv zeta.
  assert (H : steps (cop411_start_tone s note) = steps s /\
              active (cop411_start_tone s note) = true /\
              cur_step (cop411_start_tone s note) = 0 /\
              step_count (cop411_start_tone s note) = 0).
  { unfold cop411_start_tone, cop411_update_ctrl_vol. cbv zeta.
    match goal with
    | |- context [match ?x with 0 => _ | _ => _ end] => destruct x as [|[?|?|]|]
    end; repeat split. }
  destruct H as (H1 & H2 & H3 & H4).
  split; [|split; [exact H2 | split; [exact H3 | exact H4]]].
  unfold script_ok, MAX_SND_STEPS in *. rewrite H1, H3, H4.
  split; [exact Hlen|]. repeat split; lia.
Qed.

(** X13: The sequencer never leaves its script: after one sample the step
    array still has its 16 entries, the step count is at most 16 and the
    cursor lies between 0 and the step count; while the engine is active
    with a script that is not empty the cursor is strictly below the step
    count, so the step the sequencer reads is one of the script.  An active
    engine with an empty script exists, the pure tone, with the cursor and
    the step count both 0; it reads no step. *)
Theorem cop411_sample_script (s : COP411L) :
  script_ok s ->
  let s' := (cop411_sample s).1 in
  script_ok s' /\
  length (steps s') = 16%nat /\
  0 <= cur_step s' <= step_count s' /\ step_count s' <= 16 /\
  (active s' = true -> 0 < step_count s' -> 0 <= cur_step s' < step_count s') /\
  (forall note : Z,
     let t := cop411_start_tone s note in
     script_ok t /\ active t = true /\ cur_step t = 0 /\ step_count t = 0 /\
     script_ok (cop411_sample t).1).
Proof.
  intros Hok. cbv zeta.
  pose proof (sample_script_ok s Hok) as Hs.
  split; [exact Hs|].
  destruct Hs as (Hlen & H0 & Hle & Hmax & Hact). unfold MAX_SND_STEPS in *.
  split; [exact Hlen|]. split; [lia|]. split; [exact Hmax|].
  split; [intros Ha Hp; specialize (Hact Ha Hp); lia|].
  intros note. destruct (start_tone_script s note Hok) as (Ht & Ha & Hc & Hn).
  cbv zeta in *.
  split; [exact Ht|]. split; [exact Ha|]. split; [exact Hc|]. split; [exact Hn|].
  exact (sample_script_ok _ Ht).
Qed.

Lemma cop411_sample_script_witness :
  script_ok (cop411_command cop411_init 0x20) /\
  script_ok (cop411_sample (cop411_command cop411_init 0x20)).1.
Proof.
  assert (H : script_ok (cop411_command cop411_init 0x20)).
  { destruct (command_inv cop411_init 0x20 ltac:(vm_compute; discriminate))
      as (n & Hn & _ & _ & _ & _ & _ & _ & G7 & G8 & G9).
    unfold script_ok, MAX_SND_STEPS. rewrite G7, G8, G9.
    repeat apply conj; try lia. vm_compute. reflexivity. }
  split; [exact H|]. exact (proj1 (cop411_sample_script _ H)).
Defined.

(** ** Display: what a column capture stores *)

Lemma load_insert_same {T : Type} (a : list T) (i : Z) (v : T) :
  0 <= i < Z.of_nat (length a) -> load (<[Z.to_nat i := v]> a) i = Some v.
Proof.
  intros Hi. unfold load. replace (0 <=? i) with true by (symmetry; apply Z.leb_le; lia).
  apply list_lookup_insert_eq. lia.
Qed.

Lemma load_insert_other {T : Type} (a : list T) (i j : Z) (v : T) :
  0 <= i -> i <> j -> load (<[Z.to_nat i := v]> a) j = load a j.
Proof.
  intros Hi Hne. unfold load. destruct (0 <=? j) eqn:E; [|reflexivity].
  apply Z.leb_le in E. apply list_lookup_insert_ne. lia.
Qed.

Lemma store2_spec (cd : list (list Z)) (col i v : Z) :
  cols_wf cd -> 0 <= col < SW -> 0 <= i < 5 ->
  exists cd', store2 cd col i v = Some cd' /\ cols_wf cd' /\
    load2 cd' col i = Some v /\
    (forall c j, c <> col \/ j <> i -> load2 cd' c j = load2 cd c j).
Proof.
  intros [Hlen Hrows] Hcol Hi. unfold store2.
  destruct (load_Some cd col) as (row & Hld & Hrow); [lia|]. rewrite Hld.
  assert (Hr : length row = 5%nat).
  { rewrite Forall_forall in Hrows. apply Hrows. eapply list_elem_of_lookup_2. exact Hrow. }
  rewrite store_Some by lia. rewrite store_Some by lia.
  eexists. split; [reflexivity|]. split; [|split].
  - split; [rewrite length_insert; exact Hlen|].
    apply Forall_insert; [exact Hrows|]. rewrite length_insert. exact Hr.
  - unfold load2. rewrite load_insert_same by lia. apply load_insert_same. lia.
  - intros c j Hne. unfold load2.
    destruct (Z.eq_dec c col) as [->|Hc].
    + rewrite load_insert_same by lia. rewrite Hld.
      apply load_insert_other; [lia|]. destruct Hne; congruence.
    + rewrite load_insert_other by lia. reflexivity.
Qed.

(** Copying five bytes of [src], taken at offsets [off i], into column
    [col]: the column holds the five bytes, the other columns are
    unchanged. *)
Lemma copy_column_spec (src : list Z) (off : Z -> Z) (cd : list (list Z)) (col : Z) :
  cols_wf cd -> 0 <= col < SW ->
  (forall i, 0 <= i < 5 -> 0 <= off i < Z.of_nat (length src)) ->
  exists cd',
    for_range_opt 5 (fun i cd =>
      match load src (off i) with
      | Some v => store2 cd col i v
      | None => None
      end) cd = Some cd' /\ cols_wf cd' /\
    (forall i, 0 <= i < 5 -> load2 cd' col i = Some (rd src (off i))) /\
    (forall c j, c <> col -> load2 cd' c j = load2 cd c j).
Proof.
  intros Hwf Hcol Hsrc.
  destruct (for_range_opt_inv
              (fun k x => cols_wf x /\
                 (forall i, 0 <= i < k -> load2 x col i = Some (rd src (off i))) /\
                 (forall c j, c <> col -> load2 x c j = load2 cd c j)) 5
              (fun i cd => match load src (off i) with
                           | Some v => store2 cd col i v
                           | None => None
                           end) cd) as (cd' & H & Hwf' & Hv & Ho).
  - split; [exact Hwf|]. split; [intros i Hi; lia | reflexivity].
  - intros i x Hi (Hx & Hxv & Hxo).
    destruct (load_Some src (off i)) as (v & Hld & Hlk); [auto|]. rewrite Hld.
    destruct (store2_spec x col i v Hx Hcol Hi) as (x' & Hst & Hx' & Hsame & Hoth).
    exists x'. split; [exact Hst|]. split; [exact Hx'|]. split.
    + intros j Hj. destruct (Z.eq_dec j i) as [->|Hne].
      * rewrite Hsame. unfold rd. rewrite Hlk. reflexivity.
      * rewrite Hoth by (right; exact Hne). apply Hxv. lia.
    + intros c j Hc. rewrite Hoth by (left; exact Hc). apply Hxo. exact Hc.
  - exists cd'. split; [exact H|]. split; [exact Hwf'|]. split; [|exact Ho].
    intros i Hi. apply Hv. lia.
Qed.

(** X14: Video RAM layout: capturing column [col] copies the five bytes at
    offset [6 + 5 * (col mod 50)] of external RAM bank [1 + col / 50] into
    the column's snapshot, leaves every other column as it was, and raises
    the captured-column count to [col + 1] when it was lower. *)
Theorem disp_capture_values (d : AVDisp) (xram : list Z) (col : Z) :
  disp_wf d -> length xram = Z.to_nat XRAM_SZ -> 0 <= col < SW ->
  exists d',
    disp_capture_column d xram col = Some d' /\
    (forall i, 0 <= i < 5 ->
       col_byte d' col i = rd xram ((1 + col / 50) * 256 + 6 + (col mod 50) * 5 + i)) /\
    (forall c i, c <> col -> col_byte d' c i = col_byte d c i) /\
    cols_captured d' = Z.max (cols_captured d) (col + 1) /\
    phosphor d' = phosphor d /\ led_reg d' = led_reg d /\ led_col d' = led_col d.
Proof.
  intros (Hph & Hlen & Hrows & Hreg) Hx Hcol. unfold disp_capture_column. cbv zeta.
  unfold SW, XRAM_SZ in *.
  replace (150 <=? u32 col) with false
    by (symmetry; apply Z.leb_gt; unfold u32; rewrite Z.mod_small by lia; lia).
  rewrite Z.quot_div_nonneg, Z.rem_mod_nonneg by lia.
  assert (Hq : 0 <= col / 50 <= 2 /\ 0 <= col mod 50 < 50) by (Z.div_mod_to_equations; lia).
  replace ((1 + col / 50) * 256 + (6 + col mod 50 * 5) + 4 <? 1024) with true
    by (symmetry; apply Z.ltb_lt; lia).
  destruct (copy_column_spec xram
              (fun i => (1 + col / 50) * 256 + (6 + col mod 50 * 5) + i) (col_data d) col)
    as (cd' & Hcd & Hwf' & Hv & Ho);
    [split; assumption | unfold SW; lia | intros i Hi; rewrite Hx; lia |].
  cbv beta in Hcd. rewrite Hcd. cbn [cols_captured set_col_data].
  eexists. split; [reflexivity|].
  assert (Hcb : forall dd : AVDisp, col_data dd = cd' ->
            (forall i, 0 <= i < 5 ->
               col_byte dd col i = rd xram ((1 + col / 50) * 256 + 6 + col mod 50 * 5 + i)) /\
            (forall c i, c <> col -> col_byte dd c i = col_byte d c i)).
  { intros dd Hdd. unfold col_byte. rewrite Hdd. split.
    - intros i Hi. rewrite (Hv i Hi). change (default 0 (Some ?x)) with x.
      f_equal. lia.
    - intros c i Hc. rewrite (Ho c i Hc). reflexivity. }
  destruct (cols_captured d <=? col) eqn:E; zb.
  - destruct (Hcb (set_cols_captured (col + 1) (set_col_data cd' d)) eq_refl) as [G1 G2].
    split; [exact G1|]. split; [exact G2|].
    split; [cbn [cols_captured set_cols_captured]; lia|]. repeat split.
  - destruct (Hcb (set_col_data cd' d) eq_refl) as [G1 G2].
    split; [exact G1|]. split; [exact G2|].
    split; [cbn [cols_captured set_col_data]; lia|]. repeat split.
Qed.

Lemma disp_capture_values_witness :
  disp_wf (disp av_init) /\ length (xram (cpu av_init)) = Z.to_nat XRAM_SZ /\
  exists d', disp_capture_column (disp av_init) (xram (cpu av_init)) 149 = Some d' /\
             col_byte d' 149 4 = 0xFF /\ cols_captured d' = 150.
Proof.
  assert (H1 : disp_wf (disp av_init)) by exact av_init_disp_wf.
  assert (H2 : length (xram (cpu av_init)) = Z.to_nat XRAM_SZ) by (vm_compute; reflexivity).
  split; [exact H1|]. split; [exact H2|].
  destruct (disp_capture_values (disp av_init) (xram (cpu av_init)) 149 H1 H2
              ltac:(unfold SW; lia)) as (d' & Hc & Hv & _ & Hcc & _).
  exists d'. split; [exact Hc|]. split; [|exact Hcc].
  rewrite (Hv 4 ltac:(lia)). vm_compute. reflexivity.
Defined.

(** X15: A strobe inside the screen commits the five LED registers to the column
    under the column counter, leaves every other column as it was, raises
    the captured-column count to cover the column, advances the counter by
    one and marks the LED path active. *)
Theorem disp_latch_values (d : AVDisp) :
  disp_wf d -> 0 <= led_col d < SW ->
  exists d',
    disp_latch_led_column d = Some d' /\
    (forall i, 0 <= i < 5 -> col_byte d' (led_col d) i = rd (led_reg d) i) /\
    (forall c i, c <> led_col d -> col_byte d' c i = col_byte d c i) /\
    cols_captured d' = Z.max (cols_captured d) (led_col d + 1) /\
    led_col d' = led_col d + 1 /\ led_active d' = true /\
    led_reg d' = led_reg d /\ phosphor d' = phosphor d.
Proof.
  intros (Hph & Hlen & Hrows & Hreg) Hcol. unfold disp_latch_led_column. cbv zeta.
  replace ((0 <=? led_col d) && (led_col d <? SW)) with true
    by (symmetry; apply andb_true_intro; split; [apply Z.leb_le | apply Z.ltb_lt]; lia).
  destruct (copy_column_spec (led_reg d) (fun i => i) (col_data d) (led_col d))
    as (cd' & Hcd & Hwf' & Hv & Ho);
    [split; assumption | exact Hcol | intros i Hi; rewrite Hreg; lia |].
  cbv beta in Hcd. rewrite Hcd. cbn [cols_captured set_col_data].
  assert (Hs : s32 (led_col d + 1) = led_col d + 1).
  { unfold s32, SW in *. rewrite Z.mod_small by lia. lia. }
  assert (Hcb : forall dd : AVDisp, col_data dd = cd' ->
            (forall i, 0 <= i < 5 -> col_byte dd (led_col d) i = rd (led_reg d) i) /\
            (forall c i, c <> led_col d -> col_byte dd c i = col_byte d c i)).
  { intros dd Hdd. unfold col_byte. rewrite Hdd. split.
    - intros i Hi. rewrite (Hv i Hi). reflexivity.
    - intros c i Hc. rewrite (Ho c i Hc). reflexivity. }
  eexists. split; [reflexivity|].
  destruct (cols_captured d <=? led_col d) eqn:E; zb.
  - match goal with |- context [col_byte ?dd _ _] => destruct (Hcb dd eq_refl) as [G1 G2] end.
    split; [exact G1|]. split; [exact G2|].
    cbn [cols_captured led_col led_active led_reg phosphor set_cols_captured set_col_data
         set_led_col set_led_active].
    rewrite Hs. split; [lia|]. repeat split.
  - match goal with |- context [col_byte ?dd _ _] => destruct (Hcb dd eq_refl) as [G1 G2] end.
    split; [exact G1|]. split; [exact G2|].
    cbn [cols_captured led_col led_active led_reg phosphor set_cols_captured set_col_data
         set_led_col set_led_active].
    rewrite Hs. split; [lia|]. repeat split.
Qed.

Lemma disp_latch_values_witness :
  disp_wf (disp av_init) /\ 0 <= led_col (disp av_init) < SW /\
  exists d', disp_latch_led_column (disp av_init) = Some d' /\
             col_byte d' 0 0 = 0xFF /\ led_col d' = 1.
Proof.
  assert (H1 : disp_wf (disp av_init)) by exact av_init_disp_wf.
  assert (H2 : 0 <= led_col (disp av_init) < SW) by (vm_compute; split; [discriminate | reflexivity]).
  split; [exact H1|]. split; [exact H2|].
  destruct (disp_latch_values (disp av_init) H1 H2) as (d' & Hc & Hv & _ & _ & Hl & _).
  exists d'. split; [exact Hc|]. split; [|exact Hl].
  change (col_byte d' (led_col (disp av_init)) 0 = 0xFF).
  rewrite (Hv 0 ltac:(lia)). vm_compute. reflexivity.
Defined.

(** ** Controller port *)

(** The controller mask of [av_port_read]: what the pressed buttons leave
    of port 1. *)
Lemma port1_mask (av : AV) :
  exists k,
    av_port_read av 1 = Z.land (P1 (cpu av)) k /\ Z.land k 7 = 7 /\
    (inp_u (input av) = true -> Z.land k 0x20 = 0) /\
    (inp_d (input av) = true -> Z.land k 0x10 = 0) /\
    (inp_r (input av) = true -> Z.land k 0x40 = 0) /\
    (inp_l (input av) = true -> Z.land k 0x80 = 0) /\
    (inp_b1 (input av) = true -> Z.land k 0x30 = 0) /\
    (inp_b2 (input av) = true -> Z.land k 0x50 = 0) /\
    (inp_b3 (input av) = true -> Z.land k 0x08 = 0) /\
    (inp_b4 (input av) = true -> Z.land k 0x90 = 0) /\
    (input av = input_zero -> k = 0xFF).
Proof.
  unfold av_port_read. cbv zeta.
  destruct (input av) as [u d l r b1 b2 b3 b4].
  cbn [inp_u inp_d inp_l inp_r inp_b1 inp_b2 inp_b3 inp_b4].
  destruct u, d, l, r, b1, b2, b3, b4;
    (eexists; split; [reflexivity|]; vm_compute;
     repeat split; intros; first [reflexivity | discriminate]).
Qed.

(** X16: Buttons can only pull bits of port 1 low: the value read is P1 with
    some bits cleared, each pressed button clears its own bits, the bank
    and ROM select bits 0-2 are never touched, and with no button pressed
    the port reads as the low byte of P1.  Port 2 reads back P2, any other
    port reads 0xFF. *)
Theorem av_port_read_buttons (av : AV) (port : Z) :
  let r := av_port_read av 1 in
  Z.land r (P1 (cpu av)) = r /\
  Z.land r 7 = Z.land (P1 (cpu av)) 7 /\
  (inp_u (input av) = true -> Z.land r 0x20 = 0) /\
  (inp_d (input av) = true -> Z.land r 0x10 = 0) /\
  (inp_r (input av) = true -> Z.land r 0x40 = 0) /\
  (inp_l (input av) = true -> Z.land r 0x80 = 0) /\
  (inp_b1 (input av) = true -> Z.land r 0x30 = 0) /\
  (inp_b2 (input av) = true -> Z.land r 0x50 = 0) /\
  (inp_b3 (input av) = true -> Z.land r 0x08 = 0) /\
  (inp_b4 (input av) = true -> Z.land r 0x90 = 0) /\
  (input av = input_zero -> r = Z.land (P1 (cpu av)) 0xFF) /\
  av_port_read av 2 = P2 (cpu av) /\
  (port <> 1 -> port <> 2 -> av_port_read av port = 0xFF).
Proof.
  cbv zeta.
  destruct (port1_mask av) as (k & -> & H7 & Hu & Hd & Hr & Hl & H1 & H2 & H3 & H4 & H0).
  assert (Hm : forall m, Z.land k m = 0 -> Z.land (Z.land (P1 (cpu av)) k) m = 0).
  { intros m Hz. rewrite <- Z.land_assoc, Hz. apply Z.land_0_r. }
  split.
  { rewrite (Z.land_comm (P1 (cpu av)) k), <- Z.land_assoc, Z.land_diag. reflexivity. }
  split; [rewrite <- Z.land_assoc, H7; reflexivity|].
  repeat (split; [intros Hp; apply Hm; auto|]).
  split; [intros Hz; rewrite (H0 Hz); reflexivity|].
  split; [reflexivity|].
  intros Hn1 Hn2. unfold av_port_read.
  destruct port as [|[[p|p|]|[p|p|]|]|]; try reflexivity; contradiction.
Qed.

(** The stick pushed up at power-up. *)
Lemma av_port_read_buttons_witness :
  let av := set_input {| inp_u := true; inp_d := false; inp_l := false; inp_r := false;
                         inp_b1 := false; inp_b2 := false; inp_b3 := false;
                         inp_b4 := false |} av_init in
  inp_u (input av) = true /\ Z.land (av_port_read av 1) 0x20 = 0.
Proof.
  cbv zeta. split; [reflexivity|].
  match goal with |- Z.land (av_port_read ?av 1) _ = _ =>
    destruct (av_port_read_buttons av 0) as (_ & _ & Hu & _) end.
  exact (Hu eq_refl).
Defined.

(** ** Rewind ring buffer *)

Lemma flags_round_trip (c : I8048) :
  let f := pack_flags c in
  z2b (Z.land f 1) = MB c /\ z2b (Z.land (Z.shiftr f 1) 1) = C c /\
  z2b (Z.land (Z.shiftr f 2) 1) = AC c /\ z2b (Z.land (Z.shiftr f 3) 1) = F0 c /\
  z2b (Z.land (Z.shiftr f 4) 1) = F1 c /\ z2b (Z.land (Z.shiftr f 5) 1) = BS c /\
  z2b (Z.land (Z.shiftr f 6) 1) = timer_en c /\
  z2b (Z.land (Z.shiftr f 7) 1) = counter_en c.
Proof.
  cbv zeta. unfold pack_flags.
  destruct (MB c), (C c), (AC c), (F0 c), (F1 c), (BS c), (timer_en c), (counter_en c);
    vm_compute; repeat split.
Qed.

Lemma flags2_round_trip (c : I8048) :
  let f := pack_flags2 c in
  z2b (Z.land f 1) = timer_ovf c /\ z2b (Z.land (Z.shiftr f 1) 1) = tcnti_en c /\
  z2b (Z.land (Z.shiftr f 2) 1) = irq_en c /\ z2b (Z.land (Z.shiftr f 3) 1) = irq_pend c /\
  z2b (Z.land (Z.shiftr f 4) 1) = in_irq c.
Proof.
  cbv zeta. unfold pack_flags2.
  destruct (timer_ovf c), (tcnti_en c), (irq_en c), (irq_pend c), (in_irq c);
    vm_compute; repeat split.
Qed.

Lemma ring_index (h : Z) :
  0 <= h < REWIND_FRAMES ->
  let h1 := Z.rem (s32 (h + 1)) REWIND_FRAMES in
  0 <= h1 < REWIND_FRAMES /\
  Z.rem (s32 (s32 (h1 - 1) + REWIND_FRAMES)) REWIND_FRAMES = h.
Proof.
  unfold REWIND_FRAMES. intros Hh. cbv zeta.
  assert (Hs : forall x, -1 <= x < 1000 -> s32 x = x).
  { intros x Hx. unfold s32. rewrite Z.mod_small by lia. lia. }
  rewrite (Hs (h + 1)) by lia. rewrite Z.rem_mod_nonneg by lia.
  assert (Hb : 0 <= (h + 1) mod 120 < 120) by (apply Z.mod_pos_bound; lia).
  split; [exact Hb|].
  rewrite (Hs ((h + 1) mod 120 - 1)) by lia. rewrite Hs by lia.
  rewrite Z.rem_mod_nonneg by lia. Z.div_mod_to_equations. lia.
Qed.

(** X17: A push followed by a pop hands back the snapshot just pushed and puts
    the head back where it was; the ring stays well-formed, so neither
    operation indexes outside the array.  The count is back to what it was,
    or one short of the capacity when the ring was full and the push
    overwrote the oldest snapshot. *)
Theorem rewind_push_pop (av av2 : AV) (rw : Rewind) :
  rewind_ok rw ->
  exists rw1 rw2,
    rewind_push av rw = Some rw1 /\ rewind_ok rw1 /\
    rewind_pop av2 rw1 = Some (restore_snap (snap_of av) av2, rw2, true) /\
    rewind_ok rw2 /\
    rewind_buf rw2 = rewind_buf rw1 /\
    rewind_head rw2 = rewind_head rw /\
    rewind_count rw2 = Z.min (rewind_count rw) (REWIND_FRAMES - 1).
Proof.
  intros ((buf & Hbuf & Hlen) & Hh & Hc).
  destruct (ring_index (rewind_head rw) Hh) as [Hh1 Hback]. cbv zeta in Hh1, Hback.
  assert (HRF : REWIND_FRAMES = 120) by reflexivity.
  assert (Hs : forall x, -1 <= x < 1000 -> s32 x = x).
  { intros x Hx. unfold s32. rewrite Z.mod_small by lia. lia. }
  set (c1 := if rewind_count rw <? REWIND_FRAMES then s32 (rewind_count rw + 1)
             else rewind_count rw).
  assert (Hc1 : 1 <= c1 <= REWIND_FRAMES /\ c1 - 1 = Z.min (rewind_count rw) (REWIND_FRAMES - 1)).
  { subst c1. destruct (rewind_count rw <? REWIND_FRAMES) eqn:E; zb.
    - rewrite Hs by lia. lia.
    - lia. }
  set (buf1 := <[Z.to_nat (rewind_head rw) := snap_of av]> buf).
  assert (Hlen1 : length buf1 = Z.to_nat REWIND_FRAMES)
    by (subst buf1; rewrite length_insert; exact Hlen).
  exists {| rewind_buf := Some buf1;
            rewind_head := Z.rem (s32 (rewind_head rw + 1)) REWIND_FRAMES;
            rewind_count := c1 |},
         {| rewind_buf := Some buf1; rewind_head := rewind_head rw;
            rewind_count := s32 (c1 - 1) |}.
  split.
  { unfold rewind_push. rewrite Hbuf. rewrite store_Some by lia. reflexivity. }
  split.
  { split; [exists buf1; split; [reflexivity | exact Hlen1]|].
    split; [exact Hh1 | cbn [rewind_count]; lia]. }
  split.
  { unfold rewind_pop. cbn [rewind_buf rewind_head rewind_count].
    replace (c1 <=? 0) with false by (symmetry; apply Z.leb_gt; lia).
    cbv zeta. rewrite Hback.
    assert (Hld : load buf1 (rewind_head rw) = Some (snap_of av))
      by (apply load_insert_same; lia).
    rewrite Hld. reflexivity. }
  split.
  { split; [exists buf1; split; [reflexivity | exact Hlen1]|].
    split; [exact Hh | cbn [rewind_count]; rewrite Hs by lia; lia]. }
  split; [reflexivity|]. split; [reflexivity|].
  cbn [rewind_count]. rewrite Hs by lia. lia.
Qed.

Lemma rewind_push_pop_witness :
  rewind_ok rewind_empty /\
  exists rw1 rw2,
    rewind_push ei_pending rewind_empty = Some rw1 /\
    rewind_pop av_init rw1 = Some (restore_snap (snap_of ei_pending) av_init, rw2, true) /\
    rewind_count rw2 = 0.
Proof.
  assert (H : rewind_ok rewind_empty).
  { split; [eexists; split; [reflexivity | vm_compute; reflexivity]|].
    unfold rewind_empty, REWIND_FRAMES. cbn [rewind_head rewind_count]. lia. }
  split; [exact H|].
  destruct (rewind_push_pop ei_pending av_init rewind_empty H)
    as (rw1 & rw2 & H1 & _ & H2 & _ & _ & _ & H3).
  exists rw1, rw2. split; [exact H1|]. split; [exact H2 | exact H3].
Defined.

(** X18: What a rewind restores and what it does not: the registers, flags,
    ports, timer, both RAMs, the phosphor buffer and the COP411L control,
    protocol and noise registers come back from the snapshot; the sound is
    silenced, the EI delay cleared and the P2 edge detector re-armed on the
    restored P2; the cycle counter, the T0/T1 pins and the ROM images are
    not part of a snapshot and stay as they are. *)
Theorem rewind_restore (av av2 : AV) :
  let av' := restore_snap (snap_of av) av2 in
  let c := cpu av in let c' := cpu av' in
  (A c' = A c /\ PC c' = PC c /\ PSW c' = PSW c /\ SP c' = SP c /\ P1 c' = P1 c /\
   P2 c' = P2 c /\ BUS c' = BUS c /\ timer c' = timer c /\ tpre c' = tpre c /\
   iram c' = iram c /\ xram c' = xram c) /\
  (MB c' = MB c /\ C c' = C c /\ AC c' = AC c /\ F0 c' = F0 c /\ F1 c' = F1 c /\
   BS c' = BS c /\ timer_en c' = timer_en c /\ counter_en c' = counter_en c /\
   timer_ovf c' = timer_ovf c /\ tcnti_en c' = tcnti_en c /\ irq_en c' = irq_en c /\
   irq_pend c' = irq_pend c /\ in_irq c' = in_irq c) /\
  phosphor (disp av') = phosphor (disp av) /\
  (ctrl_loop (snd av') = ctrl_loop (snd av) /\ ctrl_vol (snd av') = ctrl_vol (snd av) /\
   ctrl_fast (snd av') = ctrl_fast (snd av) /\ proto_state (snd av') = proto_state (snd av) /\
   proto_hi (snd av') = proto_hi (snd av) /\ lfsr (snd av') = lfsr (snd av)) /\
  (active (snd av') = false /\ ei_delay c' = 0 /\ prev_p2 av' = P2 c) /\
  (cycles c' = cycles (cpu av2) /\ t0 c' = t0 (cpu av2) /\ t1 c' = t1 (cpu av2) /\
   irom c' = irom (cpu av2) /\ erom c' = erom (cpu av2) /\
   col_data (disp av') = col_data (disp av2)).
Proof.
  cbv zeta.
  destruct (flags_round_trip (cpu av)) as (F1' & F2 & F3 & F4 & F5 & F6 & F7 & F8).
  destruct (flags2_round_trip (cpu av)) as (G1 & G2 & G3 & G4 & G5).
  cbv zeta in *.
  unfold restore_snap. cbv zeta.
  cbn [snap_of rs_A rs_PSW rs_SP rs_P1 rs_P2 rs_BUS rs_timer rs_PC rs_flags rs_flags2 rs_tpre
       rs_iram rs_xram rs_phosphor rs_snd_ctrl_loop rs_snd_ctrl_vol rs_snd_ctrl_fast
       rs_snd_proto_state rs_snd_proto_hi rs_snd_lfsr].
  rewrite F1', F2, F3, F4, F5, F6, F7, F8, G1, G2, G3, G4, G5.
  repeat apply conj; reflexivity.
Qed.

(** One pop from a ring that holds a snapshot: the head steps back inside
    the array and the count goes down by one. *)
Lemma rewind_pop_step (av : AV) (rw : Rewind) :
  rewind_ok rw -> 0 < rewind_count rw ->
  exists s rw',
    rewind_pop av rw = Some (restore_snap s av, rw', true) /\
    rewind_ok rw' /\ rewind_buf rw' = rewind_buf rw /\
    rewind_head rw' = (rewind_head rw + REWIND_FRAMES - 1) mod REWIND_FRAMES /\
    rewind_count rw' = rewind_count rw - 1 /\
    (forall buf, rewind_buf rw = Some buf -> buf !! Z.to_nat (rewind_head rw') = Some s).
Proof.
  intros ((buf & Hbuf & Hlen) & Hh & Hc) Hpos.
  assert (HRF : REWIND_FRAMES = 120) by reflexivity.
  assert (Hs : forall x, -1 <= x < 1000 -> s32 x = x).
  { intros x Hx. unfold s32. rewrite Z.mod_small by lia. lia. }
  set (h := (rewind_head rw + REWIND_FRAMES - 1) mod REWIND_FRAMES).
  assert (Hhb : 0 <= h < REWIND_FRAMES) by (apply Z.mod_pos_bound; lia).
  assert (Hhead : Z.rem (s32 (s32 (rewind_head rw - 1) + REWIND_FRAMES)) REWIND_FRAMES = h).
  { rewrite (Hs (rewind_head rw - 1)) by lia. rewrite Hs by lia.
    rewrite Z.rem_mod_nonneg by lia. subst h. f_equal. lia. }
  destruct (load_Some buf h) as (s & Hld & Hlk); [lia|].
  exists s, {| rewind_buf := Some buf; rewind_head := h;
               rewind_count := rewind_count rw - 1 |}.
  split.
  { unfold rewind_pop. rewrite Hbuf.
    replace (rewind_count rw <=? 0) with false by (symmetry; apply Z.leb_gt; lia).
    cbv zeta. rewrite Hhead, Hld, (Hs (rewind_count rw - 1)) by lia. reflexivity. }
  split.
  { split; [exists buf; split; [reflexivity | exact Hlen]|].
    split; [exact Hhb | cbn [rewind_count]; lia]. }
  split; [symmetry; exact Hbuf|]. split; [reflexivity|]. split; [reflexivity|].
  intros buf' Hb'. rewrite Hbuf in Hb'. injection Hb' as <-.
  exact Hlk.
Qed.

(** A pop from an empty ring fails and changes nothing. *)
Lemma rewind_pop_none (av : AV) (rw : Rewind) :
  rewind_count rw <= 0 -> rewind_pop av rw = Some (av, rw, false).
Proof.
  intros H. unfold rewind_pop. destruct (rewind_buf rw); [|reflexivity].
  replace (rewind_count rw <=? 0) with true by (symmetry; apply Z.leb_le; exact H).
  reflexivity.
Qed.

(** [n] rounds of the rewind loop on a ring that holds [rewind_count rw]
    snapshots. *)
Lemma rewind_pops_run (n : nat) (av : AV) (rw : Rewind) (cnt : Z) :
  rewind_ok rw -> 0 <= cnt -> cnt + Z.of_nat n < 2147483648 ->
  let k := Z.min (Z.of_nat n) (rewind_count rw) in
  exists av' rw',
    rewind_pops n av rw cnt = Some (av', rw', cnt + k) /\
    rewind_ok rw' /\ rewind_buf rw' = rewind_buf rw /\
    rewind_count rw' = rewind_count rw - k /\
    rewind_head rw' = (rewind_head rw + k * (REWIND_FRAMES - 1)) mod REWIND_FRAMES /\
    (k = 0 -> av' = av /\ rw' = rw).
Proof.
  revert av rw cnt. induction n as [|n IH]; intros av rw cnt Hok Hcnt Hn; cbv zeta.
  - destruct Hok as (Hb & Hh & Hc).
    replace (Z.min (Z.of_nat 0) (rewind_count rw)) with 0 by lia.
    exists av, rw. cbn [rewind_pops]. rewrite Z.add_0_r.
    split; [reflexivity|]. split; [exact (conj Hb (conj Hh Hc))|].
    split; [reflexivity|]. split; [lia|].
    split; [rewrite Z.mul_0_l, Z.add_0_r, Z.mod_small by lia; reflexivity|].
    intros _. split; reflexivity.
  - pose proof Hok as (Hb & Hh & Hc).
    destruct (Z.eq_dec (rewind_count rw) 0) as [Hz|Hnz].
    + replace (Z.min (Z.of_nat (S n)) (rewind_count rw)) with 0 by lia.
      cbn [rewind_pops]. rewrite (rewind_pop_none av rw) by lia.
      destruct (IH av rw cnt Hok Hcnt ltac:(lia)) as (av' & rw' & Hrun & Hok' & Hbuf & Hc' & Hh' & Hsame).
      cbv zeta in *. replace (Z.min (Z.of_nat n) (rewind_count rw)) with 0 in * by lia.
      destruct (Hsame eq_refl) as [-> ->].
      exists av, rw. split; [exact Hrun|]. split; [exact Hok|].
      split; [reflexivity|]. split; [lia|]. split; [exact Hh'|].
      intros _. split; reflexivity.
    + destruct (rewind_pop_step av rw Hok ltac:(lia))
        as (s & rw1 & Hpop & Hok1 & Hbuf1 & Hh1 & Hc1 & _).
      cbn [rewind_pops]. rewrite Hpop.
      assert (Hs : s32 (cnt + 1) = cnt + 1).
      { unfold s32. rewrite Z.mod_small by lia. lia. }
      rewrite Hs.
      destruct (IH (restore_snap s av) rw1 (cnt + 1) Hok1 ltac:(lia) ltac:(lia))
        as (av' & rw' & Hrun & Hok' & Hbuf & Hc' & Hh' & _).
      cbv zeta in *.
      assert (Hk : Z.min (Z.of_nat (S n)) (rewind_count rw) =
                   1 + Z.min (Z.of_nat n) (rewind_count rw1)) by lia.
      rewrite Hk. exists av', rw'.
      split; [rewrite Hrun; f_equal; f_equal; lia|].
      split; [exact Hok'|]. split; [congruence|]. split; [lia|].
      split; [|intros H0; lia].
      rewrite Hh', Hh1. unfold REWIND_FRAMES.
      rewrite Zplus_mod_idemp_l. f_equal. lia.
Qed.



(** ** ROM image loader *)

(** X20: Loading a ROM image into a buffer at least [max_sz] long never writes
    past [max_sz]: a missing or empty file is refused and leaves the buffer
    alone; otherwise ([max_sz] being a C int) the first [min (max_sz, size)] bytes of the buffer are
    those of the file (a longer file is truncated), the rest of the buffer
    keeps its contents, and the load succeeds. *)
Theorem load_file_spec (dest : list Z) (max_sz : Z) (f : list Z) :
  0 < max_sz <= Z.of_nat (length dest) -> max_sz < 2 ^ 31 ->
  load_file dest max_sz None = Some (dest, false) /\
  load_file dest max_sz (Some []) = Some (dest, false) /\
  (f <> [] ->
     let n := Z.to_nat (Z.min max_sz (Z.of_nat (length f))) in
     exists dest',
       load_file dest max_sz (Some f) = Some (dest', true) /\
       length dest' = length dest /\
       take n dest' = take n f /\ drop n dest' = drop n dest).
Proof.
  intros Hmax Hlong. split; [reflexivity|]. split; [reflexivity|].
  intros Hf. cbv zeta. unfold load_file. cbv zeta.
  assert (Hlen : 0 < Z.of_nat (length f)) by (destruct f; [contradiction | cbn; lia]).
  replace (Z.of_nat (length f) =? 0) with false by (symmetry; apply Z.eqb_neq; lia).
  set (sz := if max_sz <? Z.of_nat (length f) then max_sz else Z.of_nat (length f)).
  assert (Hsz : sz = Z.min max_sz (Z.of_nat (length f))).
  { subst sz. destruct (max_sz <? Z.of_nat (length f)) eqn:E; zb; lia. }
  assert (Hu : u64 sz = sz).
  { unfold u64. apply Z.mod_small. lia. }
  rewrite Hu. replace (Z.min sz (Z.of_nat (length f))) with sz by lia.
  replace (sz <=? Z.of_nat (length dest)) with true by (symmetry; apply Z.leb_le; lia).
  rewrite Z.eqb_refl. rewrite <- Hsz.
  eexists. split; [reflexivity|].
  assert (Hn : (Z.to_nat sz <= length f)%nat) by lia.
  assert (Hn' : (Z.to_nat sz <= length dest)%nat) by lia.
  split; [|split].
  - rewrite length_app, length_take, length_drop. lia.
  - rewrite take_app_le by (rewrite length_take; lia).
    rewrite take_take. f_equal. lia.
  - rewrite drop_app_length' by (rewrite length_take; lia). reflexivity.
Qed.

Lemma load_file_spec_witness :
  exists dest',
    load_file [0; 0; 0; 0] 2 (Some [7; 8; 9]) = Some (dest', true) /\
    dest' = [7; 8; 0; 0].
Proof.
  destruct (load_file_spec [0; 0; 0; 0] 2 [7; 8; 9]) as (_ & _ & H);
    [cbn; lia | lia |].
  destruct (H ltac:(discriminate)) as (d & Hd & _).
  exists d. split; [exact Hd|].
  vm_compute in Hd. injection Hd as <-. reflexivity.
Defined.

(** ** Savestate loader: what an accepted savestate leaves behind *)

Ltac snd_fields :=
  cbn [ctrl_loop ctrl_vol ctrl_fast proto_state proto_hi active is_noise force_loop force_no_loop command steps step_count cur_step step_samples_left cur_freq phase_acc phase_inc slide_freq_start slide_freq_end slide_progress lfsr seg1_vol seg2_vol cur_vol segment seg_samples_total seg_samples_left chain_cmd set_ctrl_loop set_ctrl_vol set_ctrl_fast set_proto_state set_proto_hi set_active set_is_noise set_force_loop set_force_no_loop set_command set_steps set_step_count set_cur_step set_step_samples_left set_cur_freq set_phase_acc set_phase_inc set_slide_freq_start set_slide_freq_end set_slide_progress set_lfsr set_seg1_vol set_seg2_vol set_cur_vol set_segment set_seg_samples_total set_seg_samples_left set_chain_cmd].

Ltac split_ifs :=
  repeat match goal with
  | |- context [if ?b then _ else _] =>
      lazymatch b with
      | context [if _ then _ else _] => fail
      | _ => destruct b eqn:?
      end; snd_fields
  end.

Lemma fread_len (n : nat) (buf : list Z) (r r' : reader) (b : list Z) :
  fread n buf r = (b, r') -> rd_ok r' = true -> length b = n.
Proof.
  unfold fread. destruct (rd_ok r) eqn:Hok.
  - destruct (n <=? length (rd_in r))%nat eqn:Hn; intros [= <- <-]; cbn; [|discriminate].
    intros _. apply Nat.leb_le in Hn. rewrite length_take. lia.
  - intros [= <- <-]. congruence.
Qed.

Lemma steps_of_bytes_length (n : nat) (b : list Z) : length (steps_of_bytes n b) = n.
Proof. revert b. induction n as [|n IH]; intros b; cbn; [reflexivity | now rewrite IH]. Qed.

(** Walk the chain of reads backwards, keeping the length of each block. *)
Ltac back_reads_len :=
  repeat match goal with
  | E : fread_u ?n ?o ?r = (_, ?r'), H : rd_ok ?r' = true |- _ =>
      destruct (fread_u_ok _ _ _ _ _ E H) as [? _]; clear E
  | E : fread ?n ?o ?r = (_, ?r'), H : rd_ok ?r' = true |- _ =>
      pose proof (fread_len _ _ _ _ _ E H);
      destruct (fread_ok _ _ _ _ _ E H) as [? _]; clear E
  end.

Lemma read_cpu_shape (c c' : I8048) (r r' : reader) (fl fl2 : Z) :
  read_cpu c r = (c', fl, fl2, r') -> rd_ok r' = true ->
  length (iram c') = 64%nat /\ length (xram c') = 1024%nat.
Proof.
  unfold read_cpu. name_reads. intros [= <- <- <- <-] Hok.
  back_reads_len. split; assumption.
Qed.

Lemma read_snd_shape (s s' : COP411L) (r r' : reader) :
  read_snd s r = (s', r') -> length (steps s') = 16%nat.
Proof.
  unfold read_snd. name_reads. intros [= <- <-].
  reflexivity.
Qed.

(** The parts of a successful load. *)
Lemma load_state_parts (av av' : AV) (f : list Z) :
  load_state av (Some f) = (av', true) ->
  exists c fl fl2 s r2 r3 r4,
    read_cpu (cpu av) r2 = (c, fl, fl2, r3) /\ read_snd (snd av) r3 = (s, r4) /\
    rd_ok r4 = true /\
    av' = set_snd (sanitize_snd s) (set_cpu (load_fixup_cpu c (cpu av) fl fl2) av).
Proof.
  unfold load_state.
  destruct (fread_u 4 0 _) as [magic r1].
  destruct (negb (rd_ok r1) || negb (magic =? SAVE_MAGIC)); [discriminate|].
  destruct (fread_u 4 0 r1) as [ver r2].
  destruct (negb (rd_ok r2) || negb (ver =? SAVE_VER)); [discriminate|].
  destruct (read_cpu (cpu av) r2) as [[[c fl] fl2] r3] eqn:E3.
  cbv zeta. cbn [snd set_cpu].
  destruct (read_snd (snd av) r3) as [s r4] eqn:E4.
  destruct (rd_ok r4) eqn:Hok; [|discriminate].
  cbn [negb]. intros [= <-].
  exists c, fl, fl2, s, r2, r3, r4. repeat split; assumption.
Qed.

(** Each pass of the sanitiser writes its own fields only. *)
Lemma sanitize_ctrl_only (s : COP411L) :
  let x := sanitize_ctrl s in
  x = set_proto_hi (proto_hi x) (set_proto_state (proto_state x)
        (set_ctrl_fast (ctrl_fast x) (set_ctrl_vol (ctrl_vol x)
          (set_ctrl_loop (ctrl_loop x) (set_lfsr (lfsr x) s))))).
Proof. cbv zeta. unfold sanitize_ctrl. cbv zeta. split_ifs; reflexivity. Qed.

Lemma sanitize_ctrl_ranges (s : COP411L) :
  let x := sanitize_ctrl s in
  lfsr x <> 0 /\ 0 <= ctrl_loop x <= 1 /\ 0 <= ctrl_vol x <= 3 /\
  0 <= ctrl_fast x <= 1 /\ proto_state x <= 3 /\ 0 <= proto_hi x <= 15.
Proof.
  cbv zeta. unfold sanitize_ctrl. cbv zeta.
  pose proof (land_mask_bounds (ctrl_loop s) 1 ltac:(lia)) as B1.
  pose proof (land_mask_bounds (ctrl_vol s) 2 ltac:(lia)) as B2.
  pose proof (land_mask_bounds (ctrl_fast s) 1 ltac:(lia)) as B3.
  pose proof (land_mask_bounds (proto_hi s) 4 ltac:(lia)) as B4.
  change (Z.ones 1) with 1 in *. change (Z.ones 2) with 3 in *.
  change (Z.ones 4) with 15 in *.
  change (2 ^ 1) with 2 in *. change (2 ^ 2) with 4 in *. change (2 ^ 4) with 16 in *.
  split_ifs; zb; repeat split; try lia.
Qed.

Lemma sanitize_cursor_only (s : COP411L) :
  let x := sanitize_cursor s in
  x = set_seg_samples_total (seg_samples_total x) (set_seg_samples_left (seg_samples_left x)
        (set_step_samples_left (step_samples_left x) (set_segment (segment x)
          (set_cur_step (cur_step x) (set_step_count (step_count x) s))))).
Proof. cbv zeta. unfold sanitize_cursor. cbv zeta. split_ifs; reflexivity. Qed.

Lemma sanitize_cursor_ranges (s : COP411L) :
  let x := sanitize_cursor s in
  0 <= segment x <= 1 /\ 0 <= step_samples_left x /\
  0 <= seg_samples_left x /\ 0 <= seg_samples_total x.
Proof.
  cbv zeta. unfold sanitize_cursor. cbv zeta.
  split_ifs; zb; repeat split; lia.
Qed.

Lemma sanitize_levels_only (s : COP411L) :
  let x := sanitize_levels s in
  x = set_seg2_vol (seg2_vol x) (set_seg1_vol (seg1_vol x)
        (set_cur_vol (cur_vol x) (set_cur_freq (cur_freq x) s))).
Proof. cbv zeta. unfold sanitize_levels. cbv zeta. split_ifs; reflexivity. Qed.

Lemma sanitize_levels_finite (s : COP411L) :
  let x := sanitize_levels s in
  f32_isfinite (cur_freq x) = true /\ f32_isfinite (cur_vol x) = true.
Proof.
  cbv zeta. unfold sanitize_levels. cbv zeta.
  split_ifs; split; try reflexivity;
    repeat match goal with
    | H : negb _ || _ = false |- _ => apply orb_false_elim in H; destruct H
    | H : negb _ = false |- _ => apply negb_false_iff in H
    end; assumption.
Qed.

Lemma sanitize_steps_only (s : COP411L) :
  let x := sanitize_steps s in
  x = set_steps (steps x) s /\ length (steps x) = length (steps s).
Proof.
  cbv zeta. unfold sanitize_steps.
  apply (for_range_inv (fun x => x = set_steps (steps x) s /\
                                 length (steps x) = length (steps s))).
  - split; reflexivity.
  - intros i x [Hx Hl]. unfold set_step. snd_fields. split.
    + match goal with |- set_steps ?l x = _ => generalize l end.
      intros l. rewrite Hx. reflexivity.
    + rewrite length_insert. exact Hl.
Qed.

(** The fields that survive the passes that follow the one that sets
    them. *)
Lemma sanitize_chain (s s1 s2 s3 s4 s5 : COP411L) :
  s1 = set_proto_hi (proto_hi s1) (set_proto_state (proto_state s1)
         (set_ctrl_fast (ctrl_fast s1) (set_ctrl_vol (ctrl_vol s1)
           (set_ctrl_loop (ctrl_loop s1) (set_lfsr (lfsr s1) s))))) ->
  s2 = set_seg_samples_total (seg_samples_total s2)
         (set_seg_samples_left (seg_samples_left s2)
           (set_step_samples_left (step_samples_left s2) (set_segment (segment s2)
             (set_cur_step (cur_step s2) (set_step_count (step_count s2) s1))))) ->
  s3 = set_seg2_vol (seg2_vol s3) (set_seg1_vol (seg1_vol s3)
         (set_cur_vol (cur_vol s3) (set_cur_freq (cur_freq s3) s2))) ->
  s4 = set_steps (steps s4) s3 -> length (steps s4) = length (steps s3) ->
  s5 = set_seg2_vol (seg2_vol s5) (set_seg1_vol (seg1_vol s5) s4) ->
  (lfsr s5 = lfsr s1 /\ ctrl_loop s5 = ctrl_loop s1 /\ ctrl_vol s5 = ctrl_vol s1 /\
   ctrl_fast s5 = ctrl_fast s1 /\ proto_state s5 = proto_state s1 /\
   proto_hi s5 = proto_hi s1) /\
  (step_count s5 = step_count s2 /\ cur_step s5 = cur_step s2 /\
   segment s5 = segment s2 /\ step_samples_left s5 = step_samples_left s2 /\
   seg_samples_left s5 = seg_samples_left s2 /\
   seg_samples_total s5 = seg_samples_total s2) /\
  (cur_freq s5 = cur_freq s3 /\ cur_vol s5 = cur_vol s3) /\
  length (steps s5) = length (steps s).
Proof.
  intros O1 O2 O3 O4 L4 O5.
  split; [|split; [|split]].
  - repeat split; rewrite O5; snd_fields; rewrite O4; snd_fields; rewrite O3; snd_fields;
      rewrite O2; reflexivity.
  - repeat split; rewrite O5; snd_fields; rewrite O4; snd_fields; rewrite O3; reflexivity.
  - split; rewrite O5; snd_fields; rewrite O4; reflexivity.
  - rewrite O5. snd_fields. rewrite L4, O3. snd_fields. rewrite O2. snd_fields.
    rewrite O1. reflexivity.
Qed.

(** What the sanitiser establishes, for a script array of 16 steps. *)
Lemma sanitize_snd_sane (s : COP411L) :
  length (steps s) = 16%nat ->
  let x := cop411_update_ctrl_vol
             (sanitize_steps (sanitize_levels (sanitize_cursor (sanitize_ctrl s)))) in
  script_ok x /\ lfsr x <> 0 /\
  0 <= ctrl_loop x <= 1 /\ 0 <= ctrl_vol x <= 3 /\ 0 <= ctrl_fast x <= 1 /\
  proto_state x <= 3 /\ 0 <= proto_hi x <= 15 /\ 0 <= segment x <= 1 /\
  0 <= step_samples_left x /\ 0 <= seg_samples_left x /\ 0 <= seg_samples_total x /\
  f32_isfinite (cur_freq x) = true /\ f32_isfinite (cur_vol x) = true.
Proof.
  intros Ls x.
  destruct (sanitize_steps_only (sanitize_levels (sanitize_cursor (sanitize_ctrl s))))
    as [O4 L4].
  destruct (sanitize_chain s _ _ _ _ x
              (sanitize_ctrl_only s) (sanitize_cursor_only _) (sanitize_levels_only _)
              O4 L4 (update_ctrl_vol_only _))
    as ((Hlf & Hcl & Hcv & Hcf & Hps & Hph) & (Hsc & Hcs & Hsg & Hsl & Hgl & Hgt) &
        (Hfr & Hvo) & Hst).
  destruct (sanitize_ctrl_ranges s) as (A1 & A2 & A3 & A4 & A5 & A6).
  destruct (sanitize_cursor_ranges (sanitize_ctrl s)) as (B1 & B2 & B3 & B4).
  destruct (sanitize_levels_finite (sanitize_cursor (sanitize_ctrl s))) as [F1 F2].
  destruct (sanitize_cursor_ok (sanitize_ctrl s)) as (D1 & D2 & D3).
  unfold MAX_SND_STEPS in D1.
  clearbody x.
  rewrite Hlf, Hcl, Hcv, Hcf, Hps, Hph, Hsg, Hsl, Hgl, Hgt, Hfr, Hvo.
  split.
  { unfold script_ok, MAX_SND_STEPS. rewrite Hst, Hsc, Hcs, Ls.
    split; [reflexivity|]. repeat split; lia. }
  repeat split; first [assumption | lia].
Qed.



(** ** Savestate: encoding of the fields *)

Lemma le_bytes_length (n : nat) (v : Z) : length (le_bytes n v) = n.
Proof. revert v. induction n as [|n IH]; intros v; cbn; [reflexivity | now rewrite IH]. Qed.

Lemma le_int_le_bytes (n : nat) (v : Z) :
  le_int (le_bytes n v) = v mod 256 ^ Z.of_nat n.
Proof.
  revert v. induction n as [|n IH]; intros v.
  - cbn. rewrite Z.mod_1_r. reflexivity.
  - cbn [le_bytes le_int]. rewrite IH.
    rewrite Nat2Z.inj_succ, Z.pow_succ_r by lia.
    assert (Hp : 0 < 256 ^ Z.of_nat n) by (apply Z.pow_pos_nonneg; lia).
    rewrite Z.rem_mul_r by lia. reflexivity.
Qed.

Lemma fread_app (n : nat) (buf b rest : list Z) :
  length b = n ->
  fread n buf {| rd_ok := true; rd_in := b ++ rest |} =
  (b, {| rd_ok := true; rd_in := rest |}).
Proof.
  intros <-. unfold fread. cbn [rd_ok rd_in].
  replace (length b <=? length (b ++ rest))%nat with true
    by (symmetry; apply Nat.leb_le; rewrite length_app; lia).
  rewrite take_app_length, drop_app_length. reflexivity.
Qed.

Lemma fread_u_app (n : nat) (old v : Z) (rest : list Z) :
  0 <= v < 256 ^ Z.of_nat n ->
  fread_u n old {| rd_ok := true; rd_in := le_bytes n v ++ rest |} =
  (v, {| rd_ok := true; rd_in := rest |}).
Proof.
  intros Hv. unfold fread_u. rewrite fread_app by apply le_bytes_length.
  rewrite le_int_le_bytes, Z.mod_small by exact Hv. reflexivity.
Qed.

Lemma s32_u32 (v : Z) : int_typed v -> s32 (u32 v) = v.
Proof.
  unfold int_typed, s32, u32. intros Hv.
  Z.div_mod_to_equations. lia.
Qed.

Lemma u32_bounds (v : Z) : 0 <= u32 v < 256 ^ Z.of_nat 4.
Proof. unfold u32. change (256 ^ Z.of_nat 4) with 4294967296. apply Z.mod_pos_bound. lia. Qed.

Lemma fread_i32_app (old v : Z) (rest : list Z) :
  int_typed v ->
  fread_i32 old {| rd_ok := true; rd_in := le_bytes 4 (u32 v) ++ rest |} =
  (v, {| rd_ok := true; rd_in := rest |}).
Proof.
  intros Hv. unfold fread_i32. rewrite fread_u_app by apply u32_bounds.
  rewrite s32_u32 by exact Hv. reflexivity.
Qed.

Lemma digits2_pos_lt (p : positive) : Zpos p < 2 ^ Zpos (digits2_pos p).
Proof.
  induction p as [p IH|p IH|]; cbn [digits2_pos].
  - rewrite Pos2Z.inj_succ, Z.pow_succ_r by lia. lia.
  - rewrite Pos2Z.inj_succ, Z.pow_succ_r by lia. lia.
  - reflexivity.
Qed.

(** The three fields of a binary32 word. *)
Lemma f32_word_fields (f e sb : Z) :
  0 <= f < 8388608 -> 0 <= e < 256 -> 0 <= sb <= 1 ->
  let w := f + e * 8388608 + sb * 2147483648 in
  Z.testbit w 31 = z2b sb /\ Z.land (Z.shiftr w 23) 0xFF = e /\ Z.land w 0x7FFFFF = f /\
  0 <= w < 4294967296.
Proof.
  intros Hf He Hs w.
  assert (H31 : w / 2 ^ 31 = sb) by (subst w; change (2 ^ 31) with 2147483648;
                                     Z.div_mod_to_equations; lia).
  split; [|split; [|split]].
  - rewrite Z.testbit_odd, Z.shiftr_div_pow2, H31 by lia.
    assert (Hc : sb = 0 \/ sb = 1) by lia. destruct Hc as [-> | ->]; reflexivity.
  - change 0xFF with (Z.ones 8). rewrite Z.land_ones, Z.shiftr_div_pow2 by lia.
    subst w. change (2 ^ 23) with 8388608. change (2 ^ 8) with 256.
    Z.div_mod_to_equations. lia.
  - change 0x7FFFFF with (Z.ones 23). rewrite Z.land_ones by lia.
    subst w. change (2 ^ 23) with 8388608. Z.div_mod_to_equations. lia.
  - subst w. lia.
Qed.

Lemma f32_word_lor (f e : Z) (s : bool) :
  0 <= f < 8388608 -> 0 <= e < 256 ->
  Z.lor (Z.shiftl (b2z s) 31) (Z.lor (Z.shiftl e 23) f) =
  f + e * 8388608 + b2z s * 2147483648.
Proof.
  intros Hf He.
  rewrite (Z.lor_comm (Z.shiftl e 23) f), lor_shift_add by (change (2 ^ 23) with 8388608; lia).
  rewrite Z.lor_comm, lor_shift_add by (change (2 ^ 23) with 8388608;
                                        change (2 ^ 31) with 2147483648; lia).
  reflexivity.
Qed.

Lemma b2z_bounds (s : bool) : 0 <= b2z s <= 1.
Proof. destruct s; cbn; lia. Qed.

Lemma z2b_b2z (s : bool) : z2b (b2z s) = s.
Proof. destruct s; reflexivity. Qed.

(** A binary32 value is the value of the word stored for it. *)
Lemma f32_bits_round_trip (x : spec_float) :
  f32_valid x ->
  f32_of_bits (f32_to_bits x) = x /\ 0 <= f32_to_bits x < 256 ^ Z.of_nat 4.
Proof.
  change (256 ^ Z.of_nat 4) with 4294967296.
  intros Hv. destruct x as [s|s| |s m e].
  - destruct s; vm_compute; repeat split; discriminate.
  - destruct s; vm_compute; repeat split; discriminate.
  - vm_compute; repeat split; discriminate.
  - unfold f32_valid, valid_binary, bounded, canonical_mantissa, fexp, emin in Hv.
    apply andb_prop in Hv. destruct Hv as [Hc He].
    apply Z.leb_le in He.
    apply Z.eqb_eq in Hc.
    pose proof (digits2_pos_le m) as Hlo. pose proof (digits2_pos_lt m) as Hhi.
    pose proof (b2z_bounds s) as Hs.
    set (d := Zpos (digits2_pos m)) in *.
    assert (Hd : 0 < d) by (subst d; lia).
    unfold f32_to_bits, f32_of_bits.
    destruct (Zpos m <? 0x800000) eqn:Hm; zb.
    + (* subnormal: the exponent field is 0 *)
      assert (He' : e = -149).
      { destruct (Z.le_gt_cases d 23) as [Hle|Hgt]; [lia|].
        assert (2 ^ 23 <= 2 ^ (d - 1)) by (apply Z.pow_le_mono_r; lia).
        change (2 ^ 23) with 8388608 in *. lia. }
      subst e.
      replace (Z.lor (Z.shiftl (b2z s) 31) (Zpos m))
        with (Zpos m + 0 * 8388608 + b2z s * 2147483648)
        by (rewrite <- (f32_word_lor (Zpos m) 0 s) by lia; reflexivity).
      destruct (f32_word_fields (Zpos m) 0 (b2z s) ltac:(lia) ltac:(lia) Hs)
        as (Ht & Hx & Hf & Hw).
      cbv zeta. rewrite Ht, Hx, Hf, z2b_b2z. split; [reflexivity | exact Hw].
    + (* normal: 24 significant bits *)
      assert (Hd24 : d = 24).
      { destruct (Z.le_gt_cases d 23) as [Hle|Hgt].
        - assert (2 ^ d <= 2 ^ 23) by (apply Z.pow_le_mono_r; lia).
          change (2 ^ 23) with 8388608 in *. lia.
        - lia. }
      rewrite Hd24 in Hhi. change (2 ^ 24) with 16777216 in Hhi.
      assert (Hex : 1 <= e + 150 < 255) by lia.
      rewrite f32_word_lor by lia.
      destruct (f32_word_fields (Zpos m - 8388608) (e + 150) (b2z s)
                  ltac:(lia) ltac:(lia) Hs) as (Ht & Hx & Hf & Hw).
      cbv zeta. rewrite Ht, Hx, Hf, z2b_b2z.
      replace (e + 150 =? 0) with false by (symmetry; apply Z.eqb_neq; lia).
      replace (e + 150 =? 255) with false by (symmetry; apply Z.eqb_neq; lia).
      replace (Zpos m - 8388608 + 8388608) with (Zpos m) by lia.
      replace (e + 150 - 150) with e by lia.
      split; [reflexivity | exact Hw].
Qed.

Lemma fread_f32_app (old x : spec_float) (rest : list Z) :
  f32_valid x ->
  fread_f32 old {| rd_ok := true; rd_in := le_bytes 4 (f32_to_bits x) ++ rest |} =
  (x, {| rd_ok := true; rd_in := rest |}).
Proof.
  intros Hx. destruct (f32_bits_round_trip x Hx) as [Hr Hb].
  unfold fread_f32. rewrite fread_u_app by exact Hb. rewrite Hr. reflexivity.
Qed.

(** ** Savestate: the step array *)

Lemma step_round_trip (st : SndStep) :
  step_typed st -> step_of_bytes (step_bytes st) = st /\ length (step_bytes st) = 16%nat.
Proof.
  intros (Hf & Hd & Hv).
  destruct (f32_bits_round_trip _ Hf) as [Rf _].
  destruct (f32_bits_round_trip _ Hv) as [Rv _].
  pose proof (le_int_le_bytes 4 (f32_to_bits (freq st))) as Lf.
  pose proof (le_int_le_bytes 4 (f32_to_bits (volume st))) as Lv.
  pose proof (le_int_le_bytes 4 (u32 (dur_ms st))) as Ld.
  destruct (f32_bits_round_trip _ Hf) as [_ Bf].
  destruct (f32_bits_round_trip _ Hv) as [_ Bv].
  rewrite Z.mod_small in Lf by exact Bf. rewrite Z.mod_small in Lv by exact Bv.
  rewrite Z.mod_small in Ld by apply u32_bounds.
  unfold step_of_bytes, step_bytes.
  pose proof (le_bytes_length 4 (f32_to_bits (freq st))) as Nf.
  pose proof (le_bytes_length 4 (f32_to_bits (volume st))) as Nv.
  pose proof (le_bytes_length 4 (u32 (dur_ms st))) as Nd.
  destruct (le_bytes 4 (f32_to_bits (freq st))) as [|a0 [|a1 [|a2 [|a3 [|? ?]]]]];
    try discriminate Nf.
  destruct (le_bytes 4 (u32 (dur_ms st))) as [|c0 [|c1 [|c2 [|c3 [|? ?]]]]];
    try discriminate Nd.
  destruct (le_bytes 4 (f32_to_bits (volume st))) as [|d0 [|d1 [|d2 [|d3 [|? ?]]]]];
    try discriminate Nv.
  split; [|reflexivity].
  change (take 4 ([a0; a1; a2; a3] ++ [b2z (noise st); 0; 0; 0] ++
                  [c0; c1; c2; c3] ++ [d0; d1; d2; d3])) with [a0; a1; a2; a3].
  change (take 4 (drop 8 ([a0; a1; a2; a3] ++ [b2z (noise st); 0; 0; 0] ++
                  [c0; c1; c2; c3] ++ [d0; d1; d2; d3]))) with [c0; c1; c2; c3].
  change (take 4 (drop 12 ([a0; a1; a2; a3] ++ [b2z (noise st); 0; 0; 0] ++
                  [c0; c1; c2; c3] ++ [d0; d1; d2; d3]))) with [d0; d1; d2; d3].
  change (rd ([a0; a1; a2; a3] ++ [b2z (noise st); 0; 0; 0] ++
              [c0; c1; c2; c3] ++ [d0; d1; d2; d3]) 4) with (b2z (noise st)).
  rewrite Lf, Lv, Ld, Rf, Rv, z2b_b2z, s32_u32 by exact Hd.
  destruct st; reflexivity.
Qed.

Lemma steps_round_trip (l : list SndStep) :
  Forall step_typed l ->
  steps_of_bytes (length l) (steps_bytes l) = l /\
  length (steps_bytes l) = (16 * length l)%nat.
Proof.
  induction 1 as [|st l Hst Hl [IH1 IH2]]; [split; reflexivity|].
  destruct (step_round_trip st Hst) as [R N].
  unfold steps_bytes in *. cbn [map concat length steps_of_bytes].
  rewrite take_app_length', drop_app_length' by exact N.
  rewrite R, IH1, length_app, N, IH2. split; [reflexivity | lia].
Qed.

Lemma pack_flags_bounds (c : I8048) :
  0 <= pack_flags c < 256 ^ Z.of_nat 1 /\ 0 <= pack_flags2 c < 256 ^ Z.of_nat 1.
Proof.
  change (256 ^ Z.of_nat 1) with 256. unfold pack_flags, pack_flags2, u8.
  split; apply Z.mod_pos_bound; lia.
Qed.

(** ** Savestate: reading back what was written *)

Lemma b2z_fits (b : bool) : 0 <= b2z b < 256 ^ Z.of_nat 1.
Proof. destruct b; cbn; lia. Qed.

Ltac fits :=
  change (256 ^ Z.of_nat 1) with 256; change (256 ^ Z.of_nat 2) with 65536;
  change (256 ^ Z.of_nat 4) with 4294967296;
  change (256 ^ Z.of_nat 8) with 18446744073709551616;
  first [ assumption | apply u32_bounds | apply pack_flags_bounds
        | apply b2z_fits | lia ].

Ltac read_back :=
  repeat first
    [ rewrite fread_u_app by fits
    | rewrite fread_i32_app by assumption
    | rewrite fread_f32_app by assumption
    | rewrite fread_app by assumption ];
  cbv beta iota zeta.

Lemma read_cpu_save (c0 c : I8048) (rest : list Z) :
  cpu_typed c ->
  read_cpu c0 {| rd_ok := true; rd_in := save_cpu c ++ rest |} =
  (set_cycles (cycles c) (set_tpre (tpre c) (set_xram (xram c) (set_iram (iram c)
     (set_BUS (BUS c) (set_P2 (P2 c) (set_P1 (P1 c) (set_timer (timer c)
        (set_SP (SP c) (set_PSW (PSW c) (set_PC (PC c) (set_A (A c) c0))))))))))),
   pack_flags c, pack_flags2 c, {| rd_ok := true; rd_in := rest |}).
Proof.
  intros (HA & HPC & HPSW & HSP & Ht & HP1 & HP2 & HBUS & Li & Lx & Htp & Hcy).
  unfold read_cpu, save_cpu.
  rewrite !take_ge by lia.
  change (Z.to_nat IRAM_SZ) with 64%nat in Li. change (Z.to_nat XRAM_SZ) with 1024%nat in Lx.
  rewrite <- !app_assoc.
  do 14 (read_back).
  rewrite s32_u32 by exact Htp. reflexivity.
Qed.

Lemma read_snd_save (s0 s : COP411L) (rest : list Z) :
  snd_typed s ->
  read_snd s0 {| rd_ok := true; rd_in := save_snd s ++ rest |} =
  (snd_loaded s s0, {| rd_ok := true; rd_in := rest |}).
Proof.
  intros ((H1 & H2 & H3 & H4 & H5 & H6 & H7) & (F1 & F2 & F3 & F4) & (P1' & P2') &
          (I1 & I2 & I3 & I4 & I5 & I6) & Ls & Hst).
  destruct (steps_round_trip _ Hst) as [Rs Ns].
  rewrite Ls in Rs, Ns. change (Z.to_nat MAX_SND_STEPS) with 16%nat in *.
  change (16 * 16)%nat with 256%nat in Ns.
  unfold read_snd, save_snd.
  change (Z.to_nat MAX_SND_STEPS) with 16%nat.
  rewrite take_ge by lia.
  rewrite <- !app_assoc.
  do 22 (read_back).
  rewrite Rs, !z2b_b2z. reflexivity.
Qed.

(** X22: Saving and loading: the file written by [save_state] is accepted by
    [load_state] on any machine, and the machine then holds every saved CPU
    field of the saved one: the registers, the 13 flags, the ports, the
    timer and its prescaler, both RAM arrays and the cycle counter, with
    the PC cut to 12 bits and the stack pointer to 3.  T0 is set, and T1,
    the EI delay and the ROM images stay those of the loading machine.  The
    sound engine is the saved one, with the six fields the file does not
    hold taken from the loading machine, passed through the sanitiser.
    Display, buttons and configuration are not touched. *)
Theorem save_load_round_trip (av av2 : AV) :
  cpu_typed (cpu av) -> snd_typed (snd av) ->
  load_state av2 (Some (save_state av)) =
  (set_snd (sanitize_snd (snd_loaded (snd av) (snd av2)))
     (set_cpu (cpu_loaded (cpu av) (cpu av2)) av2), true).
Proof.
  intros Hc Hs. unfold load_state, save_state.
  rewrite fread_u_app by (vm_compute; split; [discriminate | reflexivity]).
  cbv beta iota zeta. cbn [rd_ok negb orb]. rewrite Z.eqb_refl. cbn [negb].
  rewrite fread_u_app by (vm_compute; split; [discriminate | reflexivity]).
  cbv beta iota zeta. cbn [rd_ok negb orb]. rewrite Z.eqb_refl. cbn [negb].
  rewrite (read_cpu_save _ _ _ Hc). cbv beta iota zeta. cbn [snd set_cpu].
  rewrite <- (app_nil_r (save_snd (snd av))).
  rewrite (read_snd_save _ _ _ Hs). cbv beta iota zeta. cbn [rd_ok negb cpu snd set_cpu set_snd].
  destruct (flags_round_trip (cpu av)) as (A1 & A2 & A3 & A4 & A5 & A6 & A7 & A8).
  destruct (flags2_round_trip (cpu av)) as (B1 & B2 & B3 & B4 & B5).
  cbv zeta in *. unfold load_fixup_cpu. cbv zeta.
  rewrite A1, A2, A3, A4, A5, A6, A7, A8, B1, B2, B3, B4, B5.
  reflexivity.
Qed.

Lemma ei_pending_typed : cpu_typed (cpu ei_pending) /\ snd_typed (snd ei_pending).
Proof.
  split.
  - unfold cpu_typed, int_typed.
    repeat match goal with |- _ /\ _ => split end;
      vm_compute; first [reflexivity | discriminate].
  - unfold snd_typed, int_typed, f32_valid.
    split; [|split; [|split; [|split; [|split]]]];
      [ repeat match goal with |- _ /\ _ => split end;
        vm_compute; first [reflexivity | discriminate] ..
      | vm_compute; reflexivity | ].
    let l := eval vm_compute in (steps (snd ei_pending)) in
    change (Forall step_typed l).
    repeat (apply List.Forall_cons;
            [unfold step_typed, f32_valid, int_typed;
             repeat match goal with |- _ /\ _ => split end;
             vm_compute; first [reflexivity | discriminate]|]).
    apply List.Forall_nil.
Qed.

(** The machine interrupted at power-up, saved and loaded at power-up. *)
Lemma save_load_round_trip_witness :
  cpu_typed (cpu ei_pending) /\ snd_typed (snd ei_pending) /\
  load_state av_init (Some (save_state ei_pending)) =
  (set_snd (sanitize_snd (snd_loaded (snd ei_pending) (snd av_init)))
     (set_cpu (cpu_loaded (cpu ei_pending) (cpu av_init)) av_init), true).
Proof.
  split; [exact (proj1 ei_pending_typed)|]. split; [exact (proj2 ei_pending_typed)|].
  exact (save_load_round_trip ei_pending av_init
           (proj1 ei_pending_typed) (proj2 ei_pending_typed)).
Defined.

(** ** Values of the C types in the CPU: arithmetic *)

Lemma nbit_land (x n : Z) : 0 <= n -> (0 <= x < 2 ^ n <-> Z.land x (Z.ones n) = x).
Proof.
  intros Hn. rewrite Z.land_ones by exact Hn. split.
  - intros H. apply Z.mod_small. exact H.
  - intros <-. apply Z.mod_pos_bound. apply Z.pow_pos_nonneg; lia.
Qed.

Lemma nbit_lor (x y n : Z) :
  0 <= n -> 0 <= x < 2 ^ n -> 0 <= y < 2 ^ n -> 0 <= Z.lor x y < 2 ^ n.
Proof.
  intros Hn Hx Hy. apply nbit_land in Hx, Hy; try exact Hn. apply nbit_land; [exact Hn|].
  rewrite Z.land_lor_distr_l, Hx, Hy. reflexivity.
Qed.

Lemma nbit_lxor (x y n : Z) :
  0 <= n -> 0 <= x < 2 ^ n -> 0 <= y < 2 ^ n -> 0 <= Z.lxor x y < 2 ^ n.
Proof.
  intros Hn Hx Hy. apply nbit_land in Hx, Hy; try exact Hn. apply nbit_land; [exact Hn|].
  apply Z.bits_inj'. intros k Hk.
  rewrite Z.land_spec, Z.lxor_spec.
  rewrite <- Hx, <- Hy, !Z.land_spec.
  destruct (Z.testbit x k), (Z.testbit y k), (Z.testbit (Z.ones n) k); reflexivity.
Qed.

Lemma nbit_land_r (x y n : Z) : 0 <= n -> 0 <= y < 2 ^ n -> 0 <= Z.land x y < 2 ^ n.
Proof.
  intros Hn Hy. apply nbit_land in Hy; try exact Hn. apply nbit_land; [exact Hn|].
  rewrite <- Z.land_assoc, Hy. reflexivity.
Qed.

Lemma nbit_land_l (x y n : Z) : 0 <= n -> 0 <= x < 2 ^ n -> 0 <= Z.land x y < 2 ^ n.
Proof. intros Hn Hx. rewrite Z.land_comm. apply nbit_land_r; assumption. Qed.

Lemma byte_land_r (x y : Z) : byte y -> byte (Z.land x y).
Proof. exact (nbit_land_r x y 8 ltac:(lia)). Qed.

Lemma byte_land_l (x y : Z) : byte x -> byte (Z.land x y).
Proof. exact (nbit_land_l x y 8 ltac:(lia)). Qed.

Lemma byte_lor (x y : Z) : byte x -> byte y -> byte (Z.lor x y).
Proof. exact (nbit_lor x y 8 ltac:(lia)). Qed.

Lemma byte_lxor (x y : Z) : byte x -> byte y -> byte (Z.lxor x y).
Proof. exact (nbit_lxor x y 8 ltac:(lia)). Qed.

Lemma byte_u8 (x : Z) : byte (u8 x).
Proof. unfold byte, u8. apply Z.mod_pos_bound. lia. Qed.

Lemma byte_b2z (b : bool) : byte (b2z b).
Proof. destruct b; unfold byte; cbn; lia. Qed.

Lemma byte_rd (m : list Z) (i : Z) : Forall byte m -> byte (rd m i).
Proof.
  intros Hm. unfold rd. destruct (m !! Z.to_nat i) as [v|] eqn:E; cbn.
  - exact (proj1 (Forall_lookup byte m) Hm _ _ E).
  - unfold byte. lia.
Qed.

Lemma Forall_wr (m : list Z) (i v : Z) : Forall byte m -> byte v -> Forall byte (wr m i v).
Proof.
  intros Hm Hv. unfold wr.
  destruct (Nat.lt_ge_cases (Z.to_nat i) (length m)) as [Hlt|Hge].
  - apply Forall_insert; assumption.
  - rewrite list_insert_ge by exact Hge. exact Hm.
Qed.

Lemma byte_rom_rd (c : I8048) (a : Z) :
  Forall byte (irom c) -> Forall byte (erom c) -> byte (rom_rd c a).
Proof.
  intros Hi He. unfold rom_rd. cbv zeta.
  destruct (_ && _); apply byte_rd; assumption.
Qed.

Lemma byte_getR (c : I8048) (r : Z) : Forall byte (iram c) -> byte (getR c r).
Proof. intros H. apply byte_rd. exact H. Qed.

Lemma byte_port_read (av : AV) (port : Z) :
  byte (P1 (cpu av)) -> byte (P2 (cpu av)) -> byte (av_port_read av port).
Proof.
  intros H1 H2. unfold av_port_read.
  destruct port as [|[[p|p|]|[p|p|]|]|];
    first [exact H2 | apply byte_land_l; exact H1 | unfold byte; lia].
Qed.

(** Twelve-bit program counter values. *)
Lemma pc_mask (x : Z) : 0 <= Z.land x 0xFFF < 4096.
Proof. exact (nbit_land_r x 0xFFF 12 ltac:(lia) ltac:(lia)). Qed.

Lemma pc_page (pc t : Z) : byte t -> 0 <= Z.lor (Z.land pc 0xF00) t < 4096.
Proof.
  intros Ht. apply (nbit_lor _ _ 12); [lia | |unfold byte in Ht; change (2 ^ 12) with 4096; lia].
  apply nbit_land_r; lia.
Qed.

Lemma pc_pop (lo hi : Z) :
  byte lo -> 0 <= Z.lor lo (Z.shiftl (Z.land hi 0x0F) 8) < 4096.
Proof.
  intros Hlo. pose proof (nbit_land_r hi 0x0F 4 ltac:(lia) ltac:(lia)) as Hh.
  change (2 ^ 4) with 16 in Hh. unfold byte in Hlo.
  apply (nbit_lor _ _ 12); [lia | change (2 ^ 12) with 4096; lia|].
  rewrite Z.shiftl_mul_pow2 by lia. change (2 ^ 8) with 256. change (2 ^ 12) with 4096. lia.
Qed.

Lemma pc_jmp_target (c : I8048) (op t : Z) :
  byte op -> byte t -> 0 <= jmp_target c op t < 4096.
Proof.
  intros Hop Ht. unfold jmp_target. cbv zeta.
  assert (H11 : 0 <= Z.lor (Z.shiftl (Z.land op 0xE0) 3) t < 2 ^ 11).
  { apply nbit_lor; [lia | | unfold byte in Ht; change (2 ^ 11) with 2048; lia].
    pose proof (nbit_land_r op 0xE0 8 ltac:(lia) ltac:(lia)) as Hm.
    change (2 ^ 8) with 256 in Hm.
    rewrite Z.shiftl_mul_pow2 by lia. change (2 ^ 3) with 8. change (2 ^ 11) with 2048. lia. }
  change (2 ^ 11) with 2048 in H11.
  assert (Hu : u16 (Z.lor (Z.shiftl (Z.land op 0xE0) 3) t) =
               Z.lor (Z.shiftl (Z.land op 0xE0) 3) t) by (apply Z.mod_small; lia).
  rewrite Hu. destruct (MB c); [|lia].
  apply (nbit_lor _ _ 12); change (2 ^ 12) with 4096; lia.
Qed.

Lemma sp_mask (x : Z) : 0 <= Z.land x 7 < 8.
Proof. exact (nbit_land_r x 7 3 ltac:(lia) ltac:(lia)). Qed.

Lemma byte_shift_flag (b : bool) (k : Z) : 0 <= k <= 7 -> byte (Z.shiftl (b2z b) k).
Proof.
  intros Hk. unfold byte. rewrite Z.shiftl_mul_pow2 by lia.
  assert (0 < 2 ^ k <= 2 ^ 7) by (split; [apply Z.pow_pos_nonneg; lia | apply Z.pow_le_mono_r; lia]).
  change (2 ^ 7) with 128 in *. destruct b; cbn [b2z]; lia.
Qed.

Lemma av_port_write_cpu (av : AV) (port val : Z) :
  cpu (av_port_write av port val) = if port =? 0 then set_BUS val (cpu av) else cpu av.
Proof.
  unfold av_port_write.
  destruct port as [|[[p|p|]|[p|p|]|]|]; try reflexivity.
  cbv zeta. destruct (_ && _); [unfold with_disp; destruct (disp_latch_led_column _)|];
    reflexivity.
Qed.

Lemma av_led_latch_cpu (av : AV) (p2 data : Z) : cpu (av_led_latch av p2 data) = cpu av.
Proof. exact (proj1 (av_led_latch_shape av p2 data)). Qed.

(** ** Values of the C types in the CPU: the instructions *)

Ltac cpu_fields :=
  cbn [A PC PSW SP MB C AC F0 F1 BS timer timer_en counter_en timer_ovf tcnti_en t0 t1 P1 P2 BUS irq_en irq_pend in_irq ei_delay iram irom erom xram cycles tpre set_A set_PC set_PSW set_SP set_MB set_C set_AC set_F0 set_F1 set_BS set_timer set_timer_en set_counter_en set_timer_ovf set_tcnti_en set_t0 set_t1 set_P1 set_P2 set_BUS set_irq_en set_irq_pend set_in_irq set_ei_delay set_iram set_irom set_erom set_xram set_cycles set_tpre cpu set_cpu fst Datatypes.snd].

(** Range goals on the value of an expression of the interpreter. *)
Ltac bsolve :=
  first
    [ assumption
    | apply byte_u8 | apply byte_b2z | apply pc_mask | apply sp_mask
    | apply byte_shift_flag; lia
    | apply byte_rd; bsolve
    | apply Forall_wr; [bsolve | bsolve]
    | apply byte_land_r; solve [bsolve]
    | apply byte_land_l; solve [bsolve]
    | apply byte_lor; [bsolve | bsolve]
    | apply byte_lxor; [bsolve | bsolve]
    | apply pc_page; bsolve
    | apply pc_pop; bsolve
    | apply pc_jmp_target; [bsolve | bsolve]
    | apply byte_port_read; cpu_fields; assumption
    | unfold byte, int_typed; lia ].

Ltac split_conds :=
  repeat match goal with
         | |- context [if ?b then _ else _] =>
             lazymatch b with
             | context [if _ then _ else _] => fail
             | _ => destruct b
             end
         end.

Ltac bytes_leaf :=
  cbv beta iota zeta delta [exec_op ft];
  cbn [fst Datatypes.snd];
  rewrite ?av_port_write_cpu, ?av_led_latch_cpu;
  cbv beta iota zeta delta [ft jcond setR getR ind add_a daa push8 pop_pc pop_pc_psw flags_of_psw
                            bpsw page_jump xram_wr xram_rd rom_rd Z.eqb];
  cpu_fields;
  split_conds;
  unfold cpu_bytes; cpu_fields;
  repeat match goal with |- _ /\ _ => split end;
  bsolve.

Lemma exec_op_bytes (av : AV) (c : I8048) (op : Z) :
  cpu_bytes c -> cpu_bytes (cpu (exec_op av c op).1).
Proof.
  intros ((HA & HPSW & Ht & HP1 & HP2 & HBUS) & (HPC & HSP) & (Hiram & Hxram) &
          (Hirom & Herom) & (Htp & Hcy & Hei)).
  destruct op as [|p|p]; [bytes_leaf| |bytes_leaf].
  do 8 (try (destruct p as [p|p|])); bytes_leaf.
Qed.

Lemma int_typed_s32 (x : Z) : int_typed (s32 x).
Proof.
  unfold int_typed, s32.
  pose proof (Z.mod_pos_bound (x + 2147483648) 4294967296 ltac:(lia)). lia.
Qed.

Lemma u64_bounds (x : Z) : 0 <= u64 x < 18446744073709551616.
Proof. unfold u64. apply Z.mod_pos_bound. lia. Qed.

Ltac bytes_goal :=
  unfold cpu_bytes; cpu_fields;
  repeat match goal with |- _ /\ _ => split end;
  first [bsolve | apply int_typed_s32 | apply u64_bounds].

Ltac bytes_hyp H :=
  destruct H as ((?HA & ?HPSW & ?Ht & ?HP1 & ?HP2 & ?HBUS) & (?HPC & ?HSP) &
                 (?Hiram & ?Hxram) & (?Hirom & ?Herom) & (?Htp & ?Hcy & ?Hei)).

Lemma ft_bytes (c : I8048) : cpu_bytes c -> byte (ft c).1 /\ cpu_bytes (ft c).2.
Proof.
  intros H. bytes_hyp H. unfold ft. cbn [fst Datatypes.snd]. split.
  - apply byte_rom_rd; assumption.
  - bytes_goal.
Qed.

Lemma timer_tick_bytes (c : I8048) : cpu_bytes c -> cpu_bytes (timer_tick c).
Proof.
  intros H. bytes_hyp H. unfold timer_tick. cbv zeta. cpu_fields.
  split_conds; bytes_goal.
Qed.

Lemma prescaler_loop_bytes (fuel : nat) (c : I8048) :
  cpu_bytes c -> cpu_bytes (prescaler_loop fuel c).
Proof.
  revert c. induction fuel as [|fuel IH]; intros c H; cbn [prescaler_loop].
  - destruct (32 <=? tpre c); exact H.
  - destruct (32 <=? tpre c) eqn:E; [|exact H].
    apply IH, timer_tick_bytes. apply Z.leb_le in E.
    bytes_hyp H. unfold int_typed in *. bytes_goal.
Qed.

Lemma exec_tail_bytes (c : I8048) (cy : Z) : cpu_bytes c -> cpu_bytes (exec_tail c cy).
Proof.
  intros H. unfold exec_tail. cbv zeta.
  assert (H1 : cpu_bytes (set_cycles (u64 (cycles c + cy)) c)).
  { bytes_hyp H. bytes_goal. }
  set (c1 := set_cycles _ c) in *. clearbody c1. clear H.
  assert (H2 : cpu_bytes (if timer_en c1
                          then prescaler_loop
                                 (Z.to_nat (tpre (set_tpre (s32 (tpre c1 + cy)) c1) / 32))
                                 (set_tpre (s32 (tpre c1 + cy)) c1)
                          else c1)).
  { destruct (timer_en c1); [|exact H1].
    apply prescaler_loop_bytes. bytes_hyp H1. bytes_goal. }
  set (c2 := if timer_en c1 then _ else c1) in *. clearbody c2. clear H1.
  assert (H3 : cpu_bytes (if 0 <? ei_delay c2
                          then set_ei_delay (u8 (ei_delay c2 - 1)) c2 else c2)).
  { destruct (0 <? ei_delay c2); [|exact H2]. bytes_hyp H2. bytes_goal. }
  set (c3 := if 0 <? ei_delay c2 then _ else c2) in *. clearbody c3. clear H2.
  destruct (_ && _); [|exact H3].
  bytes_hyp H3.
  cbv beta iota zeta delta [push8 bpsw]. cpu_fields. bytes_goal.
Qed.

(** One instruction keeps the CPU fields inside their C types. *)
Lemma i8048_exec_inv_bytes (av : AV) :
  cpu_bytes (cpu av) -> cpu_bytes (cpu (i8048_exec av).1).
Proof.
  intros H. unfold i8048_exec.
  destruct (ft_bytes (cpu av) H) as [_ Hf].
  destruct (ft (cpu av)) as [op c]. cbn [fst Datatypes.snd] in Hf.
  pose proof (exec_op_bytes av c op Hf) as Ho.
  destruct (exec_op av c op) as [av1 cy]. cbn [fst Datatypes.snd cpu set_cpu] in *.
  apply exec_tail_bytes. exact Ho.
Qed.

(** ** Values of the C types in the CPU: the frame *)

Lemma with_disp_cpu (r : option AVDisp) (av : AV) : cpu (with_disp r av) = cpu av.
Proof. destruct r; reflexivity. Qed.

Lemma frame_iter_bytes (av : AV) (e : Z) :
  cpu_bytes (cpu av) -> cpu_bytes (cpu (frame_iter av e).1).
Proof.
  intros H. unfold frame_iter.
  pose proof (i8048_exec_inv_bytes av H) as Hx.
  destruct (i8048_exec av) as [av1 cy]. cbn [fst Datatypes.snd] in Hx. cbv zeta.
  pose proof (timer_tick_bytes _ Hx) as Ht.
  split_conds;
    cbn [fst cpu set_cpu set_disp set_disp_sync_seen set_disp_sync_cycle];
    rewrite ?with_disp_cpu;
    cbn [fst cpu set_cpu set_disp set_disp_sync_seen set_disp_sync_cycle];
    first [ solve [bytes_hyp Ht; bytes_goal] | solve [bytes_hyp Hx; bytes_goal] ].
Qed.

Lemma dbg_check_cpu (av : AV) : cpu (dbg_check av) = cpu av.
Proof.
  unfold dbg_check. destruct (dbg_active av); [|reflexivity].
  destruct (existsb _ _); reflexivity.
Qed.

Lemma frame_loop_bytes (fuel : nat) (av : AV) (e : Z) :
  cpu_bytes (cpu av) ->
  match frame_loop fuel av e with
  | FrameDone av1 _ | FrameStopped av1 _ => cpu_bytes (cpu av1)
  | FrameFuel => True
  end.
Proof.
  revert av e. induction fuel as [|fuel IH]; intros av e H; cbn [frame_loop].
  - destruct (e <? CYCLES_PER_FR); [exact I | exact H].
  - destruct (e <? CYCLES_PER_FR); [|exact H].
    assert (Hc : cpu_bytes (cpu (dbg_check av))) by (rewrite dbg_check_cpu; exact H).
    destruct (dbg_active (dbg_check av) && dbg_stepping (dbg_check av)); [exact Hc|].
    pose proof (frame_iter_bytes (dbg_check av) e Hc) as Hit.
    destruct (frame_iter (dbg_check av) e) as [av' e']. apply IH. exact Hit.
Qed.

Lemma frame_end_cpu (av : AV) : cpu (frame_end av) = cpu av.
Proof.
  unfold frame_end. cbv zeta.
  set (a1 := if negb (led_active (disp av)) && negb (midframe_scan av) then _ else av).
  assert (H1 : cpu a1 = cpu av).
  { subst a1. destruct (_ && _); [|reflexivity].
    apply (for_range_inv (fun x => cpu x = cpu av)); [reflexivity|].
    intros i x Hx. rewrite with_disp_cpu. exact Hx. }
  clearbody a1. cbn [cpu set_frame_count]. rewrite with_disp_cpu. exact H1.
Qed.

(** X23: The CPU fields stay inside their C types across instructions and
    frames: the accumulator, PSW, the timer, the ports and every byte of
    internal and external RAM stay bytes, the program counter stays below
    4096 and the stack pointer below 8, for any ROM made of bytes. *)
Theorem cpu_bytes_invariant (av : AV) :
  cpu_bytes (cpu av) ->
  cpu_bytes (cpu (i8048_exec av).1) /\ cpu_bytes (cpu (av_run_frame av)).
Proof.
  intros H. split; [exact (i8048_exec_inv_bytes av H)|].
  unfold av_run_frame.
  pose proof (frame_loop_bytes (Z.to_nat CYCLES_PER_FR) (frame_begin av) 0 H) as Hl.
  destruct (frame_loop _ _ _) as [av1 e1|av1 e1|].
  - rewrite frame_end_cpu. exact Hl.
  - exact Hl.
  - exact H.
Qed.

Lemma Forall_byte_check (l : list Z) :
  forallb (fun x => (0 <=? x) && (x <? 256)) l = true -> Forall byte l.
Proof.
  induction l as [|x l IH]; cbn [forallb]; intros H; [constructor|].
  apply andb_prop in H. destruct H as [Hx Hl].
  apply andb_prop in Hx. destruct Hx as [H0 H1].
  constructor; [unfold byte; zb; lia | exact (IH Hl)].
Qed.

Lemma av_init_bytes : cpu_bytes (cpu av_init).
Proof.
  unfold cpu_bytes, byte, int_typed.
  split; [|split; [|split; [|split]]].
  - repeat match goal with |- _ /\ _ => split end; vm_compute; first [reflexivity | discriminate].
  - repeat match goal with |- _ /\ _ => split end; vm_compute; first [reflexivity | discriminate].
  - split; apply Forall_byte_check; vm_compute; reflexivity.
  - split; apply Forall_byte_check; vm_compute; reflexivity.
  - repeat match goal with |- _ /\ _ => split end; vm_compute; first [reflexivity | discriminate].
Qed.

(** One instruction and one frame at power-up. *)
Lemma cpu_bytes_invariant_witness :
  cpu_bytes (cpu av_init) /\
  0 <= PC (cpu (i8048_exec av_init).1) < 4096 /\ 0 <= SP (cpu (av_run_frame av_init)) < 8.
Proof.
  split; [exact av_init_bytes|].
  destruct (cpu_bytes_invariant av_init av_init_bytes) as [(_ & (H1 & _) & _) (_ & (_ & H2) & _)].
  split; [exact H1 | exact H2].
Defined.

(** ** Case-insensitive search *)

Lemma strcasestr_at_spec (h n : list Z) :
  strcasestr_at h n = true <-> occurs_at h n 0.
Proof.
  unfold occurs_at. rewrite drop_0. revert h.
  induction n as [|y n IH]; intros h; cbn [strcasestr_at length].
  - split; [intros _; split; [lia | reflexivity] | reflexivity].
  - destruct h as [|x h]; cbn [length].
    + split; [discriminate | intros [H _]; lia].
    + cbn [take map]. destruct (tolower x =? tolower y) eqn:E; zb.
      * rewrite IH. split.
        -- intros [Hl Hm]. split; [cbn in *; lia | rewrite E, Hm; reflexivity].
        -- intros [Hl Hm]. injection Hm as _ Hm. split; [cbn in *; lia | exact Hm].
      * split; [discriminate | intros [_ Hm]; injection Hm as Hx _; contradiction].
Qed.

Lemma occurs_at_cons (x : Z) (h n : list Z) (k : nat) :
  occurs_at (x :: h) n (S k) <-> occurs_at h n k.
Proof. unfold occurs_at. cbn [length drop]. split; intros [H1 H2]; (split; [lia | exact H2]). Qed.

Lemma strcasestr_from_spec (h n : list Z) (pos : nat) :
  n <> [] ->
  match strcasestr_from h n pos with
  | Some r => exists k, r = (pos + k)%nat /\ occurs_at h n k /\
                        forall j, (j < k)%nat -> ~ occurs_at h n j
  | None => forall k, ~ occurs_at h n k
  end.
Proof.
  intros Hn. revert pos. induction h as [|x h IH]; intros pos; cbn [strcasestr_from].
  - intros k [Hl _]. destruct n; [contradiction | cbn in Hl; lia].
  - destruct (strcasestr_at (x :: h) n) eqn:E.
    + exists 0%nat. split; [lia|]. split; [apply strcasestr_at_spec; exact E|].
      intros j Hj. lia.
    + assert (H0 : ~ occurs_at (x :: h) n 0).
      { intros H. apply strcasestr_at_spec in H. congruence. }
      specialize (IH (S pos)). destruct (strcasestr_from h n (S pos)) as [r|].
      * destruct IH as (k & -> & Hk & Hfirst). exists (S k).
        split; [lia|]. split; [apply occurs_at_cons; exact Hk|].
        intros [|j] Hj; [exact H0|]. rewrite occurs_at_cons. apply Hfirst. lia.
      * intros [|k]; [exact H0|]. rewrite occurs_at_cons. apply IH.
Qed.

(** X24: [strcasestr] returns the first place where the needle occurs in the
    haystack, letter case apart, and [NULL] exactly when it occurs nowhere;
    an empty needle is found at the start of any haystack. *)
Theorem strcasestr_first (h n : list Z) :
  match strcasestr h n with
  | Some k => occurs_at h n k /\ forall j, (j < k)%nat -> ~ occurs_at h n j
  | None => forall k, ~ occurs_at h n k
  end /\
  strcasestr h [] = Some 0%nat.
Proof.
  split; [|reflexivity].
  destruct n as [|y n].
  - cbn. split; [split; [cbn; lia | reflexivity] | intros j Hj; lia].
  - unfold strcasestr.
    pose proof (strcasestr_from_spec h (y :: n) 0 ltac:(discriminate)) as H.
    destruct (strcasestr_from h (y :: n) 0) as [r|]; [|exact H].
    destruct H as (k & -> & Hk & Hfirst). cbn [Nat.add]. split; assumption.
Qed.

(** ** Savestate file name *)

Lemma rd_app_l (m l : list Z) (i : Z) :
  0 <= i < Z.of_nat (length m) -> rd (m ++ l) i = rd m i.
Proof. intros Hi. unfold rd. rewrite lookup_app_l by lia. reflexivity. Qed.

Lemma rd_app_last (m : list Z) (c : Z) : rd (m ++ [c]) (Z.of_nat (length m)) = c.
Proof.
  unfold rd. rewrite Nat2Z.id, lookup_app_r by lia.
  rewrite Nat.sub_diag. reflexivity.
Qed.

Lemma rd_beyond (m : list Z) (i : Z) : Z.of_nat (length m) <= i -> rd m i = 0.
Proof. intros Hi. unfold rd. rewrite lookup_ge_None_2 by lia. reflexivity. Qed.

(** What the loop of [make_save_name] keeps true of its buffer. *)
Lemma save_name_char_inv (buf : list Z) (c : Z) :
  let P (b : list Z) :=
    Forall name_char b /\ rd b 0 <> 95 /\
    (forall i, 0 <= i -> rd b i = 95 -> rd b (i + 1) <> 95) in
  P buf ->
  P (save_name_char buf c) /\
  (length (save_name_char buf c) <= S (length buf))%nat.
Proof.
  intros P (Hf & H0 & Hadj). unfold save_name_char. cbv zeta.
  set (c' := if (65 <=? c) && (c <=? 90) then c + 32 else c).
  assert (Happ : forall x, name_char x ->
            (x = 95 -> 0 < Z.of_nat (length buf) /\
                       rd buf (Z.of_nat (length buf) - 1) <> 95) ->
            P (buf ++ [x]) /\ (length (buf ++ [x]) <= S (length buf))%nat).
  { intros x Hx Hu. split; [|rewrite length_app; cbn; lia].
    split; [apply Forall_app_2; [exact Hf | apply List.Forall_cons; [exact Hx | apply List.Forall_nil]]|].
    split.
    - destruct buf as [|b0 buf']; [|exact H0].
      change (x <> 95). intros Hx95. destruct (Hu Hx95) as [Hl _]. cbn in Hl. lia.
    - intros i Hi Hv.
      destruct (Z.lt_ge_cases i (Z.of_nat (length buf))) as [Hlt|Hge].
      + rewrite rd_app_l in Hv by lia.
        destruct (Z.lt_ge_cases (i + 1) (Z.of_nat (length buf))) as [Hlt'|Hge'].
        * rewrite rd_app_l by lia. apply Hadj; assumption.
        * replace (i + 1) with (Z.of_nat (length buf)) by lia. rewrite rd_app_last.
          intros ->. destruct (Hu eq_refl) as [_ Hl].
          replace (Z.of_nat (length buf) - 1) with i in Hl by lia. contradiction.
      + rewrite rd_beyond by (rewrite length_app; cbn; lia). discriminate. }
  destruct (((97 <=? c') && (c' <=? 122)) || ((48 <=? c') && (c' <=? 57))) eqn:E1.
  - apply Happ.
    + unfold name_char. apply orb_prop in E1.
      destruct E1 as [E|E]; apply andb_prop in E; destruct E; zb; lia.
    + intros ->. cbn in E1. discriminate E1.
  - destruct ((c' =? 32) && (0 <? Z.of_nat (length buf)) &&
              negb (rd buf (Z.of_nat (length buf) - 1) =? 95)) eqn:E2.
    + apply andb_prop in E2. destruct E2 as [E2 E3].
      apply andb_prop in E2. destruct E2 as [_ E2].
      apply negb_true_iff in E3. zb.
      apply Happ; [unfold name_char; lia|]. intros _. split; assumption.
    + split; [split; [exact Hf | split; assumption] | lia].
Qed.

Lemma save_name_loop_inv (name buf : list Z) :
  (length buf <= 60)%nat ->
  Forall name_char buf -> rd buf 0 <> 95 ->
  (forall i, 0 <= i -> rd buf i = 95 -> rd buf (i + 1) <> 95) ->
  let b := save_name_loop name buf in
  (length b <= 60)%nat /\ Forall name_char b /\ rd b 0 <> 95 /\
  (forall i, 0 <= i -> rd b i = 95 -> rd b (i + 1) <> 95).
Proof.
  revert buf. induction name as [|c name IH]; intros buf Hl Hf H0 Hadj; cbn [save_name_loop].
  - cbv zeta. auto.
  - destruct (Z.of_nat (length buf) <? 60) eqn:E; zb; [|cbv zeta; auto].
    destruct (save_name_char_inv buf c (conj Hf (conj H0 Hadj))) as ((Hf' & H0' & Hadj') & Hl').
    apply IH; [lia | assumption..].
Qed.

(** X25: The savestate file name made from a game name: the loop never stores
    more than 60 characters, so the terminator stays inside its 64-byte
    buffer; what it stores are lower-case letters, digits and underscores,
    with no underscore first and no two in a row; and the 128-byte name of
    the machine receives ["advision_"], that name (["game"] when it is
    empty) and [".sav"] in full. *)
Theorem make_save_name_clean (game_name : list Z) :
  let b := save_name_loop game_name [] in
  (length b <= 60)%nat /\ Forall name_char b /\ rd b 0 <> 95 /\
  (forall i, 0 <= i -> rd b i = 95 -> rd b (i + 1) <> 95) /\
  make_save_name 128 game_name =
    [97; 100; 118; 105; 115; 105; 111; 110; 95] ++
    (if 0 <? Z.of_nat (length b) then b else [103; 97; 109; 101]) ++ [46; 115; 97; 118] /\
  (length (make_save_name 128 game_name) < 128)%nat.
Proof.
  cbv zeta.
  destruct (save_name_loop_inv game_name [] ltac:(cbn; lia) ltac:(constructor)
              ltac:(cbn; discriminate))
    as (Hl & Hf & H0 & Hadj).
  { intros i Hi Hv. rewrite rd_beyond in Hv by (cbn; lia). discriminate Hv. }
  cbv zeta in *.
  split; [exact Hl|]. split; [exact Hf|]. split; [exact H0|]. split; [exact Hadj|].
  unfold make_save_name. cbv zeta.
  set (body := if 0 <? Z.of_nat (length (save_name_loop game_name [])) then _ else _).
  assert (Hb : (length body <= 60)%nat).
  { subst body. destruct (0 <? _); [exact Hl | cbn; lia]. }
  clearbody body.
  match goal with
  | |- take _ ?s = _ /\ _ =>
      assert (Hlen : (length s <= 73)%nat) by (rewrite !length_app; cbn [length]; lia);
      rewrite take_ge by (change (Z.to_nat (128 - 1)) with 127%nat; lia)
  end.
  split; [reflexivity | lia].
Qed.

(** ** Phosphor values of the reachable states (C9) *)

(** The floor constant of [decay_px] is the [float] literal [0.01f]. *)
Lemma f32_eps_lit : f32_eps = f32_lit 1 100.
Proof. vm_compute. reflexivity. Qed.

(** A clear bit, tested with the mask of the source or read as a bit. *)
Lemma land_bit_clear (v b : Z) : 0 <= b -> (Z.land v (bit b) =? 0) = negb (Z.testbit v b).
Proof.
  intros Hb. unfold bit. rewrite Z.shiftl_1_l.
  destruct (Z.testbit v b) eqn:E; cbn [negb].
  - apply Z.eqb_neq. intros H.
    assert (Ht : Z.testbit (Z.land v (2 ^ b)) b = false) by (rewrite H; apply Z.bits_0).
    rewrite Z.land_spec, E, Z.pow2_bits_true in Ht by lia. discriminate Ht.
  - apply Z.eqb_eq. apply Z.bits_inj'. intros n Hn.
    rewrite Z.land_spec, Z.bits_0.
    destruct (Z.eq_dec n b) as [->|Hne].
    + rewrite E. reflexivity.
    + rewrite Z.pow2_bits_false by lia. apply andb_false_r.
Qed.

(** Inside the screen, the clamp of the column count does not show. *)
Lemma led_lit_captured (d : AVDisp) (x y : Z) :
  0 <= x < SW -> 0 <= y < SH ->
  led_lit d x y =
    (x <? cols_captured d) && negb (Z.testbit (col_byte d x (4 - y / 8)) (7 - y mod 8)).
Proof.
  intros Hx Hy. unfold led_lit, pixel_clear, disp_update_cols.
  rewrite land_bit_clear by (pose proof (Z.mod_pos_bound y 8 ltac:(lia)); lia).
  f_equal. destruct (SW <? cols_captured d) eqn:E.
  - apply Z.ltb_lt in E.
    transitivity true; [apply Z.ltb_lt; lia | symmetry; apply Z.ltb_lt; lia].
  - reflexivity.
Qed.

(** The values of the phosphor buffer after the end-of-frame update. *)
Lemma disp_update_values (d : AVDisp) (decay : spec_float) :
  disp_wf d ->
  exists d',
    disp_update d decay = Some d' /\ disp_wf d' /\ cols_captured d' = 0 /\
    (forall x y, 0 <= x < SW -> 0 <= y < SH ->
       disp_px d' x y =
         (if led_lit d x y then f32_one else decay_px decay (disp_px d x y))) /\
    (in_unit decay -> Forall in_unit (phosphor d) -> Forall in_unit (phosphor d')).
Proof.
  intros Hwf.
  destruct (disp_update_spec d decay Hwf) as (d' & Hup & Hwf' & Hz & _ & Hpx).
  assert (Hval : forall x y, 0 <= x < SW -> 0 <= y < SH ->
            disp_px d' x y =
              (if led_lit d x y then f32_one else decay_px decay (disp_px d x y)) /\
            phosphor d !! Z.to_nat (x + y * SW) = Some (disp_px d x y)).
  { intros x y Hx Hy. destruct (Hpx x y Hx Hy) as (p & Hp & Hp').
    rewrite (disp_px_lookup d x y p Hx Hy Hp), (disp_px_lookup d' x y _ Hx Hy Hp').
    split; [reflexivity | exact Hp]. }
  exists d'. split; [exact Hup|]. split; [exact Hwf'|]. split; [exact Hz|]. split.
  - intros x y Hx Hy. exact (proj1 (Hval x y Hx Hy)).
  - intros Hdec Hall. apply Forall_lookup_2. intros i v Hv.
    pose proof (lookup_lt_Some _ _ _ Hv) as Hi.
    destruct Hwf' as (Hlen & _). rewrite Hlen in Hi.
    unfold SW, SH in Hi.
    set (x := Z.of_nat i mod SW). set (y := Z.of_nat i / SW).
    assert (Hx : 0 <= x < SW) by (apply Z.mod_pos_bound; reflexivity).
    assert (Hy : 0 <= y < SH).
    { subst y. unfold SW, SH. split; [apply Z.div_pos; lia|].
      apply Z.div_lt_upper_bound; lia. }
    assert (Hi' : Z.to_nat (x + y * SW) = i).
    { subst x y. unfold SW. pose proof (Z.div_mod (Z.of_nat i) 150 ltac:(lia)). lia. }
    rewrite <- Hi' in Hv. rewrite <- (disp_px_lookup d' x y v Hx Hy Hv).
    destruct (Hval x y Hx Hy) as [-> Hp].
    destruct (led_lit d x y); [exact f32_one_unit|].
    apply decay_px_unit; [exact Hdec|].
    exact (Forall_lookup_1 _ _ _ _ Hall Hp).
Qed.

(** A pixel of a buffer in [[0, 1]] is in [[0, 1]]. *)
Lemma disp_px_unit (d : AVDisp) (x y : Z) :
  Forall in_unit (phosphor d) -> in_unit (disp_px d x y).
Proof.
  intros Hall. unfold disp_px.
  destruct (_ || _); [exact I|].
  destruct (phosphor d !! _) as [v|] eqn:E; [|exact I].
  exact (Forall_lookup_1 _ _ _ _ Hall E).
Qed.

(** A value [config_load] accepts for the decay constant is in [[0, 1]]. *)
Lemma phosphor_cfg_unit (fv : spec_float) :
  f32_valid fv -> phosphor_cfg_ok fv = true -> in_unit fv.
Proof.
  unfold f32_valid, phosphor_cfg_ok. intros Hv Hok.
  destruct fv as [s|s| |s m e]; try exact I; try discriminate Hok.
  destruct s; [discriminate Hok|].
  assert (H1 : SFleb (S754_finite false m e) f32_one = true).
  { destruct (SFleb (S754_finite false m e) f32_one); [reflexivity|].
    rewrite andb_false_r in Hok. discriminate Hok. }
  clear Hok. cbn [in_unit]. unfold SFleb, SFcompare, f32_one in H1.
  unfold valid_binary, bounded, canonical_mantissa, fexp, emin in Hv.
  apply andb_true_iff in Hv as [Hc _]. apply Z.eqb_eq in Hc.
  pose proof (digits2_pos_lt m) as Hd.
  destruct (Z.compare_spec e (-23)) as [He|He|He].
  - subst e. destruct (Pos.compare_cont Eq m 8388608) eqn:Ec; try discriminate H1.
    + apply Pos.compare_eq in Ec. subst m. split; [lia | reflexivity].
    + pose proof (proj1 (Pos.compare_lt_iff m 8388608)) as Hlt. unfold Pos.compare in Hlt.
      specialize (Hlt Ec). clear Hc Hd H1 Ec.
      split; [discriminate|]. change (2 ^ (- -23)) with (Zpos 8388608).
      apply Z.lt_le_incl. exact Hlt.
  - split; [lia|].
    assert (Hdig : Zpos (digits2_pos m) <= 24) by lia.
    assert (2 ^ Zpos (digits2_pos m) <= 2 ^ 24) by (apply Z.pow_le_mono_r; lia).
    assert (2 ^ 24 <= 2 ^ (- e)) by (apply Z.pow_le_mono_r; lia).
    lia.
  - discriminate H1.
Qed.

(** *** The invariant over the machine's operations *)

Lemma av_init_phosphor_ok : phosphor_ok av_init.
Proof.
  split; [exact av_init_wf|]. split.
  - apply Forall_replicate. exact I.
  - vm_compute. split; discriminate.
Qed.

Lemma i8048_exec_phosphor_ok (av : AV) : phosphor_ok av -> phosphor_ok (i8048_exec av).1.
Proof.
  intros (Hwf & Hph & Hcfg).
  destruct (i8048_exec_inv av Hwf) as (Hwf' & _).
  destruct (i8048_exec_loop_keeps av) as (_ & _ & _ & _ & Hp & _ & Hc).
  split; [exact Hwf'|]. rewrite Hp, Hc. split; assumption.
Qed.

(** The tail of the frame: the fallback capture keeps the phosphor buffer,
    the update keeps it in [[0, 1]]. *)
Lemma frame_end_phosphor_ok (av0 av : AV) :
  frame_inv av0 av -> Forall in_unit (phosphor (disp av)) -> in_unit (cfg_phosphor av) ->
  Forall in_unit (phosphor (disp (frame_end av))) /\
  cfg_phosphor (frame_end av) = cfg_phosphor av.
Proof.
  intros Hinv Hph Hcfg. unfold frame_end. cbv zeta.
  set (av1 := if negb (led_active (disp av)) && negb (midframe_scan av) then _ else av).
  assert (H1 : frame_inv av0 av1 /\ phosphor (disp av1) = phosphor (disp av) /\
               cfg_phosphor av1 = cfg_phosphor av).
  { subst av1. destruct (_ && _); [|split; [exact Hinv | split; reflexivity]].
    apply (for_range_bounded (fun a => frame_inv av0 a /\
             phosphor (disp a) = phosphor (disp av) /\ cfg_phosphor a = cfg_phosphor av));
      [split; [exact Hinv | split; reflexivity]|].
    intros i a Hir [((Hi & Hx & (Hw & Hc)) & Hr & He & Henv) [Hp Hcf]].
    unfold SW in Hir.
    destruct (disp_capture_total (disp a) (xram (cpu a)) i Hw Hc Hx ltac:(lia))
      as (d' & Hcap & Hw' & Hc').
    rewrite Hcap. cbn [with_disp].
    split; [|split; [rewrite <- Hp; exact (capture_phosphor _ _ _ _ Hcap) | exact Hcf]].
    split; [|split; [exact Hr | split; [exact He | exact Henv]]].
    split; [exact Hi | split; [exact Hx | split; [exact Hw' | exact Hc']]]. }
  clearbody av1. destruct H1 as [((Hi & Hx & (Hw & Hc)) & Hr & He & Henv) [Hp Hcf]].
  destruct (disp_update_values (disp av1) (cfg_phosphor av1) Hw) as (d' & -> & _ & _ & _ & Hall).
  cbn [with_disp disp set_disp set_frame_count cfg_phosphor].
  split; [|exact Hcf].
  apply Hall; [rewrite Hcf; exact Hcfg | rewrite Hp; exact Hph].
Qed.

Lemma sys_wf_frame_count (n : Z) (av : AV) : sys_wf (set_frame_count n av) -> sys_wf av.
Proof. intros H. exact H. Qed.

Lemma av_run_frame_phosphor_ok (av : AV) : phosphor_ok av -> phosphor_ok (av_run_frame av).
Proof.
  intros (Hwf & Hph & Hcfg).
  pose proof (frame_begin_shape av Hwf) as Hb.
  pose proof (frame_loop_shape (Z.to_nat CYCLES_PER_FR) av (frame_begin av) 0 Hb) as Hl.
  pose proof (frame_loop_run (Z.to_nat CYCLES_PER_FR) (frame_begin av) 0) as Hrun.
  unfold av_run_frame.
  destruct (frame_loop (Z.to_nat CYCLES_PER_FR) (frame_begin av) 0) as [av1 e|av1 e|].
  - destruct Hrun as (_ & Hk & _); [unfold CYCLES_PER_FR; lia | unfold CYCLES_PER_FR; lia|].
    destruct Hk as (_ & _ & _ & _ & Hp & _ & Hc).
    change (phosphor (disp (frame_begin av))) with (phosphor (disp av)) in Hp.
    change (cfg_phosphor (frame_begin av)) with (cfg_phosphor av) in Hc.
    destruct (frame_end_shape av av1 Hl) as ((Hwf' & _) & _).
    destruct (frame_end_phosphor_ok av av1 Hl) as [Hall Hcf];
      [rewrite Hp; exact Hph | rewrite Hc; exact Hcfg|].
    split; [exact (sys_wf_frame_count _ _ Hwf')|].
    split; [exact Hall | rewrite Hcf, Hc; exact Hcfg].
  - destruct Hrun as (_ & _ & _ & _ & _ & Hp & _); [unfold CYCLES_PER_FR; lia | unfold CYCLES_PER_FR; lia|].
    change (phosphor (disp (frame_begin av))) with (phosphor (disp av)) in Hp.
    destruct Hl as (Hwf' & _ & _ & Henv).
    destruct Henv as (_ & _ & _ & E4 & _).
    split; [exact Hwf'|]. rewrite Hp, E4. split; assumption.
  - split; [exact Hwf | split; assumption].
Qed.

Lemma av_reset_phosphor_ok (av : AV) : phosphor_ok av -> phosphor_ok (av_reset av).
Proof.
  intros ((_ & _ & ((Hp & Hl & Hrows & Hreg) & Hc)) & _ & Hcfg).
  split; [|split].
  - split; [vm_compute; reflexivity|]. split; [vm_compute; reflexivity|].
    unfold av_reset. cbv zeta.
    cbn [disp set_save_name set_paused set_frame_count set_snd set_snd_volume set_disp
         set_cpu set_input].
    split; [|exact Hc].
    split; [cbn [phosphor set_phosphor]; rewrite length_replicate; exact Hp|].
    split; [exact Hl | split; [exact Hrows | exact Hreg]].
  - unfold av_reset. cbv zeta.
    cbn [disp set_save_name set_paused set_frame_count set_snd set_snd_volume set_disp
         set_cpu set_input phosphor set_phosphor].
    apply Forall_replicate. exact I.
  - exact Hcfg.
Qed.

Lemma load_state_phosphor_ok (av : AV) (file : option (list Z)) :
  phosphor_ok av -> phosphor_ok (load_state av file).1.
Proof.
  intros Hok. destruct (load_state_cases av file) as [-> | Ht]; [exact Hok|].
  destruct file as [f|]; [|exact Hok].
  assert (H : load_state av (Some f) = ((load_state av (Some f)).1, true)).
  { rewrite <- Ht. destruct (load_state av (Some f)); reflexivity. }
  destruct (load_state_parts _ _ _ H) as (c & fl & fl2 & s & r2 & r3 & r4 & Ec & Es & Hrd & ->).
  destruct (read_snd_ok _ _ _ _ Es Hrd) as [Hok3 _].
  destruct (read_cpu_shape _ _ _ _ _ _ Ec Hok3) as [Li Lx].
  destruct Hok as ((_ & _ & Hd) & Hph & Hcfg).
  split; [split; [exact Li | split; [exact Lx | exact Hd]]|].
  split; [exact Hph | exact Hcfg].
Qed.

Lemma restore_snap_phosphor_ok (av av0 : AV) :
  phosphor_ok av -> phosphor_ok av0 -> phosphor_ok (restore_snap (snap_of av0) av).
Proof.
  intros ((_ & _ & ((Hp & Hl & Hrows & Hreg) & Hc)) & _ & Hcfg)
         ((Hi0 & Hx0 & ((Hp0 & _) & _)) & Hph0 & _).
  split; [|split].
  - split; [exact Hi0|]. split; [exact Hx0|].
    split; [|exact Hc]. split; [exact Hp0|].
    split; [exact Hl | split; [exact Hrows | exact Hreg]].
  - exact Hph0.
  - exact Hcfg.
Qed.

(** Every reachable state has its phosphor values and its decay constant
    in [[0, 1]]. *)
Lemma reachable_phosphor_ok (av : AV) : reachable av -> phosphor_ok av.
Proof.
  induction 1 as [|av _ IH|av _ IH|av _ IH|av file _ IH|av av0 _ IH _ IH0
                  |av fv _ IH Hv Hok|av av' _ IH Hwf Hp Hc].
  - exact av_init_phosphor_ok.
  - exact (i8048_exec_phosphor_ok av IH).
  - exact (av_run_frame_phosphor_ok av IH).
  - exact (av_reset_phosphor_ok av IH).
  - exact (load_state_phosphor_ok av file IH).
  - exact (restore_snap_phosphor_ok av av0 IH IH0).
  - destruct IH as (Hwf & Hph & _).
    split; [exact Hwf|]. split; [exact Hph | exact (phosphor_cfg_unit fv Hv Hok)].
  - destruct IH as (_ & Hph & Hcfg).
    split; [exact Hwf|]. rewrite Hc. split; [|exact Hcfg].
    destruct Hp as [-> | ->]; [exact Hph | apply Forall_replicate; exact I].
Qed.

(** A captured column is below the captured-column count. *)
Lemma capture_counts (d d1 : AVDisp) (xram : list Z) (x : Z) :
  0 <= x < SW -> disp_capture_column d xram x = Some d1 -> x < cols_captured d1.
Proof.
  intros Hx. unfold disp_capture_column, u32, SW in *.
  rewrite Z.mod_small by lia.
  replace (150 <=? x) with false by (symmetry; apply Z.leb_gt; lia).
  cbv zeta. destruct (if _ <? XRAM_SZ then _ else _) as [cd|]; [|discriminate].
  intros [= <-]. destruct (_ <=? x) eqn:E.
  - cbn [cols_captured set_cols_captured]. lia.
  - apply Z.leb_gt in E. cbn [cols_captured set_col_data] in *. lia.
Qed.

(** C9: the end-of-frame update multiplies every phosphor pixel by the decay
    constant and replaces a product below 0.01 by 0, then sets to 1.0 every
    pixel whose column is below the captured-column count and whose bit
    (bit [7 - y mod 8] of byte [4 - y / 8] of the column) is clear; so every
    pixel afterwards is its decayed and floored previous value or exactly
    1.0, bit [b] of byte [bi] lights pixel [y = (4 - bi) * 8 + (7 - b)], and
    a column that was captured is below the count.  In every reachable state
    of the machine the phosphor values and the decay constant are in
    [[0, 1]], so for every decay constant in [[0, 1]] the update of a
    reachable state leaves every phosphor value in [[0, 1]]; for an arbitrary
    buffer the update keeps in [[0, 1]] what was there. *)
Theorem disp_update_phosphor :
  (forall (d : AVDisp) (decay : spec_float),
     disp_wf d ->
     exists d',
       disp_update d decay = Some d' /\
       (forall x y, 0 <= x < SW -> 0 <= y < SH ->
          let old := disp_px d x y in
          let scaled := f32_mul old decay in
          let decayed := if SFltb scaled (f32_lit 1 100) then f32_zero else scaled in
          let lit := (x <? cols_captured d) &&
                     negb (Z.testbit (col_byte d x (4 - y / 8)) (7 - y mod 8)) in
          disp_px d' x y = (if lit then f32_one else decayed) /\
          (disp_px d' x y = decayed \/ disp_px d' x y = f32_one) /\
          (in_unit decay -> in_unit old -> in_unit (disp_px d' x y))) /\
       (forall x bi b, 0 <= x < SW -> x < cols_captured d -> 0 <= bi < 5 -> 0 <= b < 8 ->
          Z.testbit (col_byte d x bi) b = false ->
          disp_px d' x ((4 - bi) * 8 + (7 - b)) = f32_one) /\
       (in_unit decay -> Forall in_unit (phosphor d) -> Forall in_unit (phosphor d'))) /\
  (forall (d d1 : AVDisp) (xram : list Z) (x : Z),
     0 <= x < SW -> disp_capture_column d xram x = Some d1 -> x < cols_captured d1) /\
  (forall av : AV,
     reachable av ->
     Forall in_unit (phosphor (disp av)) /\ in_unit (cfg_phosphor av) /\
     forall decay, in_unit decay ->
       exists d',
         disp_update (disp av) decay = Some d' /\
         Forall in_unit (phosphor d') /\
         forall x y, in_unit (disp_px d' x y)).
Proof.
  split; [|split].
  - intros d decay Hwf.
    destruct (disp_update_values d decay Hwf) as (d' & Hup & _ & _ & Hval & Hall).
    assert (Hpx : forall x y, 0 <= x < SW -> 0 <= y < SH ->
              disp_px d' x y =
                (if (x <? cols_captured d) &&
                    negb (Z.testbit (col_byte d x (4 - y / 8)) (7 - y mod 8))
                 then f32_one
                 else if SFltb (f32_mul (disp_px d x y) decay) (f32_lit 1 100) then f32_zero
                      else f32_mul (disp_px d x y) decay)).
    { intros x y Hx Hy. rewrite (Hval x y Hx Hy), (led_lit_captured d x y Hx Hy).
      unfold decay_px. cbv zeta. rewrite f32_eps_lit. reflexivity. }
    exists d'. split; [exact Hup|]. split; [|split; [|exact Hall]].
    + intros x y Hx Hy. cbv zeta. split; [exact (Hpx x y Hx Hy)|]. split.
      * rewrite (Hpx x y Hx Hy). destruct (_ && _); [right | left]; reflexivity.
      * intros Hdec Hold. rewrite (Hval x y Hx Hy).
        destruct (led_lit d x y); [exact f32_one_unit | apply decay_px_unit; assumption].
    + intros x bi b Hx Hc Hbi Hb Hbit.
      assert (Hy : 0 <= (4 - bi) * 8 + (7 - b) < SH) by (unfold SH; lia).
      rewrite (Hpx x _ Hx Hy).
      replace (4 - ((4 - bi) * 8 + (7 - b)) / 8) with bi
        by (Z.div_mod_to_equations; lia).
      replace (7 - ((4 - bi) * 8 + (7 - b)) mod 8) with b
        by (Z.div_mod_to_equations; lia).
      rewrite Hbit. replace (x <? cols_captured d) with true
        by (symmetry; apply Z.ltb_lt; exact Hc).
      reflexivity.
  - intros d d1 xram x Hx Hcap. exact (capture_counts d d1 xram x Hx Hcap).
  - intros av Hr. destruct (reachable_phosphor_ok av Hr) as ((_ & _ & (Hwf & _)) & Hph & Hcfg).
    split; [exact Hph|]. split; [exact Hcfg|].
    intros decay Hdec.
    destruct (disp_update_values (disp av) decay Hwf) as (d' & Hup & _ & _ & _ & Hall).
    exists d'. split; [exact Hup|]. split; [exact (Hall Hdec Hph)|].
    intros x y. apply disp_px_unit. exact (Hall Hdec Hph).
Qed.

(** [lit_display] with the default decay 0.45, and the state after the first
    frame from power-up: the buffers stay in [[0, 1]]. *)
Lemma disp_update_phosphor_witness :
  (disp_wf lit_display /\ in_unit DEF_PHOSPHOR /\ Forall in_unit (phosphor lit_display) /\
   exists d',
     disp_update lit_display DEF_PHOSPHOR = Some d' /\ Forall in_unit (phosphor d')) /\
  (reachable (av_run_frame av_init) /\
   Forall in_unit (phosphor (disp (av_run_frame av_init))) /\
   exists d',
     disp_update (disp (av_run_frame av_init)) DEF_PHOSPHOR = Some d' /\
     Forall in_unit (phosphor d')).
Proof.
  assert (H1 : disp_wf lit_display) by exact lit_display_wf.
  assert (H2 : in_unit DEF_PHOSPHOR) by (vm_compute; split; discriminate).
  assert (H3 : Forall in_unit (phosphor lit_display)).
  { apply Forall_replicate. vm_compute. split; discriminate. }
  assert (H4 : reachable (av_run_frame av_init)) by (apply reach_frame, reach_init).
  destruct disp_update_phosphor as (HA & _ & HB).
  split.
  - split; [exact H1|]. split; [exact H2|]. split; [exact H3|].
    destruct (HA lit_display DEF_PHOSPHOR H1) as (d' & Hup & _ & _ & Hall).
    exists d'. split; [exact Hup | exact (Hall H2 H3)].
  - split; [exact H4|]. destruct (HB _ H4) as (Hph & _ & Hupd).
    split; [exact Hph|].
    destruct (Hupd DEF_PHOSPHOR H2) as (d' & Hup & Hall & _).
    exists d'. split; [exact Hup | exact Hall].
Defined.

